(** * ApiToaster: the request-capture log store

    A shallow embedding of the two file engines of ApiToaster, the
    read/write class [FileReader] and the write-only class [FileWriter],
    together with the properties of rotation, recovery, redaction, segment
    selection and bootstrap that their specification states.

    Conventions of the embedding.
    - JavaScript values are the inductive [value]; objects are association
      lists in property-enumeration order.
    - The numbers of file names are the Number values of JavaScript that
      hold a non-negative integer, or [+Infinity] (module [JsNumber]):
      reading a digit run rounds to the nearest double, printing gives the
      shortest digits that read back.  The numbers inside JSON values are
      integers ([Z]).
    - A file is observed by the engines only through [fs.statSync(..).size]
      and [JSON.parse(fs.readFileSync(..).toString())]; a file body is
      therefore the record [file] of these two observations.
    - Every method is a computation in a state-and-exception monad over the
      instance fields and the world (file system, console, caller heap,
      ambient [State.config]). *)

From Stdlib Require Import ZArith NArith String Ascii List Bool Lia.
From Stdlib Require Import DecimalString DecimalPos DecimalN DecimalZ.
From stdpp Require Import base option list gmap strings.

Local Open Scope string_scope.
Local Open Scope N_scope.

(** ** JavaScript numbers *)

Module JsNumber.

(** The Number values that the engines compute with are non-negative
    integers and [+Infinity].  A finite one is represented by the integer it
    denotes, [+Infinity] by [2^1024], the first power of two past the finite
    doubles: on this representation the order of Numbers is the order of
    [N]. *)
Definition Infinity : N := 2 ^ 1024.

(** The Number value for the integer [n]: the nearest double, a tie going to
    the even significand, and [+Infinity] from [2^1024 - 2^970] on.  An
    integer of at most 53 bits is its own Number. *)
Definition of_N (n : N) : N :=
  let b := N.size n in
  if b <=? 53 then n
  else
    let sh := b - 53 in
    let q := N.shiftr n sh in
    let r := N.land n (N.ones sh) in
    let half := N.shiftl 1 (sh - 1) in
    let q' := if (half <? r) || ((r =? half) && N.odd q) then q + 1 else q in
    let v := N.shiftl q' sh in
    if Infinity <=? v then Infinity else v.

(** [a + b] on Numbers: the exact sum, rounded. *)
Definition add (a b : N) : N := of_N (a + b).

(** The decimal digits of an integer, and the integer of a digit run. *)
Definition decimal (n : N) : string := NilEmpty.string_of_uint (N.to_uint n).

Definition of_digits (d : string) : N :=
  match NilEmpty.uint_of_string d with
  | Some u => N.of_uint u
  | None => 0
  end.

(** The integer with the fewest significant digits that reads back as the
    Number [x], the one nearest to [x] when there are two, the even one on a
    tie (Number::toString, step 5): with [k] significant digits out of [d]
    the candidates are the multiples of [10^(d-k)] next to [x]. *)
Fixpoint shortest_from (fuel k d : nat) (x : N) : N :=
  match fuel with
  | O => x
  | S fuel' =>
      let p := 10 ^ N.of_nat (d - k) in
      let lo := (x / p) * p in
      let hi := lo + p in
      let ok_lo := of_N lo =? x in
      let ok_hi := of_N hi =? x in
      if ok_lo && ok_hi
      then if x - lo <? hi - x then lo
           else if hi - x <? x - lo then hi
           else if N.even (x / p) then lo else hi
      else if ok_lo then lo
      else if ok_hi then hi
      else shortest_from fuel' (S k) d x
  end.

Definition shortest (x : N) : N :=
  let d := String.length (decimal x) in shortest_from d 1 d x.

(** A digit string without its trailing zeros. *)
Fixpoint strip_zeros (s : string) : string :=
  match s with
  | EmptyString => EmptyString
  | String c r =>
      match strip_zeros r with
      | EmptyString => if Ascii.eqb c "0"%char then EmptyString else String c EmptyString
      | r' => String c r'
      end
  end.

(** The exponent notation of an integer given by its digits [s]: the first
    significant digit, the others after a point, and the exponent. *)
Definition exponent_form (s : string) : string :=
  let e := decimal (N.of_nat (String.length s - 1)) in
  match strip_zeros s with
  | EmptyString => s
  | String c EmptyString => String c ("e+" ++ e)
  | String c r => String c ("." ++ r ++ "e+" ++ e)
  end.

(** Number::toString in radix 10: an integer below [2^53] prints as its
    digits; a larger Number prints the shortest digits that read back,
    padded with zeros below [10^21] and in exponent notation from there
    on. *)
Definition toString (x : N) : string :=
  if Infinity <=? x then "Infinity"
  else if x <? 2 ^ 53 then decimal x
  else
    let v := shortest x in
    if v <? 10 ^ 21 then decimal v else exponent_form (decimal v).

End JsNumber.

(** ** JavaScript strings *)

Module JsString.

Definition is_digit (c : ascii) : bool :=
  (Nat.leb 48 (nat_of_ascii c) && Nat.leb (nat_of_ascii c) 57)%bool.

(** [s.includes(sub)] *)
Fixpoint includes (sub s : string) : bool :=
  (String.prefix sub s ||
   match s with
   | EmptyString => false
   | String _ r => includes sub r
   end)%bool.

(** The longest run of decimal digits at the head of [s], and what follows. *)
Fixpoint span_digits (s : string) : string * string :=
  match s with
  | EmptyString => (EmptyString, EmptyString)
  | String c r =>
      if is_digit c
      then let '(d, t) := span_digits r in (String c d, t)
      else (EmptyString, s)
  end.

(** [s.match(/\d+/u)]: the text before the first match, the match itself
    (the first maximal digit run) and the text after it; [None] when the
    regular expression does not match ([null]). *)
Fixpoint match_digits (s : string) : option (string * string * string) :=
  match s with
  | EmptyString => None
  | String c r =>
      if is_digit c
      then let '(d, t) := span_digits s in Some (EmptyString, d, t)
      else match match_digits r with
           | Some (p, d, t) => Some (String c p, d, t)
           | None => None
           end
  end.

(** [parseInt(d, 10)] on a run of decimal digits: the Number for the
    integer that the digits write. *)
Definition parseInt (d : string) : N := JsNumber.of_N (JsNumber.of_digits d).

(** [n.toString()] and the interpolation of [n] in a template string. *)
Definition toString (n : N) : string := JsNumber.toString n.

(** [s.replace(/\d+/u, by)]: only the first match is replaced. *)
Definition replace_digits (s by_ : string) : string :=
  match match_digits s with
  | Some (p, _, t) => p ++ by_ ++ t
  | None => s
  end.

(** [Number.MAX_SAFE_INTEGER]: integers up to it are exact doubles. *)
Definition MAX_SAFE_INTEGER : N := 2 ^ 53 - 1.

End JsString.

Arguments JsNumber.of_N : simpl never.
Arguments JsNumber.add : simpl never.
Arguments JsNumber.toString : simpl never.
Arguments JsString.parseInt : simpl never.
Arguments JsString.toString : simpl never.

(** ** JavaScript values *)

#[warnings="-register-all"]
Inductive value : Type :=
| VUndef
| VNull
| VBool (b : bool)
| VNum (n : Z)
| VStr (s : string)
| VArr (items : list value) (named : list (string * value))
| VObj (props : list (string * value)).

(** An object as the list of its own enumerable properties, in enumeration
    order. *)
Abbreviation record := (list (string * value)).

Module Js.

(** [ToBoolean]. *)
Definition truthy (v : value) : bool :=
  match v with
  | VUndef | VNull => false
  | VBool b => b
  | VNum n => negb (Z.eqb n 0)
  | VStr s => negb (String.eqb s EmptyString)
  | VArr _ _ | VObj _ => true
  end.

(** [v ?? d] *)
Definition nullish_or (v d : value) : value :=
  match v with
  | VUndef | VNull => d
  | _ => v
  end.

Fixpoint lookup_prop (k : string) (r : record) : option value :=
  match r with
  | [] => None
  | (k', v) :: r' => if String.eqb k k' then Some v else lookup_prop k r'
  end.

(** [r[k] = v] on own properties: an existing key keeps its place, a new
    one is enumerated last.  (The keys assigned by the engines are UUIDs
    and fixed field names, never array indices, so no reordering occurs.) *)
Fixpoint assign_prop (k : string) (v : value) (r : record) : record :=
  match r with
  | [] => [(k, v)]
  | (k', v') :: r' =>
      if String.eqb k k' then (k, v) :: r' else (k', v') :: assign_prop k v r'
  end.

(** [delete r[k]] *)
Fixpoint delete_prop (k : string) (r : record) : record :=
  match r with
  | [] => []
  | (k', v') :: r' =>
      if String.eqb k k' then r' else (k', v') :: delete_prop k r'
  end.

Definition index_keys (xs : list value) : record :=
  imap (fun i x => (JsString.toString (N.of_nat i), x)) xs.

(** The own enumerable string-keyed properties of a value, as
    [Object.entries] and object spread see them. *)
Definition own_props (v : value) : record :=
  match v with
  | VObj ps => ps
  | VArr xs ps => index_keys xs ++ ps
  | VStr s =>
      index_keys (map (fun c => VStr (String c EmptyString)) (list_ascii_of_string s))
  | _ => []
  end.

(** [{ ...a, ...b }] on the property lists of [a] and [b]. *)
Definition spread (a b : record) : record :=
  fold_left (fun acc kv => assign_prop (fst kv) (snd kv) acc) b a.

(** [v[k]] for a key that is neither an array index, nor [length], nor the
    name of a built-in prototype member; [None] is the [TypeError] of a
    property read on [undefined] or [null]. *)
Definition get_prop (v : value) (k : string) : option value :=
  match v with
  | VUndef | VNull => None
  | VObj ps => Some (default VUndef (lookup_prop k ps))
  | VArr _ ps => Some (default VUndef (lookup_prop k ps))
  | _ => Some VUndef
  end.

(** [v?.[k]] *)
Definition get_prop_opt (v : value) (k : string) : value :=
  default VUndef (get_prop v k).

(** [v[k] = x] in strict mode (class bodies are strict code); [None] is the
    [TypeError] raised on [undefined], [null] and primitives. *)
Definition set_prop (v : value) (k : string) (x : value) : option value :=
  match v with
  | VObj ps => Some (VObj (assign_prop k x ps))
  | VArr xs ps => Some (VArr xs (assign_prop k x ps))
  | _ => None
  end.

(** The names that an ordinary object inherits from [Object.prototype]. *)
Definition Object_prototype : list string :=
  ["constructor"; "__defineGetter__"; "__defineSetter__"; "hasOwnProperty";
   "__lookupGetter__"; "__lookupSetter__"; "isPrototypeOf";
   "propertyIsEnumerable"; "toString"; "valueOf"; "__proto__"; "toLocaleString"].

Definition inherited (k : string) : bool := existsb (String.eqb k) Object_prototype.

(** [ToBoolean(o[k])] for any key [k] of an ordinary object [o] whose own
    properties are [r]: an own property is read; a key that is not own is
    looked up in [Object.prototype], whose members are functions, and under
    [__proto__] the prototype itself: truthy values. *)
Definition truthy_at (k : string) (r : record) : bool :=
  match lookup_prop k r with
  | Some v => truthy v
  | None => inherited k
  end.

(** [o[k] = s] for a string [s] and any key [k] of an ordinary object: an own
    property is overwritten in place, a key that is not own is created and
    enumerated last; under [__proto__], when it is not own, the inherited
    setter runs, which ignores a value that is neither an object nor
    [null]. *)
Definition put_string (k s : string) (r : record) : record :=
  match lookup_prop k r with
  | None => if String.eqb k "__proto__" then r else assign_prop k (VStr s) r
  | Some _ => assign_prop k (VStr s) r
  end.

(** [Object.entries(v)]; [None] is the [TypeError] on [undefined]/[null]. *)
Definition entries (v : value) : option record :=
  match v with
  | VUndef | VNull => None
  | _ => Some (own_props v)
  end.

(** [xs.slice(-1)] *)
Definition slice_last {A} (xs : list A) : list A :=
  match last xs with
  | Some x => [x]
  | None => []
  end.

(** [Object.fromEntries(es)] *)
Definition fromEntries (es : record) : record := spread [] es.

End Js.

(** ** JSON *)

Module JSON.

Definition dquote : ascii := ascii_of_nat 34.
Definition backslash : ascii := ascii_of_nat 92.
Definition newline : string := String (ascii_of_nat 10) EmptyString.

Definition hex_digit (n : nat) : ascii :=
  if Nat.ltb n 10 then ascii_of_nat (48 + n) else ascii_of_nat (87 + n).

Definition escape_char (c : ascii) : string :=
  let n := nat_of_ascii c in
  if Nat.eqb n 34 then String backslash (String dquote EmptyString)
  else if Nat.eqb n 92 then String backslash (String backslash EmptyString)
  else if Nat.eqb n 8 then String backslash "b"
  else if Nat.eqb n 9 then String backslash "t"
  else if Nat.eqb n 10 then String backslash "n"
  else if Nat.eqb n 12 then String backslash "f"
  else if Nat.eqb n 13 then String backslash "r"
  else if Nat.ltb n 32
       then String backslash
              ("u00" ++ String (hex_digit (Nat.div n 16))
                          (String (hex_digit (Nat.modulo n 16)) EmptyString))
  else String c EmptyString.

Fixpoint escape (s : string) : string :=
  match s with
  | EmptyString => EmptyString
  | String c r => escape_char c ++ escape r
  end.

Definition quote (s : string) : string :=
  String dquote (escape s ++ String dquote EmptyString).

Definition number (n : Z) : string := NilEmpty.string_of_int (Z.to_int n).

Fixpoint join (sep : string) (xs : list string) : string :=
  match xs with
  | [] => EmptyString
  | [x] => x
  | x :: r => x ++ sep ++ join sep r
  end.

(** [JSON.stringify(v)]; [None] is the result [undefined]. *)
Fixpoint stringify (v : value) : option string :=
  match v with
  | VUndef => None
  | VNull => Some "null"
  | VBool b => Some (if b then "true" else "false")
  | VNum n => Some (number n)
  | VStr s => Some (quote s)
  | VArr xs _ =>
      Some ("[" ++ join "," (map (fun x => default "null" (stringify x)) xs) ++ "]")
  | VObj ps =>
      Some ("{" ++ join ","
              (omap (fun kv => match stringify (snd kv) with
                               | Some t => Some (quote (fst kv) ++ ":" ++ t)
                               | None => None
                               end) ps) ++ "}")
  end.

(** [JSON.stringify(v, null, 2)] at indentation [ind]. *)
Fixpoint pretty_at (ind : string) (v : value) : option string :=
  let inner := ind ++ "  " in
  match v with
  | VArr xs _ =>
      match map (fun x => inner ++ default "null" (pretty_at inner x)) xs with
      | [] => Some "[]"
      | ls => Some ("[" ++ newline ++ join ("," ++ newline) ls ++ newline ++ ind ++ "]")
      end
  | VObj ps =>
      match omap (fun kv => match pretty_at inner (snd kv) with
                            | Some t => Some (inner ++ quote (fst kv) ++ ": " ++ t)
                            | None => None
                            end) ps with
      | [] => Some "{}"
      | ls => Some ("{" ++ newline ++ join ("," ++ newline) ls ++ newline ++ ind ++ "}")
      end
  | _ => stringify v
  end.

Definition pretty (v : value) : option string := pretty_at EmptyString v.

(** [Buffer.byteLength(s)] (strings are byte strings here). *)
Definition byteLength (s : string) : N := N.of_nat (String.length s).

(** [JSON.parse(JSON.stringify(v))]: members holding [undefined] are
    dropped, [undefined] array items become [null], named properties of
    arrays are lost. *)
Fixpoint image (v : value) : value :=
  match v with
  | VArr xs _ =>
      VArr (map (fun x => match x with VUndef => VNull | _ => image x end) xs) []
  | VObj ps =>
      VObj (omap (fun kv => match snd kv with
                            | VUndef => None
                            | _ => Some (fst kv, image (snd kv))
                            end) ps)
  | _ => v
  end.

End JSON.

(** ** Errors and the console *)

Inductive exn : Type :=
| CannotCreateFile (target : string)   (* the repository's own error *)
| TypeError                            (* property access on a non-object *)
| SyntaxError                          (* [JSON.parse] on malformed text *)
| SystemError (code : string).         (* a failed [fs] call *)

Inductive level : Type := LError | LWarn | LLog | LDebug.

Inductive message : Type :=
| Text (s : string)
| ErrorMessage (e : exn)     (* [(err as Error).message] *)
| ErrorObject (e : exn).     (* the error value itself *)

Record log_event : Type := LogEvent {
  ev_level : level;
  ev_target : string;
  ev_message : message
}.

(** ** The file system of the storage directory *)

Record file : Type := File {
  f_size : N;                (* [fs.statSync(..).size] *)
  f_json : option value      (* [JSON.parse] of the text; [None]: it throws *)
}.

Record fsys : Type := Fsys {
  fs_dir : option (gmap string file);  (* [None]: the directory is absent *)
  fs_mkdir : bool;                     (* [fs.mkdirSync] would succeed *)
  fs_deny : string -> bool             (* names [fs.writeFileSync] fails on *)
}.

(** ** Ambient configuration, requests, the world *)

Module IConfig.
(** Modelled from the spec: the capture configuration record
    [{method, body, queryParams, headers, ip, obfuscate, path,
    disableProto}], whose type declaration is not part of the sources.  The
    default configuration of the sources has no [disableProto] member: the
    flag is [None] when it reads [undefined]. *)
Record t : Type := Make {
  path : string;
  method : bool;
  body : bool;
  queryParams : bool;
  headers : bool;
  ip : bool;
  obfuscate : list string;
  disableProto : option bool
}.
End IConfig.

(** An optional flag as the value read from the object. *)
Definition opt_bool (o : option bool) : value :=
  match o with
  | Some b => VBool b
  | None => VUndef
  end.

Module Request.
(** The part of [express.Request] the engines read.  [body], [query] and
    [headers] are references to objects owned by the caller. *)
Record t : Type := Make {
  method : string;
  body : option nat;       (* [None]: [null] or [undefined] *)
  query : nat;
  headers : nat;
  ip : option string
}.
End Request.

Module INotFormattedLogEntry.
Record t : Type := Make {
  method : option string;
  body : nat;
  queryParams : nat;
  headers : nat;
  ip : option string;
  occured : Z
}.
End INotFormattedLogEntry.

Record World : Type := MkWorld {
  disk : fsys;
  console : list log_event;      (* the calls to [Log], oldest first *)
  heap : list record;            (* objects reachable from the caller *)
  State_config : IConfig.t       (* [State.config] *)
}.

(** The external collaborators: the binary entry encoder and the clock's
    text format. *)
Class Platform : Type := {
  encodeLog : value -> value;    (* [new Proto().encodeLog(logBody)] *)
  toISOString : Z -> string      (* [new Date(ms).toISOString()] *)
}.

(** ** State and exceptions *)

Inductive outcome (A : Type) : Type :=
| Return (a : A)
| Throw (e : exn).
Arguments Return {A} a.
Arguments Throw {A} e.

Definition M (S A : Type) : Type := S -> outcome A * S.

Definition ret {S A} (a : A) : M S A := fun s => (Return a, s).

Definition throw {S A} (e : exn) : M S A := fun s => (Throw e, s).

Definition bind {S A B} (m : M S A) (k : A -> M S B) : M S B :=
  fun s => match m s with
           | (Return a, s') => k a s'
           | (Throw e, s') => (Throw e, s')
           end.

(** [try { m } catch (e) { h e }]: the handler runs in the state reached when
    the exception was raised. *)
Definition try_catch {S A} (m : M S A) (h : exn -> M S A) : M S A :=
  fun s => match m s with
           | (Return a, s') => (Return a, s')
           | (Throw e, s') => h e s'
           end.

Definition gets {S A} (f : S -> A) : M S A := fun s => (Return (f s), s).

Definition modify {S} (f : S -> S) : M S unit := fun s => (Return tt, f s).

(** A [TypeError] where JavaScript raises one. *)
Definition or_TypeError {S A} (o : option A) : M S A :=
  match o with
  | Some a => ret a
  | None => throw TypeError
  end.

(** A computation on the world alone, run inside an instance method. *)
Definition liftW {T A} (m : M World A) : M (T * World) A :=
  fun s => let '(r, w) := m (snd s) in (r, (fst s, w)).

Declare Scope js_scope.
Delimit Scope js_scope with js.
Notation "x <- m ;; k" := (bind m (fun x => k))
  (at level 100, m at next level, right associativity) : js_scope.
Notation "m ;; k" := (bind m (fun _ => k))
  (at level 100, right associativity) : js_scope.
Local Open Scope js_scope.

Module Log.
Definition emit (l : level) (target : string) (ms : list message) : M World unit :=
  modify (fun w => MkWorld (disk w)
                     (console w ++ map (LogEvent l target) ms)
                     (heap w) (State_config w)).
Definition error := emit LError.
Definition warn := emit LWarn.
Definition debug := emit LDebug.
End Log.

Module fs.

Definition set_disk (d : fsys) (w : World) : World :=
  MkWorld d (console w) (heap w) (State_config w).

(** [fs.existsSync(path.resolve(State.config.path, name))] *)
Definition existsSync (name : string) : M World bool :=
  gets (fun w => match fs_dir (disk w) with
                 | Some d => bool_decide (is_Some (d !! name))
                 | None => false
                 end).

(** [fs.existsSync(State.config.path)] *)
Definition existsSync_dir : M World bool :=
  gets (fun w => bool_decide (is_Some (fs_dir (disk w)))).

(** [fs.mkdirSync(State.config.path, { recursive: true })] *)
Definition mkdirSync : M World unit :=
  fun w =>
    if fs_mkdir (disk w)
    then (Return tt,
          set_disk (Fsys (Some (default ∅ (fs_dir (disk w))))
                      (fs_mkdir (disk w)) (fs_deny (disk w))) w)
    else (Throw (SystemError "EACCES"), w).

(** [fs.writeFileSync(location, text)]; the text is given by the file it
    yields, [None] standing for a text argument that is [undefined]. *)
Definition writeFileSync (name : string) (body : option file) : M World unit :=
  fun w =>
    match body with
    | None => (Throw TypeError, w)
    | Some f =>
        match fs_dir (disk w) with
        | None => (Throw (SystemError "ENOENT"), w)
        | Some d =>
            if fs_deny (disk w) name
            then (Throw (SystemError "EACCES"), w)
            else (Return tt,
                  set_disk (Fsys (Some (<[name := f]> d))
                              (fs_mkdir (disk w)) (fs_deny (disk w))) w)
        end
    end.

(** [fs.readFileSync(location).toString()] *)
Definition readFileSync (name : string) : M World file :=
  fun w =>
    match fs_dir (disk w) with
    | Some d => match d !! name with
                | Some f => (Return f, w)
                | None => (Throw (SystemError "ENOENT"), w)
                end
    | None => (Throw (SystemError "ENOENT"), w)
    end.

(** [fs.statSync(location).size] *)
Definition statSync_size (name : string) : M World N :=
  f <- readFileSync name ;; ret (f_size f).

(** [fs.readdirSync(State.config.path)] *)
Definition readdirSync : M World (list string) :=
  fun w =>
    match fs_dir (disk w) with
    | Some d => (Return (elements (dom d)), w)
    | None => (Throw (SystemError "ENOENT"), w)
    end.

End fs.

(** [JSON.parse(data)] of a file's text. *)
Definition JSON_parse {S} (f : file) : M S value :=
  match f_json f with
  | Some v => ret v
  | None => throw SyntaxError
  end.

(** The file that holds the text [JSON.stringify(v)]. *)
Definition compact_file (v : value) : option file :=
  (fun s => File (JSON.byteLength s) (Some (JSON.image v))) <$> JSON.stringify v.

(** The file that holds the text [JSON.stringify(v, null, 2)]. *)
Definition pretty_file (v : value) : option file :=
  (fun s => File (JSON.byteLength s) (Some (JSON.image v))) <$> JSON.pretty v.

(** [path.resolve(dir, name)] for an absolute, normalised [dir]. *)
Definition path_resolve (dir name : string) : string := dir ++ "/" ++ name.

Module Heap.
Definition alloc (r : record) : M World nat :=
  fun w => (Return (length (heap w)),
            MkWorld (disk w) (console w) (heap w ++ [r]) (State_config w)).
Definition read (l : nat) : M World record :=
  gets (fun w => default [] (heap w !! l)).
Definition write (l : nat) (r : record) : M World unit :=
  modify (fun w => MkWorld (disk w) (console w) (<[l := r]> (heap w)) (State_config w)).
End Heap.

(** [xs.forEach(f)] *)
Fixpoint forEach {S A} (f : A -> M S unit) (xs : list A) : M S unit :=
  match xs with
  | [] => ret tt
  | x :: r => f x ;; forEach f r
  end.

(** [Math.max(...ns)] on a non-empty list of Numbers. *)
Definition Math_max (ns : list N) : N := fold_right N.max 0 ns.

(** [JSON.stringify(v)] stored as a field value. *)
Definition json_text (v : value) : value :=
  match JSON.stringify v with
  | Some s => VStr s
  | None => VUndef
  end.

Definition opt_string (o : option string) : value :=
  match o with
  | Some s => VStr s
  | None => VUndef
  end.

(** The numbers found in the directory listing by [fetchCurrentLogFile]. *)
Definition logNumbers (files : list string) : list N :=
  omap (fun file => match JsString.match_digits file with
                    | Some (_, d, _) => Some (JsString.parseInt d)
                    | None => None
                    end)
       (filter (fun f => Is_true (JsString.includes "logs" f)) files).

(** ** The entry literals of [prepareLog] *)

Section EntryLiterals.
Context `{P : Platform} {T : Type}.

(** The entry literal [body] built from the request at the head of
    [prepareLog] and [prepareJsonLog], the same text in both classes;
    [now] is the result of [Date.now()]. *)
Definition entry_of_request (req : Request.t) (now : Z)
  : M (T * World) INotFormattedLogEntry.t :=
  cfg <- liftW (gets State_config) ;;
  hs <- liftW (Heap.read (Request.headers req)) ;;
  filteredHeaders <- liftW (Heap.alloc (Js.spread [] hs)) ;;
  fh <- liftW (Heap.read filteredHeaders) ;;
  liftW (Heap.write filteredHeaders (Js.delete_prop "content-length" fh)) ;;
  b <- (if IConfig.body cfg
        then match Request.body req with
             | Some l => ret l
             | None => liftW (Heap.alloc [])
             end
        else liftW (Heap.alloc [])) ;;
  q <- (if IConfig.queryParams cfg
        then ret (Request.query req) else liftW (Heap.alloc [])) ;;
  h <- (if IConfig.headers cfg
        then ret filteredHeaders else liftW (Heap.alloc [])) ;;
  ret (INotFormattedLogEntry.Make
         (if IConfig.method cfg then Some (Request.method req) else None)
         b q h
         (if IConfig.ip cfg then Request.ip req else None)
         now).

(** The literal [logBody]: the entry with its three records serialised
    and its time stamp in ISO form. *)
Definition logBody_of (body : INotFormattedLogEntry.t) : M (T * World) value :=
  b <- liftW (Heap.read (INotFormattedLogEntry.body body)) ;;
  q <- liftW (Heap.read (INotFormattedLogEntry.queryParams body)) ;;
  h <- liftW (Heap.read (INotFormattedLogEntry.headers body)) ;;
  ret (VObj [("method", opt_string (INotFormattedLogEntry.method body));
             ("body", json_text (VObj b));
             ("queryParams", json_text (VObj q));
             ("headers", json_text (VObj h));
             ("ip", opt_string (INotFormattedLogEntry.ip body));
             ("occured", VStr (toISOString (INotFormattedLogEntry.occured body)))]).

End EntryLiterals.

(** ** The read/write engine: class [FileReader] *)

Module FileReader.

Record t : Type := Make {
  _logs : value;
  _logsJson : value;
  _index : value;
  _config : value;
  _currLogSize : N;
  _currLogFile : string
}.

Definition constructor : t :=
  Make (VObj [("logs", VObj [])]) (VObj [("logs", VObj [])])
       (VObj [("indexes", VObj [])]) (VObj [("disableProto", VBool false)])
       0 "logs_0.json".

Abbreviation Method A := (M (t * World) A).

Definition this : Method t := gets fst.

Definition set_logs (v : value) : Method unit :=
  modify (fun s => (Make v (_logsJson s.1) (_index s.1) (_config s.1)
                         (_currLogSize s.1) (_currLogFile s.1), s.2)).
Definition set_logsJson (v : value) : Method unit :=
  modify (fun s => (Make (_logs s.1) v (_index s.1) (_config s.1)
                         (_currLogSize s.1) (_currLogFile s.1), s.2)).
Definition set_index (v : value) : Method unit :=
  modify (fun s => (Make (_logs s.1) (_logsJson s.1) v (_config s.1)
                         (_currLogSize s.1) (_currLogFile s.1), s.2)).
Definition set_config (v : value) : Method unit :=
  modify (fun s => (Make (_logs s.1) (_logsJson s.1) (_index s.1) v
                         (_currLogSize s.1) (_currLogFile s.1), s.2)).
Definition set_currLogSize (n : N) : Method unit :=
  modify (fun s => (Make (_logs s.1) (_logsJson s.1) (_index s.1) (_config s.1)
                         n (_currLogFile s.1), s.2)).
Definition set_currLogFile (f : string) : Method unit :=
  modify (fun s => (Make (_logs s.1) (_logsJson s.1) (_index s.1) (_config s.1)
                         (_currLogSize s.1) f, s.2)).

(** The rotation threshold of [checkFileSize], in bytes. *)
Definition threshold : N := 5000.

Section Methods.
Context `{P : Platform}.

Definition fetchCurrentLogFile (fileName : option string) : Method unit :=
  match fileName with
  | Some (String c r) => set_currLogFile (String c r)
  | _ =>
      liftW (Log.warn "File reader"
               [Text "File target was not provided, selecting latest available file"]) ;;
      files <- liftW fs.readdirSync ;;
      match logNumbers files with
      | [] => ret tt
      | n :: ns =>
          let max := Math_max (n :: ns) in
          set_currLogFile ("logs_" ++ JsString.toString max ++ ".json")
      end
  end.

Definition initDirectories : Method unit :=
  e <- liftW fs.existsSync_dir ;;
  if e then ret tt
  else
    liftW (Log.debug "File reader" [Text "Path does not exist. Creating one"]) ;;
    try_catch (liftW fs.mkdirSync)
      (fun error =>
         liftW (Log.error "File reader"
                  [Text "Error while making logs directory"; ErrorObject error])).

Definition validateFile (target : string) (baseBody : option file) : Method unit :=
  try_catch
    (e <- liftW (fs.existsSync target) ;;
     if e then ret tt else liftW (fs.writeFileSync target baseBody))
    (fun err =>
       liftW (Log.error "File reader"
                [Text ("Cannot create " ++ target ++ " file"); ErrorMessage err]) ;;
       throw (CannotCreateFile target)).

Definition pre : Method unit :=
  initDirectories ;;
  validateFile "index.json" (compact_file (VObj [("indexes", VObj [])])) ;;
  self <- this ;;
  validateFile (_currLogFile self) (compact_file (VObj [("logs", VObj [])])) ;;
  validateFile "config.json" (compact_file (VObj [("disableProto", VBool false)])).

Definition obfuscate (log : INotFormattedLogEntry.t) : Method unit :=
  cfg <- liftW (gets State_config) ;;
  forEach
    (fun e =>
       b <- liftW (Heap.read (INotFormattedLogEntry.body log)) ;;
       if Js.truthy_at e b
       then liftW (Heap.write (INotFormattedLogEntry.body log)
                     (Js.put_string e "***" b))
       else ret tt)
    (filter (fun field => field ≠ "occured") (IConfig.obfuscate cfg)).

(** [this.index.indexes[uuid] = path.resolve(State.config.path, 'index.json')] *)
Definition index_entry (uuid : string) : Method unit :=
  cfg <- liftW (gets State_config) ;;
  self <- this ;;
  ixs <- or_TypeError (Js.get_prop (_index self) "indexes") ;;
  ixs' <- or_TypeError
            (Js.set_prop ixs uuid (VStr (path_resolve (IConfig.path cfg) "index.json"))) ;;
  idx' <- or_TypeError (Js.set_prop (_index self) "indexes" ixs') ;;
  set_index idx'.

(** [uuid] is the result of [randomUUID()], [now] that of [Date.now()]. *)
Definition prepareLog (req : Request.t) (uuid : string) (now : Z) : Method unit :=
  body <- entry_of_request req now ;;
  obfuscate body ;;
  logBody <- logBody_of body ;;
  let logProto := [(uuid, encodeLog logBody)] in
  text <- or_TypeError (JSON.stringify (VObj logProto)) ;;
  set_currLogSize (JSON.byteLength text) ;;
  self <- this ;;
  old <- or_TypeError (Js.get_prop (_logs self) "logs") ;;
  logs' <- or_TypeError
             (Js.set_prop (_logs self) "logs"
                (VObj (Js.spread (Js.spread [] (Js.own_props old)) logProto))) ;;
  set_logs logs' ;;
  index_entry uuid.

Definition prepareJsonLog (req : Request.t) (uuid : string) (now : Z) : Method unit :=
  body <- entry_of_request req now ;;
  obfuscate body ;;
  logBody <- logBody_of body ;;
  let logProto := [(uuid, logBody)] in
  text <- or_TypeError (JSON.stringify (VObj logProto)) ;;
  set_currLogSize (JSON.byteLength text) ;;
  self <- this ;;
  old <- or_TypeError (Js.get_prop (_logsJson self) "logs") ;;
  logs' <- or_TypeError
             (Js.set_prop (_logsJson self) "logs"
                (VObj (Js.spread (Js.spread [] (Js.own_props old)) logProto))) ;;
  set_logsJson logs' ;;
  index_entry uuid.

Definition prepareConfig : Method unit :=
  cfg <- liftW (gets State_config) ;;
  self <- this ;;
  c <- or_TypeError
         (Js.set_prop (_config self) "disableProto"
            (opt_bool (IConfig.disableProto cfg))) ;;
  set_config c.

Definition saveFiles : Method unit :=
  try_catch
    (cfg <- liftW (gets State_config) ;;
     self <- this ;;
     (if Js.truthy (opt_bool (IConfig.disableProto cfg))
      then liftW (fs.writeFileSync (_currLogFile self) (pretty_file (_logsJson self)))
      else liftW (fs.writeFileSync (_currLogFile self) (pretty_file (_logs self)))) ;;
     liftW (fs.writeFileSync "index.json" (pretty_file (_index self))) ;;
     liftW (fs.writeFileSync "config.json" (pretty_file (_config self))))
    (fun error => liftW (Log.error "Save File" [ErrorObject error])).

Definition prepareIndexFile : Method unit :=
  try_catch
    (data <- liftW (fs.readFileSync "index.json") ;;
     v <- JSON_parse data ;;
     set_index v)
    (fun error =>
       liftW (Log.error "File reader"
                [Text "Got error while parsing indexes"; ErrorMessage error]) ;;
       set_index (VObj [("indexes", VObj [])])).

Definition prepareConfigFile : Method unit :=
  try_catch
    (data <- liftW (fs.readFileSync "config.json") ;;
     v <- JSON_parse data ;;
     set_config v)
    (fun error =>
       liftW (Log.error "File reader"
                [Text "Got error while parsing config"; ErrorMessage error]) ;;
       set_config (VObj [("disableProto", VBool false)])).

Definition prepareLogfile : Method unit :=
  try_catch
    (self <- this ;;
     data <- liftW (fs.readFileSync (_currLogFile self)) ;;
     file <- JSON_parse data ;;
     if Js.truthy (Js.get_prop_opt file "logs")
     then set_logs file
     else
       liftW (Log.warn "File reader"
                [Text "Log file seems to be malformatted. Will replace it on next save"]) ;;
       set_logs (Js.nullish_or file (VObj [("logs", VObj [])])))
    (fun error =>
       liftW (Log.warn "File reader"
                [Text "Got error while parsing data"; ErrorMessage error]) ;;
       set_logs (VObj [("logs", VObj [])])).

Definition prepareLogJsonFile : Method unit :=
  try_catch
    (self <- this ;;
     data <- liftW (fs.readFileSync (_currLogFile self)) ;;
     file <- JSON_parse data ;;
     if Js.truthy (Js.get_prop_opt file "logs")
     then set_logsJson file
     else
       liftW (Log.warn "File reader"
                [Text "Log file seems to be malformatted. Will replace it on next save"]) ;;
       set_logsJson (Js.nullish_or file (VObj [("logs", VObj [])])))
    (fun error =>
       liftW (Log.warn "File reader"
                [Text "Got error while parsing data"; ErrorMessage error]) ;;
       set_logsJson (VObj [("logs", VObj [])])).

Definition cleanLogs : Method unit :=
  self <- this ;;
  ls <- or_TypeError (Js.get_prop (_logs self) "logs") ;;
  es <- or_TypeError (Js.entries ls) ;;
  let lastLog := Js.slice_last es in
  logs' <- or_TypeError
             (Js.set_prop (_logs self) "logs"
                (VObj (Js.spread [] (Js.fromEntries lastLog)))) ;;
  set_logs logs'.

Definition incrementLogFile (logName : string) : Method unit :=
  let match_ := JsString.match_digits logName in
  (match match_ with
   | None => liftW (Log.error "FileReader" [Text "Malformed file name."])
   | Some _ => ret tt
   end) ;;
  m <- or_TypeError match_ ;;
  let number := JsNumber.add (JsString.parseInt (snd (fst m))) 1 in
  set_currLogFile (JsString.replace_digits logName (JsString.toString number)).

Definition checkFileSize (logName : string) : Method unit :=
  onDisk <- liftW (fs.statSync_size logName) ;;
  self <- this ;;
  let size := onDisk + _currLogSize self in
  if threshold <? size
  then incrementLogFile logName ;; cleanLogs
  else ret tt.

Definition save (req : Request.t) (uuid : string) (now : Z) : Method unit :=
  pre ;;
  fetchCurrentLogFile None ;;
  prepareLogfile ;;
  prepareIndexFile ;;
  prepareConfigFile ;;
  prepareLog req uuid now ;;
  prepareConfig ;;
  self <- this ;;
  checkFileSize (_currLogFile self) ;;
  saveFiles.

Definition saveJson (req : Request.t) (uuid : string) (now : Z) : Method unit :=
  pre ;;
  fetchCurrentLogFile None ;;
  prepareLogJsonFile ;;
  prepareIndexFile ;;
  prepareConfigFile ;;
  prepareJsonLog req uuid now ;;
  prepareConfig ;;
  self <- this ;;
  checkFileSize (_currLogFile self) ;;
  saveFiles.

Definition read (fileName : option string) : Method value :=
  fetchCurrentLogFile fileName ;;
  pre ;;
  validateFile "index.json" (compact_file (VObj [("indexes", VObj [])])) ;;
  self <- this ;;
  validateFile (_currLogFile self) (compact_file (VObj [("logs", VObj [])])) ;;
  prepareLogfile ;;
  self <- this ;;
  ret (_logs self).

End Methods.

End FileReader.

(** ** The write-only engine: class [FileWriter] *)

(** The methods of [FileController] that [FileWriter] calls.  The class is
    not part of the sources; its methods are parameters of [FileWriter]. *)
Record FileController : Type := {
  ctl_initDirectories : M World unit;
  ctl_fetchCurrentLogFile : M World string;
  ctl_prepareLogfile : string -> M World value
}.

Module FileWriter.

Record t : Type := Make {
  _logs : value;
  _index : value;
  _currLogSize : N;
  _currLogFile : string
}.

Definition constructor : t :=
  Make (VObj [("logs", VObj [])]) (VObj [("indexes", VObj [])]) 0 "logs_0.json".

Abbreviation Method A := (M (t * World) A).

Definition this : Method t := gets fst.

Definition set_logs (v : value) : Method unit :=
  modify (fun s => (Make v (_index s.1) (_currLogSize s.1) (_currLogFile s.1), s.2)).
Definition set_index (v : value) : Method unit :=
  modify (fun s => (Make (_logs s.1) v (_currLogSize s.1) (_currLogFile s.1), s.2)).
Definition set_currLogSize (n : N) : Method unit :=
  modify (fun s => (Make (_logs s.1) (_index s.1) n (_currLogFile s.1), s.2)).
Definition set_currLogFile (f : string) : Method unit :=
  modify (fun s => (Make (_logs s.1) (_index s.1) (_currLogSize s.1) f, s.2)).

(** The rotation threshold of [checkFileSize], in bytes. *)
Definition threshold : N := 50000000000.

Section Methods.
Context `{P : Platform}.
Variable controller : FileController.

Definition validateFile (target : string) (baseBody : option file) : Method unit :=
  try_catch
    (e <- liftW (fs.existsSync target) ;;
     if e then ret tt else liftW (fs.writeFileSync target baseBody))
    (fun err =>
       liftW (Log.error "File reader"
                [Text ("Cannot create " ++ target ++ " file"); ErrorMessage err]) ;;
       throw (CannotCreateFile target)).

Definition pre : Method unit :=
  liftW (ctl_initDirectories controller) ;;
  validateFile "index.json" (compact_file (VObj [("indexes", VObj [])])) ;;
  self <- this ;;
  validateFile (_currLogFile self) (compact_file (VObj [("logs", VObj [])])).

Definition obfuscate (log : INotFormattedLogEntry.t) : Method unit :=
  cfg <- liftW (gets State_config) ;;
  forEach
    (fun e =>
       b <- liftW (Heap.read (INotFormattedLogEntry.body log)) ;;
       if Js.truthy_at e b
       then liftW (Heap.write (INotFormattedLogEntry.body log)
                     (Js.put_string e "***" b))
       else ret tt)
    (filter (fun field => field ≠ "occured") (IConfig.obfuscate cfg)).

Definition prepareLog (req : Request.t) (uuid : string) (now : Z) : Method unit :=
  body <- entry_of_request req now ;;
  obfuscate body ;;
  logBody <- logBody_of body ;;
  let logProto := [(uuid, encodeLog logBody)] in
  text <- or_TypeError (JSON.stringify (VObj logProto)) ;;
  set_currLogSize (JSON.byteLength text) ;;
  self <- this ;;
  old <- or_TypeError (Js.get_prop (_logs self) "logs") ;;
  logs' <- or_TypeError
             (Js.set_prop (_logs self) "logs"
                (VObj (Js.spread (Js.spread [] (Js.own_props old)) logProto))) ;;
  set_logs logs' ;;
  cfg <- liftW (gets State_config) ;;
  self <- this ;;
  ixs <- or_TypeError (Js.get_prop (_index self) "indexes") ;;
  ixs' <- or_TypeError
            (Js.set_prop ixs uuid (VStr (path_resolve (IConfig.path cfg) "index.json"))) ;;
  idx' <- or_TypeError (Js.set_prop (_index self) "indexes" ixs') ;;
  set_index idx'.

Definition saveFiles : Method unit :=
  try_catch
    (self <- this ;;
     liftW (fs.writeFileSync (_currLogFile self) (pretty_file (_logs self))) ;;
     liftW (fs.writeFileSync "index.json" (pretty_file (_index self))))
    (fun error => liftW (Log.error "Save File" [ErrorObject error])).

Definition prepareIndexFile : Method unit :=
  try_catch
    (data <- liftW (fs.readFileSync "index.json") ;;
     v <- JSON_parse data ;;
     set_index v)
    (fun error =>
       liftW (Log.error "File reader"
                [Text "Got error while parsing indexes"; ErrorMessage error]) ;;
       set_index (VObj [("indexes", VObj [])])).

Definition cleanLogs : Method unit :=
  self <- this ;;
  ls <- or_TypeError (Js.get_prop (_logs self) "logs") ;;
  es <- or_TypeError (Js.entries ls) ;;
  let lastLog := Js.slice_last es in
  logs' <- or_TypeError
             (Js.set_prop (_logs self) "logs"
                (VObj (Js.spread [] (Js.fromEntries lastLog)))) ;;
  set_logs logs'.

Definition incrementLogFile (logName : string) : Method unit :=
  let match_ := JsString.match_digits logName in
  (match match_ with
   | None => liftW (Log.error "FileReader" [Text "Malformed file name."])
   | Some _ => ret tt
   end) ;;
  m <- or_TypeError match_ ;;
  let number := JsNumber.add (JsString.parseInt (snd (fst m))) 1 in
  set_currLogFile (JsString.replace_digits logName (JsString.toString number)).

Definition checkFileSize (logName : string) : Method unit :=
  onDisk <- liftW (fs.statSync_size logName) ;;
  self <- this ;;
  let size := onDisk + _currLogSize self in
  if threshold <? size
  then incrementLogFile logName ;; cleanLogs
  else ret tt.

Definition init (req : Request.t) (uuid : string) (now : Z) : Method unit :=
  pre ;;
  name <- liftW (ctl_fetchCurrentLogFile controller) ;;
  set_currLogFile name ;;
  self <- this ;;
  logs <- liftW (ctl_prepareLogfile controller (_currLogFile self)) ;;
  set_logs logs ;;
  prepareIndexFile ;;
  prepareLog req uuid now ;;
  self <- this ;;
  checkFileSize (_currLogFile self) ;;
  saveFiles.

End Methods.

End FileWriter.

(** ** Worked inputs *)

Module Sample.

(** A stand-in for the external collaborators: the encoder wraps the
    entry's JSON text, the clock prints the millisecond count. *)
Definition platform : Platform :=
  {| encodeLog := fun v => VObj [("proto", json_text v)];
     toISOString := fun ms => JSON.number ms |}.

Definition config : IConfig.t :=
  IConfig.Make "/srv/Toaster" true true true false false ["password"] (Some false).

Definition config_text : IConfig.t :=
  IConfig.Make "/srv/Toaster" true true true false false ["password"] (Some true).

(** What the engines read of the default configuration, which has no
    [disableProto] member. *)
Definition config_default : IConfig.t :=
  IConfig.Make "/srv/Toaster" true true true false false ["password"] None.

(** A caller heap with the request's body, query and headers records. *)
Definition heap : list record :=
  [ [("password", VStr "x"); ("q", VStr "y")];
    [("page", VStr "2")];
    [("host", VStr "localhost"); ("content-length", VStr "27")] ].

Definition request : Request.t :=
  Request.Make "POST" (Some 0%nat) 1%nat 2%nat (Some "127.0.0.1").

Definition writable : fsys := Fsys (Some ∅) true (fun _ => false).

Definition world (d : fsys) (c : IConfig.t) : World := MkWorld d [] heap c.

Definition uuid1 : string := "6f1c2a9e-0b1d-4c3e-8f2a-000000000001".

(** An entry persisted by an earlier capture. *)
Definition old_id : string := "0d9f6c1e-7a44-4b8e-9c55-0000000000aa".
Definition old_entry : value := VObj [("proto", VStr "earlier")].

Definition empty_segment : file := File 11 (Some (VObj [("logs", VObj [])])).
Definition default_index : file := File 14 (Some (VObj [("indexes", VObj [])])).
Definition default_config : file := File 22 (Some (VObj [("disableProto", VBool false)])).
Definition old_index : file :=
  File 98 (Some (VObj [("indexes", VObj [(old_id, VStr "/srv/Toaster/index.json")])])).

(** A segment of 6000 bytes that holds one entry. *)
Definition full_segment : file :=
  File 6000 (Some (VObj [("logs", VObj [(old_id, old_entry)])])).

(** A store whose current segment [logs_0.json] is over the threshold. *)
Definition full_store : fsys :=
  Fsys (Some (<["logs_0.json" := full_segment]>
               (<["index.json" := old_index]>
                 (<["config.json" := default_config]> ∅))))
       true (fun _ => false).

(** A store whose only segment was given a name without a number. *)
Definition suffixless_store : fsys :=
  Fsys (Some (<["logs.json" := full_segment]>
               (<["index.json" := old_index]>
                 (<["config.json" := default_config]> ∅))))
       true (fun _ => false).


Definition store_with (segment : file) : fsys :=
  Fsys (Some (<["logs_0.json" := segment]>
               (<["index.json" := default_index]>
                 (<["config.json" := default_config]> ∅))))
       true (fun _ => false).

(** A store whose snapshot records text mode. *)
Definition text_snapshot : file := File 21 (Some (VObj [("disableProto", VBool true)])).
Definition text_snapshot_store : fsys :=
  Fsys (Some (<["logs_0.json" := empty_segment]>
               (<["index.json" := default_index]>
                 (<["config.json" := text_snapshot]> ∅))))
       true (fun _ => false).

(** The store of the specification's example, and two stores that hold an
    entry which contains [logs] without being a segment name. *)
Definition three_segments : fsys :=
  Fsys (Some (<["logs_0.json" := empty_segment]>
               (<["logs_3.json" := empty_segment]>
                 (<["logs_7.json" := empty_segment]>
                   (<["index.json" := default_index]>
                     (<["config.json" := default_config]> ∅))))))
       true (fun _ => false).

Definition with_backup : fsys :=
  Fsys (Some (<["logs_3.json" := empty_segment]>
               (<["logs_12.json.bak" := empty_segment]>
                 (<["index.json" := default_index]>
                   (<["config.json" := default_config]> ∅)))))
       true (fun _ => false).

Definition with_padded : fsys :=
  Fsys (Some (<["logs_3.json" := empty_segment]>
               (<["logs_007.json" := empty_segment]>
                 (<["index.json" := default_index]>
                   (<["config.json" := default_config]> ∅)))))
       true (fun _ => false).

(** A store whose segment number is past the integers that a Number holds
    exactly. *)
Definition with_large : fsys :=
  Fsys (Some (<["logs_9007199254740993.json" := empty_segment]>
               (<["index.json" := default_index]>
                 (<["config.json" := default_config]> ∅))))
       true (fun _ => false).

(** A store whose segment holds an entry and whose index file is garbled. *)
Definition small_segment : file :=
  File 80 (Some (VObj [("logs", VObj [(old_id, old_entry)])])).
Definition garbled_index : fsys :=
  Fsys (Some (<["logs_0.json" := small_segment]>
               (<["index.json" := File 5 None]>
                 (<["config.json" := default_config]> ∅))))
       true (fun _ => false).

(** The id generated for the [k]-th request of a run. *)
Definition uuid_of (k : nat) : string :=
  "6f1c2a9e-0b1d-4c3e-8f2a-" ++ JsString.toString (100000000000 + N.of_nat k).

(** The store after the middleware has captured [n] requests in a directory
    that was empty, each with an instance of its own, in text mode and in
    binary mode. *)
Definition capture_text (w : World) (k : nat) : World :=
  snd (snd (FileReader.saveJson (P := platform) request (uuid_of k) (Z.of_nat k)
              (FileReader.constructor, w))).

Definition capture_binary (w : World) (k : nat) : World :=
  snd (snd (FileReader.save (P := platform) request (uuid_of k) (Z.of_nat k)
              (FileReader.constructor, w))).

Definition after_text (n : nat) : World :=
  fold_left capture_text (seq 0 n) (world writable config_text).

Definition after_binary (n : nat) : World :=
  fold_left capture_binary (seq 0 n) (world writable config).

(** No storage directory, and none can be made. *)
Definition no_directory : fsys := Fsys None false (fun _ => true).

End Sample.

(** ** Vocabulary of the statements *)

(** [ToBoolean(State.config.disableProto)], the test of [saveFiles]: the
    flag is on when it holds [true], off when it holds [false] or reads
    [undefined]. *)
Definition text_flag (c : IConfig.t) : bool :=
  Js.truthy (opt_bool (IConfig.disableProto c)).

Definition with_heap (h : list record) (w : World) : World :=
  MkWorld (disk w) (console w) h (State_config w).

Definition with_console (c : list log_event) (w : World) : World :=
  MkWorld (disk w) c (heap w) (State_config w).

(** What one step of the redaction loop does to the body record. *)
Definition redact_field (b : record) (e : string) : record :=
  if Js.truthy_at e b then Js.put_string e "***" b else b.

(** The body record after the whole redaction loop. *)
Definition redact (fields : list string) (b : record) : record :=
  fold_left redact_field (filter (fun field => field ≠ "occured") fields) b.

(** The record stored at a heap location ([{}] for a dangling one). *)
Definition record_at (w : World) (l : nat) : record := default [] (heap w !! l).

(** A field is settled when another pass of the loop leaves it alone: it
    holds the marker, or reads falsy, or is the inherited [__proto__]. *)
Definition settled (e : string) (b : record) : Prop :=
  Js.lookup_prop e b = Some (VStr "***")
  \/ Js.truthy_at e b = false
  \/ (e = "__proto__" /\ Js.lookup_prop e b = None).

(** A computation preserves an observation of the state when the state it
    ends in, whether it returns or throws, shows the same observation. *)
Definition preserves {S A X} (obs : S -> X) (m : M S A) : Prop :=
  forall s, obs (snd (m s)) = obs s.

(** Observations of the state of a method: the caller heap, the disk, the
    instance. *)
Definition heap_of {T} (s : T * World) : list record := heap (snd s).
Definition disk_of {T} (s : T * World) : fsys := disk (snd s).
Definition config_of {T} (s : T * World) : IConfig.t := State_config (snd s).
Definition instance_of {T} (s : T * World) : T := fst s.
Definition deny_of {T} (s : T * World) : string -> bool := fs_deny (disk (snd s)).
Definition world_deny (w : World) : string -> bool := fs_deny (disk w).

(** The heap that [prepareLog] leaves, whether it returns or throws: the
    request's records, a fresh copy of the headers without the transport
    size header, fresh empty records, and the redaction applied at the
    location of the entry's body. *)
Definition prepareLog_heap_shape (req : Request.t) (w : World) (h' : list record) : Prop :=
  exists extra,
    let b := if IConfig.body (State_config w)
             then match Request.body req with
                  | Some l => l
                  | None => S (length (heap w))
                  end
             else S (length (heap w)) in
    let h1 := (heap w ++
               Js.delete_prop "content-length"
                 (Js.spread [] (record_at w (Request.headers req))) :: extra)%list in
    h' = <[b := redact (IConfig.obfuscate (State_config w)) (default [] (h1 !! b))]> h1.

(** The names that the redaction loop goes through: the configured ones
    but the reserved name. *)
Definition listed (fields : list string) (k : string) : bool :=
  bool_decide (k ∈ fields) && negb (String.eqb k "occured").

(** The names that the redaction adds to a body that does not own them: the
    listed members of [Object.prototype], which read truthy through the
    prototype chain, but [__proto__], whose assignment is ignored. *)
Definition created (fields : list string) (b : record) (k : string) : bool :=
  listed fields k && Js.inherited k && negb (String.eqb k "__proto__")
  && bool_decide (Js.lookup_prop k b = None).

(** What the redaction leaves under the key [k] of the body [b]: an own
    field holds the marker when it is listed and held a truthy value, and
    its value otherwise; a key that is not own holds the marker when the
    redaction creates it, and stays absent otherwise. *)
Definition redacted_at (fields : list string) (b : record) (k : string)
  : option value :=
  match Js.lookup_prop k b with
  | Some v => Some (if listed fields k && Js.truthy v then VStr "***" else v)
  | None => if created fields b k then Some (VStr "***") else None
  end.

(** What the caller sees of its request, whose body is the object at [l],
    in the world [after] a capture step started in [w].  The headers object
    is untouched.  The captured headers are a new object of the heap, which
    holds every header of the request but [content-length], in the same
    order.  The body object itself is redacted when body capture is on, key
    by key as [redacted_at] says, and untouched otherwise. *)
Definition request_after_capture (req : Request.t) (l : nat) (w after : World) : Prop :=
  let headers := record_at w (Request.headers req) in
  record_at after (Request.headers req) = headers
  /\ (exists copy,
        heap after !! length (heap w) = Some copy
        /\ Js.lookup_prop "content-length" copy = None
        /\ (forall k, k <> "content-length" ->
             Js.lookup_prop k copy = Js.lookup_prop k headers)
        /\ copy.*1 = filter (fun k => k ≠ "content-length") headers.*1)
  /\ (forall k,
        Js.lookup_prop k (record_at after l)
        = if IConfig.body (State_config w)
          then redacted_at (IConfig.obfuscate (State_config w)) (record_at w l) k
          else Js.lookup_prop k (record_at w l)).

(** The entry ids of a segment value, and the ids of an index value. *)
Definition segment_ids (v : value) : list string :=
  (Js.own_props (Js.get_prop_opt v "logs")).*1.

Definition index_ids (v : value) : list string :=
  (Js.own_props (Js.get_prop_opt v "indexes")).*1.

(** The file of a given name in the storage directory, if any. *)
Definition disk_file (w : World) (name : string) : option file :=
  match fs_dir (disk w) with
  | Some d => d !! name
  | None => None
  end.

(** The entry ids a file lists, when it parses. *)
Definition file_segment_ids (f : file) : option (list string) :=
  segment_ids <$> f_json f.

(** The console line of [incrementLogFile] on a name without digits. *)
Definition malformed_name : log_event :=
  LogEvent LError "FileReader" (Text "Malformed file name.").

(** The two console lines of [validateFile] when the file cannot be made. *)
Definition cannot_create (target : string) (e : exn) : list log_event :=
  [LogEvent LError "File reader" (Text ("Cannot create " ++ target ++ " file"));
   LogEvent LError "File reader" (ErrorMessage e)].

(** The value [prepareLogfile] leaves in [_logs] for a segment file: the
    parsed value, or [{ logs: {} }] when the text does not parse or parses
    to [null]. *)
Definition recovered_segment (f : file) : value :=
  match f_json f with
  | Some v => Js.nullish_or v (VObj [("logs", VObj [])])
  | None => VObj [("logs", VObj [])]
  end.



(** The instance with one field replaced. *)
Definition with_logs (v : value) (r : FileReader.t) : FileReader.t :=
  FileReader.Make v (FileReader._logsJson r) (FileReader._index r)
    (FileReader._config r) (FileReader._currLogSize r) (FileReader._currLogFile r).

Definition with_config (v : value) (r : FileReader.t) : FileReader.t :=
  FileReader.Make (FileReader._logs r) (FileReader._logsJson r) (FileReader._index r)
    v (FileReader._currLogSize r) (FileReader._currLogFile r).

Definition with_currLogFile (n : string) (r : FileReader.t) : FileReader.t :=
  FileReader.Make (FileReader._logs r) (FileReader._logsJson r) (FileReader._index r)
    (FileReader._config r) (FileReader._currLogSize r) n.

(** The disk after the three writes of [saveFiles]. *)
Definition saved_disk (d : gmap string file) (cur : string) (seg idx cfg : file)
    (old : fsys) : fsys :=
  Fsys (Some (<["config.json" := cfg]> (<["index.json" := idx]> (<[cur := seg]> d))))
       (fs_mkdir old) (fs_deny old).

(** The fields of the read/write instance that the write-only class has too,
    and a result of the read/write class seen through them. *)
Definition writer_view (r : FileReader.t) : FileWriter.t :=
  FileWriter.Make (FileReader._logs r) (FileReader._index r)
    (FileReader._currLogSize r) (FileReader._currLogFile r).

Definition view {A} (x : outcome A * (FileReader.t * World))
  : outcome A * (FileWriter.t * World) :=
  (fst x, (writer_view (fst (snd x)), snd (snd x))).

(** The combined size that [checkFileSize] compares with its threshold. *)
Definition combined_size (r : FileReader.t) (f : file) : N :=
  f_size f + FileReader._currLogSize r.

(** The name of the segment numbered [n]. *)
Definition segment_name (n : N) : string :=
  "logs_" ++ JsString.toString n ++ ".json".

Fixpoint all_digits (s : string) : bool :=
  match s with
  | EmptyString => true
  | String c r => JsString.is_digit c && all_digits r
  end.

(** A directory all of whose entries that contain [logs] are segment names
    [logs_<n>.json], with [n] below [2^53]. *)
Definition only_segments (d : gmap string file) : Prop :=
  forall f, f ∈ dom d -> JsString.includes "logs" f = true ->
    exists n, n < 2 ^ 53 /\ f = segment_name n.

(** Every number found in the listing is below [Number.MAX_SAFE_INTEGER],
    so that it and its successor are exact. *)
Definition safe_numbers (d : gmap string file) : Prop :=
  forall n, n ∈ logNumbers (elements (dom d)) -> n < JsString.MAX_SAFE_INTEGER.

(** The console line of [fetchCurrentLogFile] when no name is given. *)
Definition no_target : log_event :=
  LogEvent LWarn "File reader"
    (Text "File target was not provided, selecting latest available file").

(** The ids listed by the index file of the store ([] when it is absent or
    does not parse). *)
Definition disk_index_ids (w : World) : list string :=
  match disk_file w "index.json" ≫= f_json with
  | Some v => index_ids v
  | None => []
  end.

(** A store whose index file lists every entry id of every file that parses. *)
Definition indexed_store (w : World) : Prop :=
  forall name f v,
    disk_file w name = Some f -> f_json f = Some v ->
    segment_ids v ⊆ disk_index_ids w.

Definition with_index (v : value) (r : FileReader.t) : FileReader.t :=
  FileReader.Make (FileReader._logs r) (FileReader._logsJson r) v
    (FileReader._config r) (FileReader._currLogSize r) (FileReader._currLogFile r).

(** What [prepareLogfile] and [prepareIndexFile] load from a store. *)
Definition loaded_segment (w : World) (name : string) : value :=
  match disk_file w name with
  | Some f => recovered_segment f
  | None => VObj [("logs", VObj [])]
  end.

Definition loaded_index (w : World) : value :=
  match disk_file w "index.json" ≫= f_json with
  | Some v => v
  | None => VObj [("indexes", VObj [])]
  end.

(** [indexed_store], decided. *)
Definition indexed_storeb (w : World) : bool :=
  match fs_dir (disk w) with
  | None => true
  | Some d =>
      forallb
        (fun nf : string * file =>
           match f_json (snd nf) with
           | Some v =>
               forallb (fun x => bool_decide (x ∈ disk_index_ids w)) (segment_ids v)
           | None => true
           end)
        (map_to_list d)
  end.


(** ** Vocabulary of the further properties *)

(** Every file of [w] is still there, with the same content, in [w']. *)
Definition keeps_files (w w' : World) : Prop :=
  forall n f, disk_file w n = Some f -> disk_file w' n = Some f.

(** [w'] is [w] after [fs.writeFileSync] has stored [f] under [name]: that
    file holds [f], every other file, the console, the caller heap, the
    ambient configuration and the permissions of the directory are as
    before. *)
Definition wrote (name : string) (f : file) (w w' : World) : Prop :=
  disk_file w' name = Some f
  /\ (forall n, n <> name -> disk_file w' n = disk_file w n)
  /\ is_Some (fs_dir (disk w'))
  /\ fs_deny (disk w') = fs_deny (disk w)
  /\ fs_mkdir (disk w') = fs_mkdir (disk w)
  /\ console w' = console w
  /\ heap w' = heap w
  /\ State_config w' = State_config w.

(** The console line of [saveFiles] when a write fails. *)
Definition save_failed (e : exn) : log_event :=
  LogEvent LError "Save File" (ErrorObject e).

(** The map that [saveFiles] of the read/write engine writes to the current
    segment: the text map when the caller disabled the binary encoding, the
    binary map otherwise. *)
Definition persisted_map (r : FileReader.t) (w : World) : value :=
  if text_flag (State_config w)
  then FileReader._logsJson r else FileReader._logs r.

Module Sample2.

(** A storage directory in which [index.json] cannot be written. *)
Definition index_locked : fsys :=
  Fsys (Some (<["index.json" := Sample.default_index]> ∅)) true
       (fun n => String.eqb n "index.json").

(** A store whose index file holds the text [{}]. *)
Definition bare_index : file := File 2 (Some (VObj [])).
Definition bare_index_store : fsys :=
  Fsys (Some (<["logs_0.json" := Sample.empty_segment]>
               (<["index.json" := bare_index]>
                 (<["config.json" := Sample.default_config]> ∅))))
       true (fun _ => false).

(** A store with one segment and a stray copy of a later one. *)
Definition stray_copy_store : fsys :=
  Fsys (Some (<["logs_0.json" := Sample.small_segment]>
               (<["logs_12.json.bak" := Sample.empty_segment]>
                 (<["index.json" := Sample.old_index]>
                   (<["config.json" := Sample.default_config]> ∅)))))
       true (fun _ => false).

End Sample2.

(** A name that begins with [logs_]: the names that the selection gives
    and that rotation keeps. *)
Definition log_name (s : string) : Prop := String.prefix "logs_" s = true.

(** A store in whose directory every number found by the selection is below
    [Number.MAX_SAFE_INTEGER]. *)
Definition safe_store (w : World) : Prop :=
  forall d, fs_dir (disk w) = Some d -> safe_numbers d.

(** A storage directory that exists and refuses no write. *)
Definition writable (w : World) : Prop :=
  is_Some (fs_dir (disk w)) /\ forall n, fs_deny (disk w) n = false.

(** The world after a bootstrap check on a writable directory: the file is
    created with the default body when it is absent. *)
Definition ensure_file (name : string) (f : file) (w : World) : World :=
  match fs_dir (disk w) with
  | Some d =>
      match d !! name with
      | Some _ => w
      | None => fs.set_disk (Fsys (Some (<[name := f]> d)) (fs_mkdir (disk w))
                               (fs_deny (disk w))) w
      end
  | None => w
  end.

(** The world after the whole bootstrap on a writable directory, for the
    current segment [cur]. *)
Definition bootstrapped (cur : string) (w : World) : World :=
  ensure_file "config.json" Sample.default_config
    (ensure_file cur Sample.empty_segment
       (ensure_file "index.json" Sample.default_index w)).

(** The instance after [fetchCurrentLogFile()] has listed the directory [d]. *)
Definition selected (d : gmap string file) (r : FileReader.t) : FileReader.t :=
  match logNumbers (elements (dom d)) with
  | [] => r
  | n :: ns => with_currLogFile (segment_name (Math_max (n :: ns))) r
  end.

(** What [prepareConfigFile] loads from a store. *)
Definition loaded_config (w : World) : value :=
  match disk_file w "config.json" ≫= f_json with
  | Some v => v
  | None => VObj [("disableProto", VBool false)]
  end.

Definition with_logsJson (v : value) (r : FileReader.t) : FileReader.t :=
  FileReader.Make (FileReader._logs r) v (FileReader._index r)
    (FileReader._config r) (FileReader._currLogSize r) (FileReader._currLogFile r).

(** The instance when the four loading steps of a capture are done (the
    selection of the segment, the loads of the segment, of the index and of
    the snapshot), in binary mode and in text mode. *)
Definition loaded_instance (d : gmap string file) (r : FileReader.t) (w : World)
  : FileReader.t :=
  let r2 := selected d r in
  with_config (loaded_config w)
    (with_index (loaded_index w)
       (with_logs (loaded_segment w (FileReader._currLogFile r2)) r2)).

Definition loaded_instance_text (d : gmap string file) (r : FileReader.t) (w : World)
  : FileReader.t :=
  let r2 := selected d r in
  with_config (loaded_config w)
    (with_index (loaded_index w)
       (with_logsJson (loaded_segment w (FileReader._currLogFile r2)) r2)).

(** An index value has an index map when its [indexes] member is an object
    or an array; on any other value the assignment
    [this.index.indexes[uuid] = ...] raises a [TypeError]. *)
Definition has_index_map (v : value) : bool :=
  match Js.get_prop v "indexes" with
  | Some (VObj _) | Some (VArr _ _) => true
  | _ => false
  end.

(** Objects and arrays, the values a property can be assigned on. *)
Definition is_object (v : value) : Prop :=
  match v with
  | VObj _ | VArr _ _ => True
  | _ => False
  end.

(** A property of every file of the store that parses. *)
Definition every_parsed_file (Q : value -> Prop) (w : World) : Prop :=
  forall n f v, disk_file w n = Some f -> f_json f = Some v -> Q v.

(** An id is new to a store when no file of the store lists it among its
    entries. *)
Definition fresh_id (uuid : string) (w : World) : Prop :=
  every_parsed_file (fun v => uuid ∉ segment_ids v) w.

Definition not_array (v : value) : Prop :=
  match v with
  | VArr _ _ => False
  | _ => True
  end.

(** A store none of whose files holds a JSON array at its top level. *)
Definition no_array_file (w : World) : Prop := every_parsed_file not_array w.

Fixpoint no_digit (s : string) : bool :=
  match s with
  | EmptyString => true
  | String c r => negb (JsString.is_digit c) && no_digit r
  end.

(** The text does not begin with a decimal digit. *)
Definition starts_without_digit (t : string) : bool :=
  match t with
  | String c _ => negb (JsString.is_digit c)
  | EmptyString => true
  end.

(** The literal [logBody] that [prepareLog] and [prepareJsonLog] build for a
    request, in terms of the caller's objects as they are before the
    capture: the body redacted, the query as it is, the headers without
    [content-length], each as JSON text, an empty object for the query and
    the headers when their capture is switched off, and the redaction of an
    empty object for the body when its capture is off or the request has
    none. *)
Definition captured_entry `{P : Platform} (req : Request.t) (now : Z) (w : World) : value :=
  let cfg := State_config w in
  let body :=
    redact (IConfig.obfuscate cfg)
      (if IConfig.body cfg
       then match Request.body req with
            | Some l => record_at w l
            | None => []
            end
       else []) in
  let query := if IConfig.queryParams cfg then record_at w (Request.query req) else [] in
  let headers :=
    if IConfig.headers cfg
    then Js.delete_prop "content-length" (Js.spread [] (record_at w (Request.headers req)))
    else [] in
  VObj [("method", opt_string (if IConfig.method cfg
                               then Some (Request.method req) else None));
        ("body", json_text (VObj body));
        ("queryParams", json_text (VObj query));
        ("headers", json_text (VObj headers));
        ("ip", opt_string (if IConfig.ip cfg then Request.ip req else None));
        ("occured", VStr (toISOString now))].

(** The request's objects are objects of the caller heap, and its query is
    not its body. *)
Definition well_formed_request (req : Request.t) (w : World) : Prop :=
  (Request.query req < length (heap w))%nat
  /\ (Request.headers req < length (heap w))%nat
  /\ forall l, Request.body req = Some l ->
       (l < length (heap w))%nat /\ l <> Request.query req.

(** ** The logger: class [Log], at the level of what it prints

    The engines are modelled with the trace of their calls to [Log]; this
    module models the class itself: which calls print, and what. *)

Module Logger.

(** The part of a [Date] that the class reads. *)
Record Date : Type := MkDate {
  getHours : N;
  getMinutes : N;
  getSeconds : N
}.

(** What the class takes from its environment: the colour functions of
    [chalk], the variable [process.env.NODE_ENV], and the clock, given as
    the reading of the [n]-th [new Date()]. *)
Class Env : Type := {
  red : string -> string;
  yellow : string -> string;
  blue : string -> string;
  magenta : string -> string;
  yellowBright : string -> string;
  gray : string -> string;
  NODE_ENV : option string;
  clock : nat -> Date
}.

Record state : Type := MkState {
  _shouldLog : bool;
  ticks : nat;                 (* the number of [new Date()] so far *)
  info : list string;          (* the lines given to [console.info] *)
  traces : list string         (* the labels given to [console.trace] *)
}.

Definition initial : state := MkState false 0 [] [].

Section Methods.
Context `{E : Env}.

Definition new_Date : M state Date :=
  fun s => (Return (clock (ticks s)),
            MkState (_shouldLog s) (S (ticks s)) (info s) (traces s)).

Definition console_info (line : string) : M state unit :=
  modify (fun s => MkState (_shouldLog s) (ticks s) (info s ++ [line]) (traces s)).

Definition console_trace (label : string) : M state unit :=
  modify (fun s => MkState (_shouldLog s) (ticks s) (info s) (traces s ++ [label])).

(** [process.env.NODE_ENV === 'test'] *)
Definition in_test : bool :=
  match NODE_ENV with
  | Some v => String.eqb v "test"
  | None => false
  end.

Definition getDate : M state string :=
  date <- new_Date ;;
  let h := if Nat.eqb (String.length (JsString.toString (getHours date))) 1
           then "0" ++ JsString.toString (getHours date) ++ ":"
           else JsString.toString (getHours date) ++ ":" in
  let m := if Nat.eqb (String.length (JsString.toString (getMinutes date))) 1
           then "0" ++ JsString.toString (getMinutes date) ++ ":"
           else JsString.toString (getMinutes date) ++ ":" in
  let s := if Nat.eqb (String.length (JsString.toString (getSeconds date))) 1
           then "0" ++ JsString.toString (getSeconds date)
           else JsString.toString (getSeconds date) in
  ret (h ++ m ++ s).

Definition logAll : M state unit :=
  modify (fun s => MkState true (ticks s) (info s) (traces s)).

(** [typeof message !== 'string' ? JSON.stringify(message, null, 2) : message],
    as the template string renders it. *)
Definition toString (message : value) : string :=
  match message with
  | VStr s => s
  | _ => match JSON.pretty message with
         | Some t => t
         | None => "undefined"
         end
  end.

Definition buildLog (color : unit -> string) (message : value) (error : bool)
  : M state unit :=
  shouldLog <- gets _shouldLog ;;
  if in_test || error || shouldLog
  then
    date <- getDate ;;
    console_info ("[" ++ gray date ++ "] [ApiToaster] " ++ color tt ++ " "
                  ++ toString message)
  else ret tt.

Definition error (target : string) (messages : list value) : M state unit :=
  forEach (fun m => buildLog (fun _ => red ("Log.ERROR: " ++ target)) m true) messages.

Definition warn (target : string) (messages : list value) : M state unit :=
  forEach (fun m => buildLog (fun _ => yellow ("Log.WARN: " ++ target)) m false) messages.

Definition log (target : string) (messages : list value) : M state unit :=
  forEach (fun m => buildLog (fun _ => blue ("Log.LOG: " ++ target)) m false) messages.

Definition debug (target : string) (messages : list value) : M state unit :=
  if negb in_test then ret tt
  else forEach (fun m => buildLog (fun _ => magenta ("Log.Debug: " ++ target)) m false)
         messages.

Definition trace (target : string) (messages : list value) : M state unit :=
  (if in_test then console_trace (yellowBright target) else ret tt) ;;
  forEach (fun m => buildLog (fun _ => yellowBright ("Log.TRACE: " ++ target)) m false)
    messages.

End Methods.

End Logger.

(** The number of lines a call of the logger prints for [n] messages when
    it is allowed to print ([open]). *)
Definition printed (open : bool) (n : nat) : nat := if open then n else 0%nat.

(** ** The configuration of the middleware: [defaultConfig] and
    [Toaster.initPath]

    Here [State.config] is the JavaScript object that [initPath] builds;
    the record [IConfig.t] of the engines is what they read of it. *)

Module Toaster.

(** [process.cwd()] and [path.resolve], taken from the platform. *)
Class Process : Type := {
  cwd : string;
  path_resolve : string -> string -> string
}.

Record state : Type := MkState {
  State_config : value;
  console : list log_event     (* the calls to [Log], oldest first *)
}.

Section Methods.
Context `{Pr : Process}.

Definition Log_log (target : string) (ms : list message) : M state unit :=
  modify (fun s => MkState (State_config s) (console s ++ map (LogEvent LLog target) ms)).

Definition set_config (v : value) : M state unit :=
  modify (fun s => MkState v (console s)).

(** The default export of [tools/config]. *)
Definition defaultConfig : record :=
  [("path", VStr (path_resolve cwd "Toaster"));
   ("method", VBool true);
   ("body", VBool true);
   ("queryParams", VBool true);
   ("headers", VBool false);
   ("ip", VBool false);
   ("obfuscate", VArr [VStr "password"] [])].

(** [typeof v === 'object'] *)
Definition typeof_object (v : value) : bool :=
  match v with
  | VNull | VArr _ _ | VObj _ => true
  | _ => false
  end.

(** [Array.isArray(v)] *)
Definition isArray (v : value) : bool :=
  match v with
  | VArr _ _ => true
  | _ => false
  end.

(** [v !== null] *)
Definition not_null (v : value) : bool :=
  match v with
  | VNull => false
  | _ => true
  end.

(** [Object.keys(v)] on an object or an array. *)
Definition Object_keys (v : value) : list string := (Js.own_props v).*1.

(** [s.slice(1)] *)
Definition slice_1 (s : string) : string :=
  match s with
  | EmptyString => EmptyString
  | String _ r => r
  end.

Definition initPath (config : value) : M state unit :=
  if Js.truthy config && typeof_object config && negb (isArray config)
     && not_null config && Nat.ltb 0 (length (Object_keys config))
  then
    Log_log "Main action" [Text "User provided config"] ;;
    path <- or_TypeError (Js.get_prop config "path") ;;
    if Js.truthy path
    then
      match path with
      | VStr p =>
          let root := cwd in
          let str := if String.prefix "/" p then slice_1 p else p in
          let dirPath := path_resolve root str in
          set_config (VObj (Js.spread (Js.spread (Js.spread [] defaultConfig)
                                         (Js.own_props config))
                              [("path", VStr dirPath)]))
      | _ => throw TypeError      (* [config.path.startsWith] is not a function *)
      end
    else
      set_config (VObj (Js.spread (Js.spread [] defaultConfig) (Js.own_props config)))
  else
    Log_log "Main action" [Text "User did not provide config"] ;;
    set_config (VObj defaultConfig).

End Methods.

End Toaster.

(** The console lines of [initPath]. *)
Definition config_provided : log_event :=
  LogEvent LLog "Main action" (Text "User provided config").
Definition config_missing : log_event :=
  LogEvent LLog "Main action" (Text "User did not provide config").

(** The path that [initPath] makes of the configured one: a leading slash is
    dropped, and the rest is resolved against the working directory. *)
Definition resolved_path `{Pr : Toaster.Process} (p : string) : string :=
  Toaster.path_resolve Toaster.cwd (if String.prefix "/" p then Toaster.slice_1 p else p).

Module Sample3.

(** A platform whose [path.resolve] joins with a slash. *)
Definition process : Toaster.Process :=
  {| Toaster.cwd := "/srv/app";
     Toaster.path_resolve := fun root p => root ++ "/" ++ p |}.

Definition state : Toaster.state := Toaster.MkState VUndef [].

Definition caller_config : record :=
  [("path", VStr "/var/log/toaster"); ("ip", VBool true); ("tag", VStr "blue")].

End Sample3.

(** ** The two classes on a loaded instance *)

(** The last statements of [FileWriter.init], those that follow the
    controller's calls and [prepareIndexFile], and the last statements of
    [FileReader.save], those that follow [prepareConfigFile]: what each
    class does once its instance is loaded. *)
Definition FileWriter_init_tail `{P : Platform}
    (req : Request.t) (uuid : string) (now : Z) : FileWriter.Method unit :=
  FileWriter.prepareLog req uuid now ;;
  self <- FileWriter.this ;;
  FileWriter.checkFileSize (FileWriter._currLogFile self) ;;
  FileWriter.saveFiles.

Definition FileReader_save_tail `{P : Platform}
    (req : Request.t) (uuid : string) (now : Z) : FileReader.Method unit :=
  FileReader.prepareLog req uuid now ;;
  FileReader.prepareConfig ;;
  self <- FileReader.this ;;
  FileReader.checkFileSize (FileReader._currLogFile self) ;;
  FileReader.saveFiles.

(** A store whose current segment, of 60000000000 bytes, is over both
    thresholds. *)
Definition huge_store : fsys :=
  Fsys (Some (<["logs_0.json" := File 60000000000 (Some (VObj [("logs", VObj [])]))]>
               (<["index.json" := Sample.default_index]>
                 (<["config.json" := Sample.default_config]> ∅))))
       true (fun _ => false).

(** A store whose greatest number is [9.5e21], beside a file of 6000 bytes
    that has the name this number selects. *)
Definition exponent_store : fsys :=
  Fsys (Some (<["logs_9500000000000000000000.json" := Sample.empty_segment]>
               (<["logs_9.5e+21.json" := Sample.full_segment]>
                 (<["index.json" := Sample.old_index]>
                   (<["config.json" := Sample.default_config]> ∅)))))
       true (fun _ => false).
(** * Properties *)

(** ** The monad *)

Lemma bind_Return {S A B} (m : M S A) (k : A -> M S B) s b s' :
  bind m k s = (Return b, s') ->
  exists a s1, m s = (Return a, s1) /\ k a s1 = (Return b, s').
Proof.
  unfold bind. destruct (m s) as [[a|e] s1]; intros E.
  - exists a, s1. split; [reflexivity | exact E].
  - discriminate E.
Qed.

Lemma bind_of_Return {S A B} (m : M S A) (k : A -> M S B) s a s1 :
  m s = (Return a, s1) -> bind m k s = k a s1.
Proof. unfold bind. intros ->. reflexivity. Qed.

Lemma bind_of_Throw {S A B} (m : M S A) (k : A -> M S B) s e s1 :
  m s = (Throw e, s1) -> bind m k s = (Throw e, s1).
Proof. unfold bind. intros ->. reflexivity. Qed.

Lemma with_heap_id w : with_heap (heap w) w = w.
Proof. destruct w; reflexivity. Qed.

(** ** Records *)

Lemma lookup_assign_eq k v r : Js.lookup_prop k (Js.assign_prop k v r) = Some v.
Proof.
  induction r as [|[k' v'] r IH]; simpl.
  - rewrite String.eqb_refl. reflexivity.
  - destruct (String.eqb k k') eqn:E; simpl.
    + rewrite String.eqb_refl. reflexivity.
    + rewrite E. exact IH.
Qed.

Lemma lookup_assign_ne k k' v r :
  k <> k' -> Js.lookup_prop k' (Js.assign_prop k v r) = Js.lookup_prop k' r.
Proof.
  intros Hne. induction r as [|[k0 v0] r IH]; simpl.
  - destruct (String.eqb k' k) eqn:E; [|reflexivity].
    apply String.eqb_eq in E. congruence.
  - destruct (String.eqb k k0) eqn:E; simpl.
    + apply String.eqb_eq in E. subst k0.
      destruct (String.eqb k' k) eqn:E'; [|reflexivity].
      apply String.eqb_eq in E'. congruence.
    + destruct (String.eqb k' k0); [reflexivity | exact IH].
Qed.

Lemma assign_same k v r : Js.lookup_prop k r = Some v -> Js.assign_prop k v r = r.
Proof.
  induction r as [|[k' v'] r IH]; simpl; [discriminate|].
  destruct (String.eqb k k') eqn:E.
  - apply String.eqb_eq in E. subst k'. intros [= ->]. reflexivity.
  - intros Hl. rewrite (IH Hl). reflexivity.
Qed.

(** ** Redaction *)

Lemma lookup_put_eq e m b :
  Js.lookup_prop e (Js.put_string e m b)
  = match Js.lookup_prop e b with
    | Some _ => Some (VStr m)
    | None => if String.eqb e "__proto__" then None else Some (VStr m)
    end.
Proof.
  unfold Js.put_string. destruct (Js.lookup_prop e b) eqn:L.
  - apply lookup_assign_eq.
  - destruct (String.eqb e "__proto__"); [exact L | apply lookup_assign_eq].
Qed.

Lemma lookup_put_ne e k m b :
  e <> k -> Js.lookup_prop k (Js.put_string e m b) = Js.lookup_prop k b.
Proof.
  intros Hne. unfold Js.put_string.
  destruct (Js.lookup_prop e b); [apply lookup_assign_ne, Hne|].
  destruct (String.eqb e "__proto__"); [reflexivity | apply lookup_assign_ne, Hne].
Qed.

Lemma redact_field_other e k b :
  e <> k -> Js.lookup_prop k (redact_field b e) = Js.lookup_prop k b.
Proof.
  intros Hne. unfold redact_field.
  destruct (Js.truthy_at e b); [apply lookup_put_ne, Hne | reflexivity].
Qed.

Lemma redact_field_settles e b : settled e (redact_field b e).
Proof.
  unfold settled, redact_field.
  destruct (Js.truthy_at e b) eqn:E; [|right; left; exact E].
  rewrite lookup_put_eq.
  destruct (Js.lookup_prop e b) eqn:L; [left; reflexivity|].
  destruct (String.eqb e "__proto__") eqn:Ep; [|left; reflexivity].
  right. right. split; [apply String.eqb_eq, Ep | reflexivity].
Qed.

Lemma redact_field_keeps_settled e e' b :
  settled e b -> settled e (redact_field b e').
Proof.
  intros Hs. destruct (String.eqb_spec e' e) as [->|Hne].
  - apply redact_field_settles.
  - unfold settled, Js.truthy_at in *.
    rewrite (redact_field_other e' e b Hne). exact Hs.
Qed.

Lemma redact_field_settled_id e b : settled e b -> redact_field b e = b.
Proof.
  unfold settled, redact_field, Js.truthy_at, Js.put_string.
  intros [Hl|[Hf|[-> Hn]]].
  - rewrite Hl. simpl. apply assign_same, Hl.
  - rewrite Hf. reflexivity.
  - rewrite Hn. reflexivity.
Qed.

Lemma fold_redact_settles fs : forall b e,
  In e fs \/ settled e b -> settled e (fold_left redact_field fs b).
Proof.
  induction fs as [|f fs IH]; intros b e Hc; simpl.
  - destruct Hc as [[]|Hs]. exact Hs.
  - apply IH. destruct Hc as [[->|Hin]|Hs].
    + right. apply redact_field_settles.
    + left. exact Hin.
    + right. apply redact_field_keeps_settled, Hs.
Qed.

Lemma fold_redact_settled_id fs : forall b,
  (forall e, In e fs -> settled e b) -> fold_left redact_field fs b = b.
Proof.
  induction fs as [|f fs IH]; intros b Hall; simpl; [reflexivity|].
  rewrite (redact_field_settled_id f b) by (apply Hall; left; reflexivity).
  apply IH. intros e Hin. apply Hall. right. exact Hin.
Qed.

Lemma redact_idempotent fields b : redact fields (redact fields b) = redact fields b.
Proof.
  unfold redact. apply fold_redact_settled_id.
  intros e Hin. apply fold_redact_settles. left. exact Hin.
Qed.

(** The reserved name is filtered out of the loop, so a body field of that
    name keeps its value. *)
Lemma redact_spares_occured fields b :
  Js.lookup_prop "occured" (redact fields b) = Js.lookup_prop "occured" b.
Proof.
  unfold redact.
  assert (Hall : Forall (fun f => f <> "occured")
                   (filter (fun field => field ≠ "occured") fields)).
  { apply Forall_forall. intros f Hin.
    apply list_elem_of_filter in Hin. tauto. }
  revert b. induction Hall as [|f fs Hf _ IH]; intros b; simpl; [reflexivity|].
  rewrite IH. apply redact_field_other, Hf.
Qed.

Lemma record_at_insert w l x :
  record_at (with_heap (<[l := x]> (heap w)) w) l =
  if decide (l < length (heap w))%nat then x else [].
Proof.
  unfold record_at, with_heap. simpl. case_decide as Hl.
  - rewrite list_lookup_insert_eq by exact Hl. reflexivity.
  - rewrite list_insert_ge by lia.
    rewrite (lookup_ge_None_2 (heap w) l) by lia. reflexivity.
Qed.

Lemma insert_record_at w l : <[l := record_at w l]> (heap w) = heap w.
Proof.
  unfold record_at. destruct (heap w !! l) as [x|] eqn:E; simpl.
  - apply list_insert_id, E.
  - apply list_insert_ge, lookup_ge_None_1, E.
Qed.

(** The loop of [obfuscate], on any instance type: it rewrites the record at
    the body location to its redaction and nothing else. *)
Lemma redaction_loop {T} (l : nat) fs : forall (t : T) (w : World),
  forEach
    (fun e : string =>
       b <- liftW (Heap.read l) ;;
       if Js.truthy_at e b
       then liftW (Heap.write l (Js.put_string e "***" b))
       else ret tt)
    fs (t, w)
  = (Return tt,
     (t, with_heap (<[l := fold_left redact_field fs (record_at w l)]> (heap w)) w)).
Proof.
  induction fs as [|e fs IH]; intros t w.
  - simpl. rewrite insert_record_at, with_heap_id. reflexivity.
  - cbn [forEach fold_left].
    set (step := fun e0 : string => _) in *.
    assert (Hstep : step e (t, w) =
              (Return tt, (t, with_heap (<[l := redact_field (record_at w l) e]> (heap w)) w))).
    { unfold step, bind, liftW, Heap.read, Heap.write, gets, modify, ret; simpl.
      fold (record_at w l). unfold redact_field.
      destruct (Js.truthy_at e (record_at w l)).
      - reflexivity.
      - rewrite insert_record_at, with_heap_id. reflexivity. }
    rewrite (bind_of_Return _ _ _ _ _ Hstep), IH.
    rewrite record_at_insert. simpl.
    rewrite list_insert_insert_eq.
    case_decide as Hl; [reflexivity|].
    rewrite !list_insert_ge by lia. reflexivity.
Qed.

Lemma FileReader_obfuscate_spec `{P : Platform} log t w :
  FileReader.obfuscate log (t, w) =
  (Return tt,
   (t, with_heap (<[INotFormattedLogEntry.body log :=
                      redact (IConfig.obfuscate (State_config w))
                        (record_at w (INotFormattedLogEntry.body log))]> (heap w)) w)).
Proof.
  unfold FileReader.obfuscate.
  rewrite (bind_of_Return _ _ (t, w) (State_config w) (t, w)) by reflexivity.
  apply redaction_loop.
Qed.

Lemma FileWriter_obfuscate_spec `{P : Platform} log t w :
  FileWriter.obfuscate log (t, w) =
  (Return tt,
   (t, with_heap (<[INotFormattedLogEntry.body log :=
                      redact (IConfig.obfuscate (State_config w))
                        (record_at w (INotFormattedLogEntry.body log))]> (heap w)) w)).
Proof.
  unfold FileWriter.obfuscate.
  rewrite (bind_of_Return _ _ (t, w) (State_config w) (t, w)) by reflexivity.
  apply redaction_loop.
Qed.

(** C4.  Redaction is idempotent: running [obfuscate] twice on an entry, under
    the same configured field list, leaves exactly the state that one run
    leaves; it never raises.  The time stamp is out of its reach for every
    configuration, also one that lists the reserved name [occured]: a body
    field of that name keeps its value, and the record built from the entry
    after redaction carries the ISO form of the entry's own time stamp.
    Both classes hold the same method; the statement covers both. *)
Theorem C4_redaction_idempotent_timestamp_kept `{P : Platform}
    (log : INotFormattedLogEntry.t) (r : FileReader.t) (t : FileWriter.t) (w : World) :
  let once := FileReader.obfuscate log (r, w) in
  let once' := FileWriter.obfuscate log (t, w) in
  (bind (FileReader.obfuscate log) (fun _ => FileReader.obfuscate log) (r, w) = once
   /\ fst once = Return tt
   /\ Js.lookup_prop "occured" (record_at (snd (snd once)) (INotFormattedLogEntry.body log))
      = Js.lookup_prop "occured" (record_at w (INotFormattedLogEntry.body log))
   /\ exists v,
        fst (bind (FileReader.obfuscate log) (fun _ => logBody_of log) (r, w)) = Return v
        /\ Js.get_prop v "occured"
           = Some (VStr (toISOString (INotFormattedLogEntry.occured log))))
  /\
  (bind (FileWriter.obfuscate log) (fun _ => FileWriter.obfuscate log) (t, w) = once'
   /\ fst once' = Return tt
   /\ Js.lookup_prop "occured" (record_at (snd (snd once')) (INotFormattedLogEntry.body log))
      = Js.lookup_prop "occured" (record_at w (INotFormattedLogEntry.body log))
   /\ exists v,
        fst (bind (FileWriter.obfuscate log) (fun _ => logBody_of log) (t, w)) = Return v
        /\ Js.get_prop v "occured"
           = Some (VStr (toISOString (INotFormattedLogEntry.occured log)))).
Proof.
  set (l := INotFormattedLogEntry.body log).
  set (fs := IConfig.obfuscate (State_config w)).
  assert (Hocc : Js.lookup_prop "occured"
                   (record_at (with_heap (<[l := redact fs (record_at w l)]> (heap w)) w) l)
                 = Js.lookup_prop "occured" (record_at w l)).
  { rewrite record_at_insert. case_decide as Hl.
    - apply redact_spares_occured.
    - unfold record_at. rewrite (lookup_ge_None_2 (heap w) l) by lia. reflexivity. }
  assert (Hidem : forall T (x : T),
            with_heap (<[l := redact fs
                              (record_at (with_heap (<[l := redact fs (record_at w l)]> (heap w)) w) l)]>
                         (<[l := redact fs (record_at w l)]> (heap w)))
                      (with_heap (<[l := redact fs (record_at w l)]> (heap w)) w)
            = with_heap (<[l := redact fs (record_at w l)]> (heap w)) w).
  { intros _ _. rewrite record_at_insert, list_insert_insert_eq.
    unfold with_heap; simpl. f_equal.
    case_decide as Hl.
    - rewrite redact_idempotent. reflexivity.
    - rewrite !list_insert_ge by lia. reflexivity. }
  split.
  - cbv zeta. rewrite !FileReader_obfuscate_spec. fold l fs.
    repeat split.
    + rewrite (bind_of_Return _ _ _ _ _ (FileReader_obfuscate_spec log r w)).
      rewrite FileReader_obfuscate_spec. simpl State_config. fold l fs.
      simpl heap. rewrite (Hidem unit tt). reflexivity.
    + exact Hocc.
    + rewrite (bind_of_Return _ _ _ _ _ (FileReader_obfuscate_spec log r w)).
      eexists. split; reflexivity.
  - cbv zeta. rewrite !FileWriter_obfuscate_spec. fold l fs.
    repeat split.
    + rewrite (bind_of_Return _ _ _ _ _ (FileWriter_obfuscate_spec log t w)).
      rewrite FileWriter_obfuscate_spec. simpl State_config. fold l fs.
      simpl heap. rewrite (Hidem unit tt). reflexivity.
    + exact Hocc.
    + rewrite (bind_of_Return _ _ _ _ _ (FileWriter_obfuscate_spec log t w)).
      eexists. split; reflexivity.
Qed.

(** ** Frame rules *)

Section Frames.
Context {S X : Type} (obs : S -> X).

Lemma preserves_ret {A} (a : A) : preserves obs (ret a).
Proof. intros s. reflexivity. Qed.

Lemma preserves_throw {A} e : preserves obs (@throw S A e).
Proof. intros s. reflexivity. Qed.

Lemma preserves_gets {A} (f : S -> A) : preserves obs (gets f).
Proof. intros s. reflexivity. Qed.

Lemma preserves_bind {A B} (m : M S A) (k : A -> M S B) :
  preserves obs m -> (forall a, preserves obs (k a)) -> preserves obs (bind m k).
Proof.
  intros Hm Hk s. unfold bind. specialize (Hm s).
  destruct (m s) as [[a|e] s1]; simpl in *.
  - rewrite (Hk a s1). exact Hm.
  - exact Hm.
Qed.

Lemma preserves_try_catch {A} (m : M S A) (h : exn -> M S A) :
  preserves obs m -> (forall e, preserves obs (h e)) -> preserves obs (try_catch m h).
Proof.
  intros Hm Hh s. unfold try_catch. specialize (Hm s).
  destruct (m s) as [[a|e] s1]; simpl in *.
  - exact Hm.
  - rewrite (Hh e s1). exact Hm.
Qed.

Lemma preserves_or_TypeError {A} (o : option A) : preserves obs (or_TypeError o).
Proof. destruct o; intros s; reflexivity. Qed.

Lemma preserves_JSON_parse f : preserves obs (JSON_parse f).
Proof. unfold JSON_parse. destruct (f_json f); intros s; reflexivity. Qed.

Lemma preserves_forEach {A} (f : A -> M S unit) xs :
  (forall x, preserves obs (f x)) -> preserves obs (forEach f xs).
Proof.
  intros Hf. induction xs as [|x xs IH]; simpl.
  - apply preserves_ret.
  - apply preserves_bind; [apply Hf | intros _; exact IH].
Qed.

Lemma preserves_modify (f : S -> S) :
  (forall s, obs (f s) = obs s) -> preserves obs (modify f).
Proof. intros Hf s. apply Hf. Qed.

End Frames.

(** A world computation lifted into a method leaves the instance alone. *)
Lemma liftW_instance {T A} (m : M World A) : preserves (@instance_of T) (liftW m).
Proof. intros [t w]. unfold liftW, instance_of. simpl. destruct (m w). reflexivity. Qed.

Lemma liftW_world {T A X} (obs : World -> X) (m : M World A) :
  preserves obs m -> preserves (fun s : T * World => obs (snd s)) (liftW m).
Proof.
  intros Hm [t w]. unfold liftW. simpl. specialize (Hm w).
  destruct (m w) as [o w']. exact Hm.
Qed.

Lemma liftW_fst {T A X} (g : T -> X) (m : M World A) :
  preserves (fun s : T * World => g (fst s)) (liftW m).
Proof. intros [t w]. unfold liftW. simpl. destruct (m w). reflexivity. Qed.

(** What the primitives leave alone. *)
Lemma Log_emit_heap l tg ms : preserves heap (Log.emit l tg ms).
Proof. intros w. reflexivity. Qed.
Lemma Log_emit_disk l tg ms : preserves disk (Log.emit l tg ms).
Proof. intros w. reflexivity. Qed.
Lemma Log_emit_config l tg ms : preserves State_config (Log.emit l tg ms).
Proof. intros w. reflexivity. Qed.

Lemma existsSync_same name : preserves (fun w : World => w) (fs.existsSync name).
Proof. intros w. reflexivity. Qed.
Lemma existsSync_dir_same : preserves (fun w : World => w) fs.existsSync_dir.
Proof. intros w. reflexivity. Qed.
Lemma readFileSync_same name : preserves (fun w : World => w) (fs.readFileSync name).
Proof.
  intros w. unfold fs.readFileSync.
  destruct (fs_dir (disk w)) as [d|]; [destruct (d !! name)|]; reflexivity.
Qed.
Lemma statSync_same name : preserves (fun w : World => w) (fs.statSync_size name).
Proof.
  unfold fs.statSync_size. apply preserves_bind.
  - apply readFileSync_same.
  - intros f. apply preserves_ret.
Qed.
Lemma readdirSync_same : preserves (fun w : World => w) fs.readdirSync.
Proof. intros w. unfold fs.readdirSync. destruct (fs_dir (disk w)); reflexivity. Qed.

Lemma same_any {A X} (obs : World -> X) (m : M World A) :
  preserves (fun w : World => w) m -> preserves obs m.
Proof. intros Hm w. f_equal. apply Hm. Qed.

Lemma mkdirSync_heap : preserves heap fs.mkdirSync.
Proof. intros w. unfold fs.mkdirSync. destruct (fs_mkdir (disk w)); reflexivity. Qed.
Lemma mkdirSync_config : preserves State_config fs.mkdirSync.
Proof. intros w. unfold fs.mkdirSync. destruct (fs_mkdir (disk w)); reflexivity. Qed.

Lemma writeFileSync_heap name body : preserves heap (fs.writeFileSync name body).
Proof.
  intros w. unfold fs.writeFileSync.
  destruct body; [|reflexivity].
  destruct (fs_dir (disk w)); [|reflexivity].
  destruct (fs_deny (disk w) name); reflexivity.
Qed.
Lemma writeFileSync_config name body : preserves State_config (fs.writeFileSync name body).
Proof.
  intros w. unfold fs.writeFileSync.
  destruct body; [|reflexivity].
  destruct (fs_dir (disk w)); [|reflexivity].
  destruct (fs_deny (disk w) name); reflexivity.
Qed.

Lemma Log_emit_deny l tg ms : preserves world_deny (Log.emit l tg ms).
Proof. intros w. reflexivity. Qed.
Lemma mkdirSync_deny : preserves world_deny fs.mkdirSync.
Proof. intros w. unfold fs.mkdirSync. destruct (fs_mkdir (disk w)); reflexivity. Qed.
Lemma writeFileSync_deny name body : preserves world_deny (fs.writeFileSync name body).
Proof.
  intros w. unfold fs.writeFileSync.
  destruct body; [|reflexivity].
  destruct (fs_dir (disk w)); [|reflexivity].
  destruct (fs_deny (disk w) name); reflexivity.
Qed.
Lemma Heap_alloc_deny r : preserves world_deny (Heap.alloc r).
Proof. intros w. reflexivity. Qed.
Lemma Heap_write_deny l r : preserves world_deny (Heap.write l r).
Proof. intros w. reflexivity. Qed.

Lemma Heap_read_same l : preserves (fun w : World => w) (Heap.read l).
Proof. intros w. reflexivity. Qed.
Lemma Heap_alloc_disk r : preserves disk (Heap.alloc r).
Proof. intros w. reflexivity. Qed.
Lemma Heap_write_disk l r : preserves disk (Heap.write l r).
Proof. intros w. reflexivity. Qed.
Lemma Heap_alloc_config r : preserves State_config (Heap.alloc r).
Proof. intros w. reflexivity. Qed.
Lemma Heap_write_config l r : preserves State_config (Heap.write l r).
Proof. intros w. reflexivity. Qed.

Create HintDb frame.

#[export] Hint Resolve preserves_ret preserves_throw preserves_gets
  preserves_or_TypeError preserves_JSON_parse
  Log_emit_heap Log_emit_disk Log_emit_config
  mkdirSync_heap mkdirSync_config writeFileSync_heap writeFileSync_config
  Heap_alloc_disk Heap_write_disk Heap_alloc_config Heap_write_config
  Log_emit_deny mkdirSync_deny writeFileSync_deny Heap_alloc_deny Heap_write_deny
  liftW_instance : frame.

(** Splits a method into its primitives and closes each frame goal from the
    hint base. *)
Ltac frame_step :=
  match goal with
  | |- preserves _ (bind _ _) => apply preserves_bind; [|intros ?]
  | |- preserves _ (try_catch _ _) => apply preserves_try_catch; [|intros ?]
  | |- preserves _ (forEach _ _) => apply preserves_forEach; intros ?
  | |- preserves _ (if ?b then _ else _) => destruct b
  | |- preserves _ (match ?x with _ => _ end) => destruct x
  | |- preserves (fun s => ?obs (snd s)) (liftW _) => apply (liftW_world obs)
  | |- preserves heap_of (liftW _) => apply (liftW_world heap)
  | |- preserves disk_of (liftW _) => apply (liftW_world disk)
  | |- preserves config_of (liftW _) => apply (liftW_world State_config)
  | |- preserves deny_of (liftW _) => apply (liftW_world world_deny)
  | |- preserves _ (fs.existsSync _) => apply same_any, existsSync_same
  | |- preserves _ fs.existsSync_dir => apply same_any, existsSync_dir_same
  | |- preserves _ (fs.readFileSync _) => apply same_any, readFileSync_same
  | |- preserves _ (fs.statSync_size _) => apply same_any, statSync_same
  | |- preserves _ fs.readdirSync => apply same_any, readdirSync_same
  | |- preserves _ (Heap.read _) => apply same_any, Heap_read_same
  | |- preserves _ (Log.error _ _) => unfold Log.error
  | |- preserves _ (Log.warn _ _) => unfold Log.warn
  | |- preserves _ (Log.debug _ _) => unfold Log.debug
  | |- preserves _ (modify _) => apply preserves_modify; intros [? ?]; reflexivity
  | |- preserves _ (liftW _) => apply liftW_fst
  | |- preserves _ _ => solve [auto with frame]
  end.

Ltac frame := repeat frame_step.

(** ** What the methods of [FileReader] leave alone *)

Section FileReaderFrames.
Context `{P : Platform}.

Ltac reader_frame :=
  unfold FileReader.set_logs, FileReader.set_logsJson, FileReader.set_index,
         FileReader.set_config, FileReader.set_currLogSize,
         FileReader.set_currLogFile, FileReader.this;
  frame.

(** The caller heap. *)
Lemma fetchCurrentLogFile_heap o : preserves heap_of (FileReader.fetchCurrentLogFile o).
Proof. unfold FileReader.fetchCurrentLogFile. reader_frame. Qed.

Lemma initDirectories_heap : preserves heap_of FileReader.initDirectories.
Proof. unfold FileReader.initDirectories. reader_frame. Qed.

Lemma validateFile_heap t b : preserves heap_of (FileReader.validateFile t b).
Proof. unfold FileReader.validateFile. reader_frame. Qed.

Lemma pre_heap : preserves heap_of FileReader.pre.
Proof.
  unfold FileReader.pre.
  repeat (apply preserves_bind; [|intros ?]);
    first [apply initDirectories_heap | apply validateFile_heap | reader_frame].
Qed.

Lemma prepareLogfile_heap : preserves heap_of FileReader.prepareLogfile.
Proof. unfold FileReader.prepareLogfile. reader_frame. Qed.

Lemma prepareLogJsonFile_heap : preserves heap_of FileReader.prepareLogJsonFile.
Proof. unfold FileReader.prepareLogJsonFile. reader_frame. Qed.

Lemma prepareIndexFile_heap : preserves heap_of FileReader.prepareIndexFile.
Proof. unfold FileReader.prepareIndexFile. reader_frame. Qed.

Lemma prepareConfigFile_heap : preserves heap_of FileReader.prepareConfigFile.
Proof. unfold FileReader.prepareConfigFile. reader_frame. Qed.

Lemma prepareConfig_heap : preserves heap_of FileReader.prepareConfig.
Proof. unfold FileReader.prepareConfig. reader_frame. Qed.

Lemma index_entry_heap u : preserves heap_of (FileReader.index_entry u).
Proof. unfold FileReader.index_entry. reader_frame. Qed.

Lemma cleanLogs_heap : preserves heap_of FileReader.cleanLogs.
Proof. unfold FileReader.cleanLogs. reader_frame. Qed.

Lemma incrementLogFile_heap n : preserves heap_of (FileReader.incrementLogFile n).
Proof. unfold FileReader.incrementLogFile. reader_frame. Qed.

Lemma checkFileSize_heap n : preserves heap_of (FileReader.checkFileSize n).
Proof.
  unfold FileReader.checkFileSize.
  repeat (apply preserves_bind; [|intros ?]); [reader_frame | reader_frame |].
  destruct (_ <? _); [|apply preserves_ret].
  apply preserves_bind; [apply incrementLogFile_heap | intros _; apply cleanLogs_heap].
Qed.

Lemma saveFiles_heap : preserves heap_of FileReader.saveFiles.
Proof. unfold FileReader.saveFiles. reader_frame. Qed.

End FileReaderFrames.

(** ** The entry literal and the caller heap *)

Lemma snoc_lookup {A} (h : list A) x : (h ++ [x])%list !! length h = Some x.
Proof. apply list_lookup_middle. reflexivity. Qed.

Lemma snoc_insert {A} (h : list A) x y :
  <[length h := y]> (h ++ [x])%list = (h ++ [y])%list.
Proof.
  rewrite insert_app_r_alt by lia. rewrite Nat.sub_diag. reflexivity.
Qed.

Lemma entry_of_request_spec `{P : Platform} {T} req now (t : T) w :
  exists e extra,
    entry_of_request req now (t, w)
    = (Return e,
       (t, with_heap
             (heap w ++
              Js.delete_prop "content-length"
                (Js.spread [] (record_at w (Request.headers req))) :: extra) w))
    /\ INotFormattedLogEntry.occured e = now
    /\ INotFormattedLogEntry.body e =
       (if IConfig.body (State_config w)
        then match Request.body req with
             | Some l => l
             | None => S (length (heap w))
             end
        else S (length (heap w))).
Proof.
  unfold entry_of_request, bind, liftW, Heap.alloc, Heap.read, Heap.write,
    gets, modify, ret, record_at. simpl.
  rewrite snoc_lookup. simpl. rewrite snoc_insert.
  destruct (IConfig.body (State_config w)), (Request.body req) as [l|],
    (IConfig.queryParams (State_config w)), (IConfig.headers (State_config w));
    simpl; eexists _, _; unfold with_heap;
    rewrite ?length_app, ?Nat.add_1_r; simpl;
    rewrite <- ?app_assoc; simpl;
    (split; [reflexivity | split; reflexivity]).
Qed.

Ltac prepareLog_heap_tac spec :=
  match goal with
  | |- prepareLog_heap_shape ?req ?w
         (heap_of (snd (bind (entry_of_request ?req ?now) ?k (?r, ?w)))) =>
      let e := fresh "e" in
      let extra := fresh "extra" in
      let He := fresh "He" in
      let Hb := fresh "Hb" in
      destruct (entry_of_request_spec req now r w) as (e & extra & He & _ & Hb);
      rewrite (bind_of_Return _ _ _ _ _ He);
      rewrite (bind_of_Return _ _ _ _ _ (spec e r _));
      exists extra; cbv zeta; rewrite <- Hb
  end.

Lemma FileReader_prepareLog_heap `{P : Platform} req uuid now r w :
  prepareLog_heap_shape req w
    (heap_of (snd (FileReader.prepareLog req uuid now (r, w)))).
Proof.
  unfold FileReader.prepareLog.
  prepareLog_heap_tac FileReader_obfuscate_spec.
  match goal with |- heap_of (snd (?k ?s)) = _ =>
    transitivity (heap_of s); [|reflexivity] end.
  apply (preserves_bind heap_of).
  - unfold logBody_of. frame.
  - intros v. unfold FileReader.index_entry, FileReader.set_currLogSize,
      FileReader.set_logs, FileReader.set_index, FileReader.this.
    frame.
Qed.

Lemma FileReader_prepareJsonLog_heap `{P : Platform} req uuid now r w :
  prepareLog_heap_shape req w
    (heap_of (snd (FileReader.prepareJsonLog req uuid now (r, w)))).
Proof.
  unfold FileReader.prepareJsonLog.
  prepareLog_heap_tac FileReader_obfuscate_spec.
  match goal with |- heap_of (snd (?k ?s)) = _ =>
    transitivity (heap_of s); [|reflexivity] end.
  apply (preserves_bind heap_of).
  - unfold logBody_of. frame.
  - intros v. unfold FileReader.index_entry, FileReader.set_currLogSize,
      FileReader.set_logsJson, FileReader.set_index, FileReader.this.
    frame.
Qed.

Lemma FileWriter_prepareLog_heap `{P : Platform} req uuid now t w :
  prepareLog_heap_shape req w
    (heap_of (snd (FileWriter.prepareLog req uuid now (t, w)))).
Proof.
  unfold FileWriter.prepareLog.
  prepareLog_heap_tac FileWriter_obfuscate_spec.
  match goal with |- heap_of (snd (?k ?s)) = _ =>
    transitivity (heap_of s); [|reflexivity] end.
  apply (preserves_bind heap_of).
  - unfold logBody_of. frame.
  - intros v. unfold FileWriter.set_currLogSize, FileWriter.set_logs,
      FileWriter.set_index, FileWriter.this.
    frame.
Qed.

Section FileReaderConfigFrames.
Context `{P : Platform}.

Ltac reader_frame :=
  unfold FileReader.set_logs, FileReader.set_logsJson, FileReader.set_index,
         FileReader.set_config, FileReader.set_currLogSize,
         FileReader.set_currLogFile, FileReader.this;
  frame.

(** The ambient configuration. *)
Lemma fetchCurrentLogFile_config o : preserves config_of (FileReader.fetchCurrentLogFile o).
Proof. unfold FileReader.fetchCurrentLogFile. reader_frame. Qed.

Lemma pre_config : preserves config_of FileReader.pre.
Proof.
  unfold FileReader.pre, FileReader.initDirectories, FileReader.validateFile.
  reader_frame.
Qed.

Lemma prepareLogfile_config : preserves config_of FileReader.prepareLogfile.
Proof. unfold FileReader.prepareLogfile. reader_frame. Qed.

Lemma prepareLogJsonFile_config : preserves config_of FileReader.prepareLogJsonFile.
Proof. unfold FileReader.prepareLogJsonFile. reader_frame. Qed.

Lemma prepareIndexFile_config : preserves config_of FileReader.prepareIndexFile.
Proof. unfold FileReader.prepareIndexFile. reader_frame. Qed.

Lemma prepareConfigFile_config : preserves config_of FileReader.prepareConfigFile.
Proof. unfold FileReader.prepareConfigFile. reader_frame. Qed.

End FileReaderConfigFrames.

Lemma bind_Return_frames {S A B X Y} (obs1 : S -> X) (obs2 : S -> Y)
    (m : M S A) (k : A -> M S B) s b s' :
  preserves obs1 m -> preserves obs2 m ->
  bind m k s = (Return b, s') ->
  exists a s1, k a s1 = (Return b, s') /\ obs1 s1 = obs1 s /\ obs2 s1 = obs2 s.
Proof.
  intros H1 H2 E. apply bind_Return in E as (a & s1 & Hm & Hk).
  exists a, s1. split; [exact Hk|].
  specialize (H1 s). specialize (H2 s). rewrite Hm in H1, H2. simpl in *. auto.
Qed.

Lemma prepareLog_heap_shape_ext req w w' h' :
  heap w = heap w' -> State_config w = State_config w' ->
  prepareLog_heap_shape req w h' -> prepareLog_heap_shape req w' h'.
Proof.
  unfold prepareLog_heap_shape, record_at. intros <- <-. auto.
Qed.

Lemma prepareLog_heap_shape_valid req w h' l :
  prepareLog_heap_shape req w h' ->
  Request.body req = Some l ->
  (l < length (heap w))%nat ->
  (Request.headers req < length (heap w))%nat ->
  l <> Request.headers req ->
  default [] (h' !! Request.headers req) = record_at w (Request.headers req)
  /\ h' !! length (heap w)
     = Some (Js.delete_prop "content-length"
               (Js.spread [] (record_at w (Request.headers req))))
  /\ default [] (h' !! l)
     = (if IConfig.body (State_config w)
        then redact (IConfig.obfuscate (State_config w)) (record_at w l)
        else record_at w l).
Proof.
  intros [extra ->] Hb Hl Hh Hne. cbv zeta. rewrite Hb. unfold record_at.
  destruct (IConfig.body (State_config w)).
  - repeat split.
    + rewrite list_lookup_insert_ne by exact Hne.
      rewrite lookup_app_l by exact Hh. reflexivity.
    + rewrite list_lookup_insert_ne by lia.
      apply list_lookup_middle. reflexivity.
    + rewrite list_lookup_insert_eq by (rewrite length_app; lia).
      rewrite lookup_app_l by exact Hl. reflexivity.
  - repeat split.
    + rewrite list_lookup_insert_ne by lia.
      rewrite lookup_app_l by exact Hh. reflexivity.
    + rewrite list_lookup_insert_ne by lia.
      apply list_lookup_middle. reflexivity.
    + rewrite list_lookup_insert_ne by lia.
      rewrite lookup_app_l by exact Hl. reflexivity.
Qed.

Lemma FileReader_save_heap `{P : Platform} req uuid now r w :
  fst (FileReader.save req uuid now (r, w)) = Return tt ->
  prepareLog_heap_shape req w (heap_of (snd (FileReader.save req uuid now (r, w)))).
Proof.
  destruct (FileReader.save req uuid now (r, w)) as [o s'] eqn:E. simpl.
  intros ->. unfold FileReader.save in E.
  apply (bind_Return_frames heap_of config_of) in E
    as (? & s1 & E & Hh1 & Hc1); [|apply pre_heap|apply pre_config].
  apply (bind_Return_frames heap_of config_of) in E
    as (? & s2 & E & Hh2 & Hc2);
    [|apply fetchCurrentLogFile_heap|apply fetchCurrentLogFile_config].
  apply (bind_Return_frames heap_of config_of) in E
    as (? & s3 & E & Hh3 & Hc3); [|apply prepareLogfile_heap|apply prepareLogfile_config].
  apply (bind_Return_frames heap_of config_of) in E
    as (? & s4 & E & Hh4 & Hc4); [|apply prepareIndexFile_heap|apply prepareIndexFile_config].
  apply (bind_Return_frames heap_of config_of) in E
    as (? & s5 & E & Hh5 & Hc5); [|apply prepareConfigFile_heap|apply prepareConfigFile_config].
  apply bind_Return in E as (? & s6 & Hlog & E).
  assert (Hrest : heap_of s' = heap_of s6).
  { change s' with (snd (Return tt, s')). rewrite <- E.
    apply (preserves_bind heap_of); [apply prepareConfig_heap | intros _].
    apply preserves_bind; [unfold FileReader.this; frame | intros self].
    apply preserves_bind; [apply checkFileSize_heap | intros _; apply saveFiles_heap]. }
  rewrite Hrest.
  destruct s5 as [r5 w5].
  apply (prepareLog_heap_shape_ext req w5).
  - unfold heap_of in *. simpl in *. congruence.
  - unfold config_of in *. simpl in *. congruence.
  - pose proof (FileReader_prepareLog_heap req uuid now r5 w5) as Hs.
    rewrite Hlog in Hs. exact Hs.
Qed.

(** ** Rotation *)

(** On a name without a digit, [incrementLogFile] writes its console line and
    then dereferences the missing match: the [TypeError] leaves the method. *)
Lemma FileReader_incrementLogFile_malformed logName r w :
  JsString.match_digits logName = None ->
  FileReader.incrementLogFile logName (r, w)
  = (Throw TypeError, (r, with_console (console w ++ [malformed_name])%list w)).
Proof.
  intros Hm. unfold FileReader.incrementLogFile. rewrite Hm. reflexivity.
Qed.

Lemma FileWriter_incrementLogFile_malformed logName t w :
  JsString.match_digits logName = None ->
  FileWriter.incrementLogFile logName (t, w)
  = (Throw TypeError, (t, with_console (console w ++ [malformed_name])%list w)).
Proof.
  intros Hm. unfold FileWriter.incrementLogFile. rewrite Hm. reflexivity.
Qed.

(** C2 (the code departs from the claim).  A segment named [logs.json] has no
    numeric suffix.  An instance that has read it and then captures a request
    reaches the rotation check with that name and a segment over the
    threshold: [incrementLogFile] logs the error, rotation does not happen
    and the name and the log map stay as they were, but the [TypeError] of
    [match![0]] leaves the rotation check and the capture, and nothing is
    persisted.  The write-only class holds the same method. *)
Theorem C2_suffixless_name_raises_TypeError :
  let w := Sample.world Sample.suffixless_store Sample.config in
  let opened := snd (FileReader.read (Some "logs.json") (FileReader.constructor, w)) in
  let check := FileReader.checkFileSize "logs.json" opened in
  let capture :=
    FileReader.save (P := Sample.platform) Sample.request Sample.uuid1 17 opened in
  JsString.match_digits "logs.json" = None
  /\ (fst check = Throw TypeError
      /\ fst (snd check) = fst opened
      /\ console (snd (snd check)) = (console (snd opened) ++ [malformed_name])%list)
  /\ (fst capture = Throw TypeError
      /\ last (console (snd (snd capture))) = Some malformed_name
      /\ FileReader._currLogFile (fst (snd capture)) = "logs.json"
      /\ segment_ids (FileReader._logs (fst (snd capture))) = [Sample.old_id; Sample.uuid1]
      /\ fs_dir (disk (snd (snd capture))) = fs_dir (disk w))
  /\ fst (FileWriter.incrementLogFile "logs.json" (FileWriter.constructor, w))
     = Throw TypeError.
Proof.
  cbv zeta. split; [reflexivity|].
  split; [repeat split; vm_compute; reflexivity|].
  split; [repeat split; vm_compute; reflexivity|].
  vm_compute. reflexivity.
Qed.

(** C1 (the code departs from the claim).  Twenty-three requests captured in
    text mode fill [logs_0.json] to 4953 bytes.  The next capture passes the
    threshold of 5000: the suffix goes from 0 to 1, but [cleanLogs] compacts
    [_logs], the map of the binary path, and not [_logsJson], the map the
    entry was appended to and that [saveFiles] writes: the twenty-three
    earlier entries stay in memory and are written to the new segment
    [logs_1.json] together with the new one.  In binary mode the capture
    that passes the threshold leaves the new entry alone in the map and in
    the new segment. *)
Theorem C1_text_rotation_keeps_earlier_entries :
  let text :=
    FileReader.saveJson (P := Sample.platform) Sample.request (Sample.uuid_of 23) 23
      (FileReader.constructor, Sample.after_text 23) in
  let binary :=
    FileReader.save (P := Sample.platform) Sample.request (Sample.uuid_of 20) 20
      (FileReader.constructor, Sample.after_binary 20) in
  ((f_size <$> disk_file (Sample.after_text 23) "logs_0.json") = Some 4953
   /\ FileReader._currLogSize (fst (snd text)) = 165
   /\ FileReader.threshold < 4953 + 165
   /\ fst text = Return tt
   /\ FileReader._currLogFile (fst (snd text)) = "logs_1.json"
   /\ length (segment_ids (FileReader._logsJson (fst (snd text)))) = 24%nat
   /\ last (segment_ids (FileReader._logsJson (fst (snd text)))) = Some (Sample.uuid_of 23)
   /\ segment_ids (FileReader._logs (fst (snd text))) = []
   /\ (length <$> (disk_file (snd (snd text)) "logs_1.json" ≫= file_segment_ids))
      = Some 24%nat)
  /\
  ((f_size <$> disk_file (Sample.after_binary 20) "logs_0.json") = Some 4788
   /\ FileReader._currLogSize (fst (snd binary)) = 221
   /\ FileReader.threshold < 4788 + 221
   /\ fst binary = Return tt
   /\ FileReader._currLogFile (fst (snd binary)) = "logs_1.json"
   /\ segment_ids (FileReader._logs (fst (snd binary))) = [Sample.uuid_of 20]
   /\ (disk_file (snd (snd binary)) "logs_1.json" ≫= file_segment_ids)
      = Some [Sample.uuid_of 20]).
Proof.
  vm_compute. repeat split.
Qed.

(** ** Bootstrap *)

(** C7 (the code departs from the claim).  With no storage directory and no
    way to make one, every bootstrap file is absent and cannot be created.
    A capture raises [CannotCreateFile] for [index.json], and so does a
    retrieval of a named segment; a retrieval without a name lists the
    directory before the bootstrap step runs and the listing's own
    [ENOENT] error reaches the caller instead.  The same listing error is
    raised when the directory is absent but could be created. *)
Theorem C7_retrieve_lists_before_bootstrap :
  let w := Sample.world Sample.no_directory Sample.config in
  let creatable := Sample.world (Fsys None true (fun _ => false)) Sample.config in
  fst (FileReader.read None (FileReader.constructor, w)) = Throw (SystemError "ENOENT")
  /\ fst (FileReader.read (Some "logs_0.json") (FileReader.constructor, w))
     = Throw (CannotCreateFile "index.json")
  /\ fst (FileReader.save (P := Sample.platform) Sample.request Sample.uuid1 17
            (FileReader.constructor, w))
     = Throw (CannotCreateFile "index.json")
  /\ fst (FileReader.read None (FileReader.constructor, creatable))
     = Throw (SystemError "ENOENT")
  /\ fst (FileReader.save (P := Sample.platform) Sample.request Sample.uuid1 17
            (FileReader.constructor, creatable))
     = Return tt.
Proof.
  cbv zeta. repeat split; vm_compute; reflexivity.
Qed.

Lemma writeFileSync_cases name body w :
  (exists f d, body = Some f /\ fs_dir (disk w) = Some d
     /\ fs_deny (disk w) name = false
     /\ fs.writeFileSync name body w
        = (Return tt,
           fs.set_disk (Fsys (Some (<[name := f]> d)) (fs_mkdir (disk w))
                          (fs_deny (disk w))) w))
  \/ (exists e, fs.writeFileSync name body w = (Throw e, w)
        /\ (body = None \/ fs_dir (disk w) = None \/ fs_deny (disk w) name = true)).
Proof.
  unfold fs.writeFileSync. destruct body as [f|]; [|right; eauto].
  destruct (fs_dir (disk w)) as [d|] eqn:Hd; [|right; eauto].
  destruct (fs_deny (disk w) name) eqn:Hp; [right; eauto|].
  left. exists f, d. auto.
Qed.

Lemma existsSync_disk_file name w :
  fs.existsSync name w = (Return (bool_decide (is_Some (disk_file w name))), w).
Proof.
  unfold fs.existsSync, gets, disk_file.
  destruct (fs_dir (disk w)); reflexivity.
Qed.

(** [validateFile] on a file that exists does nothing; on one that is absent
    it writes the default body, and raises [CannotCreateFile] with the
    target's name exactly when that write fails. *)
Lemma FileReader_validateFile_eq target body r w :
  FileReader.validateFile target body (r, w) =
  match disk_file w target with
  | Some _ => (Return tt, (r, w))
  | None =>
      match fs.writeFileSync target body w with
      | (Return _, w') => (Return tt, (r, w'))
      | (Throw e, w') =>
          (Throw (CannotCreateFile target),
           (r, with_console (console w' ++ cannot_create target e)%list w'))
      end
  end.
Proof.
  unfold FileReader.validateFile, try_catch, bind, liftW. cbn [fst snd].
  rewrite existsSync_disk_file.
  destruct (disk_file w target) as [f|] eqn:Hf.
  - rewrite bool_decide_eq_true_2 by eauto. reflexivity.
  - rewrite bool_decide_eq_false_2 by (intros [? [=]]). simpl.
    destruct (fs.writeFileSync target body w) as [[[]|e] w']; reflexivity.
Qed.

Lemma FileWriter_validateFile_eq target body t w :
  FileWriter.validateFile target body (t, w) =
  match disk_file w target with
  | Some _ => (Return tt, (t, w))
  | None =>
      match fs.writeFileSync target body w with
      | (Return _, w') => (Return tt, (t, w'))
      | (Throw e, w') =>
          (Throw (CannotCreateFile target),
           (t, with_console (console w' ++ cannot_create target e)%list w'))
      end
  end.
Proof.
  unfold FileWriter.validateFile, try_catch, bind, liftW. cbn [fst snd].
  rewrite existsSync_disk_file.
  destruct (disk_file w target) as [f|] eqn:Hf.
  - rewrite bool_decide_eq_true_2 by eauto. reflexivity.
  - rewrite bool_decide_eq_false_2 by (intros [? [=]]). simpl.
    destruct (fs.writeFileSync target body w) as [[[]|e] w']; reflexivity.
Qed.

(** The bootstrap check in words: no error when the file exists or is
    created, [CannotCreateFile target] when it is absent and the write
    fails; files that exist are never rewritten. *)
Lemma FileReader_validateFile_outcome target f0 r w :
  let res := FileReader.validateFile target (Some f0) (r, w) in
  fst (snd res) = r
  /\ (forall n f, disk_file w n = Some f -> disk_file (snd (snd res)) n = Some f)
  /\ ((fst res = Return tt /\ is_Some (disk_file (snd (snd res)) target))
      \/ (fst res = Throw (CannotCreateFile target)
          /\ disk_file w target = None
          /\ (fs_dir (disk w) = None \/ fs_deny (disk w) target = true))).
Proof.
  cbv zeta. rewrite FileReader_validateFile_eq.
  destruct (disk_file w target) as [f|] eqn:Hf.
  - simpl. rewrite Hf. split; [reflexivity|]. split; [auto|]. left. eauto.
  - destruct (writeFileSync_cases target (Some f0) w)
      as [(f & d & Hb & Hd & Hp & ->)|(e & -> & Hc)].
    + simpl. split; [reflexivity|]. unfold disk_file in *. simpl.
      rewrite Hd in *. split.
      * intros n f' Hn. destruct (decide (target = n)) as [->|Hne].
        -- congruence.
        -- rewrite lookup_insert_ne by exact Hne. exact Hn.
      * left. split; [reflexivity|]. rewrite lookup_insert_eq. eauto.
    + simpl. split; [reflexivity|]. split; [auto|]. right.
      split; [reflexivity|]. split; [reflexivity|].
      destruct Hc as [[=]|[?|?]]; auto.
Qed.

(** ** Retrieval *)

Section Retrieval.
Variable name : string.
Variable f : file.










End Retrieval.

Lemma fetchCurrentLogFile_disk fileName :
  preserves disk_of (FileReader.fetchCurrentLogFile fileName).
Proof.
  unfold FileReader.fetchCurrentLogFile, FileReader.set_currLogFile. frame.
Qed.





(** ** The capture pipeline *)

Section FileReaderPipeline.
Context `{P : Platform}.

Ltac reader_unfold :=
  unfold FileReader.pre, FileReader.initDirectories, FileReader.validateFile,
    FileReader.fetchCurrentLogFile, FileReader.prepareLogfile,
    FileReader.prepareLogJsonFile, FileReader.prepareIndexFile,
    FileReader.prepareConfigFile, FileReader.prepareConfig,
    FileReader.prepareLog, FileReader.prepareJsonLog, FileReader.obfuscate,
    FileReader.index_entry, FileReader.checkFileSize, FileReader.incrementLogFile,
    FileReader.cleanLogs, FileReader.saveFiles, entry_of_request, logBody_of,
    FileReader.set_logs, FileReader.set_logsJson, FileReader.set_index,
    FileReader.set_config, FileReader.set_currLogSize,
    FileReader.set_currLogFile, FileReader.this.

(** No method changes [State.config]. *)
Lemma prepareLog_config req uuid now :
  preserves config_of (FileReader.prepareLog req uuid now).
Proof. reader_unfold. frame. Qed.

Lemma prepareJsonLog_config req uuid now :
  preserves config_of (FileReader.prepareJsonLog req uuid now).
Proof. reader_unfold. frame. Qed.

Lemma prepareConfig_config : preserves config_of FileReader.prepareConfig.
Proof. reader_unfold. frame. Qed.

Lemma checkFileSize_config n : preserves config_of (FileReader.checkFileSize n).
Proof. reader_unfold. frame. Qed.

Lemma saveFiles_config : preserves config_of FileReader.saveFiles.
Proof. reader_unfold. frame. Qed.

(** No method changes which names the file system refuses to write. *)
Lemma pre_deny : preserves deny_of FileReader.pre.
Proof. reader_unfold. frame. Qed.

Lemma fetchCurrentLogFile_deny o : preserves deny_of (FileReader.fetchCurrentLogFile o).
Proof. reader_unfold. frame. Qed.

Lemma prepareLogfile_deny : preserves deny_of FileReader.prepareLogfile.
Proof. reader_unfold. frame. Qed.

Lemma prepareLogJsonFile_deny : preserves deny_of FileReader.prepareLogJsonFile.
Proof. reader_unfold. frame. Qed.

Lemma prepareIndexFile_deny : preserves deny_of FileReader.prepareIndexFile.
Proof. reader_unfold. frame. Qed.

Lemma prepareConfigFile_deny : preserves deny_of FileReader.prepareConfigFile.
Proof. reader_unfold. frame. Qed.

Lemma prepareLog_deny req uuid now :
  preserves deny_of (FileReader.prepareLog req uuid now).
Proof. reader_unfold. frame. Qed.

Lemma prepareJsonLog_deny req uuid now :
  preserves deny_of (FileReader.prepareJsonLog req uuid now).
Proof. reader_unfold. frame. Qed.

Lemma prepareConfig_deny : preserves deny_of FileReader.prepareConfig.
Proof. reader_unfold. frame. Qed.

Lemma checkFileSize_deny n : preserves deny_of (FileReader.checkFileSize n).
Proof. reader_unfold. frame. Qed.

(** The steps after the bootstrap leave the disk as it is, up to the final
    [saveFiles]. *)
Lemma prepareLogfile_disk : preserves disk_of FileReader.prepareLogfile.
Proof. reader_unfold. frame. Qed.

Lemma prepareLogJsonFile_disk : preserves disk_of FileReader.prepareLogJsonFile.
Proof. reader_unfold. frame. Qed.

Lemma prepareIndexFile_disk : preserves disk_of FileReader.prepareIndexFile.
Proof. reader_unfold. frame. Qed.

Lemma prepareConfigFile_disk : preserves disk_of FileReader.prepareConfigFile.
Proof. reader_unfold. frame. Qed.

Lemma prepareLog_disk req uuid now :
  preserves disk_of (FileReader.prepareLog req uuid now).
Proof. reader_unfold. frame. Qed.

Lemma prepareJsonLog_disk req uuid now :
  preserves disk_of (FileReader.prepareJsonLog req uuid now).
Proof. reader_unfold. frame. Qed.

Lemma prepareConfig_disk : preserves disk_of FileReader.prepareConfig.
Proof. reader_unfold. frame. Qed.

Lemma checkFileSize_disk n : preserves disk_of (FileReader.checkFileSize n).
Proof. reader_unfold. frame. Qed.

End FileReaderPipeline.

Section FileReaderSteps.
Context `{P : Platform}.

(** A capture that returns went through each of its nine steps. *)
Lemma FileReader_save_steps req uuid now s s' :
  FileReader.save req uuid now s = (Return tt, s') ->
  exists s1 s2 s3 s4 s5 s6 s7 s8,
    FileReader.pre s = (Return tt, s1)
    /\ FileReader.fetchCurrentLogFile None s1 = (Return tt, s2)
    /\ FileReader.prepareLogfile s2 = (Return tt, s3)
    /\ FileReader.prepareIndexFile s3 = (Return tt, s4)
    /\ FileReader.prepareConfigFile s4 = (Return tt, s5)
    /\ FileReader.prepareLog req uuid now s5 = (Return tt, s6)
    /\ FileReader.prepareConfig s6 = (Return tt, s7)
    /\ FileReader.checkFileSize (FileReader._currLogFile (fst s7)) s7 = (Return tt, s8)
    /\ FileReader.saveFiles s8 = (Return tt, s').
Proof.
  unfold FileReader.save. intros E.
  apply bind_Return in E as ([] & s1 & H1 & E).
  apply bind_Return in E as ([] & s2 & H2 & E).
  apply bind_Return in E as ([] & s3 & H3 & E).
  apply bind_Return in E as ([] & s4 & H4 & E).
  apply bind_Return in E as ([] & s5 & H5 & E).
  apply bind_Return in E as ([] & s6 & H6 & E).
  apply bind_Return in E as ([] & s7 & H7 & E).
  apply bind_Return in E as (self & s7' & Hthis & E).
  unfold FileReader.this, gets in Hthis. injection Hthis as <- <-.
  apply bind_Return in E as ([] & s8 & H8 & E).
  exists s1, s2, s3, s4, s5, s6, s7, s8. auto 10.
Qed.

Lemma FileReader_saveJson_steps req uuid now s s' :
  FileReader.saveJson req uuid now s = (Return tt, s') ->
  exists s1 s2 s3 s4 s5 s6 s7 s8,
    FileReader.pre s = (Return tt, s1)
    /\ FileReader.fetchCurrentLogFile None s1 = (Return tt, s2)
    /\ FileReader.prepareLogJsonFile s2 = (Return tt, s3)
    /\ FileReader.prepareIndexFile s3 = (Return tt, s4)
    /\ FileReader.prepareConfigFile s4 = (Return tt, s5)
    /\ FileReader.prepareJsonLog req uuid now s5 = (Return tt, s6)
    /\ FileReader.prepareConfig s6 = (Return tt, s7)
    /\ FileReader.checkFileSize (FileReader._currLogFile (fst s7)) s7 = (Return tt, s8)
    /\ FileReader.saveFiles s8 = (Return tt, s').
Proof.
  unfold FileReader.saveJson. intros E.
  apply bind_Return in E as ([] & s1 & H1 & E).
  apply bind_Return in E as ([] & s2 & H2 & E).
  apply bind_Return in E as ([] & s3 & H3 & E).
  apply bind_Return in E as ([] & s4 & H4 & E).
  apply bind_Return in E as ([] & s5 & H5 & E).
  apply bind_Return in E as ([] & s6 & H6 & E).
  apply bind_Return in E as ([] & s7 & H7 & E).
  apply bind_Return in E as (self & s7' & Hthis & E).
  unfold FileReader.this, gets in Hthis. injection Hthis as <- <-.
  apply bind_Return in E as ([] & s8 & H8 & E).
  exists s1, s2, s3, s4, s5, s6, s7, s8. auto 10.
Qed.

End FileReaderSteps.

(** A frame fact read off one executed step. *)
Lemma preserved_by {S A X} (obs : S -> X) (m : M S A) s o s' :
  preserves obs m -> m s = (o, s') -> obs s' = obs s.
Proof. intros Hp E. specialize (Hp s). rewrite E in Hp. exact Hp. Qed.

Lemma set_prop_get v k x c :
  Js.set_prop v k x = Some c -> Js.get_prop c k = Some x /\ c <> VUndef.
Proof.
  destruct v; simpl; intros [= <-]; simpl; rewrite lookup_assign_eq; auto.
Qed.

Lemma pretty_file_defined v : v <> VUndef -> is_Some (pretty_file v).
Proof.
  intros Hv. unfold pretty_file, JSON.pretty.
  destruct v; simpl; try congruence; eauto;
    match goal with |- context [match ?x with _ => _ end] => destruct x end;
    simpl; eauto.
Qed.

(** ** Normal forms of the methods of [FileReader] *)

Lemma with_console_id w : with_console (console w) w = w.
Proof. destruct w; reflexivity. Qed.

Lemma FileReader_prepareConfig_eq r w :
  FileReader.prepareConfig (r, w) =
  match Js.set_prop (FileReader._config r) "disableProto"
          (opt_bool (IConfig.disableProto (State_config w))) with
  | Some c => (Return tt, (with_config c r, w))
  | None => (Throw TypeError, (r, w))
  end.
Proof.
  unfold FileReader.prepareConfig, bind, liftW, gets, FileReader.this,
    or_TypeError, FileReader.set_config, modify. simpl.
  destruct (Js.set_prop _ _ _); reflexivity.
Qed.

Lemma FileReader_cleanLogs_eq r w :
  FileReader.cleanLogs (r, w) =
  match Js.get_prop (FileReader._logs r) "logs" with
  | None => (Throw TypeError, (r, w))
  | Some ls =>
      match Js.entries ls with
      | None => (Throw TypeError, (r, w))
      | Some es =>
          match Js.set_prop (FileReader._logs r) "logs"
                  (VObj (Js.spread [] (Js.fromEntries (Js.slice_last es)))) with
          | None => (Throw TypeError, (r, w))
          | Some logs' => (Return tt, (with_logs logs' r, w))
          end
      end
  end.
Proof.
  unfold FileReader.cleanLogs, bind, FileReader.this, gets, or_TypeError,
    FileReader.set_logs, modify. simpl.
  destruct (Js.get_prop (FileReader._logs r) "logs") as [ls|]; [|reflexivity]. simpl.
  destruct (Js.entries ls) as [es|]; [|reflexivity]. simpl.
  destruct (Js.set_prop _ _ _); reflexivity.
Qed.

Lemma FileReader_incrementLogFile_eq logName r w :
  FileReader.incrementLogFile logName (r, w) =
  match JsString.match_digits logName with
  | None => (Throw TypeError, (r, with_console (console w ++ [malformed_name])%list w))
  | Some (p, d, t) =>
      (Return tt,
       (with_currLogFile
          (p ++ JsString.toString (JsNumber.add (JsString.parseInt d) 1) ++ t) r, w))
  end.
Proof.
  unfold FileReader.incrementLogFile, JsString.replace_digits.
  destruct (JsString.match_digits logName) as [[[p d] t]|]; reflexivity.
Qed.

Lemma FileReader_checkFileSize_eq logName r w :
  FileReader.checkFileSize logName (r, w) =
  match disk_file w logName with
  | None => (Throw (SystemError "ENOENT"), (r, w))
  | Some f =>
      if FileReader.threshold <? f_size f + FileReader._currLogSize r
      then match JsString.match_digits logName with
           | None =>
               (Throw TypeError,
                (r, with_console (console w ++ [malformed_name])%list w))
           | Some (p, d, t) =>
               FileReader.cleanLogs
                 (with_currLogFile
                    (p ++ JsString.toString (JsNumber.add (JsString.parseInt d) 1) ++ t) r, w)
           end
      else (Return tt, (r, w))
  end.
Proof.
  unfold FileReader.checkFileSize.
  unfold bind at 1, liftW, fs.statSync_size, bind at 1, fs.readFileSync, disk_file.
  cbn [fst snd].
  destruct (fs_dir (disk w)) as [dir|]; [|reflexivity].
  destruct (dir !! logName) as [f|]; [|reflexivity].
  cbn [ret]. unfold bind at 1, FileReader.this, gets. cbn [fst snd].
  destruct (FileReader.threshold <? f_size f + FileReader._currLogSize r); [|reflexivity].
  unfold bind. rewrite FileReader_incrementLogFile_eq.
  destruct (JsString.match_digits logName) as [[[p d] t]|]; reflexivity.
Qed.

(** A rotation check that returns left the world alone; the instance is
    either untouched or renamed and compacted. *)
Lemma FileReader_checkFileSize_Return logName r w r' w' :
  FileReader.checkFileSize logName (r, w) = (Return tt, (r', w')) ->
  w' = w /\ is_Some (disk_file w logName)
  /\ (r' = r
      \/ exists p d t ls es logs',
           JsString.match_digits logName = Some (p, d, t)
           /\ Js.get_prop (FileReader._logs r) "logs" = Some ls
           /\ Js.entries ls = Some es
           /\ Js.set_prop (FileReader._logs r) "logs"
                (VObj (Js.spread [] (Js.fromEntries (Js.slice_last es)))) = Some logs'
           /\ r' = with_logs logs'
                     (with_currLogFile
                        (p ++ JsString.toString (JsNumber.add (JsString.parseInt d) 1) ++ t) r)).
Proof.
  rewrite FileReader_checkFileSize_eq.
  destruct (disk_file w logName) as [f|]; [|discriminate].
  destruct (_ <? _).
  - destruct (JsString.match_digits logName) as [[[p d] t]|]; [|discriminate].
    rewrite FileReader_cleanLogs_eq. cbn [FileReader._logs with_currLogFile].
    destruct (Js.get_prop (FileReader._logs r) "logs") as [ls|] eqn:Hls; [|discriminate].
    destruct (Js.entries ls) as [es|] eqn:Hes; [|discriminate].
    destruct (Js.set_prop _ _ _) as [logs'|] eqn:Hset; [|discriminate].
    intros [= <- <-]. split; [reflexivity|]. split; [eauto|].
    right. exists p, d, t, ls, es, logs'. auto 10.
  - intros [= <- <-]. eauto.
Qed.

Lemma FileReader_saveFiles_eq r w d seg idx cfg :
  fs_dir (disk w) = Some d ->
  fs_deny (disk w) (FileReader._currLogFile r) = false ->
  fs_deny (disk w) "index.json" = false ->
  fs_deny (disk w) "config.json" = false ->
  pretty_file (if text_flag (State_config w)
               then FileReader._logsJson r else FileReader._logs r) = Some seg ->
  pretty_file (FileReader._index r) = Some idx ->
  pretty_file (FileReader._config r) = Some cfg ->
  FileReader.saveFiles (r, w)
  = (Return tt,
     (r, fs.set_disk (saved_disk d (FileReader._currLogFile r) seg idx cfg (disk w)) w)).
Proof.
  intros Hd Hp1 Hp2 Hp3 Hseg Hidx Hcfg.
  unfold FileReader.saveFiles, FileReader.this, try_catch, bind, liftW, gets,
    fs.writeFileSync, saved_disk.
  cbn [fst snd].
  unfold text_flag in *; destruct (Js.truthy (opt_bool (IConfig.disableProto (State_config w))));
    cbn [fst snd];
    rewrite Hseg, Hd, Hp1;
    cbn [fst snd disk fs_dir fs_deny fs_mkdir fs.set_disk];
    rewrite Hidx, Hp2;
    cbn [fst snd disk fs_dir fs_deny fs_mkdir fs.set_disk];
    rewrite Hcfg, Hp3; reflexivity.
Qed.

Section FileReaderInstance.
Context `{P : Platform}.

(** The head of [prepareLog] works on the caller heap alone. *)
Lemma entry_of_request_instance {T} req now :
  preserves (@instance_of T) (entry_of_request req now).
Proof. unfold entry_of_request. frame. Qed.

Lemma logBody_of_instance {T} e : preserves (@instance_of T) (logBody_of e).
Proof. unfold logBody_of. frame. Qed.

Lemma FileReader_obfuscate_instance e : preserves instance_of (FileReader.obfuscate e).
Proof. unfold FileReader.obfuscate. frame. Qed.

(** What a [prepareLog] that returns has done to the instance: the entry is
    appended to the [logs] member of [_logs] and its id is recorded in the
    [indexes] member of [_index]; the other fields but the size are kept. *)
Lemma FileReader_prepareLog_Return req uuid now r w r' w' :
  FileReader.prepareLog req uuid now (r, w) = (Return tt, (r', w')) ->
  exists old enc ixs ixs',
    Js.get_prop (FileReader._logs r) "logs" = Some old
    /\ Js.set_prop (FileReader._logs r) "logs"
         (VObj (Js.spread (Js.spread [] (Js.own_props old)) [(uuid, enc)]))
       = Some (FileReader._logs r')
    /\ Js.get_prop (FileReader._index r) "indexes" = Some ixs
    /\ Js.set_prop ixs uuid
         (VStr (path_resolve (IConfig.path (State_config w')) "index.json")) = Some ixs'
    /\ Js.set_prop (FileReader._index r) "indexes" ixs' = Some (FileReader._index r')
    /\ FileReader._logsJson r' = FileReader._logsJson r
    /\ FileReader._config r' = FileReader._config r
    /\ FileReader._currLogFile r' = FileReader._currLogFile r.
Proof.
  unfold FileReader.prepareLog. intros E.
  apply bind_Return in E as (e & s1 & H1 & E).
  apply (preserved_by instance_of) in H1; [|apply entry_of_request_instance].
  apply bind_Return in E as ([] & s2 & H2 & E).
  apply (preserved_by instance_of) in H2; [|apply FileReader_obfuscate_instance].
  apply bind_Return in E as (v & s3 & H3 & E).
  apply (preserved_by instance_of) in H3; [|apply logBody_of_instance].
  destruct s1 as [r1 w1], s2 as [r2 w2], s3 as [r3 w3].
  unfold instance_of in *. simpl in *. subst r1 r2 r3.
  unfold FileReader.index_entry, bind, or_TypeError, FileReader.set_currLogSize,
    FileReader.set_logs, FileReader.set_index, FileReader.this, liftW, gets, modify,
    ret, throw in E.
  simpl in E.
  destruct (Js.get_prop (FileReader._logs r) "logs") as [old|] eqn:Hold;
    simpl in E; try discriminate E;
  destruct (Js.set_prop (FileReader._logs r) "logs" _) as [logs'|] eqn:Hlogs;
    simpl in E; try discriminate E;
  destruct (Js.get_prop (FileReader._index r) "indexes") as [ixs|] eqn:Hixs;
    simpl in E; try discriminate E;
  destruct (Js.set_prop ixs uuid _) as [ixs'|] eqn:Hixs';
    simpl in E; try discriminate E;
  destruct (Js.set_prop (FileReader._index r) "indexes" ixs') as [idx'|] eqn:Hidx;
    simpl in E; try discriminate E;
  injection E as <- <-; simpl;
  exists old, (encodeLog v), ixs, ixs'; auto 10.
Qed.

End FileReaderInstance.

Section FileReaderFields.
Context `{P : Platform}.

Ltac reader_unfold :=
  unfold FileReader.pre, FileReader.initDirectories, FileReader.validateFile,
    FileReader.fetchCurrentLogFile, FileReader.prepareLogfile,
    FileReader.prepareLogJsonFile, FileReader.prepareIndexFile,
    FileReader.prepareConfigFile, FileReader.prepareConfig,
    FileReader.prepareLog, FileReader.prepareJsonLog, FileReader.obfuscate,
    FileReader.index_entry, FileReader.checkFileSize, FileReader.incrementLogFile,
    FileReader.cleanLogs, FileReader.saveFiles, entry_of_request, logBody_of,
    FileReader.set_logs, FileReader.set_logsJson, FileReader.set_index,
    FileReader.set_config, FileReader.set_currLogSize,
    FileReader.set_currLogFile, FileReader.this.

(** The binary path never touches the map of the text path. *)
Lemma pre_logsJson :
  preserves (fun s => FileReader._logsJson (fst s)) FileReader.pre.
Proof. reader_unfold. frame. Qed.

Lemma fetchCurrentLogFile_logsJson o :
  preserves (fun s => FileReader._logsJson (fst s)) (FileReader.fetchCurrentLogFile o).
Proof. reader_unfold. frame. Qed.

Lemma prepareLogfile_logsJson :
  preserves (fun s => FileReader._logsJson (fst s)) FileReader.prepareLogfile.
Proof. reader_unfold. frame. Qed.

Lemma prepareIndexFile_logsJson :
  preserves (fun s => FileReader._logsJson (fst s)) FileReader.prepareIndexFile.
Proof. reader_unfold. frame. Qed.

Lemma prepareConfigFile_logsJson :
  preserves (fun s => FileReader._logsJson (fst s)) FileReader.prepareConfigFile.
Proof. reader_unfold. frame. Qed.

Lemma prepareLog_logsJson req uuid now :
  preserves (fun s => FileReader._logsJson (fst s)) (FileReader.prepareLog req uuid now).
Proof. reader_unfold. frame. Qed.

Lemma prepareConfig_logsJson :
  preserves (fun s => FileReader._logsJson (fst s)) FileReader.prepareConfig.
Proof. reader_unfold. frame. Qed.

Lemma checkFileSize_logsJson n :
  preserves (fun s => FileReader._logsJson (fst s)) (FileReader.checkFileSize n).
Proof. reader_unfold. frame. Qed.

(** The rotation check leaves the index and the snapshot alone. *)
Lemma checkFileSize_index n :
  preserves (fun s => FileReader._index (fst s)) (FileReader.checkFileSize n).
Proof. reader_unfold. frame. Qed.

Lemma checkFileSize_config_field n :
  preserves (fun s => FileReader._config (fst s)) (FileReader.checkFileSize n).
Proof. reader_unfold. frame. Qed.

Lemma prepareConfig_logs :
  preserves (fun s => FileReader._logs (fst s)) FileReader.prepareConfig.
Proof. reader_unfold. frame. Qed.

Lemma prepareConfig_index :
  preserves (fun s => FileReader._index (fst s)) FileReader.prepareConfig.
Proof. reader_unfold. frame. Qed.

Lemma prepareConfig_currLogFile :
  preserves (fun s => FileReader._currLogFile (fst s)) FileReader.prepareConfig.
Proof. reader_unfold. frame. Qed.

Lemma saveFiles_instance : preserves instance_of FileReader.saveFiles.
Proof. reader_unfold. frame. Qed.

End FileReaderFields.

Section WholeCapture.
Context `{P : Platform}.

Ltac save_unfold :=
  unfold FileReader.save, FileReader.saveJson,
    FileReader.pre, FileReader.initDirectories, FileReader.validateFile,
    FileReader.fetchCurrentLogFile, FileReader.prepareLogfile,
    FileReader.prepareLogJsonFile, FileReader.prepareIndexFile,
    FileReader.prepareConfigFile, FileReader.prepareConfig,
    FileReader.prepareLog, FileReader.prepareJsonLog, FileReader.obfuscate,
    FileReader.index_entry, FileReader.checkFileSize, FileReader.incrementLogFile,
    FileReader.cleanLogs, FileReader.saveFiles, entry_of_request, logBody_of,
    FileReader.set_logs, FileReader.set_logsJson, FileReader.set_index,
    FileReader.set_config, FileReader.set_currLogSize,
    FileReader.set_currLogFile, FileReader.this.

Lemma save_config req uuid now : preserves config_of (FileReader.save req uuid now).
Proof. save_unfold. frame. Qed.

Lemma save_deny req uuid now : preserves deny_of (FileReader.save req uuid now).
Proof. save_unfold. frame. Qed.

Lemma save_logsJson req uuid now :
  preserves (fun s => FileReader._logsJson (fst s)) (FileReader.save req uuid now).
Proof. save_unfold. frame. Qed.

Lemma saveFiles_deny : preserves deny_of FileReader.saveFiles.
Proof. save_unfold. frame. Qed.

End WholeCapture.

(** ** The two classes side by side *)

Lemma entry_of_request_uniform `{P : Platform} req now w :
  exists e w1, forall T (t : T),
    entry_of_request req now (t, w) = (Return e, (t, w1)).
Proof.
  unfold entry_of_request, bind, liftW, Heap.alloc, Heap.read, Heap.write,
    gets, modify, ret. simpl.
  destruct (IConfig.body (State_config w)), (Request.body req) as [l|],
    (IConfig.queryParams (State_config w)), (IConfig.headers (State_config w));
    simpl; eexists _, _; intros T t; reflexivity.
Qed.

Lemma logBody_of_uniform `{P : Platform} e w :
  exists v, forall T (t : T), logBody_of e (t, w) = (Return v, (t, w)).
Proof.
  unfold logBody_of, bind, liftW, Heap.read, gets, ret. simpl.
  eexists. intros T t. reflexivity.
Qed.

Lemma prepareLog_view `{P : Platform} req uuid now r w :
  FileWriter.prepareLog req uuid now (writer_view r, w)
  = view (FileReader.prepareLog req uuid now (r, w)).
Proof.
  unfold FileWriter.prepareLog, FileReader.prepareLog.
  destruct (entry_of_request_uniform req now w) as (e & w1 & He).
  rewrite (bind_of_Return _ _ _ _ _ (He _ (writer_view r))).
  rewrite (bind_of_Return _ _ _ _ _ (He _ r)).
  rewrite (bind_of_Return _ _ _ _ _ (FileWriter_obfuscate_spec e (writer_view r) w1)).
  rewrite (bind_of_Return _ _ _ _ _ (FileReader_obfuscate_spec e r w1)).
  match goal with |- context [with_heap ?h w1] => set (w2 := with_heap h w1) end.
  destruct (logBody_of_uniform e w2) as (v & Hv).
  rewrite (bind_of_Return _ _ _ _ _ (Hv _ (writer_view r))).
  rewrite (bind_of_Return _ _ _ _ _ (Hv _ r)).
  unfold FileReader.index_entry, bind, or_TypeError, FileReader.set_currLogSize,
    FileReader.set_logs, FileReader.set_index, FileReader.this,
    FileWriter.set_currLogSize, FileWriter.set_logs, FileWriter.set_index,
    FileWriter.this, liftW, gets, modify, ret, throw, view, writer_view.
  simpl.
  destruct (Js.get_prop (FileReader._logs r) "logs") as [old|]; simpl; [|reflexivity].
  destruct (Js.set_prop (FileReader._logs r) "logs" _) as [logs'|]; simpl; [|reflexivity].
  destruct (Js.get_prop (FileReader._index r) "indexes") as [ixs|]; simpl; [|reflexivity].
  destruct (Js.set_prop ixs uuid _) as [ixs'|]; simpl; [|reflexivity].
  destruct (Js.set_prop (FileReader._index r) "indexes" ixs'); reflexivity.
Qed.

Lemma FileWriter_cleanLogs_view r w :
  FileWriter.cleanLogs (writer_view r, w) = view (FileReader.cleanLogs (r, w)).
Proof.
  unfold FileWriter.cleanLogs, FileReader.cleanLogs, bind, FileWriter.this,
    FileReader.this, gets, or_TypeError, FileWriter.set_logs, FileReader.set_logs,
    modify, view, writer_view. simpl.
  destruct (Js.get_prop (FileReader._logs r) "logs") as [ls|]; [|reflexivity]. simpl.
  destruct (Js.entries ls) as [es|]; [|reflexivity]. simpl.
  destruct (Js.set_prop _ _ _); reflexivity.
Qed.

Lemma FileWriter_incrementLogFile_view n r w :
  FileWriter.incrementLogFile n (writer_view r, w)
  = view (FileReader.incrementLogFile n (r, w)).
Proof.
  unfold FileWriter.incrementLogFile, FileReader.incrementLogFile.
  destruct (JsString.match_digits n) as [[[p d] t]|]; reflexivity.
Qed.

(** The write-only rotation check, in the same normal form as the other. *)
Lemma FileWriter_checkFileSize_eq logName r w :
  FileWriter.checkFileSize logName (writer_view r, w) =
  match disk_file w logName with
  | None => (Throw (SystemError "ENOENT"), (writer_view r, w))
  | Some f =>
      if FileWriter.threshold <? combined_size r f
      then match JsString.match_digits logName with
           | None =>
               (Throw TypeError,
                (writer_view r, with_console (console w ++ [malformed_name])%list w))
           | Some (p, d, t) =>
               view (FileReader.cleanLogs
                       (with_currLogFile
                          (p ++ JsString.toString (JsNumber.add (JsString.parseInt d) 1) ++ t) r, w))
           end
      else (Return tt, (writer_view r, w))
  end.
Proof.
  unfold FileWriter.checkFileSize, combined_size.
  unfold bind at 1, liftW, fs.statSync_size, bind at 1, fs.readFileSync, disk_file.
  cbn [fst snd].
  destruct (fs_dir (disk w)) as [dir|]; [|reflexivity].
  destruct (dir !! logName) as [f|]; [|reflexivity].
  cbn [ret]. unfold bind at 1, FileWriter.this, gets. cbn [fst snd].
  change (FileWriter._currLogSize (writer_view r)) with (FileReader._currLogSize r).
  destruct (FileWriter.threshold <? f_size f + FileReader._currLogSize r); [|reflexivity].
  unfold bind. rewrite FileWriter_incrementLogFile_view, FileReader_incrementLogFile_eq.
  destruct (JsString.match_digits logName) as [[[p d] t]|]; [|reflexivity].
  unfold view at 1. cbn [fst snd].
  apply FileWriter_cleanLogs_view.
Qed.

Lemma saveFiles_view r w :
  text_flag (State_config w) = false ->
  fst (FileReader.saveFiles (r, w)) = Return tt
  /\ fst (FileWriter.saveFiles (writer_view r, w)) = Return tt
  /\ fst (snd (FileWriter.saveFiles (writer_view r, w)))
     = writer_view (fst (snd (FileReader.saveFiles (r, w))))
  /\ forall n, n <> "config.json" ->
       disk_file (snd (snd (FileReader.saveFiles (r, w)))) n
       = disk_file (snd (snd (FileWriter.saveFiles (writer_view r, w)))) n.
Proof.
  intros Hflag.
  unfold FileReader.saveFiles, FileWriter.saveFiles, FileReader.this, FileWriter.this,
    try_catch, bind, liftW, gets.
  cbn [fst snd]. unfold text_flag in Hflag. rewrite Hflag.
  cbn [fst snd writer_view FileWriter._currLogFile FileWriter._logs FileWriter._index].
  destruct (writeFileSync_cases (FileReader._currLogFile r)
              (pretty_file (FileReader._logs r)) w)
    as [(f1 & d1 & _ & Hd1 & _ & ->)|(e1 & -> & _)]; cbn [fst snd].
  - match goal with |- context [fs.writeFileSync "index.json" _ ?w1] =>
      destruct (writeFileSync_cases "index.json" (pretty_file (FileReader._index r)) w1)
        as [(f2 & d2 & _ & Hd2 & _ & ->)|(e2 & -> & _)]; cbn [fst snd]
    end.
    + match goal with |- context [fs.writeFileSync "config.json" _ ?w2] =>
        destruct (writeFileSync_cases "config.json" (pretty_file (FileReader._config r)) w2)
          as [(f3 & d3 & _ & Hd3 & _ & ->)|(e3 & -> & _)]; cbn [fst snd]
      end.
      * repeat split. intros n Hn. unfold disk_file. simpl in *.
        injection Hd3 as <-. rewrite lookup_insert_ne by congruence. reflexivity.
      * repeat split.
    + repeat split.
  - repeat split.
Qed.

(** ** Segment names *)

Lemma all_digits_uint d : all_digits (NilEmpty.string_of_uint d) = true.
Proof. induction d; simpl; auto. Qed.

Lemma span_digits_app s t :
  all_digits s = true ->
  match t with
  | String c _ => JsString.is_digit c = false
  | EmptyString => True
  end ->
  JsString.span_digits (s ++ t) = (s, t).
Proof.
  intros Hs Ht. induction s as [|c s IH]; simpl in *.
  - destruct t as [|c r]; [reflexivity|]. simpl. rewrite Ht. reflexivity.
  - apply andb_prop in Hs as [Hc Hs]. rewrite Hc, (IH Hs). reflexivity.
Qed.

(** Integers below [2^53] are their own Number, print as their digits and
    read back. *)
Lemma of_N_small n : n < 2 ^ 53 -> JsNumber.of_N n = n.
Proof.
  intros Hn. unfold JsNumber.of_N.
  assert (Hs : N.size n <= 53).
  { destruct (N.le_gt_cases (N.size n) 53) as [H|H]; [exact H|].
    exfalso. pose proof (N.size_le n) as Hle.
    assert (H54 : 2 ^ 54 <= 2 ^ N.size n) by (apply N.pow_le_mono_r; lia).
    assert (Hd : N.succ_double n < 2 ^ 54).
    { rewrite N.succ_double_spec. change (2 ^ 54) with (2 * 2 ^ 53). lia. }
    lia. }
  apply N.leb_le in Hs. rewrite Hs. reflexivity.
Qed.

Lemma below_Infinity n : n < 2 ^ 53 -> (JsNumber.Infinity <=? n) = false.
Proof.
  intros Hn. apply N.leb_gt. unfold JsNumber.Infinity.
  apply N.lt_trans with (2 ^ 53); [exact Hn|].
  apply N.pow_lt_mono_r; lia.
Qed.

Lemma add_small n : n + 1 < 2 ^ 53 -> JsNumber.add n 1 = n + 1.
Proof. intros Hn. unfold JsNumber.add. apply of_N_small, Hn. Qed.

Lemma toString_small n : n < 2 ^ 53 -> JsString.toString n = JsNumber.decimal n.
Proof.
  intros Hn. unfold JsString.toString, JsNumber.toString.
  rewrite (below_Infinity n Hn).
  apply N.ltb_lt in Hn. rewrite Hn. reflexivity.
Qed.

Lemma of_digits_decimal n : JsNumber.of_digits (JsNumber.decimal n) = n.
Proof.
  unfold JsNumber.of_digits, JsNumber.decimal.
  rewrite NilEmpty.usu. apply DecimalN.Unsigned.of_to.
Qed.

Lemma parseInt_decimal n : n < 2 ^ 53 -> JsString.parseInt (JsNumber.decimal n) = n.
Proof.
  intros Hn. unfold JsString.parseInt. rewrite of_digits_decimal.
  apply of_N_small, Hn.
Qed.

Lemma parseInt_toString n : n < 2 ^ 53 -> JsString.parseInt (JsString.toString n) = n.
Proof. intros Hn. rewrite (toString_small n Hn). apply parseInt_decimal, Hn. Qed.

Lemma decimal_nonempty n : JsNumber.decimal n <> EmptyString.
Proof.
  unfold JsNumber.decimal. destruct n as [|p]; [discriminate|].
  simpl. pose proof (DecimalPos.Unsigned.to_uint_nonnil p) as Hn.
  destruct (Pos.to_uint p); simpl; congruence.
Qed.

Lemma all_digits_decimal n : all_digits (JsNumber.decimal n) = true.
Proof. apply all_digits_uint. Qed.

Lemma match_digits_cons c s :
  JsString.is_digit c = false ->
  JsString.match_digits (String c s)
  = match JsString.match_digits s with
    | Some (p, d, t) => Some (String c p, d, t)
    | None => None
    end.
Proof. intros Hc. cbn [JsString.match_digits]. rewrite Hc. reflexivity. Qed.

Lemma match_digits_after_logs (d t : string) :
  d <> EmptyString -> all_digits d = true ->
  match t with
  | String c _ => JsString.is_digit c = false
  | EmptyString => True
  end ->
  JsString.match_digits ("logs_" ++ d ++ t) = Some ("logs_", d, t).
Proof.
  intros Hne Hd Ht.
  assert (Hm : JsString.match_digits (d ++ t) = Some (EmptyString, d, t)).
  { destruct d as [|c s]; [congruence|].
    assert (Hc : JsString.is_digit c = true).
    { simpl in Hd. apply andb_prop in Hd. tauto. }
    change (String c s ++ t) with (String c (s ++ t)).
    cbn [JsString.match_digits]. rewrite Hc.
    change (String c (s ++ t)) with (String c s ++ t).
    rewrite span_digits_app; [reflexivity | exact Hd | exact Ht]. }
  change ("logs_" ++ d ++ t)
    with (String "l" (String "o" (String "g" (String "s" (String "_" (d ++ t)))))).
  rewrite !match_digits_cons by reflexivity. rewrite Hm. reflexivity.
Qed.

Lemma segment_name_decimal n :
  n < 2 ^ 53 -> segment_name n = "logs_" ++ JsNumber.decimal n ++ ".json".
Proof. intros Hn. unfold segment_name. rewrite (toString_small n Hn). reflexivity. Qed.

Lemma match_digits_segment_name n :
  n < 2 ^ 53 ->
  JsString.match_digits (segment_name n)
  = Some ("logs_", JsString.toString n, ".json").
Proof.
  intros Hn. rewrite (segment_name_decimal n Hn), (toString_small n Hn).
  apply match_digits_after_logs;
    [apply decimal_nonempty | apply all_digits_decimal | reflexivity].
Qed.

Lemma includes_segment_name n : JsString.includes "logs" (segment_name n) = true.
Proof. reflexivity. Qed.

(** The name that rotation makes of the segment numbered [n]. *)
Lemma rotated_segment_name n :
  n + 1 < 2 ^ 53 ->
  JsString.replace_digits (segment_name n)
    (JsString.toString (JsNumber.add (JsString.parseInt (JsString.toString n)) 1))
  = segment_name (n + 1).
Proof.
  intros Hn. unfold JsString.replace_digits.
  rewrite match_digits_segment_name by lia.
  rewrite parseInt_toString by lia. rewrite add_small by exact Hn. reflexivity.
Qed.

Lemma rotated_segment_parts n p d t :
  n + 1 < 2 ^ 53 ->
  JsString.match_digits (segment_name n) = Some (p, d, t) ->
  p ++ JsString.toString (JsNumber.add (JsString.parseInt d) 1) ++ t
  = segment_name (n + 1).
Proof.
  intros Hn Hm. rewrite match_digits_segment_name in Hm by lia.
  injection Hm as <- <- <-.
  rewrite parseInt_toString by lia. rewrite add_small by exact Hn. reflexivity.
Qed.

(** [Math.max] of a non-empty list is one of its members and bounds them. *)
Lemma Math_max_bound ns n : n ∈ ns -> n <= Math_max ns.
Proof.
  unfold Math_max. induction 1; simpl; lia.
Qed.

Lemma Math_max_member ns : ns <> [] -> Math_max ns ∈ ns.
Proof.
  unfold Math_max. induction ns as [|n ns IH]; [congruence|]. intros _. simpl.
  destruct ns as [|m ns'].
  - simpl. rewrite N.max_0_r. left.
  - destruct (N.max_spec n (fold_right N.max 0 (m :: ns'))) as [[_ ->]|[_ ->]].
    + right. apply IH. discriminate.
    + left.
Qed.

Lemma logNumbers_member files n :
  n ∈ logNumbers files <->
  exists f p d t, f ∈ files /\ JsString.includes "logs" f = true
    /\ JsString.match_digits f = Some (p, d, t) /\ JsString.parseInt d = n.
Proof.
  unfold logNumbers. rewrite list_elem_of_omap. split.
  - intros (f & Hf & Hm). apply list_elem_of_filter in Hf as [Hinc Hf].
    destruct (JsString.match_digits f) as [[[p d] t]|] eqn:E; [|discriminate].
    injection Hm as <-. exists f, p, d, t.
    repeat split; auto. apply Is_true_true_1, Hinc.
  - intros (f & p & d & t & Hf & Hinc & Hm & <-). exists f. split.
    + apply list_elem_of_filter. split; [apply Is_true_true_2, Hinc | exact Hf].
    + rewrite Hm. reflexivity.
Qed.

(** In a directory whose entries containing [logs] are all segment names,
    the numbers found are the suffixes of the segments present. *)
Lemma logNumbers_only_segments d n :
  only_segments d ->
  n ∈ logNumbers (elements (dom d)) -> n < 2 ^ 53 /\ segment_name n ∈ dom d.
Proof.
  intros Hseg. rewrite logNumbers_member.
  intros (f & p & dg & t & Hf & Hinc & Hm & <-).
  apply elem_of_elements in Hf.
  destruct (Hseg f Hf Hinc) as (k & Hk & ->).
  rewrite (match_digits_segment_name k Hk) in Hm. injection Hm as <- <- <-.
  rewrite (parseInt_toString k Hk). auto.
Qed.

Lemma logNumbers_segment (d : gmap string file) n :
  n < 2 ^ 53 -> segment_name n ∈ dom d -> n ∈ logNumbers (elements (dom d)).
Proof.
  intros Hn Hin. apply logNumbers_member.
  exists (segment_name n), "logs_", (JsString.toString n), ".json".
  split; [apply elem_of_elements, Hin|].
  split; [apply includes_segment_name|].
  split; [apply match_digits_segment_name, Hn | apply parseInt_toString, Hn].
Qed.

(** ** Selection of the current segment *)

Lemma FileReader_fetchCurrentLogFile_None_eq r w d :
  fs_dir (disk w) = Some d ->
  FileReader.fetchCurrentLogFile None (r, w)
  = (Return tt,
     (match logNumbers (elements (dom d)) with
      | [] => r
      | n :: ns => with_currLogFile (segment_name (Math_max (n :: ns))) r
      end,
      with_console (console w ++ [no_target])%list w)).
Proof.
  intros Hd.
  unfold FileReader.fetchCurrentLogFile, bind, liftW, fs.readdirSync, Log.warn,
    Log.emit, modify. simpl. rewrite Hd.
  destruct (logNumbers (elements (dom d))); reflexivity.
Qed.

(** Where the selection does what is expected of it: in a directory whose
    entries containing [logs] are all segment names, the name chosen is that
    of a segment file of the directory, and no segment file has a greater
    number; when no number is found the current name is kept. *)
Lemma FileReader_fetchCurrentLogFile_segments
    (r : FileReader.t) (w : World) (d : gmap string file) :
  fs_dir (disk w) = Some d ->
  only_segments d ->
  let res := FileReader.fetchCurrentLogFile None (r, w) in
  let ns := logNumbers (elements (dom d)) in
  let chosen := FileReader._currLogFile (fst (snd res)) in
  fst res = Return tt
  /\ (ns = [] -> chosen = FileReader._currLogFile r)
  /\ (ns <> [] ->
      chosen = segment_name (Math_max ns)
      /\ chosen ∈ dom d
      /\ forall n, n < 2 ^ 53 -> segment_name n ∈ dom d -> n <= Math_max ns).
Proof.
  intros Hd Hseg. cbv zeta. rewrite (FileReader_fetchCurrentLogFile_None_eq r w d Hd).
  cbn [fst snd].
  set (ns := logNumbers (elements (dom d))).
  split; [reflexivity|]. split; [intros ->; reflexivity|].
  intros Hne.
  assert (Hchosen : FileReader._currLogFile
              match ns with
              | [] => r
              | n :: ns0 => with_currLogFile (segment_name (Math_max (n :: ns0))) r
              end = segment_name (Math_max ns)).
  { destruct ns; [congruence | reflexivity]. }
  rewrite Hchosen. split; [reflexivity|]. split.
  - apply (logNumbers_only_segments d _ Hseg). apply Math_max_member, Hne.
  - intros n Hn Hin. apply Math_max_bound. apply logNumbers_segment; assumption.
Qed.

(** C5 (the code departs from the claim).  The selection takes the first
    digit run of every directory entry whose name contains [logs], whatever
    the entry is, and builds the name [logs_<max>.json] from the greatest
    number read, without looking for a file of that name.  Next to
    [logs_3.json], an entry [logs_12.json.bak] makes it choose [logs_12.json]
    and an entry [logs_007.json] makes it choose [logs_7.json]; the segment
    [logs_9007199254740993.json] alone makes it choose
    [logs_9007199254740992.json].  None of the names chosen is a file of the
    directory, and the capture that follows raises [ENOENT] from the size
    check.  On the directory of the specification's example the selection
    is [logs_7.json], and an empty directory keeps [logs_0.json]. *)
Theorem C5_selection_names_a_file_that_is_absent :
  let chosen (store : fsys) :=
    FileReader._currLogFile
      (fst (snd (FileReader.fetchCurrentLogFile None
                   (FileReader.constructor, Sample.world store Sample.config)))) in
  let present (store : fsys) (name : string) :=
    disk_file (Sample.world store Sample.config) name in
  let capture (store : fsys) :=
    fst (FileReader.save (P := Sample.platform) Sample.request Sample.uuid1 17
           (FileReader.constructor, Sample.world store Sample.config)) in
  (chosen Sample.with_backup = "logs_12.json"
   /\ present Sample.with_backup "logs_12.json" = None
   /\ is_Some (present Sample.with_backup "logs_3.json")
   /\ capture Sample.with_backup = Throw (SystemError "ENOENT"))
  /\ (chosen Sample.with_padded = "logs_7.json"
      /\ present Sample.with_padded "logs_7.json" = None
      /\ is_Some (present Sample.with_padded "logs_007.json")
      /\ is_Some (present Sample.with_padded "logs_3.json")
      /\ capture Sample.with_padded = Throw (SystemError "ENOENT"))
  /\ (chosen Sample.with_large = "logs_9007199254740992.json"
      /\ present Sample.with_large "logs_9007199254740992.json" = None
      /\ is_Some (present Sample.with_large "logs_9007199254740993.json")
      /\ capture Sample.with_large = Throw (SystemError "ENOENT"))
  /\ chosen Sample.three_segments = "logs_7.json"
  /\ capture Sample.three_segments = Return tt
  /\ chosen Sample.writable = "logs_0.json".
Proof.
  cbv zeta.
  repeat split; try (vm_compute; reflexivity); vm_compute; eexists; reflexivity.
Qed.

(** ** Keys of records *)

Lemma keys_assign k v (r : record) x :
  x ∈ (Js.assign_prop k v r).*1 <-> x = k \/ x ∈ r.*1.
Proof.
  induction r as [|[k' v'] r IH]; simpl.
  - rewrite list_elem_of_singleton, elem_of_nil. tauto.
  - destruct (String.eqb_spec k k') as [->|Hne]; simpl.
    + rewrite !elem_of_cons. tauto.
    + rewrite !elem_of_cons, IH. tauto.
Qed.

Lemma keys_spread (a b : record) x :
  x ∈ (Js.spread a b).*1 <-> x ∈ a.*1 \/ x ∈ b.*1.
Proof.
  unfold Js.spread. revert a. induction b as [|[k v] b IH]; intros a; simpl.
  - rewrite elem_of_nil. tauto.
  - rewrite IH, keys_assign, elem_of_cons. tauto.
Qed.

Lemma keys_slice_last (es : record) x : x ∈ (Js.slice_last es).*1 -> x ∈ es.*1.
Proof.
  unfold Js.slice_last. destruct (last es) as [e|] eqn:E; simpl.
  - rewrite list_elem_of_singleton. intros ->.
    apply last_Some in E as [l' ->]. rewrite fmap_app. simpl.
    apply elem_of_app. right. left.
  - rewrite elem_of_nil. tauto.
Qed.

Lemma set_prop_get_opt v k x c : Js.set_prop v k x = Some c -> Js.get_prop_opt c k = x.
Proof.
  intros Hs. apply set_prop_get in Hs as [Hg _]. unfold Js.get_prop_opt.
  rewrite Hg. reflexivity.
Qed.

Lemma get_prop_opt_of v k x : Js.get_prop v k = Some x -> Js.get_prop_opt v k = x.
Proof. unfold Js.get_prop_opt. intros ->. reflexivity. Qed.

(** The keys that a property assignment on a value leaves enumerable. *)
Lemma own_props_set_prop v k x c y :
  Js.set_prop v k x = Some c ->
  y = k \/ y ∈ (Js.own_props v).*1 -> y ∈ (Js.own_props c).*1.
Proof.
  destruct v; simpl; intros [= <-]; simpl.
  - rewrite !fmap_app, !elem_of_app, keys_assign. tauto.
  - rewrite keys_assign. tauto.
Qed.

(** ** The index invariant *)

Section IndexInvariant.
Context `{P : Platform}.

Lemma prepareLog_ids req uuid now r w r' w' :
  FileReader.prepareLog req uuid now (r, w) = (Return tt, (r', w')) ->
  (forall x, x ∈ segment_ids (FileReader._logs r') ->
     x = uuid \/ x ∈ segment_ids (FileReader._logs r))
  /\ (forall x, x = uuid \/ x ∈ index_ids (FileReader._index r) ->
        x ∈ index_ids (FileReader._index r')).
Proof.
  intros E. apply FileReader_prepareLog_Return in E
    as (old & enc & ixs & ixs' & Hold & Hlogs & Hixs & Hixs' & Hidx & _).
  unfold segment_ids, index_ids.
  rewrite (set_prop_get_opt _ _ _ _ Hlogs), (get_prop_opt_of _ _ _ Hold).
  rewrite (set_prop_get_opt _ _ _ _ Hidx), (get_prop_opt_of _ _ _ Hixs).
  split.
  - intros x. cbn [Js.own_props]. rewrite !keys_spread. simpl.
    rewrite list_elem_of_singleton, elem_of_nil. tauto.
  - intros x. apply (own_props_set_prop _ _ _ _ _ Hixs').
Qed.

Lemma checkFileSize_ids logName r w r' w' :
  FileReader.checkFileSize logName (r, w) = (Return tt, (r', w')) ->
  w' = w
  /\ FileReader._index r' = FileReader._index r
  /\ forall x, x ∈ segment_ids (FileReader._logs r') ->
       x ∈ segment_ids (FileReader._logs r).
Proof.
  intros E. apply FileReader_checkFileSize_Return in E as (-> & _ & Hrot).
  split; [reflexivity|].
  destruct Hrot as [->|(p & d & t & ls & es & logs' & _ & Hls & Hes & Hset & ->)].
  - auto.
  - split; [reflexivity|]. intros x. cbn [FileReader._logs with_logs].
    unfold segment_ids.
    rewrite (set_prop_get_opt _ _ _ _ Hset), (get_prop_opt_of _ _ _ Hls).
    cbn [Js.own_props]. unfold Js.fromEntries. rewrite !keys_spread. simpl.
    rewrite !elem_of_nil. intros [[]|[[]|Hx]].
    apply keys_slice_last in Hx.
    destruct ls; simpl in Hes; try discriminate Hes; injection Hes as <-; exact Hx.
Qed.

Lemma FileReader_prepareLogfile_eq r w :
  exists c,
    FileReader.prepareLogfile (r, w)
    = (Return tt,
       (with_logs (loaded_segment w (FileReader._currLogFile r)) r, with_console c w)).
Proof.
  unfold FileReader.prepareLogfile, try_catch, bind, FileReader.this, gets, liftW,
    fs.readFileSync, loaded_segment, disk_file. simpl.
  destruct (fs_dir (disk w)) as [d|]; [|eexists; reflexivity].
  destruct (d !! FileReader._currLogFile r) as [f|]; [|eexists; reflexivity].
  unfold JSON_parse, recovered_segment.
  destruct (f_json f) as [v|]; simpl; [|eexists; reflexivity].
  destruct (Js.truthy (Js.get_prop_opt v "logs")) eqn:Ht; simpl.
  - exists (console w). rewrite with_console_id.
    destruct v; try discriminate Ht; reflexivity.
  - eexists. reflexivity.
Qed.

Lemma FileReader_prepareIndexFile_eq r w :
  exists c,
    FileReader.prepareIndexFile (r, w)
    = (Return tt, (with_index (loaded_index w) r, with_console c w)).
Proof.
  unfold FileReader.prepareIndexFile, try_catch, bind, liftW, fs.readFileSync,
    loaded_index, disk_file. simpl.
  destruct (fs_dir (disk w)) as [d|]; [|eexists; reflexivity].
  destruct (d !! "index.json") as [f|]; [|eexists; reflexivity].
  unfold JSON_parse. simpl.
  destruct (f_json f) as [v|]; simpl; [|eexists; reflexivity].
  exists (console w). rewrite with_console_id. reflexivity.
Qed.

Lemma loaded_index_ids w : index_ids (loaded_index w) = disk_index_ids w.
Proof.
  unfold loaded_index, disk_index_ids.
  destruct (disk_file w "index.json" ≫= f_json); reflexivity.
Qed.

Lemma loaded_segment_ids w name :
  indexed_store w -> segment_ids (loaded_segment w name) ⊆ disk_index_ids w.
Proof.
  intros Hst. unfold loaded_segment.
  destruct (disk_file w name) as [f|] eqn:Hf; [|apply list_subseteq_nil].
  unfold recovered_segment. destruct (f_json f) as [v|] eqn:Hv; [|apply list_subseteq_nil].
  specialize (Hst name f v Hf Hv).
  destruct v; simpl; try exact Hst; apply list_subseteq_nil.
Qed.

End IndexInvariant.

Lemma disk_index_ids_ext w w' :
  (forall n, disk_file w' n = disk_file w n) -> disk_index_ids w' = disk_index_ids w.
Proof. intros Hf. unfold disk_index_ids. rewrite Hf. reflexivity. Qed.

Lemma indexed_store_ext w w' :
  (forall n, disk_file w' n = disk_file w n) -> indexed_store w -> indexed_store w'.
Proof.
  intros Hf Hst name f v Hn Hv. rewrite (disk_index_ids_ext w w' Hf).
  rewrite Hf in Hn. exact (Hst name f v Hn Hv).
Qed.

Lemma disk_file_same_disk w w' n : disk w' = disk w -> disk_file w' n = disk_file w n.
Proof. unfold disk_file. intros ->. reflexivity. Qed.

Lemma initDirectories_files r w :
  fst (FileReader.initDirectories (r, w)) = Return tt
  /\ fst (snd (FileReader.initDirectories (r, w))) = r
  /\ forall n, disk_file (snd (snd (FileReader.initDirectories (r, w)))) n = disk_file w n.
Proof.
  unfold FileReader.initDirectories, bind, try_catch, liftW, fs.existsSync_dir, gets,
    fs.mkdirSync, disk_file. simpl.
  destruct (fs_dir (disk w)) as [d|] eqn:Hd; simpl.
  - rewrite Hd. auto.
  - destruct (fs_mkdir (disk w)); simpl; rewrite ?Hd; auto.
Qed.

Lemma compact_file_json v f : compact_file v = Some f -> f_json f = Some (JSON.image v).
Proof.
  unfold compact_file. destruct (JSON.stringify v); simpl; [|discriminate].
  intros [= <-]. reflexivity.
Qed.

(** A default body that lists no ids keeps the store indexed. *)
Lemma validateFile_indexed target v r w r1 w1 :
  segment_ids (JSON.image v) = [] -> index_ids (JSON.image v) = [] ->
  FileReader.validateFile target (compact_file v) (r, w) = (Return tt, (r1, w1)) ->
  r1 = r
  /\ (indexed_store w -> indexed_store w1)
  /\ disk_index_ids w1 = disk_index_ids w.
Proof.
  intros Hseg Hidx. rewrite FileReader_validateFile_eq.
  destruct (disk_file w target) as [g|] eqn:Hg.
  - intros [= <- <-]. auto.
  - destruct (writeFileSync_cases target (compact_file v) w)
      as [(f & d & Hb & Hd & _ & ->)|(e & -> & _)]; [|discriminate].
    intros [= <- <-]. split; [reflexivity|].
    apply compact_file_json in Hb.
    assert (Hlook : forall n,
              disk_file (fs.set_disk (Fsys (Some (<[target := f]> d)) (fs_mkdir (disk w))
                                        (fs_deny (disk w))) w) n
              = if decide (target = n) then Some f else disk_file w n).
    { intros n. unfold disk_file. simpl. rewrite Hd.
      case_decide as Hn; [subst n; apply lookup_insert_eq|].
      apply lookup_insert_ne, Hn. }
    assert (Hids : disk_index_ids
                     (fs.set_disk (Fsys (Some (<[target := f]> d)) (fs_mkdir (disk w))
                                     (fs_deny (disk w))) w)
                   = disk_index_ids w).
    { unfold disk_index_ids. rewrite Hlook. case_decide as Hn; [|reflexivity].
      subst target. rewrite Hg. simpl. rewrite Hb. exact Hidx. }
    split; [|exact Hids].
    intros Hst name f' v' Hn Hv. rewrite Hids. rewrite Hlook in Hn.
    case_decide as Ht.
    + injection Hn as <-. rewrite Hb in Hv. injection Hv as <-.
      rewrite Hseg. apply list_subseteq_nil.
    + exact (Hst name f' v' Hn Hv).
Qed.

Lemma pre_indexed r w r1 w1 :
  FileReader.pre (r, w) = (Return tt, (r1, w1)) ->
  r1 = r
  /\ (indexed_store w -> indexed_store w1)
  /\ disk_index_ids w1 = disk_index_ids w.
Proof.
  unfold FileReader.pre. intros E.
  apply bind_Return in E as ([] & [ra wa] & Ha & E).
  destruct (initDirectories_files r w) as (_ & Hra & Hfa). rewrite Ha in Hra, Hfa.
  simpl in Hra, Hfa. subst ra.
  apply bind_Return in E as ([] & [rb wb] & Hb & E).
  apply validateFile_indexed in Hb as (-> & Hsb & Hib); [|reflexivity..].
  apply bind_Return in E as (self & [rc wc] & Hc & E).
  unfold FileReader.this, gets in Hc. injection Hc as <- <- <-.
  apply bind_Return in E as ([] & [rd wd] & Hd & E).
  apply validateFile_indexed in Hd as (-> & Hsd & Hid); [|reflexivity..].
  apply validateFile_indexed in E as (-> & Hse & Hie); [|reflexivity..].
  split; [reflexivity|]. split.
  - intros Hst. apply Hse, Hsd, Hsb. exact (indexed_store_ext w wa Hfa Hst).
  - rewrite Hie, Hid, Hib. apply disk_index_ids_ext, Hfa.
Qed.

Section PrepareConfigFileFields.
Context `{P : Platform}.

Lemma prepareConfigFile_logs :
  preserves (fun s => FileReader._logs (fst s)) FileReader.prepareConfigFile.
Proof.
  unfold FileReader.prepareConfigFile, FileReader.set_config. frame.
Qed.

Lemma prepareConfigFile_index :
  preserves (fun s => FileReader._index (fst s)) FileReader.prepareConfigFile.
Proof.
  unfold FileReader.prepareConfigFile, FileReader.set_config. frame.
Qed.

Lemma fetchCurrentLogFile_logs o :
  preserves (fun s => FileReader._logs (fst s)) (FileReader.fetchCurrentLogFile o).
Proof. unfold FileReader.fetchCurrentLogFile, FileReader.set_currLogFile. frame. Qed.

Lemma fetchCurrentLogFile_index o :
  preserves (fun s => FileReader._index (fst s)) (FileReader.fetchCurrentLogFile o).
Proof. unfold FileReader.fetchCurrentLogFile, FileReader.set_currLogFile. frame. Qed.

End PrepareConfigFileFields.

Lemma indexed_storeb_spec w : indexed_storeb w = true -> indexed_store w.
Proof.
  unfold indexed_storeb, indexed_store, disk_file.
  destruct (fs_dir (disk w)) as [d|]; [|discriminate].
  intros Hall name f v Hn Hv.
  rewrite forallb_forall in Hall.
  specialize (Hall (name, f)). simpl in Hall. rewrite Hv in Hall.
  assert (Hin : In (name, f) (map_to_list d)).
  { apply list_elem_of_In, elem_of_map_to_list, Hn. }
  specialize (Hall Hin). rewrite forallb_forall in Hall.
  intros x Hx. apply list_elem_of_In in Hx. specialize (Hall x Hx).
  apply bool_decide_eq_true in Hall. exact Hall.
Qed.

(** C8 (amended).  A capture that returns, started on a store whose index
    file lists every entry id of its files, leaves every entry id of the
    in-memory segment map in the in-memory index; and whatever the store, it
    only adds to the index: every id the index file listed, and the new
    id, are in the in-memory index afterwards, also when the capture
    rotates. *)
Theorem C8_capture_keeps_segment_ids_indexed `{P : Platform}
    req uuid now (r : FileReader.t) (w : World) (r' : FileReader.t) (w' : World) :
  FileReader.save req uuid now (r, w) = (Return tt, (r', w')) ->
  (indexed_store w ->
   segment_ids (FileReader._logs r') ⊆ index_ids (FileReader._index r'))
  /\ disk_index_ids w ⊆ index_ids (FileReader._index r')
  /\ uuid ∈ index_ids (FileReader._index r').
Proof.
  intros E.
  apply FileReader_save_steps in E
    as ([r1 w1] & [r2 w2] & [r3 w3] & [r4 w4] & [r5 w5] & [r6 w6] & [r7 w7] & [r8 w8]
        & H1 & H2 & H3 & H4 & H5 & H6 & H7 & H8 & H9).
  (* bootstrap and selection *)
  apply pre_indexed in H1 as (-> & Hst1 & Hid1).
  pose proof (preserved_by disk_of _ _ _ _ (fetchCurrentLogFile_disk None) H2) as Hd2.
  pose proof (preserved_by _ _ _ _ _ (fetchCurrentLogFile_logs None) H2) as Hl2.
  unfold disk_of in Hd2. simpl in Hd2, Hl2.
  (* the two loads *)
  destruct (FileReader_prepareLogfile_eq r2 w2) as [c3 E3].
  rewrite E3 in H3. injection H3 as <- <-.
  destruct (FileReader_prepareIndexFile_eq
              (with_logs (loaded_segment w2 (FileReader._currLogFile r2)) r2)
              (with_console c3 w2)) as [c4 E4].
  rewrite E4 in H4. injection H4 as <- <-.
  pose proof (preserved_by _ _ _ _ _ prepareConfigFile_logs H5) as Hl5.
  pose proof (preserved_by _ _ _ _ _ prepareConfigFile_index H5) as Hi5.
  simpl in Hl5, Hi5.
  (* the append, the snapshot, the rotation check, the save *)
  apply prepareLog_ids in H6 as [Hseg6 Hidx6].
  pose proof (preserved_by _ _ _ _ _ prepareConfig_logs H7) as Hl7.
  pose proof (preserved_by _ _ _ _ _ prepareConfig_index H7) as Hi7.
  simpl in Hl7, Hi7.
  apply checkFileSize_ids in H8 as (-> & Hi8 & Hseg8).
  pose proof (preserved_by instance_of _ _ _ _ saveFiles_instance H9) as I9.
  unfold instance_of in I9. simpl in I9. subst r'.
  assert (Hloaded : index_ids (FileReader._index r5) = disk_index_ids w).
  { rewrite Hi5. cbn [with_index FileReader._index].
    rewrite loaded_index_ids.
    rewrite (disk_index_ids_ext w2 (with_console c3 w2)) by reflexivity.
    rewrite (disk_index_ids_ext w1 w2) by (intros n; apply disk_file_same_disk, Hd2).
    exact Hid1. }
  rewrite Hi8, Hi7.
  split; [|split].
  - intros Hst x Hx. apply Hseg8 in Hx. rewrite Hl7 in Hx.
    apply Hidx6. destruct (Hseg6 x Hx) as [->|Hold]; [left; reflexivity|right].
    rewrite Hloaded. rewrite Hl5 in Hold. cbn [with_index with_logs FileReader._logs] in Hold.
    assert (Hst2 : indexed_store w2).
    { apply (indexed_store_ext w1 w2); [intros n; apply disk_file_same_disk, Hd2|].
      apply Hst1, Hst. }
    apply (loaded_segment_ids w2 _ Hst2) in Hold.
    rewrite (disk_index_ids_ext w1 w2) in Hold
      by (intros n; apply disk_file_same_disk, Hd2).
    rewrite Hid1 in Hold. exact Hold.
  - intros x Hx. apply Hidx6. right. rewrite Hloaded. exact Hx.
  - apply Hidx6. left. reflexivity.
Qed.

Lemma C8_witness :
  let w := Sample.world Sample.full_store Sample.config in
  let res :=
    FileReader.save (P := Sample.platform) Sample.request Sample.uuid1 17
      (FileReader.constructor, w) in
  (res = (Return tt, (fst (snd res), snd (snd res))) /\ indexed_store w)
  /\ segment_ids (FileReader._logs (fst (snd res)))
     ⊆ index_ids (FileReader._index (fst (snd res)))
  /\ disk_index_ids w ⊆ index_ids (FileReader._index (fst (snd res)))
  /\ index_ids (FileReader._index (fst (snd res))) = [Sample.old_id; Sample.uuid1].
Proof.
  cbv zeta.
  set (w := Sample.world Sample.full_store Sample.config).
  set (res := FileReader.save (P := Sample.platform) Sample.request Sample.uuid1 17
                (FileReader.constructor, w)).
  assert (H0 : res = (Return tt, (fst (snd res), snd (snd res))))
    by (vm_compute; reflexivity).
  assert (H1 : indexed_store w) by (apply indexed_storeb_spec; vm_compute; reflexivity).
  split; [auto|].
  destruct (C8_capture_keeps_segment_ids_indexed (P := Sample.platform)
              Sample.request Sample.uuid1 17 FileReader.constructor w
              (fst (snd res)) (snd (snd res)) H0) as (Hseg & Hidx & _).
  split; [exact (Hseg H1)|]. split; [exact Hidx|].
  vm_compute. reflexivity.
Defined.

(** C8 is false as stated: the index file does not parse and is recovered as
    empty, while the segment read from disk holds an earlier entry; after
    the capture that entry's id is in the in-memory segment map and not in
    the in-memory index. *)
Lemma C8_counterexample :
  let w := Sample.world Sample.garbled_index Sample.config in
  let res :=
    FileReader.save (P := Sample.platform) Sample.request Sample.uuid1 17
      (FileReader.constructor, w) in
  fst res = Return tt
  /\ segment_ids (FileReader._logs (fst (snd res))) = [Sample.old_id; Sample.uuid1]
  /\ index_ids (FileReader._index (fst (snd res))) = [Sample.uuid1]
  /\ Sample.old_id ∈ segment_ids (FileReader._logs (fst (snd res)))
  /\ Sample.old_id ∉ index_ids (FileReader._index (fst (snd res))).
Proof.
  cbv zeta.
  assert (Hs : segment_ids
                 (FileReader._logs
                    (fst (snd (FileReader.save (P := Sample.platform) Sample.request
                                 Sample.uuid1 17
                                 (FileReader.constructor,
                                  Sample.world Sample.garbled_index Sample.config)))))
               = [Sample.old_id; Sample.uuid1]) by (vm_compute; reflexivity).
  assert (Hi : index_ids
                 (FileReader._index
                    (fst (snd (FileReader.save (P := Sample.platform) Sample.request
                                 Sample.uuid1 17
                                 (FileReader.constructor,
                                  Sample.world Sample.garbled_index Sample.config)))))
               = [Sample.uuid1]) by (vm_compute; reflexivity).
  split; [vm_compute; reflexivity|].
  split; [exact Hs|]. split; [exact Hi|]. rewrite Hs, Hi. split.
  - left.
  - rewrite list_elem_of_singleton. discriminate.
Qed.

(** ** Rotation on the binary path *)

Lemma assign_fresh k v (r : record) :
  k ∉ r.*1 -> Js.assign_prop k v r = (r ++ [(k, v)])%list.
Proof.
  induction r as [|[k' v'] r IH]; simpl; intros Hk; [reflexivity|].
  rewrite not_elem_of_cons in Hk. destruct Hk as [Hne Hk].
  destruct (String.eqb_spec k k') as [->|_]; [congruence|].
  rewrite (IH Hk). reflexivity.
Qed.

Lemma set_prop_twice v k x c y :
  Js.set_prop v k x = Some c -> is_Some (Js.set_prop c k y).
Proof. destruct v; simpl; intros [= <-]; simpl; eauto. Qed.

(** After [prepareLog] has appended an entry with a fresh id to the segment
    [logs_<n>.json], the rotation check compares the size of that file plus
    the size of the entry with the threshold: above it, the name becomes
    [logs_<n+1>.json] and the log map keeps the new entry alone; otherwise
    nothing changes.  (The number [n + 1] is below [2^53].) *)
Lemma binary_rotation_compacts `{P : Platform} req uuid now r w r6 w6 n f :
  FileReader.prepareLog req uuid now (r, w) = (Return tt, (r6, w6)) ->
  n + 1 < 2 ^ 53 ->
  FileReader._currLogFile r = segment_name n ->
  disk_file w (segment_name n) = Some f ->
  uuid ∉ segment_ids (FileReader._logs r) ->
  let res := FileReader.checkFileSize (FileReader._currLogFile r6) (r6, w6) in
  fst res = Return tt
  /\ if FileReader.threshold <? f_size f + FileReader._currLogSize r6
     then FileReader._currLogFile (fst (snd res)) = segment_name (n + 1)
          /\ segment_ids (FileReader._logs (fst (snd res))) = [uuid]
     else snd res = (r6, w6).
Proof.
  intros E Hn Hname Hf Hfresh.
  pose proof (preserved_by disk_of _ _ _ _ (prepareLog_disk req uuid now) E) as Hd.
  unfold disk_of in Hd. simpl in Hd.
  apply FileReader_prepareLog_Return in E
    as (old & enc & ixs & ixs' & Hold & Hlogs & _ & _ & _ & _ & _ & Hcur).
  cbv zeta. rewrite Hcur, Hname. rewrite FileReader_checkFileSize_eq.
  rewrite (disk_file_same_disk w w6 _ Hd), Hf.
  destruct (FileReader.threshold <? f_size f + FileReader._currLogSize r6);
    [|split; reflexivity].
  rewrite match_digits_segment_name by lia.
  rewrite parseInt_toString by lia. rewrite add_small by exact Hn.
  fold (segment_name (n + 1)).
  rewrite FileReader_cleanLogs_eq. cbn [with_currLogFile FileReader._logs].
  destruct (set_prop_get _ _ _ _ Hlogs) as [Hget _]. rewrite Hget.
  cbn [Js.entries Js.own_props].
  destruct (set_prop_twice _ _ _ _
              (VObj (Js.spread []
                       (Js.fromEntries
                          (Js.slice_last
                             (Js.spread (Js.spread [] (Js.own_props old)) [(uuid, enc)])))))
              Hlogs) as [logs' Hset].
  rewrite Hset. cbn [fst snd with_logs with_currLogFile FileReader._currLogFile
                     FileReader._logs].
  split; [reflexivity|]. split; [reflexivity|].
  unfold segment_ids. rewrite (set_prop_get_opt _ _ _ _ Hset).
  cbn [Js.own_props].
  assert (Hlast : Js.slice_last (Js.spread (Js.spread [] (Js.own_props old)) [(uuid, enc)])
                  = [(uuid, enc)]).
  { unfold Js.spread at 1. cbn [fold_left fst snd].
    rewrite assign_fresh.
    - unfold Js.slice_last. rewrite last_snoc. reflexivity.
    - intros Hin. apply keys_spread in Hin as [Hin|Hin];
        [apply elem_of_nil in Hin; exact Hin|].
      apply Hfresh. unfold segment_ids. rewrite (get_prop_opt_of _ _ _ Hold). exact Hin. }
  rewrite Hlast. reflexivity.
Qed.

(** The rotation check never touches the map of the text path, whatever it
    decides: after a text capture that rotates, every entry is still there. *)
Lemma text_rotation_keeps_map logName r w :
  FileReader._logsJson (fst (snd (FileReader.checkFileSize logName (r, w))))
  = FileReader._logsJson r.
Proof. exact (checkFileSize_logsJson logName (r, w)). Qed.

(** * Further properties of the engines *)

(** ** The bootstrap *)

Lemma keeps_files_refl w : keeps_files w w.
Proof. intros n f H. exact H. Qed.

Lemma keeps_files_trans w1 w2 w3 :
  keeps_files w1 w2 -> keeps_files w2 w3 -> keeps_files w1 w3.
Proof. intros H1 H2 n f H. apply H2, H1, H. Qed.

Lemma keeps_files_same_disk w w' : disk w' = disk w -> keeps_files w w'.
Proof. intros E n f H. rewrite (disk_file_same_disk w w' n E). exact H. Qed.

Lemma compact_file_defined ps : is_Some (compact_file (VObj ps)).
Proof. unfold compact_file. simpl. eauto. Qed.

Lemma FileReader_bind_this {A} (k : FileReader.t -> FileReader.Method A) r w :
  bind FileReader.this k (r, w) = k r (r, w).
Proof. reflexivity. Qed.

(** The two ways [validateFile] can end, as equations. *)
Lemma FileReader_validateFile_cases target f0 r w :
  (exists w', FileReader.validateFile target (Some f0) (r, w) = (Return tt, (r, w'))
              /\ keeps_files w w' /\ is_Some (disk_file w' target))
  \/ (exists w', FileReader.validateFile target (Some f0) (r, w)
                 = (Throw (CannotCreateFile target), (r, w'))
                 /\ disk w' = disk w /\ disk_file w target = None).
Proof.
  rewrite FileReader_validateFile_eq.
  destruct (disk_file w target) as [f|] eqn:Hf.
  - left. exists w. split; [reflexivity|]. split; [apply keeps_files_refl|].
    rewrite Hf. eauto.
  - destruct (writeFileSync_cases target (Some f0) w)
      as [(f & d & Hb & Hd & Hp & ->)|(e & -> & Hc)].
    + left. eexists. split; [reflexivity|]. unfold keeps_files, disk_file in *.
      simpl. rewrite Hd in *. split.
      * intros n f' Hn. destruct (decide (target = n)) as [->|Hne]; [congruence|].
        rewrite lookup_insert_ne by exact Hne. exact Hn.
      * rewrite lookup_insert_eq. eauto.
    + right. eexists. split; [reflexivity|]. split; reflexivity.
Qed.

(** The outcome of the bootstrap. *)
Lemma FileReader_pre_outcome (r : FileReader.t) (w : World) :
  let res := FileReader.pre (r, w) in
  fst (snd res) = r
  /\ keeps_files w (snd (snd res))
  /\ ((fst res = Return tt
       /\ is_Some (disk_file (snd (snd res)) "index.json")
       /\ is_Some (disk_file (snd (snd res)) (FileReader._currLogFile r))
       /\ is_Some (disk_file (snd (snd res)) "config.json"))
      \/ exists t, fst res = Throw (CannotCreateFile t)
           /\ t ∈ ["index.json"; FileReader._currLogFile r; "config.json"]
           /\ disk_file (snd (snd res)) t = None).
Proof.
  intros res.
  destruct (initDirectories_files r w) as (Ho & Hr & Hf).
  destruct (FileReader.initDirectories (r, w)) as [[[]|e] [r0 w0]] eqn:E0;
    simpl in Ho, Hr, Hf; [subst r0|discriminate].
  assert (K0 : keeps_files w w0) by (intros n f Hn; rewrite Hf; exact Hn).
  destruct (compact_file_defined [("indexes", VObj [])]) as [f1 Hf1].
  destruct (compact_file_defined [("logs", VObj [])]) as [f2 Hf2].
  destruct (compact_file_defined [("disableProto", VBool false)]) as [f3 Hf3].
  subst res. unfold FileReader.pre. rewrite Hf1, Hf2, Hf3.
  rewrite (bind_of_Return _ _ _ _ _ E0).
  destruct (FileReader_validateFile_cases "index.json" f1 r w0)
    as [(w1 & E1 & K1 & S1)|(w1 & E1 & D1 & N1)].
  2:{ rewrite (bind_of_Throw _ _ _ _ _ E1). simpl.
      split; [reflexivity|].
      split; [exact (keeps_files_trans _ _ _ K0 (keeps_files_same_disk _ _ D1))|].
      right. exists "index.json". split; [reflexivity|]. split; [set_solver|].
      rewrite (disk_file_same_disk _ _ _ D1). exact N1. }
  rewrite (bind_of_Return _ _ _ _ _ E1).
  rewrite FileReader_bind_this.
  destruct (FileReader_validateFile_cases (FileReader._currLogFile r) f2 r w1)
    as [(w2 & E2 & K2 & S2)|(w2 & E2 & D2 & N2)].
  2:{ rewrite (bind_of_Throw _ _ _ _ _ E2). simpl.
      split; [reflexivity|].
      split; [exact (keeps_files_trans _ _ _ K0
                       (keeps_files_trans _ _ _ K1 (keeps_files_same_disk _ _ D2)))|].
      right. exists (FileReader._currLogFile r). split; [reflexivity|].
      split; [set_solver|].
      rewrite (disk_file_same_disk _ _ _ D2). exact N2. }
  rewrite (bind_of_Return _ _ _ _ _ E2).
  destruct (FileReader_validateFile_cases "config.json" f3 r w2)
    as [(w3 & E3 & K3 & S3)|(w3 & E3 & D3 & N3)]; rewrite E3; simpl.
  - split; [reflexivity|].
    split; [exact (keeps_files_trans _ _ _ K0
                     (keeps_files_trans _ _ _ K1 (keeps_files_trans _ _ _ K2 K3)))|].
    left. split; [reflexivity|].
    destruct S1 as [g1 S1], S2 as [g2 S2].
    split; [exists g1; apply K3, K2, S1|]. split; [exists g2; apply K3, S2|exact S3].
  - split; [reflexivity|].
    split; [exact (keeps_files_trans _ _ _ K0
                     (keeps_files_trans _ _ _ K1
                        (keeps_files_trans _ _ _ K2 (keeps_files_same_disk _ _ D3))))|].
    right. exists "config.json". split; [reflexivity|]. split; [set_solver|].
    rewrite (disk_file_same_disk _ _ _ D3). exact N3.
Qed.

(** X1.  The bootstrap [pre] of the read/write engine never changes the
    instance and never rewrites a file that exists.  Either it returns, and
    then [index.json], the current segment and [config.json] all exist; or it
    raises [CannotCreateFile] naming one of these three, which is still
    absent. *)
Theorem X1_pre_creates_missing_files_only (r : FileReader.t) (w : World) :
  let res := FileReader.pre (r, w) in
  fst (snd res) = r
  /\ keeps_files w (snd (snd res))
  /\ ((fst res = Return tt
       /\ is_Some (disk_file (snd (snd res)) "index.json")
       /\ is_Some (disk_file (snd (snd res)) (FileReader._currLogFile r))
       /\ is_Some (disk_file (snd (snd res)) "config.json"))
      \/ exists t, fst res = Throw (CannotCreateFile t)
           /\ t ∈ ["index.json"; FileReader._currLogFile r; "config.json"]
           /\ disk_file (snd (snd res)) t = None).
Proof. exact (FileReader_pre_outcome r w). Qed.

(** The bootstrap as two cases, each an equation. *)
Lemma FileReader_pre_cases r w :
  (exists w1, FileReader.pre (r, w) = (Return tt, (r, w1))
     /\ keeps_files w w1
     /\ is_Some (disk_file w1 "index.json")
     /\ is_Some (disk_file w1 (FileReader._currLogFile r))
     /\ is_Some (disk_file w1 "config.json"))
  \/ (exists t w1, FileReader.pre (r, w) = (Throw (CannotCreateFile t), (r, w1))
        /\ keeps_files w w1).
Proof.
  pose proof (FileReader_pre_outcome r w) as H. cbv zeta in H.
  destruct (FileReader.pre (r, w)) as [o [r1 w1]]. simpl in H.
  destruct H as (-> & K & [(-> & H1 & H2 & H3)|(t & -> & _)]).
  - left. exists w1. auto.
  - right. exists t, w1. auto.
Qed.

Lemma disk_file_dir w n f : disk_file w n = Some f -> exists d, fs_dir (disk w) = Some d.
Proof. unfold disk_file. destruct (fs_dir (disk w)); [eauto | discriminate]. Qed.


(** ** Persistence *)

Lemma liftW_apply {T A} (m : M World A) (t : T) w :
  liftW m (t, w) = (fst (m w), (t, snd (m w))).
Proof. unfold liftW. simpl. destruct (m w); reflexivity. Qed.

Lemma bind_liftW_gets {T A B} (f : World -> A) (k : A -> M (T * World) B) t w :
  bind (liftW (gets f)) k (t, w) = k (f w) (t, w).
Proof. reflexivity. Qed.

(** One write, lifted to a method: it stores the file, or it raises and
    leaves the world as it was. *)
Lemma liftW_write_cases {T} name body (t : T) w :
  (exists f w', body = Some f
     /\ fs_deny (disk w) name = false
     /\ liftW (fs.writeFileSync name body) (t, w) = (Return tt, (t, w'))
     /\ wrote name f w w')
  \/ (exists e, liftW (fs.writeFileSync name body) (t, w) = (Throw e, (t, w))
        /\ (body = None \/ fs_dir (disk w) = None \/ fs_deny (disk w) name = true)
        /\ (body <> None -> fs_dir (disk w) <> None -> e = SystemError "EACCES")).
Proof.
  rewrite liftW_apply. unfold fs.writeFileSync.
  destruct body as [f|]; [|right; eexists; split; [reflexivity|]; split; [auto|congruence]].
  destruct (fs_dir (disk w)) as [d|] eqn:Hd;
    [|right; eexists; split; [reflexivity|]; split; [auto|congruence]].
  destruct (fs_deny (disk w) name) eqn:Hp;
    [right; eexists; split; [reflexivity|]; split; [auto|reflexivity]|].
  left. exists f. eexists. split; [reflexivity|]. split; [reflexivity|].
  split; [reflexivity|].
  unfold wrote, disk_file. simpl. rewrite Hd.
  split; [apply lookup_insert_eq|].
  split; [intros n Hn; apply lookup_insert_ne; congruence|].
  split; [eauto|]. auto 10.
Qed.

Lemma wrote_other name f w w' n : wrote name f w w' -> n <> name ->
  disk_file w' n = disk_file w n.
Proof. intros (_ & H & _) Hn. apply H, Hn. Qed.

Lemma disk_file_with_console c w n : disk_file (with_console c w) n = disk_file w n.
Proof. reflexivity. Qed.

Lemma Log_error_apply {T} target ms (t : T) w :
  liftW (Log.error target ms) (t, w)
  = (Return tt, (t, with_console (console w ++ map (LogEvent LError target) ms)%list w)).
Proof. reflexivity. Qed.

(** [saveFiles] as cases: the three writes in order, the first failure
    ending the sequence with one console line. *)
Lemma FileReader_saveFiles_cases r w :
  let cur := FileReader._currLogFile r in
  (exists f1 f2 f3 w1 w2 w3,
     pretty_file (persisted_map r w) = Some f1
     /\ pretty_file (FileReader._index r) = Some f2
     /\ pretty_file (FileReader._config r) = Some f3
     /\ wrote cur f1 w w1 /\ wrote "index.json" f2 w1 w2 /\ wrote "config.json" f3 w2 w3
     /\ fs_deny (disk w) "index.json" = false
     /\ FileReader.saveFiles (r, w) = (Return tt, (r, w3)))
  \/ (exists e,
        FileReader.saveFiles (r, w)
        = (Return tt, (r, with_console (console w ++ [save_failed e])%list w))
        /\ (pretty_file (persisted_map r w) = None
            \/ fs_dir (disk w) = None \/ fs_deny (disk w) cur = true))
  \/ (exists e f1 w1,
        pretty_file (persisted_map r w) = Some f1
        /\ wrote cur f1 w w1
        /\ FileReader.saveFiles (r, w)
           = (Return tt, (r, with_console (console w1 ++ [save_failed e])%list w1))
        /\ (pretty_file (FileReader._index r) = None
            \/ fs_deny (disk w) "index.json" = true))
  \/ (exists e f1 f2 w1 w2,
        pretty_file (persisted_map r w) = Some f1
        /\ pretty_file (FileReader._index r) = Some f2
        /\ wrote cur f1 w w1 /\ wrote "index.json" f2 w1 w2
        /\ fs_deny (disk w) "index.json" = false
        /\ FileReader.saveFiles (r, w)
           = (Return tt, (r, with_console (console w2 ++ [save_failed e])%list w2))
        /\ (pretty_file (FileReader._config r) = None
            \/ fs_deny (disk w) "config.json" = true)).
Proof.
  intros cur. unfold FileReader.saveFiles, try_catch.
  rewrite bind_liftW_gets, FileReader_bind_this. fold cur.
  fold (text_flag (State_config w)).
  assert (Hsel : (if text_flag (State_config w)
                  then liftW (fs.writeFileSync cur (pretty_file (FileReader._logsJson r)))
                  else liftW (fs.writeFileSync cur (pretty_file (FileReader._logs r))))
                 = liftW (T := FileReader.t)
                     (fs.writeFileSync cur (pretty_file (persisted_map r w)))).
  { unfold persisted_map. destruct (text_flag (State_config w)); reflexivity. }
  rewrite Hsel. clear Hsel.
  destruct (liftW_write_cases cur (pretty_file (persisted_map r w)) r w)
    as [(f1 & w1 & Hb1 & Hp1 & E1 & W1)|(e & E1 & Hc1 & _)].
  2:{ rewrite (bind_of_Throw _ _ _ _ _ E1), Log_error_apply.
      right; left. exists e. split; [reflexivity|]. exact Hc1. }
  rewrite (bind_of_Return _ _ _ _ _ E1).
  destruct (liftW_write_cases "index.json" (pretty_file (FileReader._index r)) r w1)
    as [(f2 & w2 & Hb2 & Hp2 & E2 & W2)|(e & E2 & Hc2 & _)].
  2:{ rewrite (bind_of_Throw _ _ _ _ _ E2), Log_error_apply.
      right; right; left. exists e, f1, w1. split; [exact Hb1|]. split; [exact W1|].
      split; [reflexivity|].
      destruct W1 as (_ & _ & [d Hd] & Hdeny & _).
      destruct Hc2 as [?|[?|?]]; [auto|congruence|right; congruence]. }
  rewrite (bind_of_Return _ _ _ _ _ E2).
  destruct (liftW_write_cases "config.json" (pretty_file (FileReader._config r)) r w2)
    as [(f3 & w3 & Hb3 & Hp3 & E3 & W3)|(e & E3 & Hc3 & _)]; rewrite E3.
  - left. exists f1, f2, f3, w1, w2, w3.
    assert (Hi : fs_deny (disk w) "index.json" = false).
    { destruct W1 as (_ & _ & _ & Hdeny1 & _). congruence. }
    auto 12.
  - rewrite Log_error_apply. right; right; right. exists e, f1, f2, w1, w2.
    split; [exact Hb1|]. split; [exact Hb2|]. split; [exact W1|]. split; [exact W2|].
    destruct W1 as (_ & _ & _ & Hdeny1 & _).
    split; [congruence|].
    split; [reflexivity|].
    destruct W2 as (_ & _ & [d Hd] & Hdeny2 & _).
    destruct Hc3 as [?|[?|?]]; [auto|congruence|right; congruence].
Qed.

(** The outcome of [saveFiles]. *)
Lemma FileReader_saveFiles_outcome (r : FileReader.t) (w : World) :
  let res := FileReader.saveFiles (r, w) in
  fst res = Return tt
  /\ fst (snd res) = r
  /\ (forall n, n <> FileReader._currLogFile r -> n <> "index.json" ->
        n <> "config.json" -> disk_file (snd (snd res)) n = disk_file w n)
  /\ heap (snd (snd res)) = heap w
  /\ State_config (snd (snd res)) = State_config w
  /\ (console (snd (snd res)) = console w
      \/ exists e, console (snd (snd res)) = (console w ++ [save_failed e])%list).
Proof.
  intros res. subst res.
  destruct (FileReader_saveFiles_cases r w)
    as [(f1 & f2 & f3 & w1 & w2 & w3 & _ & _ & _ & W1 & W2 & W3 & _ & ->)
       |[(e & -> & _)
       |[(e & f1 & w1 & _ & W1 & -> & _)
       |(e & f1 & f2 & w1 & w2 & _ & _ & W1 & W2 & _ & -> & _)]]];
    cbn [fst snd].
  - destruct W1 as (_ & O1 & _ & _ & _ & C1 & H1 & S1).
    destruct W2 as (_ & O2 & _ & _ & _ & C2 & H2 & S2).
    destruct W3 as (_ & O3 & _ & _ & _ & C3 & H3 & S3).
    split; [reflexivity|]. split; [reflexivity|]. split.
    + intros n N1 N2 N3. rewrite O3, O2, O1 by assumption. reflexivity.
    + split; [congruence|]. split; [congruence|]. left. congruence.
  - repeat split; eauto.
  - destruct W1 as (_ & O1 & _ & _ & _ & C1 & H1 & S1).
    split; [reflexivity|]. split; [reflexivity|]. split.
    + intros n N1 N2 N3. rewrite disk_file_with_console. apply O1, N1.
    + split; [exact H1|]. split; [exact S1|]. right. exists e. simpl. congruence.
  - destruct W1 as (_ & O1 & _ & _ & _ & C1 & H1 & S1).
    destruct W2 as (_ & O2 & _ & _ & _ & C2 & H2 & S2).
    split; [reflexivity|]. split; [reflexivity|]. split.
    + intros n N1 N2 N3. rewrite disk_file_with_console, O2, O1 by assumption.
      reflexivity.
    + split; [simpl; congruence|]. split; [simpl; congruence|].
      right. exists e. simpl. congruence.
Qed.

(** X2.  [saveFiles] of the read/write engine never raises, whatever the
    state of the disk: a failed write is turned into one console line.  It
    never changes the instance, the caller heap or the ambient configuration,
    and the only files it can change are the current segment, [index.json]
    and [config.json]. *)
Theorem X2_saveFiles_swallows_write_errors (r : FileReader.t) (w : World) :
  let res := FileReader.saveFiles (r, w) in
  fst res = Return tt
  /\ fst (snd res) = r
  /\ (forall n, n <> FileReader._currLogFile r -> n <> "index.json" ->
        n <> "config.json" -> disk_file (snd (snd res)) n = disk_file w n)
  /\ heap (snd (snd res)) = heap w
  /\ State_config (snd (snd res)) = State_config w
  /\ (console (snd (snd res)) = console w
      \/ exists e, console (snd (snd res)) = (console w ++ [save_failed e])%list).
Proof. exact (FileReader_saveFiles_outcome r w). Qed.


(** X3.  [saveFiles] is not atomic.  When the current segment can be written
    and [index.json] cannot, the segment is replaced while [index.json] and
    [config.json] keep their previous content: the new entry is on disk and
    its id is in no index.  The caller is not told: the method returns, with
    one console line. *)
Theorem X3_saveFiles_partial_write (r : FileReader.t) (w : World) (seg : file) :
  is_Some (fs_dir (disk w)) ->
  fs_deny (disk w) (FileReader._currLogFile r) = false ->
  fs_deny (disk w) "index.json" = true ->
  pretty_file (persisted_map r w) = Some seg ->
  FileReader._currLogFile r <> "index.json" ->
  FileReader._currLogFile r <> "config.json" ->
  let res := FileReader.saveFiles (r, w) in
  fst res = Return tt
  /\ disk_file (snd (snd res)) (FileReader._currLogFile r) = Some seg
  /\ disk_file (snd (snd res)) "index.json" = disk_file w "index.json"
  /\ disk_file (snd (snd res)) "config.json" = disk_file w "config.json"
  /\ exists e, console (snd (snd res)) = (console w ++ [save_failed e])%list.
Proof.
  intros [d Hd] Hp1 Hp2 Hseg Hn1 Hn2 res. subst res.
  destruct (FileReader_saveFiles_cases r w)
    as [(f1 & f2 & f3 & w1 & w2 & w3 & _ & _ & _ & _ & _ & _ & Hi & _)
       |[(e & -> & Hc)
       |[(e & f1 & w1 & Hf1 & W1 & -> & _)
       |(e & f1 & f2 & w1 & w2 & _ & _ & _ & _ & Hi & _)]]];
    cbn [fst snd].
  - congruence.
  - exfalso. destruct Hc as [?|[?|?]]; congruence.
  - destruct W1 as (S1 & O1 & _ & _ & _ & C1 & _).
    rewrite !disk_file_with_console.
    split; [reflexivity|]. split; [congruence|].
    split; [apply O1; congruence|]. split; [apply O1; congruence|].
    exists e. simpl. congruence.
  - congruence.
Qed.

Lemma X3_witness :
  let w := Sample.world Sample2.index_locked Sample.config in
  let r := FileReader.constructor in
  let seg := File 16 (Some (VObj [("logs", VObj [])])) in
  (is_Some (fs_dir (disk w))
   /\ fs_deny (disk w) (FileReader._currLogFile r) = false
   /\ fs_deny (disk w) "index.json" = true
   /\ pretty_file (persisted_map r w) = Some seg
   /\ FileReader._currLogFile r <> "index.json"
   /\ FileReader._currLogFile r <> "config.json")
  /\ disk_file (snd (snd (FileReader.saveFiles (r, w)))) "logs_0.json" = Some seg
  /\ disk_file (snd (snd (FileReader.saveFiles (r, w)))) "index.json"
     = Some Sample.default_index.
Proof.
  cbv zeta.
  assert (H1 : is_Some (fs_dir (disk (Sample.world Sample2.index_locked Sample.config))))
    by (simpl; eauto).
  assert (H4 : pretty_file (persisted_map FileReader.constructor
                              (Sample.world Sample2.index_locked Sample.config))
               = Some (File 16 (Some (VObj [("logs", VObj [])]))))
    by (vm_compute; reflexivity).
  assert (H5 : FileReader._currLogFile FileReader.constructor <> "index.json")
    by discriminate.
  assert (H6 : FileReader._currLogFile FileReader.constructor <> "config.json")
    by discriminate.
  split; [auto 10|].
  destruct (X3_saveFiles_partial_write FileReader.constructor
              (Sample.world Sample2.index_locked Sample.config) _
              H1 eq_refl eq_refl H4 H5 H6) as (_ & Hs & Hi & _).
  split; [exact Hs | exact Hi].
Defined.

(** ** The bootstrap on a writable directory *)

Lemma ensure_file_writable name f w : writable w -> writable (ensure_file name f w).
Proof.
  intros [[d Hd] Hp]. unfold ensure_file, writable. rewrite Hd.
  destruct (d !! name); simpl; [rewrite Hd|]; eauto.
Qed.

Lemma disk_file_ensure name f w n :
  is_Some (fs_dir (disk w)) ->
  disk_file (ensure_file name f w) n
  = if decide (n = name) then Some (default f (disk_file w name)) else disk_file w n.
Proof.
  intros [d Hd]. unfold ensure_file, disk_file. rewrite Hd.
  destruct (d !! name) as [g|] eqn:Hg; simpl; rewrite ?Hd.
  - case_decide as Hn; [subst n; exact Hg | reflexivity].
  - case_decide as Hn; [subst n; apply lookup_insert_eq|].
    apply lookup_insert_ne. congruence.
Qed.

Lemma ensure_file_id name f w : is_Some (disk_file w name) -> ensure_file name f w = w.
Proof.
  unfold disk_file, ensure_file. destruct (fs_dir (disk w)) as [d|]; [|reflexivity].
  intros [g ->]. reflexivity.
Qed.

Lemma ensure_file_frame name f w :
  console (ensure_file name f w) = console w
  /\ heap (ensure_file name f w) = heap w
  /\ State_config (ensure_file name f w) = State_config w
  /\ fs_deny (disk (ensure_file name f w)) = fs_deny (disk w).
Proof.
  unfold ensure_file. destruct (fs_dir (disk w)) as [d|]; [|auto].
  destruct (d !! name); auto.
Qed.

Lemma FileReader_validateFile_writable target f0 r w :
  writable w ->
  FileReader.validateFile target (Some f0) (r, w)
  = (Return tt, (r, ensure_file target f0 w)).
Proof.
  intros [[d Hd] Hp]. rewrite FileReader_validateFile_eq.
  unfold disk_file, ensure_file, fs.writeFileSync. rewrite Hd.
  destruct (d !! target); [reflexivity|]. rewrite Hp. reflexivity.
Qed.

Lemma FileReader_initDirectories_exists r w :
  is_Some (fs_dir (disk w)) -> FileReader.initDirectories (r, w) = (Return tt, (r, w)).
Proof.
  intros [d Hd]. unfold FileReader.initDirectories, bind, liftW, fs.existsSync_dir, gets.
  simpl. rewrite Hd. reflexivity.
Qed.

Lemma FileReader_pre_writable r w :
  writable w ->
  FileReader.pre (r, w) = (Return tt, (r, bootstrapped (FileReader._currLogFile r) w)).
Proof.
  intros Hw. unfold FileReader.pre, bootstrapped.
  rewrite (bind_of_Return _ _ _ _ _ (FileReader_initDirectories_exists r w (proj1 Hw))).
  change (compact_file (VObj [("indexes", VObj [])])) with (Some Sample.default_index).
  change (compact_file (VObj [("logs", VObj [])])) with (Some Sample.empty_segment).
  change (compact_file (VObj [("disableProto", VBool false)]))
    with (Some Sample.default_config).
  rewrite (bind_of_Return _ _ _ _ _
             (FileReader_validateFile_writable "index.json" _ r w Hw)).
  rewrite FileReader_bind_this.
  pose proof (ensure_file_writable "index.json" Sample.default_index w Hw) as Hw1.
  rewrite (bind_of_Return _ _ _ _ _
             (FileReader_validateFile_writable (FileReader._currLogFile r) _ r _ Hw1)).
  apply FileReader_validateFile_writable, ensure_file_writable, Hw1.
Qed.

Lemma bootstrapped_writable cur w : writable w -> writable (bootstrapped cur w).
Proof. intros Hw. unfold bootstrapped. auto using ensure_file_writable. Qed.

Lemma bootstrapped_id cur w :
  is_Some (disk_file w "index.json") -> is_Some (disk_file w cur) ->
  is_Some (disk_file w "config.json") -> bootstrapped cur w = w.
Proof.
  intros H1 H2 H3. unfold bootstrapped.
  rewrite (ensure_file_id "index.json") by exact H1.
  rewrite (ensure_file_id cur) by exact H2.
  apply ensure_file_id, H3.
Qed.

Lemma bootstrapped_keeps cur w : writable w -> keeps_files w (bootstrapped cur w).
Proof.
  intros Hw n f Hn. unfold bootstrapped.
  pose proof (ensure_file_writable "index.json" Sample.default_index w Hw) as Hw1.
  pose proof (ensure_file_writable cur Sample.empty_segment _ Hw1) as Hw2.
  rewrite disk_file_ensure by apply Hw2.
  rewrite !(disk_file_ensure cur) by apply Hw1.
  rewrite !(disk_file_ensure "index.json") by apply Hw.
  repeat case_decide; subst; rewrite ?Hn; simpl; try reflexivity; try congruence.
Qed.

(** A retrieval by name on a writable directory, as an equation. *)
Lemma FileReader_read_writable c s r w :
  writable w ->
  let name := String c s in
  let w1 := bootstrapped name w in
  exists l,
    FileReader.read (Some name) (r, w)
    = (Return (loaded_segment w1 name),
       (with_logs (loaded_segment w1 name) (with_currLogFile name r),
        with_console l w1)).
Proof.
  intros Hw name w1. unfold FileReader.read.
  assert (E0 : FileReader.fetchCurrentLogFile (Some name) (r, w)
               = (Return tt, (with_currLogFile name r, w))) by reflexivity.
  rewrite (bind_of_Return _ _ _ _ _ E0).
  pose proof (FileReader_pre_writable (with_currLogFile name r) w Hw) as E1.
  cbn [with_currLogFile FileReader._currLogFile] in E1. fold w1 in E1.
  rewrite (bind_of_Return _ _ _ _ _ E1).
  pose proof (bootstrapped_writable name w Hw) as Hw1. fold w1 in Hw1.
  change (compact_file (VObj [("indexes", VObj [])])) with (Some Sample.default_index).
  change (compact_file (VObj [("logs", VObj [])])) with (Some Sample.empty_segment).
  rewrite (bind_of_Return _ _ _ _ _
             (FileReader_validateFile_writable "index.json" _ _ w1 Hw1)).
  assert (Hex : forall n, n = "index.json" \/ n = name \/ n = "config.json" ->
            is_Some (disk_file w1 n)).
  { intros n Hn. subst w1. unfold bootstrapped.
    pose proof (ensure_file_writable "index.json" Sample.default_index w Hw) as Hwa.
    pose proof (ensure_file_writable name Sample.empty_segment _ Hwa) as Hwb.
    rewrite disk_file_ensure by apply Hwb.
    case_decide; [eauto|].
    rewrite disk_file_ensure by apply Hwa.
    case_decide; [eauto|].
    rewrite disk_file_ensure by apply Hw.
    case_decide; [eauto|]. tauto. }
  rewrite (ensure_file_id "index.json") by (apply Hex; auto).
  rewrite FileReader_bind_this. cbn [with_currLogFile FileReader._currLogFile].
  rewrite (bind_of_Return _ _ _ _ _
             (FileReader_validateFile_writable name _ _ w1 Hw1)).
  rewrite (ensure_file_id name) by (apply Hex; auto).
  destruct (FileReader_prepareLogfile_eq (with_currLogFile name r) w1) as [l El].
  rewrite (bind_of_Return _ _ _ _ _ El). exists l. reflexivity.
Qed.

(** X4.  Retrieval writes.  On a directory that accepts writes, [read] of a
    segment name that does not exist creates that file with the empty
    default body and returns the empty segment [{ logs: {} }]; no file that
    existed is changed.  (The names [index.json] and [config.json] are
    created with their own default bodies and are left aside.) *)
Theorem X4_read_creates_the_segment_it_is_asked_for
    (name : string) (r : FileReader.t) (w : World) :
  writable w ->
  name <> EmptyString -> name <> "index.json" -> name <> "config.json" ->
  disk_file w name = None ->
  let res := FileReader.read (Some name) (r, w) in
  fst res = Return (VObj [("logs", VObj [])])
  /\ disk_file (snd (snd res)) name = Some Sample.empty_segment
  /\ keeps_files w (snd (snd res))
  /\ FileReader._currLogFile (fst (snd res)) = name.
Proof.
  intros Hw Hne Hn1 Hn2 Habs res. subst res.
  destruct name as [|c s]; [congruence|].
  destruct (FileReader_read_writable c s r w Hw) as [l ->]. cbn [fst snd].
  assert (Hf : disk_file (bootstrapped (String c s) w) (String c s)
               = Some Sample.empty_segment).
  { unfold bootstrapped.
    pose proof (ensure_file_writable "index.json" Sample.default_index w Hw) as Hwa.
    pose proof (ensure_file_writable (String c s) Sample.empty_segment _ Hwa) as Hwb.
    rewrite disk_file_ensure by apply Hwb.
    rewrite decide_False by exact Hn2.
    rewrite disk_file_ensure by apply Hwa.
    rewrite decide_True by reflexivity.
    rewrite disk_file_ensure by apply Hw.
    rewrite decide_False by exact Hn1.
    rewrite Habs. reflexivity. }
  split; [|split; [|split]].
  - unfold loaded_segment. rewrite Hf. reflexivity.
  - rewrite disk_file_with_console. exact Hf.
  - intros n f Hn. rewrite disk_file_with_console.
    apply bootstrapped_keeps; assumption.
  - reflexivity.
Qed.

Lemma X4_witness :
  let w := Sample.world Sample.writable Sample.config in
  let res := FileReader.read (Some "logs_42.json") (FileReader.constructor, w) in
  (writable w
   /\ "logs_42.json" <> EmptyString /\ "logs_42.json" <> "index.json"
   /\ "logs_42.json" <> "config.json"
   /\ disk_file w "logs_42.json" = None)
  /\ fst res = Return (VObj [("logs", VObj [])])
  /\ disk_file (snd (snd res)) "logs_42.json" = Some Sample.empty_segment.
Proof.
  cbv zeta.
  assert (Hw : writable (Sample.world Sample.writable Sample.config)).
  { split; [simpl; eauto | reflexivity]. }
  assert (H1 : "logs_42.json" <> EmptyString) by discriminate.
  assert (H2 : "logs_42.json" <> "index.json") by discriminate.
  assert (H3 : "logs_42.json" <> "config.json") by discriminate.
  assert (H4 : disk_file (Sample.world Sample.writable Sample.config) "logs_42.json" = None)
    by reflexivity.
  split; [auto 10|].
  destruct (X4_read_creates_the_segment_it_is_asked_for "logs_42.json"
              FileReader.constructor (Sample.world Sample.writable Sample.config)
              Hw H1 H2 H3 H4) as (Ha & Hb & _).
  split; [exact Ha | exact Hb].
Defined.

(** ** The loading steps of a capture *)

Lemma FileReader_prepareConfigFile_eq r w :
  exists c,
    FileReader.prepareConfigFile (r, w)
    = (Return tt, (with_config (loaded_config w) r, with_console c w)).
Proof.
  unfold FileReader.prepareConfigFile, try_catch, bind, liftW, fs.readFileSync,
    loaded_config, disk_file. simpl.
  destruct (fs_dir (disk w)) as [d|]; [|eexists; reflexivity].
  destruct (d !! "config.json") as [f|]; [|eexists; reflexivity].
  unfold JSON_parse. simpl.
  destruct (f_json f) as [v|]; simpl; [|eexists; reflexivity].
  exists (console w). rewrite with_console_id. reflexivity.
Qed.

Lemma FileReader_prepareLogJsonFile_eq r w :
  exists c,
    FileReader.prepareLogJsonFile (r, w)
    = (Return tt,
       (with_logsJson (loaded_segment w (FileReader._currLogFile r)) r, with_console c w)).
Proof.
  unfold FileReader.prepareLogJsonFile, try_catch, bind, FileReader.this, gets, liftW,
    fs.readFileSync, loaded_segment, disk_file. simpl.
  destruct (fs_dir (disk w)) as [d|]; [|eexists; reflexivity].
  destruct (d !! FileReader._currLogFile r) as [f|]; [|eexists; reflexivity].
  unfold JSON_parse, recovered_segment.
  destruct (f_json f) as [v|]; simpl; [|eexists; reflexivity].
  destruct (Js.truthy (Js.get_prop_opt v "logs")) eqn:Ht; simpl.
  - exists (console w). rewrite with_console_id.
    destruct v; try discriminate Ht; reflexivity.
  - eexists. reflexivity.
Qed.

(** The four loading steps never raise on a directory that exists; what
    follows them runs on the loaded instance, in a world that differs by its
    console alone. *)
Lemma FileReader_loads r w d :
  fs_dir (disk w) = Some d ->
  exists c, forall B (K : FileReader.Method B),
    bind (FileReader.fetchCurrentLogFile None)
      (fun _ => bind FileReader.prepareLogfile
         (fun _ => bind FileReader.prepareIndexFile
            (fun _ => bind FileReader.prepareConfigFile (fun _ => K)))) (r, w)
    = K (loaded_instance d r w, with_console c w).
Proof.
  intros Hd.
  pose proof (FileReader_fetchCurrentLogFile_None_eq r w d Hd) as E2.
  fold (selected d r) in E2.
  destruct (FileReader_prepareLogfile_eq (selected d r)
              (with_console (console w ++ [no_target])%list w)) as [c3 E3].
  destruct (FileReader_prepareIndexFile_eq
              (with_logs (loaded_segment w (FileReader._currLogFile (selected d r)))
                 (selected d r)) (with_console c3 w)) as [c4 E4].
  destruct (FileReader_prepareConfigFile_eq
              (with_index (loaded_index w)
                 (with_logs (loaded_segment w (FileReader._currLogFile (selected d r)))
                    (selected d r))) (with_console c4 w)) as [c5 E5].
  exists c5. intros B K.
  rewrite (bind_of_Return _ _ _ _ _ E2).
  rewrite (bind_of_Return _ _ _ _ _ E3).
  rewrite (bind_of_Return _ _ _ _ _ E4).
  rewrite (bind_of_Return _ _ _ _ _ E5). reflexivity.
Qed.

Lemma FileReader_loads_text r w d :
  fs_dir (disk w) = Some d ->
  exists c, forall B (K : FileReader.Method B),
    bind (FileReader.fetchCurrentLogFile None)
      (fun _ => bind FileReader.prepareLogJsonFile
         (fun _ => bind FileReader.prepareIndexFile
            (fun _ => bind FileReader.prepareConfigFile (fun _ => K)))) (r, w)
    = K (loaded_instance_text d r w, with_console c w).
Proof.
  intros Hd.
  pose proof (FileReader_fetchCurrentLogFile_None_eq r w d Hd) as E2.
  fold (selected d r) in E2.
  destruct (FileReader_prepareLogJsonFile_eq (selected d r)
              (with_console (console w ++ [no_target])%list w)) as [c3 E3].
  destruct (FileReader_prepareIndexFile_eq
              (with_logsJson (loaded_segment w (FileReader._currLogFile (selected d r)))
                 (selected d r)) (with_console c3 w)) as [c4 E4].
  destruct (FileReader_prepareConfigFile_eq
              (with_index (loaded_index w)
                 (with_logsJson (loaded_segment w (FileReader._currLogFile (selected d r)))
                    (selected d r))) (with_console c4 w)) as [c5 E5].
  exists c5. intros B K.
  rewrite (bind_of_Return _ _ _ _ _ E2).
  rewrite (bind_of_Return _ _ _ _ _ E3).
  rewrite (bind_of_Return _ _ _ _ _ E4).
  rewrite (bind_of_Return _ _ _ _ _ E5). reflexivity.
Qed.

(** ** The append step *)

Lemma logBody_of_apply `{P : Platform} {T} (e : INotFormattedLogEntry.t) (t : T) w :
  exists v, logBody_of e (t, w) = (Return v, (t, w)).
Proof. unfold logBody_of, bind, liftW, Heap.read, gets, ret. simpl. eauto. Qed.

(** [prepareLog] returns or raises a [TypeError], nothing else; it works on
    the instance and on the caller heap, and leaves the disk, the console and
    the ambient configuration as they are. *)
Lemma FileReader_prepareLog_cases `{P : Platform} req uuid now r w :
  exists o r' w',
    FileReader.prepareLog req uuid now (r, w) = (o, (r', w'))
    /\ (o = Return tt \/ o = Throw TypeError)
    /\ disk w' = disk w /\ console w' = console w /\ State_config w' = State_config w
    /\ FileReader._currLogFile r' = FileReader._currLogFile r.
Proof.
  unfold FileReader.prepareLog.
  destruct (entry_of_request_spec req now r w) as (e & extra & He & _).
  rewrite (bind_of_Return _ _ _ _ _ He).
  rewrite (bind_of_Return _ _ _ _ _ (FileReader_obfuscate_spec e r _)).
  match goal with |- context [bind (logBody_of e) _ (r, ?w0)] =>
    destruct (logBody_of_apply e r w0) as [v Hv]; set (wo := w0) in * end.
  rewrite (bind_of_Return _ _ _ _ _ Hv).
  assert (Hwo : disk wo = disk w /\ console wo = console w
                /\ State_config wo = State_config w) by (subst wo; auto).
  clearbody wo. clear He Hv.
  unfold FileReader.index_entry, bind, or_TypeError, FileReader.set_currLogSize,
    FileReader.set_logs, FileReader.set_index, FileReader.this, liftW, gets, modify,
    ret, throw.
  simpl.
  destruct (Js.get_prop (FileReader._logs r) "logs") as [old|]; simpl;
    [|eexists _, _, _; split; [reflexivity|]; simpl; tauto].
  destruct (Js.set_prop (FileReader._logs r) "logs" _) as [logs'|]; simpl;
    [|eexists _, _, _; split; [reflexivity|]; simpl; tauto].
  destruct (Js.get_prop (FileReader._index r) "indexes") as [ixs|]; simpl;
    [|eexists _, _, _; split; [reflexivity|]; simpl; tauto].
  destruct (Js.set_prop ixs uuid _) as [ixs'|]; simpl;
    [|eexists _, _, _; split; [reflexivity|]; simpl; tauto].
  destruct (Js.set_prop (FileReader._index r) "indexes" ixs') as [idx'|]; simpl;
    eexists _, _, _; (split; [reflexivity|]); simpl; tauto.
Qed.

Lemma FileReader_prepareJsonLog_cases `{P : Platform} req uuid now r w :
  exists o r' w',
    FileReader.prepareJsonLog req uuid now (r, w) = (o, (r', w'))
    /\ (o = Return tt \/ o = Throw TypeError)
    /\ disk w' = disk w /\ console w' = console w /\ State_config w' = State_config w
    /\ FileReader._currLogFile r' = FileReader._currLogFile r.
Proof.
  unfold FileReader.prepareJsonLog.
  destruct (entry_of_request_spec req now r w) as (e & extra & He & _).
  rewrite (bind_of_Return _ _ _ _ _ He).
  rewrite (bind_of_Return _ _ _ _ _ (FileReader_obfuscate_spec e r _)).
  match goal with |- context [bind (logBody_of e) _ (r, ?w0)] =>
    destruct (logBody_of_apply e r w0) as [v Hv]; set (wo := w0) in * end.
  rewrite (bind_of_Return _ _ _ _ _ Hv).
  assert (Hwo : disk wo = disk w /\ console wo = console w
                /\ State_config wo = State_config w) by (subst wo; auto).
  clearbody wo. clear He Hv.
  unfold FileReader.index_entry, bind, or_TypeError, FileReader.set_currLogSize,
    FileReader.set_logsJson, FileReader.set_index, FileReader.this, liftW, gets, modify,
    ret, throw.
  simpl.
  destruct (Js.get_prop (FileReader._logsJson r) "logs") as [old|]; simpl;
    [|eexists _, _, _; split; [reflexivity|]; simpl; tauto].
  destruct (Js.set_prop (FileReader._logsJson r) "logs" _) as [logs'|]; simpl;
    [|eexists _, _, _; split; [reflexivity|]; simpl; tauto].
  destruct (Js.get_prop (FileReader._index r) "indexes") as [ixs|]; simpl;
    [|eexists _, _, _; split; [reflexivity|]; simpl; tauto].
  destruct (Js.set_prop ixs uuid _) as [ixs'|]; simpl;
    [|eexists _, _, _; split; [reflexivity|]; simpl; tauto].
  destruct (Js.set_prop (FileReader._index r) "indexes" ixs') as [idx'|]; simpl;
    eexists _, _, _; (split; [reflexivity|]); simpl; tauto.
Qed.

(** What a [prepareJsonLog] that returns has done to the instance. *)
Lemma FileReader_prepareJsonLog_Return `{P : Platform} req uuid now r w r' w' :
  FileReader.prepareJsonLog req uuid now (r, w) = (Return tt, (r', w')) ->
  exists old entry ixs ixs',
    Js.get_prop (FileReader._logsJson r) "logs" = Some old
    /\ Js.set_prop (FileReader._logsJson r) "logs"
         (VObj (Js.spread (Js.spread [] (Js.own_props old)) [(uuid, entry)]))
       = Some (FileReader._logsJson r')
    /\ Js.get_prop (FileReader._index r) "indexes" = Some ixs
    /\ Js.set_prop ixs uuid
         (VStr (path_resolve (IConfig.path (State_config w')) "index.json")) = Some ixs'
    /\ Js.set_prop (FileReader._index r) "indexes" ixs' = Some (FileReader._index r')
    /\ FileReader._logs r' = FileReader._logs r
    /\ FileReader._config r' = FileReader._config r
    /\ FileReader._currLogFile r' = FileReader._currLogFile r.
Proof.
  unfold FileReader.prepareJsonLog. intros E.
  apply bind_Return in E as (e & s1 & H1 & E).
  apply (preserved_by instance_of) in H1; [|apply entry_of_request_instance].
  apply bind_Return in E as ([] & s2 & H2 & E).
  apply (preserved_by instance_of) in H2; [|apply FileReader_obfuscate_instance].
  apply bind_Return in E as (v & s3 & H3 & E).
  apply (preserved_by instance_of) in H3; [|apply logBody_of_instance].
  destruct s1 as [r1 w1], s2 as [r2 w2], s3 as [r3 w3].
  unfold instance_of in *. simpl in *. subst r1 r2 r3.
  unfold FileReader.index_entry, bind, or_TypeError, FileReader.set_currLogSize,
    FileReader.set_logsJson, FileReader.set_index, FileReader.this, liftW, gets, modify,
    ret, throw in E.
  simpl in E.
  destruct (Js.get_prop (FileReader._logsJson r) "logs") as [old|] eqn:Hold;
    simpl in E; try discriminate E;
  destruct (Js.set_prop (FileReader._logsJson r) "logs" _) as [logs'|] eqn:Hlogs;
    simpl in E; try discriminate E;
  destruct (Js.get_prop (FileReader._index r) "indexes") as [ixs|] eqn:Hixs;
    simpl in E; try discriminate E;
  destruct (Js.set_prop ixs uuid _) as [ixs'|] eqn:Hixs';
    simpl in E; try discriminate E;
  destruct (Js.set_prop (FileReader._index r) "indexes" ixs') as [idx'|] eqn:Hidx;
    simpl in E; try discriminate E;
  injection E as <- <-; simpl;
  exists old, v, ixs, ixs'; auto 10.
Qed.

Lemma has_index_map_of v ixs u x ixs' :
  Js.get_prop v "indexes" = Some ixs -> Js.set_prop ixs u x = Some ixs' ->
  has_index_map v = true.
Proof.
  unfold has_index_map. intros -> H. destruct ixs; simpl in H; congruence.
Qed.

(** ** An index file without an index map *)

Lemma loaded_index_of w f v :
  disk_file w "index.json" = Some f -> f_json f = Some v -> loaded_index w = v.
Proof. unfold loaded_index. intros -> Hv. simpl. rewrite Hv. reflexivity. Qed.

(** X5.  [prepareIndexFile] takes over whatever value [index.json] parses
    to, with no check of its shape (the segment load has one).  When that
    value has no [indexes] member that is an object, as with the files [{}],
    [null] or [[]], every capture raises: a [TypeError] from the assignment
    into the index, or the bootstrap's [CannotCreateFile].  Nothing is
    persisted and no file is changed, [index.json] least of all: the next
    capture meets the same file and fails the same way.  This holds for the
    binary path [save] and the text path [saveJson]. *)
Theorem X5_index_without_map_blocks_every_capture `{P : Platform}
    req uuid now (r : FileReader.t) (w : World) (f : file) (v : value) :
  disk_file w "index.json" = Some f ->
  f_json f = Some v ->
  has_index_map v = false ->
  let failed (res : outcome unit * (FileReader.t * World)) :=
    (fst res = Throw TypeError \/ exists t, fst res = Throw (CannotCreateFile t))
    /\ keeps_files w (snd (snd res))
    /\ disk_file (snd (snd res)) "index.json" = Some f in
  failed (FileReader.save req uuid now (r, w))
  /\ failed (FileReader.saveJson req uuid now (r, w)).
Proof.
  intros Hf Hv Hbad failed.
  destruct (FileReader_pre_cases r w)
    as [(w1 & E1 & K1 & I1 & _)|(t & w1 & E1 & K1)].
  2:{ subst failed. unfold FileReader.save, FileReader.saveJson.
      rewrite !(bind_of_Throw _ _ _ _ _ E1). cbn [fst snd]. split; eauto 10. }
  pose proof (K1 _ _ Hf) as Hf1.
  destruct (disk_file_dir _ _ _ Hf1) as [d1 Hd1].
  subst failed. cbv beta. split.
  - unfold FileReader.save. rewrite (bind_of_Return _ _ _ _ _ E1).
    destruct (FileReader_loads r w1 d1 Hd1) as [c Hl]. rewrite Hl.
    destruct (FileReader_prepareLog_cases req uuid now (loaded_instance d1 r w1)
                (with_console c w1)) as (o & r6 & w6 & E6 & [->| ->] & D6 & _).
    + exfalso. apply FileReader_prepareLog_Return in E6
        as (_ & _ & ixs & ixs' & _ & _ & Hixs & Hset & _).
      cbn [loaded_instance with_config with_index FileReader._index] in Hixs.
      rewrite (loaded_index_of w1 f v Hf1 Hv) in Hixs.
      rewrite (has_index_map_of _ _ _ _ _ Hixs Hset) in Hbad. discriminate.
    + rewrite (bind_of_Throw _ _ _ _ _ E6). cbn [fst snd].
      assert (K6 : keeps_files w w6).
      { apply (keeps_files_trans _ _ _ K1), keeps_files_same_disk. exact D6. }
      split; [auto|]. split; [exact K6 | apply K6, Hf].
  - unfold FileReader.saveJson. rewrite (bind_of_Return _ _ _ _ _ E1).
    destruct (FileReader_loads_text r w1 d1 Hd1) as [c Hl]. rewrite Hl.
    destruct (FileReader_prepareJsonLog_cases req uuid now (loaded_instance_text d1 r w1)
                (with_console c w1)) as (o & r6 & w6 & E6 & [->| ->] & D6 & _).
    + exfalso. apply FileReader_prepareJsonLog_Return in E6
        as (_ & _ & ixs & ixs' & _ & _ & Hixs & Hset & _).
      cbn [loaded_instance_text with_config with_index FileReader._index] in Hixs.
      rewrite (loaded_index_of w1 f v Hf1 Hv) in Hixs.
      rewrite (has_index_map_of _ _ _ _ _ Hixs Hset) in Hbad. discriminate.
    + rewrite (bind_of_Throw _ _ _ _ _ E6). cbn [fst snd].
      assert (K6 : keeps_files w w6).
      { apply (keeps_files_trans _ _ _ K1), keeps_files_same_disk. exact D6. }
      split; [auto|]. split; [exact K6 | apply K6, Hf].
Qed.

Lemma X5_witness :
  let w := Sample.world Sample2.bare_index_store Sample.config in
  let res := FileReader.save (P := Sample.platform) Sample.request Sample.uuid1 17
               (FileReader.constructor, w) in
  (disk_file w "index.json" = Some Sample2.bare_index
   /\ f_json Sample2.bare_index = Some (VObj [])
   /\ has_index_map (VObj []) = false)
  /\ fst res = Throw TypeError
  /\ disk_file (snd (snd res)) "index.json" = Some Sample2.bare_index.
Proof.
  cbv zeta.
  split; [repeat split|].
  split; [vm_compute; reflexivity|].
  destruct (X5_index_without_map_blocks_every_capture (P := Sample.platform)
              Sample.request Sample.uuid1 17 FileReader.constructor
              (Sample.world Sample2.bare_index_store Sample.config)
              Sample2.bare_index (VObj []) eq_refl eq_refl eq_refl)
    as [(_ & _ & Hkept) _].
  exact Hkept.
Defined.

(** ** The tail of a capture: snapshot, rotation check, persistence *)

Lemma set_prop_object v k x c : Js.set_prop v k x = Some c -> is_object c.
Proof. destruct v; simpl; intros [= <-]; exact I. Qed.

Lemma is_object_defined v : is_object v -> v <> VUndef.
Proof. destruct v; simpl; intros H; try contradiction; discriminate. Qed.

Lemma pretty_file_json v f : pretty_file v = Some f -> f_json f = Some (JSON.image v).
Proof.
  unfold pretty_file. destruct (JSON.pretty v); simpl; [|discriminate].
  intros [= <-]. reflexivity.
Qed.

Lemma segment_name_cons n :
  segment_name n = String "l" ("ogs_" ++ JsString.toString n ++ ".json").
Proof. reflexivity. Qed.

Lemma segment_name_not_index n : segment_name n <> "index.json".
Proof. rewrite segment_name_cons. discriminate. Qed.

Lemma segment_name_not_config n : segment_name n <> "config.json".
Proof. rewrite segment_name_cons. discriminate. Qed.

Lemma prefix_app (s t : string) : String.prefix s (s ++ t) = true.
Proof.
  induction s as [|c s IH]; simpl; [destruct t; reflexivity|].
  destruct (ascii_dec c c); [exact IH | congruence].
Qed.

Lemma log_name_segment n : log_name (segment_name n).
Proof. apply prefix_app. Qed.

Lemma prefix_cons c s t :
  String.prefix (String c s) t = true ->
  exists t', t = String c t' /\ String.prefix s t' = true.
Proof.
  destruct t as [|e t']; cbn [String.prefix]; [intros [=]|].
  destruct (ascii_dec c e) as [<-|_]; [eauto | intros [=]].
Qed.

Lemma log_name_cons s : log_name s -> exists r, s = String "l" r.
Proof.
  unfold log_name. intros H.
  apply prefix_cons in H as (r & -> & _). eauto.
Qed.

Lemma log_name_not_index s : log_name s -> s <> "index.json".
Proof. intros H ->. discriminate H. Qed.

Lemma log_name_not_config s : log_name s -> s <> "config.json".
Proof. intros H ->. discriminate H. Qed.

(** The first digit run of a name that begins with [logs_] comes after
    these five letters, so rotation keeps them. *)
Lemma log_name_rotated s p d t x :
  log_name s -> JsString.match_digits s = Some (p, d, t) -> log_name (p ++ x ++ t).
Proof.
  unfold log_name. intros Hs Hm.
  apply prefix_cons in Hs as (s1 & -> & Hs).
  apply prefix_cons in Hs as (s2 & -> & Hs).
  apply prefix_cons in Hs as (s3 & -> & Hs).
  apply prefix_cons in Hs as (s4 & -> & Hs).
  apply prefix_cons in Hs as (s5 & -> & Hs).
  rewrite !match_digits_cons in Hm by reflexivity.
  destruct (JsString.match_digits s5) as [[[p0 d0] t0]|]; [|discriminate].
  injection Hm as <- <- <-.
  apply (prefix_app "logs_").
Qed.

Lemma wrote_writable name f w w' : wrote name f w w' -> writable w -> writable w'.
Proof.
  intros (_ & _ & Hd & Hp & _) [_ Hw]. split; [exact Hd|].
  intros n. rewrite Hp. apply Hw.
Qed.

(** The last three steps of a capture that returns, on a writable
    directory, for an instance whose current segment begins with [logs_]:
    the name is kept, or it is the name that rotation makes of it. *)
Lemma FileReader_capture_tail_full r6 w6 r' w' :
  bind FileReader.prepareConfig
    (fun _ => bind FileReader.this
       (fun self => bind (FileReader.checkFileSize (FileReader._currLogFile self))
          (fun _ => FileReader.saveFiles))) (r6, w6)
  = (Return tt, (r', w')) ->
  writable w6 ->
  log_name (FileReader._currLogFile r6) ->
  is_object (FileReader._logs r6) ->
  is_object (FileReader._logsJson r6) ->
  is_object (FileReader._index r6) ->
  ((FileReader._currLogFile r' = FileReader._currLogFile r6
    /\ FileReader._logs r' = FileReader._logs r6)
   \/ ((exists p d t,
         JsString.match_digits (FileReader._currLogFile r6) = Some (p, d, t)
         /\ FileReader._currLogFile r'
            = p ++ JsString.toString (JsNumber.add (JsString.parseInt d) 1) ++ t)
       /\ exists ls es,
            Js.get_prop (FileReader._logs r6) "logs" = Some ls
            /\ Js.entries ls = Some es
            /\ Js.set_prop (FileReader._logs r6) "logs"
                 (VObj (Js.spread [] (Js.fromEntries (Js.slice_last es))))
               = Some (FileReader._logs r')))
  /\ FileReader._logsJson r' = FileReader._logsJson r6
  /\ FileReader._index r' = FileReader._index r6
  /\ disk_file w' (FileReader._currLogFile r') = pretty_file (persisted_map r' w6)
  /\ is_object (persisted_map r' w6)
  /\ writable w'
  /\ is_Some (disk_file w' "index.json")
  /\ is_Some (disk_file w' "config.json")
  /\ State_config w' = State_config w6
  /\ disk_file w' "index.json" = pretty_file (FileReader._index r')
  /\ log_name (FileReader._currLogFile r')
  /\ Js.get_prop (FileReader._config r') "disableProto"
     = Some (opt_bool (IConfig.disableProto (State_config w6)))
  /\ disk_file w' "config.json" = pretty_file (FileReader._config r').
Proof.
  intros E Hw Hcur Hl Hj Hi.
  apply bind_Return in E as ([] & [r7 w7] & H7 & E).
  rewrite FileReader_prepareConfig_eq in H7.
  destruct (Js.set_prop (FileReader._config r6) "disableProto" _) as [c|] eqn:Hc;
    [|discriminate H7].
  injection H7 as <- <-.
  rewrite FileReader_bind_this in E.
  cbn [with_config FileReader._currLogFile] in E.
  apply bind_Return in E as ([] & [r8 w8] & H8 & H9).
  apply FileReader_checkFileSize_Return in H8 as (-> & _ & Hrot).
  assert (Hrot' :
    ((FileReader._currLogFile r8 = FileReader._currLogFile r6
      /\ FileReader._logs r8 = FileReader._logs r6)
     \/ ((exists p d t,
           JsString.match_digits (FileReader._currLogFile r6) = Some (p, d, t)
           /\ FileReader._currLogFile r8
              = p ++ JsString.toString (JsNumber.add (JsString.parseInt d) 1) ++ t)
         /\ exists ls es,
              Js.get_prop (FileReader._logs r6) "logs" = Some ls
              /\ Js.entries ls = Some es
              /\ Js.set_prop (FileReader._logs r6) "logs"
                   (VObj (Js.spread [] (Js.fromEntries (Js.slice_last es))))
                 = Some (FileReader._logs r8)))
    /\ FileReader._logsJson r8 = FileReader._logsJson r6
    /\ FileReader._index r8 = FileReader._index r6
    /\ FileReader._config r8 = c
    /\ is_object (FileReader._logs r8)
    /\ log_name (FileReader._currLogFile r8)).
  { destruct Hrot as [->|(p & d & t & ls & es & logs' & Hm & Hls & Hes & Hset & ->)].
    - cbn. auto 10.
    - cbn. cbn in Hm.
      split; [right; split; [exists p, d, t; auto|]; exists ls, es; auto|].
      split; [reflexivity|]. split; [reflexivity|]. split; [reflexivity|].
      split; [exact (set_prop_object _ _ _ _ Hset)|].
      exact (log_name_rotated _ _ _ _ _ Hcur Hm). }
  clear Hrot. destruct Hrot' as (Hrot & Hj8 & Hi8 & Hc8 & Hl8 & Hk).
  assert (Hpm : is_object (persisted_map r8 w6)).
  { unfold persisted_map. destruct (text_flag (State_config w6));
      [rewrite Hj8; exact Hj | exact Hl8]. }
  destruct (pretty_file_defined _ (is_object_defined _ Hpm)) as [f1 Hf1].
  destruct (pretty_file_defined (FileReader._index r8)) as [f2 Hf2];
    [rewrite Hi8; apply is_object_defined, Hi|].
  destruct (pretty_file_defined (FileReader._config r8)) as [f3 Hf3];
    [rewrite Hc8; apply is_object_defined, (set_prop_object _ _ _ _ Hc)|].
  destruct Hw as [Hdir Hdeny].
  destruct (FileReader_saveFiles_cases r8 w6)
    as [(g1 & g2 & g3 & w1 & w2 & w3 & G1 & G2 & G3 & W1 & W2 & W3 & _ & Es)
       |[(e & _ & Hbad)
       |[(e & g1 & w1 & _ & _ & _ & Hbad)
       |(e & g1 & g2 & w1 & w2 & _ & _ & _ & _ & _ & _ & Hbad)]]].
  2:{ exfalso. destruct Hbad as [?|[?|?]]; [congruence| |].
      - destruct Hdir as [d Hd]. congruence.
      - rewrite Hdeny in H. discriminate. }
  2:{ exfalso. destruct Hbad as [?|?]; [congruence|].
      rewrite Hdeny in H. discriminate. }
  2:{ exfalso. destruct Hbad as [?|?]; [congruence|].
      rewrite Hdeny in H. discriminate. }
  rewrite Es in H9. injection H9 as <- <-.
  split; [exact Hrot|]. split; [exact Hj8|]. split; [exact Hi8|].
  assert (Hw1 : writable w1) by (apply (wrote_writable _ _ _ _ W1); split; assumption).
  assert (Hw2 : writable w2) by exact (wrote_writable _ _ _ _ W2 Hw1).
  assert (Hw3 : writable w3) by exact (wrote_writable _ _ _ _ W3 Hw2).
  split.
  { rewrite G1.
    rewrite (wrote_other _ _ _ _ _ W3) by (apply log_name_not_config, Hk).
    rewrite (wrote_other _ _ _ _ _ W2) by (apply log_name_not_index, Hk).
    apply W1. }
  split; [exact Hpm|]. split; [exact Hw3|].
  split.
  { rewrite (wrote_other _ _ _ _ _ W3) by discriminate.
    destruct W2 as (-> & _). eauto. }
  split; [destruct W3 as (-> & _); eauto|].
  split.
  { destruct W1 as (_ & _ & _ & _ & _ & _ & _ & S1).
    destruct W2 as (_ & _ & _ & _ & _ & _ & _ & S2).
    destruct W3 as (_ & _ & _ & _ & _ & _ & _ & S3). congruence. }
  split; [rewrite G2, (wrote_other _ _ _ _ _ W3) by discriminate; apply W2|].
  split; [exact Hk|].
  split; [rewrite Hc8; apply (set_prop_get _ _ _ _ Hc)|].
  rewrite G3. apply W3.
Qed.

Lemma FileReader_capture_tail r6 w6 r' w' :
  bind FileReader.prepareConfig
    (fun _ => bind FileReader.this
       (fun self => bind (FileReader.checkFileSize (FileReader._currLogFile self))
          (fun _ => FileReader.saveFiles))) (r6, w6)
  = (Return tt, (r', w')) ->
  writable w6 ->
  log_name (FileReader._currLogFile r6) ->
  is_object (FileReader._logs r6) ->
  is_object (FileReader._logsJson r6) ->
  is_object (FileReader._index r6) ->
  ((FileReader._currLogFile r' = FileReader._currLogFile r6
    /\ FileReader._logs r' = FileReader._logs r6)
   \/ ((exists p d t,
         JsString.match_digits (FileReader._currLogFile r6) = Some (p, d, t)
         /\ FileReader._currLogFile r'
            = p ++ JsString.toString (JsNumber.add (JsString.parseInt d) 1) ++ t)
       /\ exists ls es,
            Js.get_prop (FileReader._logs r6) "logs" = Some ls
            /\ Js.entries ls = Some es
            /\ Js.set_prop (FileReader._logs r6) "logs"
                 (VObj (Js.spread [] (Js.fromEntries (Js.slice_last es))))
               = Some (FileReader._logs r')))
  /\ FileReader._logsJson r' = FileReader._logsJson r6
  /\ FileReader._index r' = FileReader._index r6
  /\ disk_file w' (FileReader._currLogFile r') = pretty_file (persisted_map r' w6)
  /\ is_object (persisted_map r' w6)
  /\ writable w'
  /\ is_Some (disk_file w' "index.json")
  /\ is_Some (disk_file w' "config.json")
  /\ State_config w' = State_config w6
  /\ disk_file w' "index.json" = pretty_file (FileReader._index r')
  /\ log_name (FileReader._currLogFile r').
Proof.
  intros E Hw Hcur Hl Hj Hi.
  destruct (FileReader_capture_tail_full r6 w6 r' w' E Hw Hcur Hl Hj Hi)
    as (H1 & H2 & H3 & H4 & H5 & H6 & H7 & H8 & H9 & H10 & H11 & _).
  auto 20.
Qed.

(** ** Reading back what a capture wrote *)

Lemma image_object v : is_object v -> is_object (JSON.image v).
Proof. destruct v; simpl; auto. Qed.

Lemma nullish_or_object v d : is_object v -> Js.nullish_or v d = v.
Proof. destruct v; simpl; intros H; try contradiction; reflexivity. Qed.

Lemma FileReader_read_back reader w name v seg :
  writable w ->
  is_Some (disk_file w "index.json") -> is_Some (disk_file w "config.json") ->
  log_name name ->
  disk_file w name = Some seg ->
  pretty_file v = Some seg -> is_object v ->
  exists l,
    FileReader.read (Some name) (reader, w)
    = (Return (JSON.image v),
       (with_logs (JSON.image v) (with_currLogFile name reader),
        with_console l w)).
Proof.
  intros Hw Hi Hc Hn Hseg Hv Ho.
  destruct (log_name_cons name Hn) as [rest ->].
  destruct (FileReader_read_writable "l" rest reader w Hw) as [l El].
  cbv zeta in El.
  rewrite bootstrapped_id in El by (rewrite ?Hseg; eauto).
  assert (Hload : loaded_segment w (String "l" rest) = JSON.image v).
  { unfold loaded_segment, recovered_segment.
    rewrite Hseg, (pretty_file_json _ _ Hv).
    apply nullish_or_object, image_object, Ho. }
  rewrite Hload in El. exists l. exact El.
Qed.

Lemma selected_constructor d :
  exists m, FileReader._currLogFile (selected d FileReader.constructor) = segment_name m.
Proof.
  unfold selected. destruct (logNumbers (elements (dom d))) as [|n ns].
  - exists 0. reflexivity.
  - eexists. reflexivity.
Qed.

Lemma selected_log_name d :
  log_name (FileReader._currLogFile (selected d FileReader.constructor)).
Proof.
  destruct (selected_constructor d) as [m ->]. apply log_name_segment.
Qed.

(** On a store whose numbers are safe, the bootstrap adds the number 0 at
    most, and the segment selected has a number whose successor is exact. *)
Lemma selected_safe w d1 :
  writable w -> safe_store w ->
  fs_dir (disk (bootstrapped "logs_0.json" w)) = Some d1 ->
  exists m, m + 1 < 2 ^ 53
    /\ FileReader._currLogFile (selected d1 FileReader.constructor) = segment_name m.
Proof.
  intros Hw Hsafe Hd1. unfold selected.
  destruct (logNumbers (elements (dom d1))) as [|n ns] eqn:Hns.
  - exists 0. split; [reflexivity | reflexivity].
  - exists (Math_max (n :: ns)). split; [|reflexivity].
    assert (Hin : Math_max (n :: ns) ∈ logNumbers (elements (dom d1))).
    { rewrite Hns. apply Math_max_member. discriminate. }
    apply logNumbers_member in Hin as (f & p & d & t & Hf & Hinc & Hm & Hp).
    apply elem_of_elements, elem_of_dom in Hf.
    assert (Hf1 : is_Some (disk_file (bootstrapped "logs_0.json" w) f)).
    { unfold disk_file. rewrite Hd1. exact Hf. }
    destruct Hw as [[d0 Hd0] Hdeny].
    unfold bootstrapped in Hf1.
    rewrite disk_file_ensure in Hf1
      by (apply ensure_file_writable, ensure_file_writable; split; eauto).
    case_decide as Hc; [subst f; discriminate Hinc|].
    rewrite disk_file_ensure in Hf1 by (apply ensure_file_writable; split; eauto).
    case_decide as Hl.
    { subst f. vm_compute in Hm. injection Hm as <- <- <-.
      rewrite <- Hp. vm_compute. reflexivity. }
    rewrite disk_file_ensure in Hf1 by eauto.
    case_decide as Hi; [subst f; discriminate Hinc|].
    assert (Hsafe0 : Math_max (n :: ns) < JsString.MAX_SAFE_INTEGER).
    { apply (Hsafe d0 Hd0). apply logNumbers_member.
      exists f, p, d, t. split; [|auto].
      apply elem_of_elements, elem_of_dom. unfold disk_file in Hf1.
      rewrite Hd0 in Hf1. exact Hf1. }
    unfold JsString.MAX_SAFE_INTEGER in Hsafe0. lia.
Qed.

Lemma every_parsed_ensure (Q : value -> Prop) name f v w :
  writable w -> f_json f = Some v -> Q v ->
  every_parsed_file Q w -> every_parsed_file Q (ensure_file name f w).
Proof.
  intros Hw Hv HQ Hf n g u Hn Hu.
  rewrite disk_file_ensure in Hn by apply Hw.
  case_decide as Hc; [|exact (Hf n g u Hn Hu)].
  subst n. destruct (disk_file w name) as [g0|] eqn:Hg; simpl in Hn.
  - injection Hn as <-. exact (Hf name g0 u Hg Hu).
  - injection Hn as <-. rewrite Hv in Hu. injection Hu as <-. exact HQ.
Qed.

Lemma every_parsed_bootstrapped (Q : value -> Prop) cur w :
  Q (VObj [("indexes", VObj [])]) -> Q (VObj [("logs", VObj [])]) ->
  Q (VObj [("disableProto", VBool false)]) ->
  writable w -> every_parsed_file Q w -> every_parsed_file Q (bootstrapped cur w).
Proof.
  intros Q1 Q2 Q3 Hw Hf. unfold bootstrapped.
  pose proof (ensure_file_writable "index.json" Sample.default_index w Hw) as Hw1.
  pose proof (ensure_file_writable cur Sample.empty_segment _ Hw1) as Hw2.
  apply (every_parsed_ensure Q _ _ (VObj [("disableProto", VBool false)]));
    [exact Hw2 | reflexivity | exact Q3 |].
  apply (every_parsed_ensure Q _ _ (VObj [("logs", VObj [])]));
    [exact Hw1 | reflexivity | exact Q2 |].
  apply (every_parsed_ensure Q _ _ (VObj [("indexes", VObj [])]));
    [exact Hw | reflexivity | exact Q1 | exact Hf].
Qed.

Lemma every_parsed_same_disk (Q : value -> Prop) w w' :
  disk w' = disk w -> every_parsed_file Q w -> every_parsed_file Q w'.
Proof.
  intros Hd Hf n f v Hn Hv. rewrite (disk_file_same_disk _ _ _ Hd) in Hn.
  exact (Hf n f v Hn Hv).
Qed.

Lemma fresh_id_loaded uuid w name :
  fresh_id uuid w -> uuid ∉ segment_ids (loaded_segment w name).
Proof.
  intros Hf. unfold loaded_segment, recovered_segment.
  destruct (disk_file w name) as [f|] eqn:Hn; [|apply not_elem_of_nil].
  destruct (f_json f) as [v|] eqn:Hv; [|apply not_elem_of_nil].
  specialize (Hf name f v Hn Hv).
  destruct v; simpl; try exact Hf; apply not_elem_of_nil.
Qed.

Lemma no_array_loaded w name :
  no_array_file w -> not_array (loaded_segment w name).
Proof.
  intros Hf. unfold loaded_segment, recovered_segment.
  destruct (disk_file w name) as [f|] eqn:Hn; [|exact I].
  destruct (f_json f) as [v|] eqn:Hv; [|exact I].
  specialize (Hf name f v Hn Hv).
  destruct v; simpl; try exact Hf; exact I.
Qed.

Lemma slice_last_snoc {A} (xs : list A) x : Js.slice_last (xs ++ [x]) = [x].
Proof. unfold Js.slice_last. rewrite last_snoc. reflexivity. Qed.

(** The ids of the binary map after the append and the rotation check, for
    an id that was not in the map. *)
Lemma appended_then_compacted uuid enc (old : value) (logs6 logs8 : value) ls es :
  uuid ∉ (Js.own_props old).*1 ->
  Js.get_prop logs6 "logs" = Some ls ->
  ls = VObj (Js.spread (Js.spread [] (Js.own_props old)) [(uuid, enc)]) ->
  Js.entries ls = Some es ->
  Js.set_prop logs6 "logs" (VObj (Js.spread [] (Js.fromEntries (Js.slice_last es))))
  = Some logs8 ->
  segment_ids logs8 = [uuid].
Proof.
  intros Hfresh Hget -> Hes Hset. simpl in Hes. injection Hes as <-.
  unfold segment_ids. rewrite (set_prop_get_opt _ _ _ _ Hset). cbn [Js.own_props].
  unfold Js.spread at 2. cbn [fold_left fst snd].
  rewrite assign_fresh.
  - rewrite slice_last_snoc. reflexivity.
  - intros Hin. apply keys_spread in Hin as [Hin|Hin]; [|exact (Hfresh Hin)].
    apply elem_of_nil in Hin. exact Hin.
Qed.

Lemma elem_of_assign k v (r : record) : (k, v) ∈ Js.assign_prop k v r.
Proof.
  induction r as [|[k' v'] r IH]; simpl; [left|].
  destruct (String.eqb k k'); [left | right; exact IH].
Qed.

(** The keys that survive [JSON.parse(JSON.stringify(..))]: those that hold
    something else than [undefined]. *)
Lemma image_keys (es : record) k x :
  (k, x) ∈ es -> x <> VUndef ->
  k ∈ (omap (fun kv : string * value =>
               match snd kv with
               | VUndef => None
               | _ => Some (fst kv, JSON.image (snd kv))
               end) es).*1.
Proof.
  intros Hin Hx. apply list_elem_of_fmap. exists (k, JSON.image x). split; [reflexivity|].
  apply list_elem_of_omap. exists (k, x). split; [exact Hin|].
  simpl. destruct x; congruence.
Qed.

Lemma image_lookup (ps : record) k x :
  Js.lookup_prop k ps = Some x -> x <> VUndef ->
  Js.lookup_prop k
    (omap (fun kv : string * value =>
             match snd kv with
             | VUndef => None
             | _ => Some (fst kv, JSON.image (snd kv))
             end) ps) = Some (JSON.image x).
Proof.
  intros Hl Hx. induction ps as [|[k' v'] ps IH]; simpl in *; [discriminate|].
  destruct (String.eqb k k') eqn:Hk.
  - injection Hl as ->. destruct x; try congruence; simpl; rewrite Hk; reflexivity.
  - destruct v'; simpl; rewrite ?Hk; auto.
Qed.

Lemma segment_ids_image ps es uuid enc :
  Js.lookup_prop "logs" ps = Some (VObj es) -> (uuid, enc) ∈ es -> enc <> VUndef ->
  uuid ∈ segment_ids (JSON.image (VObj ps)).
Proof.
  intros Hl Hin Hx. unfold segment_ids, Js.get_prop_opt. cbn [JSON.image Js.get_prop].
  rewrite (image_lookup ps "logs" (VObj es) Hl) by discriminate.
  cbn [default JSON.image Js.own_props]. apply (image_keys es uuid enc Hin Hx).
Qed.

(** What a [prepareLog] that returns has appended: the encoded entry. *)
Lemma FileReader_prepareLog_appended `{P : Platform} req uuid now r w r' w' :
  FileReader.prepareLog req uuid now (r, w) = (Return tt, (r', w')) ->
  exists old lb,
    Js.get_prop (FileReader._logs r) "logs" = Some old
    /\ Js.set_prop (FileReader._logs r) "logs"
         (VObj (Js.spread (Js.spread [] (Js.own_props old)) [(uuid, encodeLog lb)]))
       = Some (FileReader._logs r').
Proof.
  unfold FileReader.prepareLog. intros E.
  apply bind_Return in E as (e & s1 & H1 & E).
  apply (preserved_by instance_of) in H1; [|apply entry_of_request_instance].
  apply bind_Return in E as ([] & s2 & H2 & E).
  apply (preserved_by instance_of) in H2; [|apply FileReader_obfuscate_instance].
  apply bind_Return in E as (v & s3 & H3 & E).
  apply (preserved_by instance_of) in H3; [|apply logBody_of_instance].
  destruct s1 as [r1 w1], s2 as [r2 w2], s3 as [r3 w3].
  unfold instance_of in *. simpl in *. subst r1 r2 r3.
  unfold FileReader.index_entry, bind, or_TypeError, FileReader.set_currLogSize,
    FileReader.set_logs, FileReader.set_index, FileReader.this, liftW, gets, modify,
    ret, throw in E.
  simpl in E.
  destruct (Js.get_prop (FileReader._logs r) "logs") as [old|] eqn:Hold;
    simpl in E; try discriminate E;
  destruct (Js.set_prop (FileReader._logs r) "logs" _) as [logs'|] eqn:Hlogs;
    simpl in E; try discriminate E;
  destruct (Js.get_prop (FileReader._index r) "indexes") as [ixs|] eqn:Hixs;
    simpl in E; try discriminate E;
  destruct (Js.set_prop ixs uuid _) as [ixs'|] eqn:Hixs';
    simpl in E; try discriminate E;
  destruct (Js.set_prop (FileReader._index r) "indexes" ixs') as [idx'|] eqn:Hidx;
    simpl in E; try discriminate E;
  injection E as <- <-; simpl;
  exists old, v; auto.
Qed.

Lemma selected_logsJson d r :
  FileReader._logsJson (selected d r) = FileReader._logsJson r.
Proof. unfold selected. destruct (logNumbers (elements (dom d))); reflexivity. Qed.

Lemma selected_logs d r : FileReader._logs (selected d r) = FileReader._logs r.
Proof. unfold selected. destruct (logNumbers (elements (dom d))); reflexivity. Qed.

(** X6.  What a capture stores, a retrieval returns.  A binary capture by a
    new instance that returns, on a directory that accepts writes, ends on a
    file whose name begins with [logs_] (a segment [logs_<k>.json] when the
    numbers found in the directory are below [Number.MAX_SAFE_INTEGER]); a
    retrieval of that file then returns the JSON image of the map the
    capture left in memory, without changing the disk, and the new entry's
    id is among its keys.  The caller's flag is off, the id is assumed new
    to the store, the store to hold no top-level JSON array, and the binary
    encoder to yield something else than [undefined]. *)
Theorem X6_binary_capture_is_read_back `{P : Platform}
    req uuid now (w : World) (r' : FileReader.t) (w' : World) (reader : FileReader.t) :
  FileReader.save req uuid now (FileReader.constructor, w) = (Return tt, (r', w')) ->
  writable w ->
  text_flag (State_config w) = false ->
  fresh_id uuid w ->
  no_array_file w ->
  (forall x, encodeLog x <> VUndef) ->
  let res := FileReader.read (Some (FileReader._currLogFile r')) (reader, w') in
  log_name (FileReader._currLogFile r')
  /\ (safe_store w -> exists k, FileReader._currLogFile r' = segment_name k)
  /\ fst res = Return (JSON.image (FileReader._logs r'))
  /\ uuid ∈ segment_ids (JSON.image (FileReader._logs r'))
  /\ disk (snd (snd res)) = disk w'.
Proof.
  intros E Hw Hflag Hfresh Hplain Henc res.
  unfold FileReader.save in E.
  rewrite (bind_of_Return _ _ _ _ _ (FileReader_pre_writable _ w Hw)) in E.
  set (w1 := bootstrapped (FileReader._currLogFile FileReader.constructor) w) in *.
  assert (Hw1 : writable w1) by (apply bootstrapped_writable, Hw).
  assert (Hfresh1 : fresh_id uuid w1).
  { apply every_parsed_bootstrapped; try exact Hw; try exact Hfresh;
      simpl; apply not_elem_of_nil. }
  assert (Hplain1 : no_array_file w1).
  { apply every_parsed_bootstrapped; try exact Hw; try exact Hplain; exact I. }
  destruct (proj1 Hw1) as [d1 Hd1].
  destruct (FileReader_loads FileReader.constructor w1 d1 Hd1) as [c Hl].
  rewrite Hl in E. clear Hl.
  set (r5 := loaded_instance d1 FileReader.constructor w1) in *.
  apply bind_Return in E as ([] & [r6 w6] & H6 & E).
  (* the append *)
  destruct (FileReader_prepareLog_cases req uuid now r5 (with_console c w1))
    as (o & r6' & w6' & E6 & _ & D6 & _ & S6 & C6).
  rewrite H6 in E6. injection E6 as <- <- <-.
  assert (Hw6 : writable w6).
  { destruct Hw1 as [Hdir Hdeny]. unfold writable. rewrite D6. split; assumption. }
  pose proof (FileReader_prepareLog_Return _ _ _ _ _ _ _ H6)
    as (_ & _ & ixs & ixs' & _ & _ & _ & _ & Hidx & Hj6 & _ & _).
  destruct (FileReader_prepareLog_appended _ _ _ _ _ _ _ H6)
    as (old & lb & Hold & Hlogs).
  assert (Hcur6 : log_name (FileReader._currLogFile r6))
    by (rewrite C6; apply selected_log_name).
  assert (Hj : is_object (FileReader._logsJson r6)).
  { rewrite Hj6. subst r5. cbn. rewrite selected_logsJson. exact I. }
  destruct (FileReader_capture_tail r6 w6 r' w' E Hw6 Hcur6
              (set_prop_object _ _ _ _ Hlogs) Hj (set_prop_object _ _ _ _ Hidx))
    as (Hrot & _ & _ & Hfile & Hobj & Hw' & Hix' & Hcf' & _ & _ & Hk).
  assert (Hpm : persisted_map r' w6 = FileReader._logs r').
  { unfold persisted_map. rewrite S6. simpl.
    assert (Hc1 : State_config w1 = State_config w).
    { subst w1. unfold bootstrapped.
      rewrite !(proj1 (proj2 (proj2 (ensure_file_frame _ _ _)))). reflexivity. }
    rewrite Hc1, Hflag. reflexivity. }
  rewrite Hpm in Hfile, Hobj.
  assert (Hsafe : safe_store w ->
                  exists k, FileReader._currLogFile r' = segment_name k).
  { intros Hs. destruct (selected_safe w d1 Hw Hs Hd1) as (m & Hm & Hsel).
    assert (Hsel6 : FileReader._currLogFile r6 = segment_name m)
      by (rewrite C6; exact Hsel).
    destruct Hrot as [[-> _]|[(p & d & t & Hmd & ->) _]]; [eauto|].
    rewrite Hsel6 in Hmd. rewrite (rotated_segment_parts m p d t Hm Hmd). eauto. }
  destruct (pretty_file_defined _ (is_object_defined _ Hobj)) as [seg Hseg].
  rewrite Hseg in Hfile.
  destruct (FileReader_read_back reader w' _ _ seg Hw' Hix' Hcf' Hk Hfile Hseg Hobj)
    as [l El].
  subst res. rewrite El. cbn [fst snd].
  split; [exact Hk|]. split; [exact Hsafe|].
  split; [reflexivity|]. split; [|reflexivity].
  (* the id in the map that was written *)
  assert (Hl5 : FileReader._logs r5
                = loaded_segment w1 (FileReader._currLogFile
                                       (selected d1 FileReader.constructor)))
    by reflexivity.
  assert (Hfr5 : uuid ∉ (Js.own_props old).*1).
  { pose proof (fresh_id_loaded uuid w1
                  (FileReader._currLogFile (selected d1 FileReader.constructor)) Hfresh1)
      as Hn.
    rewrite <- Hl5 in Hn. unfold segment_ids in Hn.
    rewrite (get_prop_opt_of _ _ _ Hold) in Hn. exact Hn. }
  pose proof (no_array_loaded w1
                (FileReader._currLogFile (selected d1 FileReader.constructor)) Hplain1)
    as Hna. rewrite <- Hl5 in Hna.
  destruct (FileReader._logs r5) as [| | | | |xs ps5|ps5] eqn:Hv5;
    try discriminate Hlogs; [contradiction|].
  cbn [Js.set_prop] in Hlogs. injection Hlogs as Hlogs6.
  assert (HL : Js.assign_prop uuid (encodeLog lb) (Js.spread [] (Js.own_props old))
               = (Js.spread [] (Js.own_props old) ++ [(uuid, encodeLog lb)])%list).
  { apply assign_fresh. intros Hin. apply keys_spread in Hin as [Hin|Hin].
    - apply elem_of_nil in Hin. exact Hin.
    - exact (Hfr5 Hin). }
  rewrite HL in Hlogs6. clear HL.
  set (L0 := Js.spread [] (Js.own_props old)) in *. clearbody L0.
  destruct Hrot as [[_ Hsame]|(_ & ls & es & Hls & Hes & Hset)].
  - rewrite Hsame, <- Hlogs6.
    apply (segment_ids_image _ (L0 ++ [(uuid, encodeLog lb)]) uuid (encodeLog lb)).
    + apply lookup_assign_eq.
    + apply elem_of_app. right. left.
    + apply Henc.
  - rewrite <- Hlogs6 in Hls, Hset. cbn [Js.get_prop] in Hls.
    rewrite lookup_assign_eq in Hls. injection Hls as <-.
    cbn [Js.entries Js.own_props] in Hes. injection Hes as <-.
    rewrite slice_last_snoc in Hset.
    cbn [Js.set_prop] in Hset. injection Hset as Hset. rewrite <- Hset.
    apply (segment_ids_image _ [(uuid, encodeLog lb)] uuid (encodeLog lb)).
    + rewrite lookup_assign_eq. reflexivity.
    + left.
    + apply Henc.
Qed.

Lemma Sample_writable c : writable (Sample.world Sample.writable c).
Proof. split; [simpl; eauto | reflexivity]. Qed.

Lemma Sample_every_parsed Q c : every_parsed_file Q (Sample.world Sample.writable c).
Proof. intros n f v Hn. unfold disk_file in Hn. simpl in Hn. discriminate Hn. Qed.

Lemma X6_witness :
  let w := Sample.world Sample.writable Sample.config in
  let saved := FileReader.save (P := Sample.platform) Sample.request Sample.uuid1 17
                 (FileReader.constructor, w) in
  let r' := fst (snd saved) in
  let res := FileReader.read (Some (FileReader._currLogFile r'))
               (FileReader.constructor, snd (snd saved)) in
  (saved = (Return tt, (r', snd (snd saved)))
   /\ writable w
   /\ text_flag (State_config w) = false
   /\ fresh_id Sample.uuid1 w
   /\ no_array_file w
   /\ (forall x, encodeLog (Platform := Sample.platform) x <> VUndef))
  /\ FileReader._currLogFile r' = "logs_0.json"
  /\ fst res = Return (JSON.image (FileReader._logs r'))
  /\ Sample.uuid1 ∈ segment_ids (JSON.image (FileReader._logs r')).
Proof.
  cbv zeta.
  assert (H1 : FileReader.save (P := Sample.platform) Sample.request Sample.uuid1 17
                 (FileReader.constructor, Sample.world Sample.writable Sample.config)
               = (Return tt,
                  (fst (snd (FileReader.save (P := Sample.platform) Sample.request
                               Sample.uuid1 17
                               (FileReader.constructor,
                                Sample.world Sample.writable Sample.config))),
                   snd (snd (FileReader.save (P := Sample.platform) Sample.request
                               Sample.uuid1 17
                               (FileReader.constructor,
                                Sample.world Sample.writable Sample.config))))))
    by (vm_compute; reflexivity).
  assert (H6 : forall x, encodeLog (Platform := Sample.platform) x <> VUndef)
    by (intros x; discriminate).
  split.
  { split; [exact H1|]. split; [apply Sample_writable|]. split; [reflexivity|].
    split; [apply Sample_every_parsed|]. split; [apply Sample_every_parsed | exact H6]. }
  split; [vm_compute; reflexivity|].
  destruct (X6_binary_capture_is_read_back (P := Sample.platform)
              Sample.request Sample.uuid1 17
              (Sample.world Sample.writable Sample.config) _ _ FileReader.constructor
              H1 (Sample_writable _) eq_refl (Sample_every_parsed _ _)
              (Sample_every_parsed _ _) H6) as (_ & _ & Hret & Hin & _).
  split; [exact Hret | exact Hin].
Defined.

Lemma logBody_of_object `{P : Platform} {T} (e : INotFormattedLogEntry.t) (s s' : T * World) v :
  logBody_of e s = (Return v, s') -> exists fields, v = VObj fields.
Proof.
  unfold logBody_of, bind, liftW, Heap.read, gets, ret. simpl.
  intros [= <- _]. eauto.
Qed.

(** What a [prepareJsonLog] that returns has appended: the entry itself, an
    object. *)
Lemma FileReader_prepareJsonLog_appended `{P : Platform} req uuid now r w r' w' :
  FileReader.prepareJsonLog req uuid now (r, w) = (Return tt, (r', w')) ->
  exists old fields,
    Js.get_prop (FileReader._logsJson r) "logs" = Some old
    /\ Js.set_prop (FileReader._logsJson r) "logs"
         (VObj (Js.spread (Js.spread [] (Js.own_props old)) [(uuid, VObj fields)]))
       = Some (FileReader._logsJson r').
Proof.
  unfold FileReader.prepareJsonLog. intros E.
  apply bind_Return in E as (e & s1 & H1 & E).
  apply (preserved_by instance_of) in H1; [|apply entry_of_request_instance].
  apply bind_Return in E as ([] & s2 & H2 & E).
  apply (preserved_by instance_of) in H2; [|apply FileReader_obfuscate_instance].
  apply bind_Return in E as (v & s3 & H3 & E).
  destruct (logBody_of_object _ _ _ _ H3) as [fields ->].
  apply (preserved_by instance_of) in H3; [|apply logBody_of_instance].
  destruct s1 as [r1 w1], s2 as [r2 w2], s3 as [r3 w3].
  unfold instance_of in *. simpl in *. subst r1 r2 r3.
  unfold FileReader.index_entry, bind, or_TypeError, FileReader.set_currLogSize,
    FileReader.set_logsJson, FileReader.set_index, FileReader.this, liftW, gets, modify,
    ret, throw in E.
  simpl in E.
  destruct (Js.get_prop (FileReader._logsJson r) "logs") as [old|] eqn:Hold;
    simpl in E; try discriminate E;
  destruct (Js.set_prop (FileReader._logsJson r) "logs" _) as [logs'|] eqn:Hlogs;
    simpl in E; try discriminate E;
  destruct (Js.get_prop (FileReader._index r) "indexes") as [ixs|] eqn:Hixs;
    simpl in E; try discriminate E;
  destruct (Js.set_prop ixs uuid _) as [ixs'|] eqn:Hixs';
    simpl in E; try discriminate E;
  destruct (Js.set_prop (FileReader._index r) "indexes" ixs') as [idx'|] eqn:Hidx;
    simpl in E; try discriminate E;
  injection E as <- <-; simpl;
  exists old, fields; auto.
Qed.

(** X7.  The text path is read back as well.  A text-mode capture
    [saveJson] by a new instance that returns, with the caller's flag on, on
    a directory that accepts writes and holds no top-level JSON array, ends
    on a file whose name begins with [logs_] (a segment [logs_<k>.json] when
    the numbers found in the directory are below
    [Number.MAX_SAFE_INTEGER]); [read] of that file returns the JSON image
    of the text map the capture left in memory, with the new entry's id
    among its keys, and leaves the disk as it is. *)
Theorem X7_text_capture_is_read_back `{P : Platform}
    req uuid now (w : World) (r' : FileReader.t) (w' : World) (reader : FileReader.t) :
  FileReader.saveJson req uuid now (FileReader.constructor, w) = (Return tt, (r', w')) ->
  writable w ->
  text_flag (State_config w) = true ->
  no_array_file w ->
  let res := FileReader.read (Some (FileReader._currLogFile r')) (reader, w') in
  log_name (FileReader._currLogFile r')
  /\ (safe_store w -> exists k, FileReader._currLogFile r' = segment_name k)
  /\ fst res = Return (JSON.image (FileReader._logsJson r'))
  /\ uuid ∈ segment_ids (JSON.image (FileReader._logsJson r'))
  /\ disk (snd (snd res)) = disk w'.
Proof.
  intros E Hw Hflag Hplain res.
  unfold FileReader.saveJson in E.
  rewrite (bind_of_Return _ _ _ _ _ (FileReader_pre_writable _ w Hw)) in E.
  set (w1 := bootstrapped (FileReader._currLogFile FileReader.constructor) w) in *.
  assert (Hw1 : writable w1) by (apply bootstrapped_writable, Hw).
  assert (Hplain1 : no_array_file w1).
  { apply every_parsed_bootstrapped; try exact Hw; try exact Hplain; exact I. }
  destruct (proj1 Hw1) as [d1 Hd1].
  destruct (FileReader_loads_text FileReader.constructor w1 d1 Hd1) as [c Hl].
  rewrite Hl in E. clear Hl.
  set (r5 := loaded_instance_text d1 FileReader.constructor w1) in *.
  apply bind_Return in E as ([] & [r6 w6] & H6 & E).
  destruct (FileReader_prepareJsonLog_cases req uuid now r5 (with_console c w1))
    as (o & r6' & w6' & E6 & _ & D6 & _ & S6 & C6).
  rewrite H6 in E6. injection E6 as <- <- <-.
  assert (Hw6 : writable w6).
  { destruct Hw1 as [Hdir Hdeny]. unfold writable. rewrite D6. split; assumption. }
  pose proof (FileReader_prepareJsonLog_Return _ _ _ _ _ _ _ H6)
    as (_ & _ & ixs & ixs' & _ & _ & _ & _ & Hidx & Hl6 & _ & _).
  destruct (FileReader_prepareJsonLog_appended _ _ _ _ _ _ _ H6)
    as (old & fields & Hold & Hlogs).
  assert (Hcur6 : log_name (FileReader._currLogFile r6))
    by (rewrite C6; apply selected_log_name).
  assert (Hb : is_object (FileReader._logs r6)).
  { rewrite Hl6. subst r5. cbn. rewrite selected_logs. exact I. }
  destruct (FileReader_capture_tail r6 w6 r' w' E Hw6 Hcur6
              Hb (set_prop_object _ _ _ _ Hlogs) (set_prop_object _ _ _ _ Hidx))
    as (Hrot & Hj' & _ & Hfile & Hobj & Hw' & Hix' & Hcf' & _ & _ & Hk).
  assert (Hpm : persisted_map r' w6 = FileReader._logsJson r').
  { unfold persisted_map. rewrite S6. simpl.
    assert (Hc1 : State_config w1 = State_config w).
    { subst w1. unfold bootstrapped.
      rewrite !(proj1 (proj2 (proj2 (ensure_file_frame _ _ _)))). reflexivity. }
    rewrite Hc1, Hflag. reflexivity. }
  rewrite Hpm in Hfile, Hobj.
  assert (Hsafe : safe_store w ->
                  exists k, FileReader._currLogFile r' = segment_name k).
  { intros Hs. destruct (selected_safe w d1 Hw Hs Hd1) as (m & Hm & Hsel).
    assert (Hsel6 : FileReader._currLogFile r6 = segment_name m)
      by (rewrite C6; exact Hsel).
    destruct Hrot as [[-> _]|[(p & d & t & Hmd & ->) _]]; [eauto|].
    rewrite Hsel6 in Hmd. rewrite (rotated_segment_parts m p d t Hm Hmd). eauto. }
  destruct (pretty_file_defined _ (is_object_defined _ Hobj)) as [seg Hseg].
  rewrite Hseg in Hfile.
  destruct (FileReader_read_back reader w' _ _ seg Hw' Hix' Hcf' Hk Hfile Hseg Hobj)
    as [l El].
  subst res. rewrite El. cbn [fst snd].
  split; [exact Hk|]. split; [exact Hsafe|].
  split; [reflexivity|]. split; [|reflexivity].
  assert (Hl5 : FileReader._logsJson r5
                = loaded_segment w1 (FileReader._currLogFile
                                       (selected d1 FileReader.constructor)))
    by reflexivity.
  pose proof (no_array_loaded w1
                (FileReader._currLogFile (selected d1 FileReader.constructor)) Hplain1)
    as Hna. rewrite <- Hl5 in Hna.
  destruct (FileReader._logsJson r5) as [| | | | |xs ps5|ps5] eqn:Hv5;
    try discriminate Hlogs; [contradiction|].
  cbn [Js.set_prop] in Hlogs. injection Hlogs as Hlogs6.
  rewrite Hj', <- Hlogs6.
  eapply (segment_ids_image _ _ uuid (VObj fields)).
  - apply lookup_assign_eq.
  - apply elem_of_assign.
  - discriminate.
Qed.

Lemma X7_witness :
  let w := Sample.world Sample.writable Sample.config_text in
  let saved := FileReader.saveJson (P := Sample.platform) Sample.request Sample.uuid1 17
                 (FileReader.constructor, w) in
  let r' := fst (snd saved) in
  let res := FileReader.read (Some (FileReader._currLogFile r'))
               (FileReader.constructor, snd (snd saved)) in
  (saved = (Return tt, (r', snd (snd saved)))
   /\ writable w
   /\ text_flag (State_config w) = true
   /\ no_array_file w)
  /\ fst res = Return (JSON.image (FileReader._logsJson r'))
  /\ Sample.uuid1 ∈ segment_ids (JSON.image (FileReader._logsJson r')).
Proof.
  cbv zeta.
  assert (H1 : FileReader.saveJson (P := Sample.platform) Sample.request Sample.uuid1 17
                 (FileReader.constructor, Sample.world Sample.writable Sample.config_text)
               = (Return tt,
                  (fst (snd (FileReader.saveJson (P := Sample.platform) Sample.request
                               Sample.uuid1 17
                               (FileReader.constructor,
                                Sample.world Sample.writable Sample.config_text))),
                   snd (snd (FileReader.saveJson (P := Sample.platform) Sample.request
                               Sample.uuid1 17
                               (FileReader.constructor,
                                Sample.world Sample.writable Sample.config_text))))))
    by (vm_compute; reflexivity).
  split.
  { split; [exact H1|]. split; [apply Sample_writable|]. split; [reflexivity|].
    apply Sample_every_parsed. }
  destruct (X7_text_capture_is_read_back (P := Sample.platform)
              Sample.request Sample.uuid1 17
              (Sample.world Sample.writable Sample.config_text) _ _ FileReader.constructor
              H1 (Sample_writable _) eq_refl (Sample_every_parsed _ _))
    as (_ & _ & Hret & Hin & _).
  split; [exact Hret | exact Hin].
Defined.

(** ** Files a capture does not touch *)

(** The last three steps of a capture change no file but the current
    segment, the index and the snapshot, however they end. *)
Lemma FileReader_capture_tail_files r6 w6 n f :
  let res := bind FileReader.prepareConfig
               (fun _ => bind FileReader.this
                  (fun self => bind (FileReader.checkFileSize (FileReader._currLogFile self))
                     (fun _ => FileReader.saveFiles))) (r6, w6) in
  disk_file w6 n = Some f ->
  n <> "index.json" -> n <> "config.json" ->
  n <> FileReader._currLogFile (fst (snd res)) ->
  disk_file (snd (snd res)) n = Some f.
Proof.
  intros res Hn N1 N2. subst res.
  pose proof (FileReader_prepareConfig_eq r6 w6) as E7.
  destruct (Js.set_prop (FileReader._config r6) "disableProto" _) as [c|].
  2:{ rewrite (bind_of_Throw _ _ _ _ _ E7). intros _. exact Hn. }
  rewrite (bind_of_Return _ _ _ _ _ E7), FileReader_bind_this.
  cbn [with_config FileReader._currLogFile].
  pose proof (checkFileSize_disk (FileReader._currLogFile r6) (with_config c r6, w6)) as D8.
  destruct (FileReader.checkFileSize (FileReader._currLogFile r6) (with_config c r6, w6))
    as [[[]|e] [r8 w8]] eqn:E8; unfold disk_of in D8; simpl in D8.
  - rewrite (bind_of_Return _ _ _ _ _ E8).
    pose proof (FileReader_saveFiles_outcome r8 w8) as H9. cbv zeta in H9.
    destruct (FileReader.saveFiles (r8, w8)) as [o [r9 w9]]. simpl in H9.
    destruct H9 as (_ & -> & Hother & _). cbn [fst snd]. intros N3.
    rewrite Hother by auto. rewrite (disk_file_same_disk _ _ _ D8). exact Hn.
  - rewrite (bind_of_Throw _ _ _ _ _ E8). intros _. cbn [fst snd].
    rewrite (disk_file_same_disk _ _ _ D8). exact Hn.
Qed.

(** X8.  A capture never touches another segment.  Whatever the store holds
    and however the capture ends, by returning or by raising, every file
    that existed before it, other than [index.json], [config.json] and the
    segment the capture ended on, is unchanged afterwards.  This holds for
    the binary path [save] and for the text path [saveJson], rotation
    included. *)
Theorem X8_capture_leaves_other_files_alone `{P : Platform}
    req uuid now (r : FileReader.t) (w : World) (n : string) (f : file) :
  disk_file w n = Some f ->
  n <> "index.json" -> n <> "config.json" ->
  (n <> FileReader._currLogFile (fst (snd (FileReader.save req uuid now (r, w)))) ->
   disk_file (snd (snd (FileReader.save req uuid now (r, w)))) n = Some f)
  /\ (n <> FileReader._currLogFile (fst (snd (FileReader.saveJson req uuid now (r, w)))) ->
      disk_file (snd (snd (FileReader.saveJson req uuid now (r, w)))) n = Some f).
Proof.
  intros Hn N1 N2.
  destruct (FileReader_pre_cases r w)
    as [(w1 & E1 & K1 & I1 & _)|(t & w1 & E1 & K1)].
  2:{ unfold FileReader.save, FileReader.saveJson.
      rewrite !(bind_of_Throw _ _ _ _ _ E1). cbn [fst snd].
      split; intros _; apply K1, Hn. }
  destruct I1 as [g1 I1]. destruct (disk_file_dir _ _ _ I1) as [d1 Hd1].
  pose proof (K1 _ _ Hn) as Hn1.
  split.
  - unfold FileReader.save. rewrite (bind_of_Return _ _ _ _ _ E1).
    destruct (FileReader_loads r w1 d1 Hd1) as [c Hl]. rewrite Hl.
    destruct (FileReader_prepareLog_cases req uuid now (loaded_instance d1 r w1)
                (with_console c w1)) as (o & r6 & w6 & E6 & [->| ->] & D6 & _).
    + rewrite (bind_of_Return _ _ _ _ _ E6).
      apply FileReader_capture_tail_files; try assumption.
      rewrite (disk_file_same_disk _ _ _ D6). exact Hn1.
    + rewrite (bind_of_Throw _ _ _ _ _ E6). intros _. cbn [fst snd].
      rewrite (disk_file_same_disk _ _ _ D6). exact Hn1.
  - unfold FileReader.saveJson. rewrite (bind_of_Return _ _ _ _ _ E1).
    destruct (FileReader_loads_text r w1 d1 Hd1) as [c Hl]. rewrite Hl.
    destruct (FileReader_prepareJsonLog_cases req uuid now (loaded_instance_text d1 r w1)
                (with_console c w1)) as (o & r6 & w6 & E6 & [->| ->] & D6 & _).
    + rewrite (bind_of_Return _ _ _ _ _ E6).
      apply FileReader_capture_tail_files; try assumption.
      rewrite (disk_file_same_disk _ _ _ D6). exact Hn1.
    + rewrite (bind_of_Throw _ _ _ _ _ E6). intros _. cbn [fst snd].
      rewrite (disk_file_same_disk _ _ _ D6). exact Hn1.
Qed.

Lemma X8_witness :
  let w := Sample.world Sample.three_segments Sample.config in
  let res := FileReader.save (P := Sample.platform) Sample.request Sample.uuid1 17
               (FileReader.constructor, w) in
  (disk_file w "logs_3.json" = Some Sample.empty_segment
   /\ "logs_3.json" <> "index.json" /\ "logs_3.json" <> "config.json"
   /\ "logs_3.json" <> FileReader._currLogFile (fst (snd res)))
  /\ FileReader._currLogFile (fst (snd res)) = "logs_7.json"
  /\ disk_file (snd (snd res)) "logs_3.json" = Some Sample.empty_segment.
Proof.
  cbv zeta.
  assert (Hf : disk_file (Sample.world Sample.three_segments Sample.config) "logs_3.json"
               = Some Sample.empty_segment) by reflexivity.
  assert (N1 : "logs_3.json" <> "index.json") by discriminate.
  assert (N2 : "logs_3.json" <> "config.json") by discriminate.
  assert (Hcur : FileReader._currLogFile
                   (fst (snd (FileReader.save (P := Sample.platform) Sample.request
                                Sample.uuid1 17
                                (FileReader.constructor,
                                 Sample.world Sample.three_segments Sample.config))))
                 = "logs_7.json") by (vm_compute; reflexivity).
  assert (N3 : "logs_3.json"
               <> FileReader._currLogFile
                    (fst (snd (FileReader.save (P := Sample.platform) Sample.request
                                 Sample.uuid1 17
                                 (FileReader.constructor,
                                  Sample.world Sample.three_segments Sample.config)))))
    by (rewrite Hcur; discriminate).
  split; [auto|]. split; [exact Hcur|].
  destruct (X8_capture_leaves_other_files_alone (P := Sample.platform)
              Sample.request Sample.uuid1 17 FileReader.constructor
              (Sample.world Sample.three_segments Sample.config)
              "logs_3.json" Sample.empty_segment Hf N1 N2) as [Hsave _].
  exact (Hsave N3).
Defined.

(** ** Redaction, field by field *)

Lemma keys_assign_existing k v (r : record) :
  is_Some (Js.lookup_prop k r) -> (Js.assign_prop k v r).*1 = r.*1.
Proof.
  induction r as [|[k' v'] r IH]; simpl; intros [x Hx]; [discriminate|].
  destruct (String.eqb_spec k k') as [->|Hne]; simpl; [reflexivity|].
  f_equal. apply IH. eauto.
Qed.

Lemma lookup_None_keys k (r : record) : Js.lookup_prop k r = None <-> k ∉ r.*1.
Proof.
  induction r as [|[k' v'] r IH]; simpl.
  - split; [intros _; apply not_elem_of_nil | reflexivity].
  - rewrite not_elem_of_cons. destruct (String.eqb_spec k k') as [->|Hne]; simpl.
    + split; [discriminate | intros [[] _]; reflexivity].
    + rewrite IH. tauto.
Qed.

(** One step of the loop, key by key. *)
Lemma redact_field_lookup b e k :
  Js.lookup_prop k (redact_field b e)
  = if String.eqb k e
    then match Js.lookup_prop e b with
         | Some v => Some (if Js.truthy v then VStr "***" else v)
         | None => if Js.inherited e && negb (String.eqb e "__proto__")
                   then Some (VStr "***") else None
         end
    else Js.lookup_prop k b.
Proof.
  destruct (String.eqb_spec k e) as [->|Hne].
  - unfold redact_field, Js.truthy_at.
    destruct (Js.lookup_prop e b) as [v|] eqn:Hl.
    + destruct (Js.truthy v); [|exact Hl].
      rewrite lookup_put_eq, Hl. reflexivity.
    + destruct (Js.inherited e); [|exact Hl].
      rewrite lookup_put_eq, Hl. destruct (String.eqb e "__proto__"); reflexivity.
  - apply redact_field_other. congruence.
Qed.

Lemma redact_field_keys b e :
  (redact_field b e).*1
  = (b.*1 ++ if bool_decide (Js.lookup_prop e b = None) && Js.inherited e
                && negb (String.eqb e "__proto__")
             then [e] else [])%list.
Proof.
  unfold redact_field, Js.truthy_at, Js.put_string.
  destruct (Js.lookup_prop e b) as [v|] eqn:Hl.
  - rewrite bool_decide_eq_false_2 by discriminate. cbn [andb]. rewrite app_nil_r.
    destruct (Js.truthy v); [|reflexivity].
    apply keys_assign_existing. rewrite Hl. eauto.
  - rewrite bool_decide_eq_true_2 by reflexivity. cbn [andb].
    destruct (Js.inherited e); cbn [andb]; [|rewrite app_nil_r; reflexivity].
    destruct (String.eqb e "__proto__"); cbn [negb]; [rewrite app_nil_r; reflexivity|].
    rewrite assign_fresh by (apply lookup_None_keys, Hl).
    rewrite fmap_app. reflexivity.
Qed.

(** The whole loop, key by key: what it leaves under [k], for a list [fs] of
    names to go through. *)
Lemma fold_redact_lookup fs : forall b k,
  Js.lookup_prop k (fold_left redact_field fs b)
  = match Js.lookup_prop k b with
    | Some v => Some (if bool_decide (k ∈ fs) && Js.truthy v then VStr "***" else v)
    | None => if bool_decide (k ∈ fs) && Js.inherited k
                 && negb (String.eqb k "__proto__")
              then Some (VStr "***") else None
    end.
Proof.
  induction fs as [|e fs IH]; intros b k; cbn [fold_left].
  - rewrite (bool_decide_eq_false_2 (k ∈ [])) by apply not_elem_of_nil.
    cbn [andb]. destruct (Js.lookup_prop k b); reflexivity.
  - rewrite IH, redact_field_lookup.
    destruct (String.eqb_spec k e) as [->|Hne].
    + rewrite (bool_decide_eq_true_2 (e ∈ e :: fs)) by left. cbn [andb].
      destruct (Js.lookup_prop e b) as [v|].
      * destruct (Js.truthy v) eqn:Ht; [|rewrite Ht, andb_false_r; reflexivity].
        cbn [Js.truthy]. destruct (bool_decide (e ∈ fs)); reflexivity.
      * destruct (Js.inherited e); cbn [andb];
          [|rewrite andb_false_r; reflexivity].
        destruct (String.eqb e "__proto__"); cbn [negb andb];
          [rewrite andb_false_r; reflexivity|].
        destruct (bool_decide (e ∈ fs)); reflexivity.
    + assert (Hiff : bool_decide (k ∈ e :: fs) = bool_decide (k ∈ fs)).
      { apply bool_decide_ext. rewrite elem_of_cons. tauto. }
      rewrite Hiff. reflexivity.
Qed.

(** The keys after the loop: the old ones in their order, then the created
    ones. *)
Lemma fold_redact_keys fs : forall b,
  exists extra,
    (fold_left redact_field fs b).*1 = (b.*1 ++ extra)%list
    /\ forall x, x ∈ extra <->
                 x ∈ fs /\ Js.inherited x = true /\ x <> "__proto__"
                 /\ Js.lookup_prop x b = None.
Proof.
  induction fs as [|e fs IH]; intros b; cbn [fold_left].
  - exists []. rewrite app_nil_r. split; [reflexivity|].
    intros x. rewrite !elem_of_nil. tauto.
  - destruct (IH (redact_field b e)) as (extra & Hk & Hx).
    rewrite redact_field_keys in Hk.
    destruct (bool_decide (Js.lookup_prop e b = None) && Js.inherited e
              && negb (String.eqb e "__proto__")) eqn:Hc.
    + apply andb_prop in Hc as [Hc Hp]. apply andb_prop in Hc as [Hn Hi].
      apply bool_decide_eq_true in Hn. apply negb_true_iff in Hp.
      apply String.eqb_neq in Hp.
      exists (e :: extra). rewrite Hk, <- app_assoc. split; [reflexivity|].
      intros x. rewrite elem_of_cons, Hx, elem_of_cons, redact_field_lookup.
      destruct (String.eqb_spec x e) as [->|Hne].
      * rewrite Hn, Hi. split; [intros _; auto 10 | auto].
      * split; [intros [?|(?&?&?&?)]; [congruence | auto 10]
               | intros ([?|?]&?&?&?); [congruence | auto 10]].
    + exists extra. rewrite Hk, app_nil_r. split; [reflexivity|].
      intros x. rewrite Hx, elem_of_cons, redact_field_lookup.
      destruct (String.eqb_spec x e) as [->|Hne].
      * split; [|].
        -- intros (_ & Hi & Hp & Hl). exfalso.
           destruct (Js.lookup_prop e b) as [v|] eqn:Hn; [discriminate Hl|].
           rewrite Hi in Hl. apply String.eqb_neq in Hp. rewrite Hp in Hl.
           discriminate Hl.
        -- intros (_ & Hi & Hp & Hl). exfalso.
           rewrite Hl, Hi in Hc. rewrite bool_decide_eq_true_2 in Hc by reflexivity.
           apply String.eqb_neq in Hp. rewrite Hp in Hc. discriminate Hc.
      * split; [intros (?&?&?&?); auto 10
               | intros ([?|?]&?&?&?); [congruence | auto 10]].
Qed.

Lemma listed_filter fields k :
  bool_decide (k ∈ filter (fun field => field ≠ "occured") fields) = listed fields k.
Proof.
  unfold listed. destruct (String.eqb_spec k "occured") as [->|Hne]; simpl.
  - rewrite andb_false_r. apply bool_decide_eq_false_2.
    rewrite list_elem_of_filter. tauto.
  - rewrite andb_true_r. apply bool_decide_ext.
    rewrite list_elem_of_filter. tauto.
Qed.

Lemma redact_lookup fields b k :
  Js.lookup_prop k (redact fields b) = redacted_at fields b k.
Proof.
  unfold redact, redacted_at, created. rewrite fold_redact_lookup, listed_filter.
  destruct (Js.lookup_prop k b) as [v|] eqn:Hl; [reflexivity|].
  rewrite bool_decide_eq_true_2 by reflexivity. rewrite andb_true_r. reflexivity.
Qed.

Lemma redact_keys fields b :
  exists extra,
    (redact fields b).*1 = (b.*1 ++ extra)%list
    /\ forall x, x ∈ extra <-> created fields b x = true.
Proof.
  unfold redact.
  destruct (fold_redact_keys (filter (fun field => field ≠ "occured") fields) b)
    as (extra & Hk & Hx).
  exists extra. split; [exact Hk|]. intros x. rewrite Hx. unfold created.
  rewrite <- listed_filter.
  rewrite !andb_true_iff, bool_decide_eq_true, negb_true_iff, String.eqb_neq,
    bool_decide_eq_true.
  tauto.
Qed.

(** X9.  The redaction, field by field.  After [obfuscate] on an entry whose
    body is an object of the caller heap, a field that the body owns holds
    the marker ["***"] when it is listed in [State.config.obfuscate], is not
    the reserved name [occured] and held a truthy value, and its old value
    otherwise (the empty string, [0], [false] and [null] are kept; nested
    fields are out of reach).  The test reads through the prototype chain:
    a listed name that the body does not own is created, holding the
    marker, when it is a member of [Object.prototype] other than
    [__proto__] ([constructor], [toString], ...), and no other key is
    created.  The old keys keep their order and the created ones follow.
    No other object of the caller heap changes; the method always returns
    and leaves the instance alone.  [FileWriter.obfuscate] leaves the same
    world. *)
Theorem X9_redaction_field_by_field `{P : Platform}
    (log : INotFormattedLogEntry.t) (r : FileReader.t) (t : FileWriter.t)
    (w : World) :
  let l := INotFormattedLogEntry.body log in
  let fields := IConfig.obfuscate (State_config w) in
  let res := FileReader.obfuscate log (r, w) in
  let after := snd (snd res) in
  (l < length (heap w))%nat ->
  fst res = Return tt
  /\ fst (snd res) = r
  /\ (forall k, Js.lookup_prop k (record_at after l)
                = redacted_at fields (record_at w l) k)
  /\ (exists extra,
        (record_at after l).*1 = ((record_at w l).*1 ++ extra)%list
        /\ forall x, x ∈ extra <-> created fields (record_at w l) x = true)
  /\ (forall l', l' <> l -> record_at after l' = record_at w l')
  /\ snd (snd (FileWriter.obfuscate log (t, w))) = after.
Proof.
  intros l fields res after Hl. subst res after.
  rewrite FileReader_obfuscate_spec, FileWriter_obfuscate_spec. cbn [fst snd]. fold l.
  split; [reflexivity|]. split; [reflexivity|].
  rewrite record_at_insert. rewrite decide_True by exact Hl.
  split; [intros k; apply redact_lookup|].
  split; [apply redact_keys|]. split; [|reflexivity].
  intros l' Hne. unfold record_at, with_heap. simpl.
  rewrite list_lookup_insert_ne by congruence. reflexivity.
Qed.

Lemma X9_witness :
  let w := MkWorld (disk (Sample.world Sample.writable Sample.config)) []
             [[("password", VStr "x"); ("q", VStr "y"); ("pin", VNum 0)]]
             (IConfig.Make "/srv/Toaster" true true true false false
                ["password"; "pin"; "constructor"; "__proto__"; "token"; "occured"]
                (Some false)) in
  let log := INotFormattedLogEntry.Make None 0 0 0 None 17 in
  let after := snd (snd (FileReader.obfuscate log (FileReader.constructor, w))) in
  (0 < length (heap w))%nat
  /\ (forall k, Js.lookup_prop k (record_at after 0)
                = redacted_at (IConfig.obfuscate (State_config w)) (record_at w 0) k)
  /\ record_at after 0
     = [("password", VStr "***"); ("q", VStr "y"); ("pin", VNum 0);
        ("constructor", VStr "***")].
Proof.
  cbv zeta.
  set (w := MkWorld _ _ _ _).
  set (log := INotFormattedLogEntry.Make None 0 0 0 None 17).
  assert (Hl : (INotFormattedLogEntry.body log < length (heap w))%nat) by (simpl; lia).
  split; [exact Hl|].
  split; [|vm_compute; reflexivity].
  exact (proj1 (proj2 (proj2 (X9_redaction_field_by_field (P := Sample.platform) log
                                FileReader.constructor FileWriter.constructor w Hl)))).
Defined.

(** ** The name of the next segment *)

Lemma match_digits_app p d t :
  no_digit p = true -> all_digits d = true -> d <> EmptyString ->
  starts_without_digit t = true ->
  JsString.match_digits (p ++ d ++ t) = Some (p, d, t).
Proof.
  intros Hp Hd Hne Ht. induction p as [|c p IH].
  - destruct d as [|c s]; [congruence|].
    change (EmptyString ++ String c s ++ t) with (String c (s ++ t)).
    assert (Hc : JsString.is_digit c = true).
    { simpl in Hd. apply andb_prop in Hd. tauto. }
    cbn [JsString.match_digits]. rewrite Hc.
    change (String c (s ++ t)) with (String c s ++ t).
    rewrite span_digits_app; [reflexivity | exact Hd |].
    destruct t as [|c' t']; [exact I|]. simpl in Ht.
    destruct (JsString.is_digit c'); [discriminate | reflexivity].
  - simpl in Hp. apply andb_prop in Hp as [Hc Hp].
    change (String c p ++ d ++ t) with (String c (p ++ d ++ t)).
    rewrite match_digits_cons by (destruct (JsString.is_digit c); [discriminate|reflexivity]).
    rewrite (IH Hp). reflexivity.
Qed.

(** X10.  How rotation names the next segment.  On a name made of a text
    without digits, a run of digits and a rest that does not begin with a
    digit, when the number that the run writes, plus one, is below [2^53],
    [incrementLogFile] of either class returns and sets the current name to
    the same text, the digits of that number plus one, and the same rest:
    only the first number of the name is changed, and the zeros that pad it
    are dropped ([logs_007.json] becomes [logs_8.json]).  Nothing else
    changes.  The bound is needed: at [2^53] the sum is rounded back, and
    [logs_9007199254740992.json] keeps its name. *)
Theorem X10_rotation_increments_the_first_number
    (p d t : string) (r : FileReader.t) (fw : FileWriter.t) (w : World) :
  no_digit p = true -> all_digits d = true -> d <> EmptyString ->
  starts_without_digit t = true ->
  JsNumber.of_digits d + 1 < 2 ^ 53 ->
  let next := p ++ JsNumber.decimal (JsNumber.of_digits d + 1) ++ t in
  (FileReader.incrementLogFile (p ++ d ++ t) (r, w)
   = (Return tt, (with_currLogFile next r, w))
   /\ FileWriter.incrementLogFile (p ++ d ++ t) (fw, w)
      = (Return tt,
         (FileWriter.Make (FileWriter._logs fw) (FileWriter._index fw)
            (FileWriter._currLogSize fw) next, w)))
  /\ FileReader.incrementLogFile "logs_9007199254740992.json" (r, w)
     = (Return tt, (with_currLogFile "logs_9007199254740992.json" r, w)).
Proof.
  intros Hp Hd Hne Ht Hn next.
  assert (Hnext : JsString.toString (JsNumber.add (JsString.parseInt d) 1)
                  = JsNumber.decimal (JsNumber.of_digits d + 1)).
  { unfold JsString.parseInt. rewrite of_N_small by lia.
    rewrite add_small by exact Hn. apply toString_small, Hn. }
  split; [split|].
  - rewrite FileReader_incrementLogFile_eq, (match_digits_app p d t Hp Hd Hne Ht).
    rewrite Hnext. reflexivity.
  - unfold FileWriter.incrementLogFile, JsString.replace_digits.
    rewrite (match_digits_app p d t Hp Hd Hne Ht).
    unfold or_TypeError, bind, ret, FileWriter.set_currLogFile, modify.
    cbn [fst snd]. rewrite Hnext. reflexivity.
  - rewrite FileReader_incrementLogFile_eq.
    assert (Hm : JsString.match_digits "logs_9007199254740992.json"
                 = Some ("logs_", "9007199254740992", ".json"))
      by (vm_compute; reflexivity).
    rewrite Hm.
    assert (Hs : JsString.toString (JsNumber.add (JsString.parseInt "9007199254740992") 1)
                 = "9007199254740992") by (vm_compute; reflexivity).
    rewrite Hs. reflexivity.
Qed.

Lemma X10_witness :
  let next := "logs_" ++ JsNumber.decimal (JsNumber.of_digits "007" + 1) ++ ".json" in
  (no_digit "logs_" = true /\ all_digits "007" = true /\ "007" <> EmptyString
   /\ starts_without_digit ".json" = true
   /\ JsNumber.of_digits "007" + 1 < 2 ^ 53)
  /\ next = "logs_8.json"
  /\ FileReader.incrementLogFile "logs_007.json"
       (FileReader.constructor, Sample.world Sample.writable Sample.config)
     = (Return tt,
        (with_currLogFile next FileReader.constructor,
         Sample.world Sample.writable Sample.config)).
Proof.
  cbv zeta.
  assert (H3 : "007" <> EmptyString) by discriminate.
  assert (H5 : JsNumber.of_digits "007" + 1 < 2 ^ 53) by (vm_compute; reflexivity).
  split; [auto 10|]. split; [reflexivity|].
  exact (proj1 (proj1 (X10_rotation_increments_the_first_number "logs_" "007" ".json"
                         FileReader.constructor FileWriter.constructor
                         (Sample.world Sample.writable Sample.config)
                         eq_refl eq_refl H3 eq_refl H5))).
Defined.

(** ** The entry that is stored *)

Lemma record_at_with_heap h w l : record_at (with_heap h w) l = default [] (h !! l).
Proof. reflexivity. Qed.

Lemma State_config_with_heap h w : State_config (with_heap h w) = State_config w.
Proof. reflexivity. Qed.

Lemma lookup_tail {A} (h : list A) (tl : list A) i k :
  i = (length h + k)%nat -> (h ++ tl)%list !! i = tl !! k.
Proof. intros ->. rewrite lookup_app_r by lia. f_equal. lia. Qed.

(** Lookups in a heap that was extended and updated. *)
Ltac heap_lookup_step :=
  match goal with
  | |- context [<[?i := ?x]> ?h !! ?j] =>
      first [ rewrite (list_lookup_insert_ne h i j x) by lia
            | rewrite (list_lookup_insert_eq h i x) by (rewrite ?length_app; simpl; lia) ]
  | |- context [(?h ++ ?tl)%list !! ?i] =>
      first [ rewrite (lookup_app_l h tl i) by lia
            | rewrite (lookup_tail h tl i 0) by lia
            | rewrite (lookup_tail h tl i 1) by lia
            | rewrite (lookup_tail h tl i 2) by lia
            | rewrite (lookup_tail h tl i 3) by lia ]
  end.

Ltac heap_lookup := repeat (heap_lookup_step; simpl).

(** The three steps that build [logBody], in either class (the redaction
    loop is the same text): the literal is [captured_entry]. *)
Lemma logBody_of_request `{P : Platform} {T} req now (t : T) w :
  well_formed_request req w ->
  exists e w1 w2,
    entry_of_request req now (t, w) = (Return e, (t, w1))
    /\ w2 = with_heap (<[INotFormattedLogEntry.body e :=
                          redact (IConfig.obfuscate (State_config w1))
                            (record_at w1 (INotFormattedLogEntry.body e))]> (heap w1)) w1
    /\ logBody_of e (t, w2) = (Return (captured_entry req now w), (t, w2)).
Proof.
  intros (Hq & Hh & Hb).
  unfold entry_of_request, bind, liftW, Heap.alloc, Heap.read, Heap.write,
    gets, modify, ret. simpl.
  rewrite snoc_lookup. simpl. rewrite snoc_insert.
  unfold captured_entry, logBody_of, bind, liftW, Heap.read, gets, ret.
  fold (record_at w (Request.headers req)).
  destruct (IConfig.body (State_config w)) eqn:Fb,
    (Request.body req) as [l|] eqn:Eb,
    (IConfig.queryParams (State_config w)) eqn:Fq,
    (IConfig.headers (State_config w)) eqn:Fh;
    simpl; eexists _, _, _; (split; [reflexivity|]); (split; [reflexivity|]);
    simpl; rewrite ?Fb, ?Fq, ?Fh; simpl;
    try (destruct (Hb l eq_refl) as [Hl Hne]);
    rewrite ?length_app; simpl; rewrite ?Nat.add_1_r;
    rewrite <- ?app_assoc; simpl;
    unfold record_at; heap_lookup; reflexivity.
Qed.

Lemma assign_NoDup k v (r : record) : NoDup r.*1 -> NoDup (Js.assign_prop k v r).*1.
Proof.
  induction r as [|[k' v'] r IH]; simpl; intros Hnd.
  - apply NoDup_singleton.
  - apply NoDup_cons in Hnd as [Hk Hnd].
    destruct (String.eqb_spec k k') as [->|Hne]; simpl.
    + apply NoDup_cons. auto.
    + apply NoDup_cons. split; [|auto].
      rewrite keys_assign. intros [->|Hin]; [congruence | exact (Hk Hin)].
Qed.

Lemma spread_NoDup (a b : record) : NoDup a.*1 -> NoDup (Js.spread a b).*1.
Proof.
  unfold Js.spread. revert a. induction b as [|[k v] b IH]; intros a Ha; simpl;
    [exact Ha|]. apply IH, assign_NoDup, Ha.
Qed.

Lemma delete_NoDup_lookup k (r : record) :
  NoDup r.*1 -> Js.lookup_prop k (Js.delete_prop k r) = None.
Proof.
  induction r as [|[k' v'] r IH]; simpl; intros Hnd; [reflexivity|].
  apply NoDup_cons in Hnd as [Hk Hnd].
  destruct (String.eqb_spec k k') as [->|Hne]; simpl.
  - apply lookup_None_keys, Hk.
  - destruct (String.eqb_spec k k'); [congruence|]. apply IH, Hnd.
Qed.

Lemma lookup_spread_last (a : record) k v :
  Js.lookup_prop k (Js.spread a [(k, v)]) = Some v.
Proof. unfold Js.spread. simpl. apply lookup_assign_eq. Qed.

(** X11.  What is stored for a request.  When the append step returns, the
    entry filed under the new id is the literal [captured_entry]: the method
    and the address when their capture is on; the body, the query and the
    headers each as a JSON text inside the entry; the time stamp in ISO
    form.  The body text is that of the body after redaction, where the
    body is the caller's object, or a new empty object when body capture is
    off or the request has none; redaction reads through the prototype
    chain, so that a listed name such as [constructor] is stored with the
    marker even in the empty object.  The query text is that of the
    caller's query as it is, so a configured field that travels in the
    query string is stored in clear, and of an empty object when query
    capture is off; the headers text is that of a copy of the headers
    without [content-length], or of an empty object when header capture is
    off.  The text path stores the literal itself, the binary path of both
    classes its encoding. *)
Theorem X11_the_entry_that_is_stored `{P : Platform}
    req uuid now (r r' : FileReader.t) (t t' : FileWriter.t) (w w' : World) :
  well_formed_request req w ->
  let stored (v : value) :=
    Js.lookup_prop uuid (Js.own_props (Js.get_prop_opt v "logs")) in
  (FileReader.prepareJsonLog req uuid now (r, w) = (Return tt, (r', w')) ->
   stored (FileReader._logsJson r') = Some (captured_entry req now w))
  /\ (FileReader.prepareLog req uuid now (r, w) = (Return tt, (r', w')) ->
      stored (FileReader._logs r') = Some (encodeLog (captured_entry req now w)))
  /\ (FileWriter.prepareLog req uuid now (t, w) = (Return tt, (t', w')) ->
      stored (FileWriter._logs t') = Some (encodeLog (captured_entry req now w)))
  /\ Js.lookup_prop "content-length"
       (Js.delete_prop "content-length"
          (Js.spread [] (record_at w (Request.headers req)))) = None.
Proof.
  intros Hwf stored. subst stored. cbv beta.
  split; [|split; [|split]].
  - intros E.
    destruct (logBody_of_request req now r w Hwf) as (e & w1 & w2 & He & Hw2 & Hlb).
    unfold FileReader.prepareJsonLog in E.
    rewrite (bind_of_Return _ _ _ _ _ He) in E.
    rewrite (bind_of_Return _ _ _ _ _ (FileReader_obfuscate_spec e r w1)) in E.
    rewrite <- Hw2 in E. rewrite (bind_of_Return _ _ _ _ _ Hlb) in E.
    clear He Hlb Hw2. generalize dependent (captured_entry req now w). intros lb E.
    unfold FileReader.index_entry, bind, or_TypeError, FileReader.set_currLogSize,
      FileReader.set_logsJson, FileReader.set_index, FileReader.this, liftW, gets,
      modify, ret, throw in E.
    simpl in E.
    destruct (Js.get_prop (FileReader._logsJson r) "logs") as [old|];
      simpl in E; [|discriminate E].
    destruct (Js.set_prop (FileReader._logsJson r) "logs" _) as [logs'|] eqn:Hlogs;
      simpl in E; [|discriminate E].
    destruct (Js.get_prop (FileReader._index r) "indexes") as [ixs|];
      simpl in E; [|discriminate E].
    destruct (Js.set_prop ixs uuid _) as [ixs'|]; simpl in E; [|discriminate E].
    destruct (Js.set_prop (FileReader._index r) "indexes" ixs') as [idx'|];
      simpl in E; [|discriminate E].
    injection E as <- _. cbn [FileReader._logsJson].
    rewrite (set_prop_get_opt _ _ _ _ Hlogs). cbn [Js.own_props].
    apply lookup_spread_last.
  - intros E.
    destruct (logBody_of_request req now r w Hwf) as (e & w1 & w2 & He & Hw2 & Hlb).
    unfold FileReader.prepareLog in E.
    rewrite (bind_of_Return _ _ _ _ _ He) in E.
    rewrite (bind_of_Return _ _ _ _ _ (FileReader_obfuscate_spec e r w1)) in E.
    rewrite <- Hw2 in E. rewrite (bind_of_Return _ _ _ _ _ Hlb) in E.
    clear He Hlb Hw2. generalize dependent (captured_entry req now w). intros lb E.
    unfold FileReader.index_entry, bind, or_TypeError, FileReader.set_currLogSize,
      FileReader.set_logs, FileReader.set_index, FileReader.this, liftW, gets,
      modify, ret, throw in E.
    simpl in E.
    destruct (Js.get_prop (FileReader._logs r) "logs") as [old|];
      simpl in E; [|discriminate E].
    destruct (Js.set_prop (FileReader._logs r) "logs" _) as [logs'|] eqn:Hlogs;
      simpl in E; [|discriminate E].
    destruct (Js.get_prop (FileReader._index r) "indexes") as [ixs|];
      simpl in E; [|discriminate E].
    destruct (Js.set_prop ixs uuid _) as [ixs'|]; simpl in E; [|discriminate E].
    destruct (Js.set_prop (FileReader._index r) "indexes" ixs') as [idx'|];
      simpl in E; [|discriminate E].
    injection E as <- _. cbn [FileReader._logs].
    rewrite (set_prop_get_opt _ _ _ _ Hlogs). cbn [Js.own_props].
    apply lookup_spread_last.
  - intros E.
    destruct (logBody_of_request req now t w Hwf) as (e & w1 & w2 & He & Hw2 & Hlb).
    unfold FileWriter.prepareLog in E.
    rewrite (bind_of_Return _ _ _ _ _ He) in E.
    rewrite (bind_of_Return _ _ _ _ _ (FileWriter_obfuscate_spec e t w1)) in E.
    rewrite <- Hw2 in E. rewrite (bind_of_Return _ _ _ _ _ Hlb) in E.
    clear He Hlb Hw2. generalize dependent (captured_entry req now w). intros lb E.
    unfold bind, or_TypeError, FileWriter.set_currLogSize,
      FileWriter.set_logs, FileWriter.set_index, FileWriter.this, liftW, gets,
      modify, ret, throw in E.
    simpl in E.
    destruct (Js.get_prop (FileWriter._logs t) "logs") as [old|];
      simpl in E; [|discriminate E].
    destruct (Js.set_prop (FileWriter._logs t) "logs" _) as [logs'|] eqn:Hlogs;
      simpl in E; [|discriminate E].
    destruct (Js.get_prop (FileWriter._index t) "indexes") as [ixs|];
      simpl in E; [|discriminate E].
    destruct (Js.set_prop ixs uuid _) as [ixs'|]; simpl in E; [|discriminate E].
    destruct (Js.set_prop (FileWriter._index t) "indexes" ixs') as [idx'|];
      simpl in E; [|discriminate E].
    injection E as <- _. cbn [FileWriter._logs].
    rewrite (set_prop_get_opt _ _ _ _ Hlogs). cbn [Js.own_props].
    apply lookup_spread_last.
  - apply delete_NoDup_lookup, spread_NoDup. simpl. apply NoDup_nil_2.
Qed.

Lemma X11_witness :
  let w := Sample.world Sample.writable Sample.config in
  let res := FileReader.prepareJsonLog (P := Sample.platform) Sample.request
               Sample.uuid1 17 (FileReader.constructor, w) in
  let entry := captured_entry (P := Sample.platform) Sample.request 17 w in
  (well_formed_request Sample.request w
   /\ res = (Return tt, snd res))
  /\ Js.lookup_prop Sample.uuid1
       (Js.own_props (Js.get_prop_opt (FileReader._logsJson (fst (snd res))) "logs"))
     = Some entry
  /\ Js.get_prop entry "headers" = Some (VStr "{}")
  /\ Js.get_prop entry "method" = Some (VStr "POST").
Proof.
  cbv zeta.
  assert (Hwf : well_formed_request Sample.request
                  (Sample.world Sample.writable Sample.config)).
  { split; [simpl; lia|]. split; [simpl; lia|].
    intros l [= <-]. split; simpl; lia. }
  assert (E : FileReader.prepareJsonLog (P := Sample.platform) Sample.request
                Sample.uuid1 17
                (FileReader.constructor, Sample.world Sample.writable Sample.config)
              = (Return tt,
                 (fst (snd (FileReader.prepareJsonLog (P := Sample.platform)
                              Sample.request Sample.uuid1 17
                              (FileReader.constructor,
                               Sample.world Sample.writable Sample.config))),
                  snd (snd (FileReader.prepareJsonLog (P := Sample.platform)
                              Sample.request Sample.uuid1 17
                              (FileReader.constructor,
                               Sample.world Sample.writable Sample.config))))))
    by (vm_compute; reflexivity).
  split; [split; [exact Hwf | exact E]|].
  split; [|split; vm_compute; reflexivity].
  exact (proj1 (X11_the_entry_that_is_stored (P := Sample.platform)
                  Sample.request Sample.uuid1 17 FileReader.constructor _
                  FileWriter.constructor FileWriter.constructor
                  (Sample.world Sample.writable Sample.config) _ Hwf) E).
Defined.

(** ** A directory entry with a number and no segment *)

Lemma FileReader_pre_noop r w :
  is_Some (disk_file w "index.json") ->
  is_Some (disk_file w (FileReader._currLogFile r)) ->
  is_Some (disk_file w "config.json") ->
  FileReader.pre (r, w) = (Return tt, (r, w)).
Proof.
  intros [f1 H1] [f2 H2] [f3 H3]. unfold FileReader.pre.
  destruct (disk_file_dir _ _ _ H1) as [d Hd].
  rewrite (bind_of_Return _ _ _ _ _
             (FileReader_initDirectories_exists r w (ex_intro _ d Hd))).
  assert (Hv : forall target body, is_Some (disk_file w target) ->
            FileReader.validateFile target body (r, w) = (Return tt, (r, w))).
  { intros target body [g Hg]. rewrite FileReader_validateFile_eq, Hg. reflexivity. }
  rewrite (bind_of_Return _ _ _ _ _ (Hv "index.json" _ (ex_intro _ f1 H1))).
  rewrite FileReader_bind_this.
  rewrite (bind_of_Return _ _ _ _ _ (Hv _ _ (ex_intro _ f2 H2))).
  apply Hv. eauto.
Qed.

Lemma selected_nonempty d r :
  logNumbers (elements (dom d)) <> [] ->
  FileReader._currLogFile (selected d r)
  = segment_name (Math_max (logNumbers (elements (dom d)))).
Proof.
  unfold selected. destruct (logNumbers (elements (dom d))); [congruence|reflexivity].
Qed.

(** The last steps of a capture when the selected segment is not on disk. *)
Lemma FileReader_capture_tail_missing r6 w6 :
  disk_file w6 (FileReader._currLogFile r6) = None ->
  let res := bind FileReader.prepareConfig
               (fun _ => bind FileReader.this
                  (fun self => bind (FileReader.checkFileSize (FileReader._currLogFile self))
                     (fun _ => FileReader.saveFiles))) (r6, w6) in
  (fst res = Throw (SystemError "ENOENT") \/ fst res = Throw TypeError)
  /\ snd (snd res) = w6.
Proof.
  intros Hnone res. subst res.
  pose proof (FileReader_prepareConfig_eq r6 w6) as E7.
  destruct (Js.set_prop (FileReader._config r6) "disableProto" _) as [c|].
  2:{ rewrite (bind_of_Throw _ _ _ _ _ E7). cbn. auto. }
  rewrite (bind_of_Return _ _ _ _ _ E7), FileReader_bind_this.
  cbn [with_config FileReader._currLogFile].
  assert (E8 : FileReader.checkFileSize (FileReader._currLogFile r6) (with_config c r6, w6)
               = (Throw (SystemError "ENOENT"), (with_config c r6, w6))).
  { rewrite FileReader_checkFileSize_eq, Hnone. reflexivity. }
  rewrite (bind_of_Throw _ _ _ _ _ E8). cbn. auto.
Qed.

(** X12.  A stray number stops every capture.  On a store that holds
    [index.json], [logs_0.json] and [config.json], [fetchCurrentLogFile]
    builds the current name from the greatest number found in the directory
    entries that contain [logs]; when no file of that name exists (the
    number came from an entry such as [logs_12.json.bak]), the capture of a
    new instance raises, [ENOENT] from the size check or a [TypeError]
    before it, in binary and in text mode alike.  The file system is left
    exactly as it was, so every later capture fails the same way until the
    entry is removed. *)
Theorem X12_stray_number_stops_every_capture `{P : Platform}
    req uuid now (w : World) (d : gmap string file) :
  fs_dir (disk w) = Some d ->
  is_Some (d !! "index.json") -> is_Some (d !! "logs_0.json") ->
  is_Some (d !! "config.json") ->
  d !! segment_name (Math_max (logNumbers (elements (dom d)))) = None ->
  let stopped (res : outcome unit * (FileReader.t * World)) :=
    (fst res = Throw (SystemError "ENOENT") \/ fst res = Throw TypeError)
    /\ disk (snd (snd res)) = disk w in
  stopped (FileReader.save req uuid now (FileReader.constructor, w))
  /\ stopped (FileReader.saveJson req uuid now (FileReader.constructor, w)).
Proof.
  intros Hd H1 H2 H3 Hnone stopped. subst stopped. cbv beta.
  assert (Hfile : forall n, disk_file w n = d !! n).
  { intros n. unfold disk_file. rewrite Hd. reflexivity. }
  assert (E1 : FileReader.pre (FileReader.constructor, w)
               = (Return tt, (FileReader.constructor, w))).
  { apply FileReader_pre_noop; rewrite Hfile; assumption. }
  assert (Hnum : logNumbers (elements (dom d)) <> []).
  { intros Hnil.
    assert (Hin : 0 ∈ logNumbers (elements (dom d))).
    { apply logNumbers_member.
      exists "logs_0.json", "logs_", "0", ".json".
      split; [apply elem_of_elements, elem_of_dom, H2|]. repeat split. }
    rewrite Hnil in Hin. apply elem_of_nil in Hin. exact Hin. }
  split.
  - unfold FileReader.save. rewrite (bind_of_Return _ _ _ _ _ E1).
    destruct (FileReader_loads FileReader.constructor w d Hd) as [c Hl]. rewrite Hl.
    destruct (FileReader_prepareLog_cases req uuid now
                (loaded_instance d FileReader.constructor w) (with_console c w))
      as (o & r6 & w6 & E6 & [->| ->] & D6 & _ & _ & C6).
    + rewrite (bind_of_Return _ _ _ _ _ E6).
      assert (Hmiss : disk_file w6 (FileReader._currLogFile r6) = None).
      { rewrite (disk_file_same_disk _ _ _ D6), C6.
        cbn [loaded_instance with_config with_index with_logs FileReader._currLogFile].
        rewrite (selected_nonempty d _ Hnum).
        rewrite disk_file_with_console, Hfile. exact Hnone. }
      destruct (FileReader_capture_tail_missing r6 w6 Hmiss) as [Ho Hs].
      split; [exact Ho|]. rewrite Hs. exact D6.
    + rewrite (bind_of_Throw _ _ _ _ _ E6). cbn [fst snd]. split; [auto | exact D6].
  - unfold FileReader.saveJson. rewrite (bind_of_Return _ _ _ _ _ E1).
    destruct (FileReader_loads_text FileReader.constructor w d Hd) as [c Hl]. rewrite Hl.
    destruct (FileReader_prepareJsonLog_cases req uuid now
                (loaded_instance_text d FileReader.constructor w) (with_console c w))
      as (o & r6 & w6 & E6 & [->| ->] & D6 & _ & _ & C6).
    + rewrite (bind_of_Return _ _ _ _ _ E6).
      assert (Hmiss : disk_file w6 (FileReader._currLogFile r6) = None).
      { rewrite (disk_file_same_disk _ _ _ D6), C6.
        cbn [loaded_instance_text with_config with_index with_logsJson
             FileReader._currLogFile].
        rewrite (selected_nonempty d _ Hnum).
        rewrite disk_file_with_console, Hfile. exact Hnone. }
      destruct (FileReader_capture_tail_missing r6 w6 Hmiss) as [Ho Hs].
      split; [exact Ho|]. rewrite Hs. exact D6.
    + rewrite (bind_of_Throw _ _ _ _ _ E6). cbn [fst snd]. split; [auto | exact D6].
Qed.

Lemma X12_witness :
  let d : gmap string file :=
    <["logs_0.json" := Sample.small_segment]>
      (<["logs_12.json.bak" := Sample.empty_segment]>
         (<["index.json" := Sample.old_index]>
            (<["config.json" := Sample.default_config]> ∅))) in
  let w := Sample.world Sample2.stray_copy_store Sample.config in
  let res := FileReader.save (P := Sample.platform) Sample.request Sample.uuid1 17
               (FileReader.constructor, w) in
  (fs_dir (disk w) = Some d
   /\ is_Some (d !! "index.json") /\ is_Some (d !! "logs_0.json")
   /\ is_Some (d !! "config.json")
   /\ d !! segment_name (Math_max (logNumbers (elements (dom d)))) = None)
  /\ segment_name (Math_max (logNumbers (elements (dom d)))) = "logs_12.json"
  /\ fst res = Throw (SystemError "ENOENT")
  /\ disk (snd (snd res)) = disk w.
Proof.
  cbv zeta.
  set (d := <["logs_0.json" := Sample.small_segment]>
              (<["logs_12.json.bak" := Sample.empty_segment]>
                 (<["index.json" := Sample.old_index]>
                    (<["config.json" := Sample.default_config]> (∅ : gmap string file))))).
  assert (H0 : fs_dir (disk (Sample.world Sample2.stray_copy_store Sample.config)) = Some d)
    by reflexivity.
  assert (H1 : is_Some (d !! "index.json")) by (vm_compute; eauto).
  assert (H2 : is_Some (d !! "logs_0.json")) by (vm_compute; eauto).
  assert (H3 : is_Some (d !! "config.json")) by (vm_compute; eauto).
  assert (H4 : d !! segment_name (Math_max (logNumbers (elements (dom d)))) = None)
    by (vm_compute; reflexivity).
  split; [auto 10|].
  split; [vm_compute; reflexivity|].
  split; [vm_compute; reflexivity|].
  destruct (X12_stray_number_stops_every_capture (P := Sample.platform)
              Sample.request Sample.uuid1 17
              (Sample.world Sample2.stray_copy_store Sample.config) d H0 H1 H2 H3 H4)
    as [[_ Hdisk] _].
  exact Hdisk.
Defined.

(** ** Compaction *)

Lemma slice_last_length {A} (xs : list A) : (length (Js.slice_last xs) <= 1)%nat.
Proof. unfold Js.slice_last. destruct (last xs); simpl; lia. Qed.

Lemma slice_last_idem {A} (xs : list A) :
  Js.slice_last (Js.slice_last xs) = Js.slice_last xs.
Proof. unfold Js.slice_last. destruct (last xs); reflexivity. Qed.

Lemma spread_fromEntries_one (es : record) :
  Js.spread [] (Js.fromEntries (Js.slice_last es)) = Js.slice_last es.
Proof.
  unfold Js.fromEntries, Js.slice_last. destruct (last es) as [[k v]|]; reflexivity.
Qed.

Lemma with_logs_id r : with_logs (FileReader._logs r) r = r.
Proof. destruct r; reflexivity. Qed.

(** X13.  [cleanLogs] keeps the last entry and nothing else.  When it
    returns, the [logs] member of the binary map holds exactly the entry
    that was enumerated last, key and value, or nothing when the map was
    empty; the other fields of the instance and the world are untouched.
    It is idempotent: run again, it returns and changes nothing. *)
Theorem X13_cleanLogs_keeps_the_last_entry
    (r r' : FileReader.t) (w w' : World) :
  FileReader.cleanLogs (r, w) = (Return tt, (r', w')) ->
  w' = w
  /\ r' = with_logs (FileReader._logs r') r
  /\ Js.own_props (Js.get_prop_opt (FileReader._logs r') "logs")
     = Js.slice_last (Js.own_props (Js.get_prop_opt (FileReader._logs r) "logs"))
  /\ (length (segment_ids (FileReader._logs r')) <= 1)%nat
  /\ FileReader.cleanLogs (r', w') = (Return tt, (r', w')).
Proof.
  rewrite FileReader_cleanLogs_eq.
  destruct (Js.get_prop (FileReader._logs r) "logs") as [ls|] eqn:Hls; [|discriminate].
  destruct (Js.entries ls) as [es|] eqn:Hes; [|discriminate].
  rewrite spread_fromEntries_one.
  destruct (Js.set_prop (FileReader._logs r) "logs" (VObj (Js.slice_last es)))
    as [logs'|] eqn:Hset; [|discriminate].
  intros [= <- <-].
  assert (Hes' : es = Js.own_props ls).
  { unfold Js.entries in Hes. destruct ls; try discriminate Hes;
      injection Hes as <-; reflexivity. }
  assert (Hprops : Js.own_props (Js.get_prop_opt logs' "logs") = Js.slice_last es).
  { rewrite (set_prop_get_opt _ _ _ _ Hset). reflexivity. }
  split; [reflexivity|]. split; [reflexivity|].
  cbn [with_logs FileReader._logs].
  split; [rewrite Hprops, Hes', (get_prop_opt_of _ _ _ Hls); reflexivity|].
  split.
  { unfold segment_ids. rewrite Hprops, length_fmap. apply slice_last_length. }
  rewrite FileReader_cleanLogs_eq. cbn [with_logs FileReader._logs].
  destruct (set_prop_get _ _ _ _ Hset) as [Hget _]. rewrite Hget.
  cbn [Js.entries Js.own_props].
  rewrite spread_fromEntries_one, slice_last_idem.
  assert (Hagain : Js.set_prop logs' "logs" (VObj (Js.slice_last es)) = Some logs').
  { destruct (FileReader._logs r); simpl in Hset; try discriminate Hset;
      injection Hset as <-; simpl; rewrite assign_same; try reflexivity;
      apply lookup_assign_eq. }
  rewrite Hagain. reflexivity.
Qed.

Lemma X13_witness :
  let w := Sample.world Sample.writable Sample.config in
  let r := with_logs (VObj [("logs", VObj [("a", VNum 1); ("b", VNum 2); ("c", VNum 3)])])
             FileReader.constructor in
  let res := FileReader.cleanLogs (r, w) in
  res = (Return tt, snd res)
  /\ FileReader._logs (fst (snd res)) = VObj [("logs", VObj [("c", VNum 3)])]
  /\ FileReader.cleanLogs (snd res) = (Return tt, snd res).
Proof.
  cbv zeta.
  set (w := Sample.world Sample.writable Sample.config).
  set (r := with_logs (VObj [("logs", VObj [("a", VNum 1); ("b", VNum 2); ("c", VNum 3)])])
              FileReader.constructor).
  assert (E : FileReader.cleanLogs (r, w)
              = (Return tt, (fst (snd (FileReader.cleanLogs (r, w))),
                             snd (snd (FileReader.cleanLogs (r, w))))))
    by reflexivity.
  split; [reflexivity|]. split; [reflexivity|].
  destruct (X13_cleanLogs_keeps_the_last_entry r _ w _ E) as (_ & _ & _ & _ & Hidem).
  exact Hidem.
Defined.

(** * The logger *)

Section LoggerFacts.
Context `{E : Logger.Env}.

Lemma string_app_assoc (a b c : string) : ((a ++ b) ++ c = a ++ b ++ c)%string.
Proof.
  induction a as [|x a IH]; [reflexivity|].
  change (String x ((a ++ b) ++ c) = String x (a ++ b ++ c))%string.
  f_equal. exact IH.
Qed.

Lemma string_app_length (a b : string) :
  String.length (a ++ b)%string = (String.length a + String.length b)%nat.
Proof.
  induction a as [|x a IH]; [reflexivity|].
  change (S (String.length (a ++ b)%string) = S (String.length a + String.length b)).
  f_equal. exact IH.
Qed.

(** The component of [getDate] for a number below one hundred has two
    digits and reads back as the number. *)
Lemma two_digits (n : N) :
  n < 100 ->
  let c := if Nat.eqb (String.length (JsString.toString n)) 1
           then ("0" ++ JsString.toString n)%string else JsString.toString n in
  String.length c = 2%nat /\ JsString.parseInt c = n.
Proof.
  intros Hn.
  assert (Hall : forallb
            (fun k : nat =>
               let n := N.of_nat k in
               let c := if Nat.eqb (String.length (JsString.toString n)) 1
                        then ("0" ++ JsString.toString n)%string
                        else JsString.toString n in
               Nat.eqb (String.length c) 2 && N.eqb (JsString.parseInt c) n)
            (seq 0 100) = true) by (vm_compute; reflexivity).
  rewrite forallb_forall in Hall.
  specialize (Hall (N.to_nat n)).
  rewrite N2Nat.id in Hall. cbv zeta in Hall |- *.
  assert (Hin : In (N.to_nat n) (seq 0 100)) by (apply in_seq; lia).
  apply Hall in Hin. apply andb_prop in Hin as [H1 H2].
  apply Nat.eqb_eq in H1. apply N.eqb_eq in H2. auto.
Qed.

(** X14.  The time stamp of a printed line.  For a clock reading within a
    day, [getDate] returns eight characters [hh:mm:ss]: each component has
    exactly two digits, a zero added in front below ten, and reads back as
    the hour, the minute and the second of the reading.  It consumes one
    reading of the clock and prints nothing. *)
Theorem X14_getDate_is_hh_mm_ss (s : Logger.state) :
  let d := Logger.clock (Logger.ticks s) in
  Logger.getHours d < 24 -> Logger.getMinutes d < 60 -> Logger.getSeconds d < 60 ->
  exists hh mm ss,
    Logger.getDate s
    = (Return (hh ++ ":" ++ mm ++ ":" ++ ss)%string,
       Logger.MkState (Logger._shouldLog s) (S (Logger.ticks s)) (Logger.info s)
         (Logger.traces s))
    /\ String.length (hh ++ ":" ++ mm ++ ":" ++ ss)%string = 8%nat
    /\ String.length hh = 2%nat /\ String.length mm = 2%nat /\ String.length ss = 2%nat
    /\ JsString.parseInt hh = Logger.getHours d
    /\ JsString.parseInt mm = Logger.getMinutes d
    /\ JsString.parseInt ss = Logger.getSeconds d.
Proof.
  intros d Hh Hm Hs.
  destruct (two_digits (Logger.getHours d)) as [Lh Ph]; [lia|].
  destruct (two_digits (Logger.getMinutes d)) as [Lm Pm]; [lia|].
  destruct (two_digits (Logger.getSeconds d)) as [Ls Ps]; [lia|].
  cbv zeta in *.
  exists (if Nat.eqb (String.length (JsString.toString (Logger.getHours d))) 1
          then ("0" ++ JsString.toString (Logger.getHours d))%string
          else JsString.toString (Logger.getHours d)),
         (if Nat.eqb (String.length (JsString.toString (Logger.getMinutes d))) 1
          then ("0" ++ JsString.toString (Logger.getMinutes d))%string
          else JsString.toString (Logger.getMinutes d)),
         (if Nat.eqb (String.length (JsString.toString (Logger.getSeconds d))) 1
          then ("0" ++ JsString.toString (Logger.getSeconds d))%string
          else JsString.toString (Logger.getSeconds d)).
  split; [|split; [|auto 10]].
  - unfold Logger.getDate, bind, Logger.new_Date, ret. cbn [fst snd]. fold d.
    f_equal. f_equal.
    destruct (Nat.eqb (String.length (JsString.toString (Logger.getHours d))) 1),
      (Nat.eqb (String.length (JsString.toString (Logger.getMinutes d))) 1);
      cbn [append]; rewrite ?string_app_assoc; cbn [append]; reflexivity.
  - rewrite !string_app_length, Lh, Lm, Ls. reflexivity.
Qed.

End LoggerFacts.

Lemma X14_witness :
  let E0 : Logger.Env :=
    {| Logger.red := id; Logger.yellow := id; Logger.blue := id; Logger.magenta := id;
       Logger.yellowBright := id; Logger.gray := id; Logger.NODE_ENV := None;
       Logger.clock := fun _ => Logger.MkDate 9 5 30 |} in
  (Logger.getHours (Logger.clock (Logger.ticks Logger.initial)) < 24
   /\ Logger.getMinutes (Logger.clock (Logger.ticks Logger.initial)) < 60
   /\ Logger.getSeconds (Logger.clock (Logger.ticks Logger.initial)) < 60)
  /\ fst (Logger.getDate Logger.initial) = Return "09:05:30"
  /\ exists hh mm ss,
       fst (Logger.getDate Logger.initial) = Return (hh ++ ":" ++ mm ++ ":" ++ ss)%string
       /\ JsString.parseInt hh = 9 /\ JsString.parseInt mm = 5
       /\ JsString.parseInt ss = 30.
Proof.
  intros E0.
  assert (H1 : Logger.getHours (Logger.clock (Logger.ticks Logger.initial)) < 24)
    by (simpl; lia).
  assert (H2 : Logger.getMinutes (Logger.clock (Logger.ticks Logger.initial)) < 60)
    by (simpl; lia).
  assert (H3 : Logger.getSeconds (Logger.clock (Logger.ticks Logger.initial)) < 60)
    by (simpl; lia).
  split; [auto|]. split; [reflexivity|].
  destruct (X14_getDate_is_hh_mm_ss (E := E0) Logger.initial H1 H2 H3)
    as (hh & mm & ss & Eq & _ & _ & _ & _ & Ph & Pm & Ps).
  exists hh, mm, ss. rewrite Eq. auto.
Defined.

Section LoggerPrints.
Context `{E : Logger.Env}.

Lemma Logger_buildLog_eq color m err s :
  exists line,
    Logger.buildLog color m err s
    = (Return tt,
       if Logger.in_test || err || Logger._shouldLog s
       then Logger.MkState (Logger._shouldLog s) (S (Logger.ticks s))
              (Logger.info s ++ [line]) (Logger.traces s)
       else s).
Proof.
  unfold Logger.buildLog, bind, gets, Logger.getDate, Logger.new_Date,
    Logger.console_info, modify, ret. cbn [fst snd].
  destruct (Logger.in_test || err || Logger._shouldLog s).
  - unfold bind. cbn. eexists. reflexivity.
  - exists EmptyString. reflexivity.
Qed.

Lemma Logger_forEach_buildLog color err ms : forall s,
  let shown := Logger.in_test || err || Logger._shouldLog s in
  exists lines,
    forEach (fun m => Logger.buildLog (color m) m err) ms s
    = (Return tt,
       Logger.MkState (Logger._shouldLog s) (Logger.ticks s + printed shown (length ms))
         (Logger.info s ++ lines) (Logger.traces s))
    /\ length lines = printed shown (length ms).
Proof.
  induction ms as [|m ms IH]; intros s shown.
  - exists []. assert (H0 : printed shown 0 = 0%nat) by (destruct shown; reflexivity).
    cbn [forEach length]. rewrite H0, Nat.add_0_r, app_nil_r.
    destruct s; auto.
  - cbn [forEach].
    destruct (Logger_buildLog_eq (color m) m err s) as [line E1].
    rewrite (bind_of_Return _ _ _ _ _ E1). fold shown.
    destruct shown eqn:Hg.
    + destruct (IH (Logger.MkState (Logger._shouldLog s) (S (Logger.ticks s))
                      (Logger.info s ++ [line]) (Logger.traces s)))
        as (lines & E2 & Hlen).
      cbn [Logger._shouldLog Logger.ticks Logger.info Logger.traces] in E2, Hlen.
      fold shown in E2, Hlen. rewrite Hg in E2, Hlen.
      exists (line :: lines). rewrite E2. unfold printed in *. simpl.
      rewrite <- app_assoc. simpl. split; [|lia].
      do 2 f_equal. f_equal. lia.
    + destruct (IH s) as (lines & E2 & Hlen). fold shown in E2, Hlen.
      rewrite Hg in E2, Hlen. exists lines. rewrite E2. unfold printed in *. auto.
Qed.

(** X15.  Which calls of the logger print.  On messages that are JSON
    values (no cycle, no [BigInt]) no method raises.  [error] prints one
    line for each message, in every environment.  [warn] and
    [log] print their messages when [NODE_ENV] is [test] or [logAll] was
    called, and nothing otherwise.  [debug] prints only when [NODE_ENV] is
    [test]: [logAll] does not switch it on, and outside a test it leaves
    the logger exactly as it was.  A call without a message prints nothing,
    its target included.  No printing method changes the [logAll] flag. *)
Theorem X15_which_calls_print (target : string) (ms : list value) (s : Logger.state) :
  let lines (m : M Logger.state unit) := length (Logger.info (snd (m s))) in
  let n := length (Logger.info s) in
  (fst (Logger.error target ms s) = Return tt
   /\ lines (Logger.error target ms) = (n + length ms)%nat)
  /\ (fst (Logger.warn target ms s) = Return tt
      /\ lines (Logger.warn target ms)
         = (n + printed (Logger.in_test || Logger._shouldLog s) (length ms))%nat)
  /\ (fst (Logger.log target ms s) = Return tt
      /\ lines (Logger.log target ms)
         = (n + printed (Logger.in_test || Logger._shouldLog s) (length ms))%nat)
  /\ (fst (Logger.debug target ms s) = Return tt
      /\ lines (Logger.debug target ms) = (n + printed Logger.in_test (length ms))%nat
      /\ (Logger.in_test = false -> snd (Logger.debug target ms s) = s))
  /\ lines (bind Logger.logAll (fun _ => Logger.warn target ms)) = (n + length ms)%nat
  /\ Logger._shouldLog (snd (Logger.error target ms s)) = Logger._shouldLog s
  /\ Logger._shouldLog (snd (Logger.warn target ms s)) = Logger._shouldLog s
  /\ Logger._shouldLog (snd (Logger.log target ms s)) = Logger._shouldLog s
  /\ Logger._shouldLog (snd (Logger.debug target ms s)) = Logger._shouldLog s.
Proof.
  intros lines n. subst lines n. cbv beta.
  destruct (Logger_forEach_buildLog
              (fun _ _ => Logger.red ("Log.ERROR: " ++ target)) true ms s)
    as (le & Ee & Le).
  destruct (Logger_forEach_buildLog
              (fun _ _ => Logger.yellow ("Log.WARN: " ++ target)) false ms s)
    as (lw & Ew & Lw).
  destruct (Logger_forEach_buildLog
              (fun _ _ => Logger.blue ("Log.LOG: " ++ target)) false ms s)
    as (ll & El & Ll).
  destruct (Logger_forEach_buildLog
              (fun _ _ => Logger.magenta ("Log.Debug: " ++ target)) false ms s)
    as (ld & Ed & Ld).
  destruct (Logger_forEach_buildLog
              (fun _ _ => Logger.yellow ("Log.WARN: " ++ target)) false ms
              (Logger.MkState true (Logger.ticks s) (Logger.info s) (Logger.traces s)))
    as (la & Ea & La).
  cbv zeta in *. rewrite orb_true_r in Le. cbn [orb] in Le.
  rewrite orb_false_r in Lw, Ll, Ld.
  cbn [Logger._shouldLog Logger.info] in La. rewrite orb_true_r in La.
  unfold Logger.error, Logger.warn, Logger.log.
  rewrite Ee, Ew, El. cbn [fst snd Logger.info Logger._shouldLog].
  rewrite !length_app, Le, Lw, Ll.
  split; [split; [reflexivity|unfold printed; lia]|].
  split; [auto|]. split; [auto|].
  split.
  { unfold Logger.debug. destruct Logger.in_test eqn:Ht; cbn [negb].
    - rewrite Ed. cbn [fst snd Logger.info]. rewrite length_app, Ld.
      rewrite orb_true_l. split; [reflexivity|]. split; [reflexivity | discriminate].
    - unfold ret. cbn [fst snd]. unfold printed. split; [reflexivity|].
      split; [lia | reflexivity]. }
  split.
  { unfold bind, Logger.logAll, modify. cbn [fst snd]. rewrite Ea.
    cbn [fst snd Logger.info]. rewrite length_app, La. unfold printed. reflexivity. }
  split; [reflexivity|]. split; [reflexivity|]. split; [reflexivity|].
  unfold Logger.debug. destruct Logger.in_test; cbn [negb]; [rewrite Ed|]; reflexivity.
Qed.

End LoggerPrints.

(** * The configuration of the middleware *)

Lemma lookup_spread (a b : record) k :
  NoDup b.*1 ->
  Js.lookup_prop k (Js.spread a b)
  = match Js.lookup_prop k b with
    | Some v => Some v
    | None => Js.lookup_prop k a
    end.
Proof.
  unfold Js.spread. revert a. induction b as [|[k' v'] b IH]; intros a Hnd; simpl.
  - reflexivity.
  - apply NoDup_cons in Hnd as [Hk Hnd]. rewrite (IH _ Hnd).
    destruct (String.eqb_spec k k') as [->|Hne].
    + rewrite (proj2 (lookup_None_keys k' b) Hk). apply lookup_assign_eq.
    + rewrite lookup_assign_ne by congruence. reflexivity.
Qed.

Section ToasterFacts.
Context `{Pr : Toaster.Process}.

Lemma defaultConfig_NoDup : NoDup Toaster.defaultConfig.*1.
Proof.
  unfold Toaster.defaultConfig. simpl. repeat (apply NoDup_cons; split;
    [rewrite ?elem_of_cons, elem_of_nil; intros H;
     repeat (destruct H as [H|H]; [discriminate H|]); exact H|]).
  apply NoDup_nil_2.
Qed.

Lemma spread_nil_id (b : record) : NoDup b.*1 -> Js.spread [] b = b.
Proof.
  assert (Hgen : forall a : record, NoDup (a ++ b)%list.*1 -> Js.spread a b = (a ++ b)%list).
  { unfold Js.spread. induction b as [|[k v] b IH]; intros a Hnd; simpl.
    - rewrite app_nil_r. reflexivity.
    - rewrite assign_fresh.
      + rewrite IH; rewrite <- app_assoc; [reflexivity | exact Hnd].
      + rewrite fmap_app in Hnd. apply NoDup_app in Hnd as (_ & Hdis & _).
        intros Hin. apply (Hdis k Hin). simpl. left. }
  intros Hnd. apply (Hgen []). exact Hnd.
Qed.

(** X16.  The configuration that [initPath] leaves in [State.config].  With
    no configuration, or one that is not an object with at least one key
    ([undefined], [null], a string, a number, an array, [{}]), it is the
    default configuration.  With an object it is the defaults overridden
    key by key with the caller's object, unknown keys and values of any
    type included: a key of the caller's object wins even when it holds
    [undefined] or the empty string; the key [path], when the caller's path
    is a non-empty string, holds that path resolved against the working
    directory.  The method then returns, after one call of [Log.log]. *)
Theorem X16_initPath_merges_over_the_defaults
    (config : value) (s : Toaster.state) :
  (match config with VObj (_ :: _) => False | _ => True end ->
   Toaster.initPath config s
   = (Return tt,
      Toaster.MkState (VObj Toaster.defaultConfig)
        (Toaster.console s ++ [config_missing])))
  /\ (forall ps,
        config = VObj ps -> ps <> [] -> NoDup ps.*1 ->
        let path := default VUndef (Js.lookup_prop "path" ps) in
        (Js.truthy path = false \/ exists p, path = VStr p) ->
        exists cfg,
          Toaster.initPath config s
          = (Return tt,
             Toaster.MkState (VObj cfg) (Toaster.console s ++ [config_provided]))
          /\ forall k,
               Js.lookup_prop k cfg
               = match path with
                 | VStr p =>
                     if String.eqb k "path" && Js.truthy path
                     then Some (VStr (resolved_path p))
                     else match Js.lookup_prop k ps with
                          | Some v => Some v
                          | None => Js.lookup_prop k Toaster.defaultConfig
                          end
                 | _ => match Js.lookup_prop k ps with
                        | Some v => Some v
                        | None => Js.lookup_prop k Toaster.defaultConfig
                        end
                 end).
Proof.
  split.
  - intros Hc. unfold Toaster.initPath.
    destruct config as [| |b|n|str|xs named|[|kv ps]]; try contradiction;
      try reflexivity;
      try (rewrite !andb_false_r; reflexivity).
  - intros ps -> Hne Hnd path Hpath.
    unfold Toaster.initPath.
    assert (Hcond : Js.truthy (VObj ps) && Toaster.typeof_object (VObj ps)
                    && negb (Toaster.isArray (VObj ps)) && Toaster.not_null (VObj ps)
                    && Nat.ltb 0 (length (Toaster.Object_keys (VObj ps))) = true).
    { destruct ps; [congruence | reflexivity]. }
    rewrite Hcond. clear Hcond.
    unfold bind, Toaster.Log_log, modify, or_TypeError, ret. cbn [fst snd Js.get_prop].
    fold path. rewrite (spread_nil_id _ defaultConfig_NoDup).
    destruct Hpath as [Hf|[p Hp]].
    + rewrite Hf. eexists. split; [reflexivity|].
      intros k. rewrite (lookup_spread _ _ _ Hnd).
      destruct path; try reflexivity.
      rewrite andb_false_r. reflexivity.
    + rewrite Hp. destruct (Js.truthy (VStr p)) eqn:Ht.
      * eexists. split; [reflexivity|]. intros k.
        unfold Js.spread at 1. cbn [fold_left fst snd].
        destruct (String.eqb_spec k "path") as [->|Hk]; cbn [andb].
        -- rewrite lookup_assign_eq. reflexivity.
        -- rewrite lookup_assign_ne by congruence.
           apply (lookup_spread _ _ _ Hnd).
      * eexists. split; [reflexivity|]. intros k.
        rewrite andb_false_r. apply (lookup_spread _ _ _ Hnd).
Qed.

End ToasterFacts.

Lemma X16_witness :
  let res := Toaster.initPath (Pr := Sample3.process) (VObj Sample3.caller_config)
               Sample3.state in
  (VObj Sample3.caller_config = VObj Sample3.caller_config
   /\ Sample3.caller_config <> []
   /\ NoDup Sample3.caller_config.*1)
  /\ fst res = Return tt
  /\ exists cfg,
       Toaster.State_config (snd res) = VObj cfg
       /\ Js.lookup_prop "path" cfg = Some (VStr "/srv/app/var/log/toaster")
       /\ Js.lookup_prop "ip" cfg = Some (VBool true)
       /\ Js.lookup_prop "method" cfg = Some (VBool true)
       /\ Js.lookup_prop "tag" cfg = Some (VStr "blue").
Proof.
  cbv zeta.
  assert (H2 : Sample3.caller_config <> []) by discriminate.
  assert (H3 : NoDup Sample3.caller_config.*1).
  { unfold Sample3.caller_config. simpl.
    repeat (apply NoDup_cons; split;
      [rewrite ?elem_of_cons, elem_of_nil; intros H;
       repeat (destruct H as [H|H]; [discriminate H|]); exact H|]).
    apply NoDup_nil_2. }
  split; [auto|].
  destruct (proj2 (X16_initPath_merges_over_the_defaults (Pr := Sample3.process)
                     (VObj Sample3.caller_config) Sample3.state)
              Sample3.caller_config eq_refl H2 H3
              (or_intror (ex_intro _ "/var/log/toaster" eq_refl)))
    as (cfg & E & Hcfg).
  rewrite E. split; [reflexivity|]. exists cfg. split; [reflexivity|].
  rewrite !Hcfg. repeat split.
Defined.

Section ToasterSlash.
Context `{Pr : Toaster.Process}.

Lemma assign_assign_same k x y (r : record) :
  Js.assign_prop k x (Js.assign_prop k y r) = Js.assign_prop k x r.
Proof.
  induction r as [|[k' v'] r IH]; simpl.
  - rewrite String.eqb_refl. reflexivity.
  - destruct (String.eqb k k') eqn:Hk; simpl; rewrite ?String.eqb_refl, ?Hk;
      [reflexivity | rewrite IH; reflexivity].
Qed.

Lemma assign_assign_comm k k' x v (r : record) :
  k <> k' -> k ∈ r.*1 ->
  Js.assign_prop k x (Js.assign_prop k' v r) = Js.assign_prop k' v (Js.assign_prop k x r).
Proof.
  intros Hne. induction r as [|[k0 v0] r IH]; simpl; intros Hin.
  - apply elem_of_nil in Hin. contradiction.
  - apply elem_of_cons in Hin.
    destruct (String.eqb_spec k' k0) as [->|Hn0];
      destruct (String.eqb_spec k k0) as [->|Hn1]; simpl.
    + congruence.
    + rewrite String.eqb_refl. destruct (String.eqb_spec k k0); [congruence|reflexivity].
    + rewrite String.eqb_refl. destruct (String.eqb_spec k' k0); [congruence|reflexivity].
    + destruct (String.eqb_spec k k0); [congruence|].
      destruct (String.eqb_spec k' k0); [congruence|].
      rewrite IH; [reflexivity|]. destruct Hin as [?|?]; [congruence|assumption].
Qed.

(** Overwriting a key of the base at the end of a spread makes the values
    that the spread gave to that key irrelevant. *)
Lemma assign_after_spread k x (b : record) : forall a : record,
  k ∈ a.*1 ->
  Js.assign_prop k x (Js.spread a b)
  = Js.spread (Js.assign_prop k x a)
      (filter (fun kv : string * value => fst kv ≠ k) b).
Proof.
  unfold Js.spread. induction b as [|[k' v'] b IH]; intros a Hin; simpl.
  - reflexivity.
  - rewrite IH by (apply keys_assign; auto).
    destruct (decide (k' = k)) as [->|Hne].
    + rewrite filter_cons_False by (simpl; tauto).
      rewrite assign_assign_same. reflexivity.
    + rewrite filter_cons_True by (simpl; exact Hne). simpl.
      rewrite assign_assign_comm by (auto; congruence). reflexivity.
Qed.

Lemma filter_assign k y (r : record) :
  filter (fun kv : string * value => fst kv ≠ k) (Js.assign_prop k y r)
  = filter (fun kv : string * value => fst kv ≠ k) r.
Proof.
  induction r as [|[k' v'] r IH]; simpl.
  - rewrite filter_cons_False by (simpl; tauto). reflexivity.
  - destruct (String.eqb_spec k k') as [->|Hne].
    + rewrite !filter_cons_False by (simpl; tauto). reflexivity.
    + rewrite !filter_cons_True by (simpl; congruence). rewrite IH. reflexivity.
Qed.

(** X17.  A leading slash of the configured path is ignored.  A caller who
    configures [path] as ["/" ++ p] gets exactly the state that the path [p]
    gives, for every non-empty [p] that does not itself begin with a slash:
    the storage directory is [p] resolved against the working directory of
    the process, so an absolute path cannot be configured this way. *)
Theorem X17_leading_slash_of_the_path_is_ignored
    (ps : record) (p : string) (s : Toaster.state) :
  Js.lookup_prop "path" ps = Some (VStr (String "/" p)) ->
  p <> EmptyString ->
  String.prefix "/" p = false ->
  Toaster.initPath (VObj ps) s
  = Toaster.initPath (VObj (Js.assign_prop "path" (VStr p) ps)) s
  /\ exists cfg,
       Toaster.State_config (snd (Toaster.initPath (VObj ps) s)) = VObj cfg
       /\ Js.lookup_prop "path" cfg
          = Some (VStr (Toaster.path_resolve Toaster.cwd p)).
Proof.
  intros Hl Hne Hpre.
  assert (Hps : ps <> []) by (destruct ps; [simpl in Hl; discriminate Hl | discriminate]).
  assert (Hps' : Js.assign_prop "path" (VStr p) ps <> []).
  { destruct ps as [|[k v] ps]; cbn [Js.assign_prop]; [discriminate|].
    destruct (String.eqb "path" k); discriminate. }
  assert (Hcond : forall qs : record, qs <> [] ->
            Js.truthy (VObj qs) && Toaster.typeof_object (VObj qs)
            && negb (Toaster.isArray (VObj qs)) && Toaster.not_null (VObj qs)
            && Nat.ltb 0 (length (Toaster.Object_keys (VObj qs))) = true).
  { intros [|q qs] Hq; [congruence | reflexivity]. }
  unfold Toaster.initPath. rewrite (Hcond _ Hps), (Hcond _ Hps').
  unfold bind, Toaster.Log_log, modify, or_TypeError, ret.
  cbn [fst snd Js.get_prop]. rewrite Hl, lookup_assign_eq. cbn [default].
  assert (Ht : Js.truthy (VStr p) = true).
  { simpl. destruct p; [congruence | reflexivity]. }
  unfold id. rewrite Ht. cbn [Js.truthy String.eqb negb]. rewrite Hpre.
  assert (Hslash : String.prefix "/" (String "/" p) = true).
  { simpl. destruct p; reflexivity. }
  rewrite Hslash. cbn [Toaster.slice_1 Js.own_props Toaster.set_config].
  unfold Toaster.set_config, modify. cbn [fst snd].
  assert (Hin : "path" ∈ (Js.spread [] Toaster.defaultConfig).*1).
  { apply keys_spread. right. simpl. left. }
  split.
  - unfold Js.spread at 1 4. cbn [fold_left fst snd].
    rewrite !(assign_after_spread _ _ _ _ Hin), filter_assign. reflexivity.
  - eexists. split; [reflexivity|].
    unfold Js.spread at 1. cbn [fold_left fst snd]. apply lookup_assign_eq.
Qed.

End ToasterSlash.

Lemma X17_witness :
  let res := Toaster.initPath (Pr := Sample3.process) (VObj Sample3.caller_config)
               Sample3.state in
  (Js.lookup_prop "path" Sample3.caller_config = Some (VStr "/var/log/toaster")
   /\ "var/log/toaster" <> EmptyString
   /\ String.prefix "/" "var/log/toaster" = false)
  /\ res = Toaster.initPath (Pr := Sample3.process)
             (VObj [("path", VStr "var/log/toaster"); ("ip", VBool true);
                    ("tag", VStr "blue")]) Sample3.state.
Proof.
  cbv zeta.
  assert (H2 : "var/log/toaster" <> EmptyString) by discriminate.
  split; [auto|].
  exact (proj1 (X17_leading_slash_of_the_path_is_ignored (Pr := Sample3.process)
                  Sample3.caller_config "var/log/toaster" Sample3.state
                  eq_refl H2 eq_refl)).
Defined.

Section ToasterErrors.
Context `{Pr : Toaster.Process}.

(** X18.  When [initPath] raises.  It raises, a [TypeError], exactly when
    the caller's configuration is an object whose [path] is truthy and is
    not a string (a number, [true], an array, an object): the call
    [config.path.startsWith] fails.  [State.config] then keeps the value it
    had, the one a previous request left.  In every other case the method
    returns. *)
Theorem X18_initPath_raises_on_a_path_that_is_not_a_string
    (config : value) (s : Toaster.state) :
  let res := Toaster.initPath config s in
  (fst res = Return tt \/ fst res = Throw TypeError)
  /\ (fst res = Throw TypeError <->
      exists ps v, config = VObj ps /\ Js.lookup_prop "path" ps = Some v
                   /\ Js.truthy v = true /\ forall p, v <> VStr p)
  /\ (fst res = Throw TypeError ->
      Toaster.State_config (snd res) = Toaster.State_config s).
Proof.
  intros res. subst res.
  assert (Hno : forall (o : outcome unit * Toaster.state),
            fst o = Return tt ->
            (forall ps v, config = VObj ps -> Js.lookup_prop "path" ps = Some v ->
               Js.truthy v = true -> exists p, v = VStr p) ->
            (fst o = Return tt \/ fst o = Throw TypeError)
            /\ (fst o = Throw TypeError <->
                exists ps v, config = VObj ps /\ Js.lookup_prop "path" ps = Some v
                             /\ Js.truthy v = true /\ forall p, v <> VStr p)
            /\ (fst o = Throw TypeError ->
                Toaster.State_config (snd o) = Toaster.State_config s)).
  { intros o Ho Hstr. split; [auto|]. split; [|rewrite Ho; discriminate].
    split; [rewrite Ho; discriminate|].
    intros (ps & v & Hc & Hl & Ht & Hv). destruct (Hstr ps v Hc Hl Ht) as [p ->].
    exfalso. exact (Hv p eq_refl). }
  unfold Toaster.initPath.
  destruct config as [| |b|n|str|xs named|ps];
    try (apply Hno; [rewrite ?andb_false_r; reflexivity | intros ? ? [=]]).
  destruct ps as [|kv ps]; [apply Hno; [reflexivity | intros ? ? [= <-] [=]]|].
  cbn [Js.truthy Toaster.typeof_object Toaster.isArray Toaster.not_null negb andb
       Toaster.Object_keys Js.own_props fmap list_fmap length Nat.ltb Nat.leb].
  unfold bind, Toaster.Log_log, modify, or_TypeError, ret. cbn [fst snd Js.get_prop].
  destruct (Js.lookup_prop "path" (kv :: ps)) as [v|] eqn:Hl; cbn [default].
  2:{ apply Hno; [reflexivity|]. intros ps' v [= <-] Hl'. congruence. }
  unfold id.
  destruct (Js.truthy v) eqn:Ht.
  2:{ apply Hno; [reflexivity|]. intros ps' v' [= <-] Hl' Ht'. congruence. }
  destruct v as [| |b|n|p|xs named|qs];
    try (apply Hno; [reflexivity|]; intros ps' v' [= <-] Hl' Ht';
         rewrite Hl in Hl'; injection Hl' as <-; eauto);
    (split; [right; reflexivity|]; split; [|reflexivity];
     split; [intros _; eexists _, _; repeat split; eauto; discriminate | reflexivity]).
Qed.

End ToasterErrors.

(** * The index file *)

Lemma loaded_index_bootstrapped cur w :
  writable w -> cur <> "index.json" ->
  loaded_index (bootstrapped cur w) = loaded_index w.
Proof.
  intros Hw Hcur. unfold loaded_index, bootstrapped.
  pose proof (ensure_file_writable "index.json" Sample.default_index w Hw) as Hw1.
  pose proof (ensure_file_writable cur Sample.empty_segment _ Hw1) as Hw2.
  rewrite disk_file_ensure by apply Hw2. rewrite decide_False by discriminate.
  rewrite disk_file_ensure by apply Hw1. rewrite decide_False by congruence.
  rewrite disk_file_ensure by apply Hw. rewrite decide_True by reflexivity.
  destruct (disk_file w "index.json") as [f|]; reflexivity.
Qed.

Lemma elem_of_assign_other k v (r : record) k' y :
  (k', y) ∈ r -> k' <> k -> (k', y) ∈ Js.assign_prop k v r.
Proof.
  induction r as [|[k0 v0] r IH]; simpl; intros Hin Hne.
  - apply elem_of_nil in Hin. contradiction.
  - apply elem_of_cons in Hin as [[= <- <-]|Hin].
    + destruct (String.eqb_spec k k'); [congruence | left].
    + destruct (String.eqb k k0); right; auto.
Qed.

(** The ids of the index after the append, once it went through
    [JSON.stringify] and [JSON.parse]. *)
Lemma index_ids_persisted (idx5 idx6 ixs ixs' : value) ps es uuid y x :
  idx5 = VObj ps -> Js.lookup_prop "indexes" ps = Some (VObj es) ->
  (forall k v, (k, v) ∈ es -> v <> VUndef) ->
  Js.get_prop idx5 "indexes" = Some ixs ->
  Js.set_prop ixs uuid y = Some ixs' -> y <> VUndef ->
  Js.set_prop idx5 "indexes" ixs' = Some idx6 ->
  x = uuid \/ x ∈ es.*1 ->
  x ∈ index_ids (JSON.image idx6).
Proof.
  intros -> Hl Hdef Hget Hset Hy Hidx Hx.
  simpl in Hget. rewrite Hl in Hget. simpl in Hget. injection Hget as <-.
  cbn [Js.set_prop] in Hset. injection Hset as <-.
  cbn [Js.set_prop] in Hidx. injection Hidx as <-.
  unfold index_ids, Js.get_prop_opt. cbn [JSON.image Js.get_prop].
  rewrite (image_lookup _ "indexes" (VObj (Js.assign_prop uuid y es)))
    by (try apply lookup_assign_eq; discriminate).
  cbn [default JSON.image Js.own_props].
  destruct (decide (x = uuid)) as [->|Hne].
  - apply (image_keys _ uuid y); [apply elem_of_assign | exact Hy].
  - destruct Hx as [?|Hx]; [congruence|].
    apply list_elem_of_fmap in Hx as ([k v] & -> & Hin). simpl in Hne.
    apply (image_keys _ k v); [|exact (Hdef _ _ Hin)].
    apply elem_of_assign_other; assumption.
Qed.

(** X19.  The index file only grows.  After a capture by a new instance
    that returns, on a directory that accepts writes and whose index holds
    an object of defined values under [indexes], the file [index.json]
    lists the new entry's id and every id it listed before, whether or not
    the capture rotated the segment.  This holds in binary mode ([save]) and
    in text mode ([saveJson]). *)
Theorem X19_index_file_only_grows `{P : Platform}
    req uuid now (w : World) (r' : FileReader.t) (w' : World)
    (ps es : record) :
  writable w ->
  loaded_index w = VObj ps ->
  Js.lookup_prop "indexes" ps = Some (VObj es) ->
  (forall k v, (k, v) ∈ es -> v <> VUndef) ->
  FileReader.save req uuid now (FileReader.constructor, w) = (Return tt, (r', w'))
  \/ FileReader.saveJson req uuid now (FileReader.constructor, w) = (Return tt, (r', w')) ->
  disk_index_ids w = es.*1
  /\ uuid ∈ disk_index_ids w'
  /\ forall x, x ∈ disk_index_ids w -> x ∈ disk_index_ids w'.
Proof.
  intros Hw Hidx0 Hl Hdef E.
  assert (Hids : disk_index_ids w = es.*1).
  { rewrite <- loaded_index_ids, Hidx0. unfold index_ids, Js.get_prop_opt. simpl.
    rewrite Hl. reflexivity. }
  split; [exact Hids|]. rewrite Hids.
  set (w1 := bootstrapped (FileReader._currLogFile FileReader.constructor) w) in *.
  assert (Hw1 : writable w1) by (apply bootstrapped_writable, Hw).
  assert (Hidx1 : loaded_index w1 = VObj ps).
  { subst w1. rewrite loaded_index_bootstrapped; [exact Hidx0 | exact Hw | discriminate]. }
  destruct (proj1 Hw1) as [d1 Hd1].
  assert (Hgoal : forall idx6 : value,
            (exists ixs ixs' y, Js.get_prop (VObj ps) "indexes" = Some ixs
               /\ Js.set_prop ixs uuid (VStr y) = Some ixs'
               /\ Js.set_prop (VObj ps) "indexes" ixs' = Some idx6) ->
            disk_file w' "index.json" = pretty_file idx6 ->
            uuid ∈ disk_index_ids w' /\ ∀ x, x ∈ es.*1 → x ∈ disk_index_ids w').
  { intros idx6 (ixs & ixs' & y & Hg & Hs & Hi) Hfile.
    destruct (pretty_file_defined idx6) as [f Hf];
      [apply is_object_defined, (set_prop_object _ _ _ _ Hi)|].
    assert (Hd : disk_index_ids w' = index_ids (JSON.image idx6)).
    { unfold disk_index_ids. rewrite Hfile, Hf. simpl.
      rewrite (pretty_file_json _ _ Hf). reflexivity. }
    rewrite Hd. split; [|intros x Hx];
      apply (index_ids_persisted (VObj ps) idx6 ixs ixs' ps es uuid (VStr y));
      auto; discriminate. }
  destruct E as [E|E].
  - unfold FileReader.save in E.
    rewrite (bind_of_Return _ _ _ _ _ (FileReader_pre_writable _ w Hw)) in E.
    fold w1 in E.
    destruct (FileReader_loads FileReader.constructor w1 d1 Hd1) as [c Hld].
    rewrite Hld in E. clear Hld.
    set (r5 := loaded_instance d1 FileReader.constructor w1) in *.
    apply bind_Return in E as ([] & [r6 w6] & H6 & E).
    destruct (FileReader_prepareLog_cases req uuid now r5 (with_console c w1))
      as (o & r6' & w6' & E6 & _ & D6 & _ & S6 & C6).
    rewrite H6 in E6. injection E6 as <- <- <-.
    assert (Hw6 : writable w6).
    { destruct Hw1 as [Hdir Hdeny]. unfold writable. rewrite D6. split; assumption. }
    pose proof (FileReader_prepareLog_Return _ _ _ _ _ _ _ H6)
      as (old & enc & ixs & ixs' & _ & Hlogs & Hixs & Hset & Hidx & Hj6 & _ & _).
    assert (Hcur6 : log_name (FileReader._currLogFile r6))
      by (rewrite C6; apply selected_log_name).
    assert (Hj : is_object (FileReader._logsJson r6)).
    { rewrite Hj6. subst r5. cbn. rewrite selected_logsJson. exact I. }
    destruct (FileReader_capture_tail r6 w6 r' w' E Hw6 Hcur6
                (set_prop_object _ _ _ _ Hlogs) Hj (set_prop_object _ _ _ _ Hidx))
      as (_ & _ & Hi' & _ & _ & _ & _ & _ & _ & Hfile & _).
    rewrite Hi' in Hfile.
    assert (Hi5 : FileReader._index r5 = VObj ps) by exact Hidx1.
    rewrite Hi5 in Hixs, Hidx.
    apply (Hgoal (FileReader._index r6)); [eauto 10 | exact Hfile].
  - unfold FileReader.saveJson in E.
    rewrite (bind_of_Return _ _ _ _ _ (FileReader_pre_writable _ w Hw)) in E.
    fold w1 in E.
    destruct (FileReader_loads_text FileReader.constructor w1 d1 Hd1) as [c Hld].
    rewrite Hld in E. clear Hld.
    set (r5 := loaded_instance_text d1 FileReader.constructor w1) in *.
    apply bind_Return in E as ([] & [r6 w6] & H6 & E).
    destruct (FileReader_prepareJsonLog_cases req uuid now r5 (with_console c w1))
      as (o & r6' & w6' & E6 & _ & D6 & _ & S6 & C6).
    rewrite H6 in E6. injection E6 as <- <- <-.
    assert (Hw6 : writable w6).
    { destruct Hw1 as [Hdir Hdeny]. unfold writable. rewrite D6. split; assumption. }
    pose proof (FileReader_prepareJsonLog_Return _ _ _ _ _ _ _ H6)
      as (old & enc & ixs & ixs' & _ & Hlogs & Hixs & Hset & Hidx & Hl6 & _ & _).
    assert (Hcur6 : log_name (FileReader._currLogFile r6))
      by (rewrite C6; apply selected_log_name).
    assert (Hb : is_object (FileReader._logs r6)).
    { rewrite Hl6. subst r5. cbn. rewrite selected_logs. exact I. }
    destruct (FileReader_capture_tail r6 w6 r' w' E Hw6 Hcur6
                Hb (set_prop_object _ _ _ _ Hlogs) (set_prop_object _ _ _ _ Hidx))
      as (_ & _ & Hi' & _ & _ & _ & _ & _ & _ & Hfile & _).
    rewrite Hi' in Hfile.
    assert (Hi5 : FileReader._index r5 = VObj ps) by exact Hidx1.
    rewrite Hi5 in Hixs, Hidx.
    apply (Hgoal (FileReader._index r6)); [eauto 10 | exact Hfile].
Qed.

Lemma X19_witness :
  let w := Sample.world Sample.writable Sample.config in
  let saved := FileReader.save (P := Sample.platform) Sample.request Sample.uuid1 17
                 (FileReader.constructor, w) in
  (writable w
   /\ loaded_index w = VObj [("indexes", VObj [])]
   /\ Js.lookup_prop "indexes" [("indexes", VObj [])] = Some (VObj [])
   /\ (forall k v, (k, v) ∈ @nil (string * value) -> v <> VUndef)
   /\ saved = (Return tt, (fst (snd saved), snd (snd saved))))
  /\ Sample.uuid1 ∈ disk_index_ids (snd (snd saved)).
Proof.
  cbv zeta.
  assert (H4 : forall k v, (k, v) ∈ @nil (string * value) -> v <> VUndef).
  { intros k v Hin. apply elem_of_nil in Hin. contradiction. }
  assert (H5 : FileReader.save (P := Sample.platform) Sample.request Sample.uuid1 17
                 (FileReader.constructor, Sample.world Sample.writable Sample.config)
               = (Return tt,
                  (fst (snd (FileReader.save (P := Sample.platform) Sample.request
                               Sample.uuid1 17
                               (FileReader.constructor,
                                Sample.world Sample.writable Sample.config))),
                   snd (snd (FileReader.save (P := Sample.platform) Sample.request
                               Sample.uuid1 17
                               (FileReader.constructor,
                                Sample.world Sample.writable Sample.config))))))
    by (vm_compute; reflexivity).
  split; [split; [apply Sample_writable|]; auto 10|].
  exact (proj1 (proj2 (X19_index_file_only_grows (P := Sample.platform)
                         Sample.request Sample.uuid1 17
                         (Sample.world Sample.writable Sample.config) _ _
                         [("indexes", VObj [])] []
                         (Sample_writable _) eq_refl eq_refl H4 (or_introl H5)))).
Defined.

(** * The caller's request, the encoding mode, the two classes *)

(** ** The caller's request *)

Lemma lookup_delete_ne k k' (r : record) :
  k <> k' -> Js.lookup_prop k' (Js.delete_prop k r) = Js.lookup_prop k' r.
Proof.
  intros Hne. induction r as [|[k0 v0] r IH]; simpl; [reflexivity|].
  destruct (String.eqb_spec k k0) as [->|Hk]; simpl.
  - destruct (String.eqb_spec k' k0) as [->|_]; [congruence | reflexivity].
  - rewrite IH. reflexivity.
Qed.

Lemma filter_absent (k : string) (l : list string) :
  k ∉ l -> filter (fun x => x ≠ k) l = l.
Proof.
  induction l as [|x l IH]; intros Hk; [reflexivity|].
  apply not_elem_of_cons in Hk as [Hne Hk].
  rewrite filter_cons_True by congruence. rewrite (IH Hk). reflexivity.
Qed.

Lemma keys_delete k (r : record) :
  NoDup r.*1 -> (Js.delete_prop k r).*1 = filter (fun x => x ≠ k) r.*1.
Proof.
  induction r as [|[k0 v0] r IH]; simpl; intros Hnd; [reflexivity|].
  apply NoDup_cons in Hnd as [Hk0 Hnd].
  destruct (String.eqb_spec k k0) as [->|Hk]; simpl.
  - rewrite filter_cons_False by (intros H; apply H; reflexivity).
    symmetry. apply filter_absent, Hk0.
  - rewrite filter_cons_True by congruence. f_equal. apply IH, Hnd.
Qed.

(** The copy of the headers that the capture keeps: every header of the
    request but [content-length], in the order of the request. *)
Lemma filtered_headers (hs : record) :
  NoDup hs.*1 ->
  let copy := Js.delete_prop "content-length" (Js.spread [] hs) in
  Js.lookup_prop "content-length" copy = None
  /\ (forall k, k <> "content-length" -> Js.lookup_prop k copy = Js.lookup_prop k hs)
  /\ copy.*1 = filter (fun k => k ≠ "content-length") hs.*1.
Proof.
  intros Hnd copy. subst copy. rewrite (spread_nil_id hs Hnd).
  split; [apply delete_NoDup_lookup, Hnd|].
  split; [intros k Hk; apply lookup_delete_ne; congruence | apply keys_delete, Hnd].
Qed.

Lemma request_after_capture_of_shape req w h' l :
  prepareLog_heap_shape req w h' ->
  Request.body req = Some l ->
  (l < length (heap w))%nat ->
  (Request.headers req < length (heap w))%nat ->
  l <> Request.headers req ->
  NoDup (record_at w (Request.headers req)).*1 ->
  request_after_capture req l w (with_heap h' w).
Proof.
  intros Hs Hb Hl Hh Hne Hnd.
  destruct (prepareLog_heap_shape_valid req w h' l Hs Hb Hl Hh Hne) as (H1 & H2 & H3).
  unfold request_after_capture. cbv zeta.
  change (record_at (with_heap h' w)) with (fun i => default [] (h' !! i)).
  cbv beta. split; [exact H1|]. split.
  - eexists. split; [exact H2|]. apply (filtered_headers _ Hnd).
  - intros k. rewrite H3.
    destruct (IConfig.body (State_config w)); [apply redact_lookup | reflexivity].
Qed.

Lemma request_after_capture_ext req l w after after' :
  heap after' = heap after ->
  request_after_capture req l w after -> request_after_capture req l w after'.
Proof. unfold request_after_capture, record_at. intros ->. auto. Qed.

(** C10.  During capture the caller's request is partially mutated.  The
    headers object, an object with distinct keys, is copied before
    [content-length] is deleted from the copy: the request's own headers
    keep their value, and the copy holds every other header, in the same
    order, and no [content-length].  The entry body is the request's body
    object itself when body capture is enabled, so the redaction loop
    writes the marker into the caller's body: under every configured name
    but [occured] whose value in the body reads truthy.  This holds for
    [prepareLog] of both classes whatever its outcome, and for a whole
    [save] that returns. *)
Theorem C10_capture_redacts_caller_body_keeps_headers `{P : Platform}
    (req : Request.t) (uuid : string) (now : Z)
    (r : FileReader.t) (t : FileWriter.t) (w : World) (l : nat) :
  Request.body req = Some l ->
  (l < length (heap w))%nat ->
  (Request.headers req < length (heap w))%nat ->
  l <> Request.headers req ->
  NoDup (record_at w (Request.headers req)).*1 ->
  request_after_capture req l w (snd (snd (FileReader.prepareLog req uuid now (r, w))))
  /\ request_after_capture req l w (snd (snd (FileWriter.prepareLog req uuid now (t, w))))
  /\ (fst (FileReader.save req uuid now (r, w)) = Return tt ->
      request_after_capture req l w (snd (snd (FileReader.save req uuid now (r, w))))).
Proof.
  intros Hb Hl Hh Hne Hnd.
  split; [|split; [|intros Hret]].
  - apply (request_after_capture_ext req l w
             (with_heap (heap_of (snd (FileReader.prepareLog req uuid now (r, w)))) w));
      [reflexivity|].
    apply request_after_capture_of_shape; auto.
    apply FileReader_prepareLog_heap.
  - apply (request_after_capture_ext req l w
             (with_heap (heap_of (snd (FileWriter.prepareLog req uuid now (t, w)))) w));
      [reflexivity|].
    apply request_after_capture_of_shape; auto.
    apply FileWriter_prepareLog_heap.
  - apply (request_after_capture_ext req l w
             (with_heap (heap_of (snd (FileReader.save req uuid now (r, w)))) w));
      [reflexivity|].
    apply request_after_capture_of_shape; auto.
    apply FileReader_save_heap, Hret.
Qed.

Lemma C10_witness :
  let w := Sample.world Sample.writable Sample.config in
  let after :=
    snd (snd (FileReader.save (P := Sample.platform) Sample.request Sample.uuid1 17
                (FileReader.constructor, w))) in
  (Request.body Sample.request = Some 0%nat
   /\ (0 < length (heap w))%nat
   /\ (Request.headers Sample.request < length (heap w))%nat
   /\ 0%nat <> Request.headers Sample.request
   /\ NoDup (record_at w (Request.headers Sample.request)).*1)
  /\ request_after_capture Sample.request 0 w after
  /\ record_at after 0 = [("password", VStr "***"); ("q", VStr "y")]
  /\ record_at after 2 = [("host", VStr "localhost"); ("content-length", VStr "27")]
  /\ heap after !! 3%nat = Some [("host", VStr "localhost")].
Proof.
  cbv zeta.
  assert (H0 : Request.body Sample.request = Some 0%nat) by reflexivity.
  assert (H1 : (0 < length (heap (Sample.world Sample.writable Sample.config)))%nat)
    by (simpl; lia).
  assert (H2 : (Request.headers Sample.request
                < length (heap (Sample.world Sample.writable Sample.config)))%nat)
    by (simpl; lia).
  assert (H3 : 0%nat <> Request.headers Sample.request) by (simpl; lia).
  assert (H4 : NoDup (record_at (Sample.world Sample.writable Sample.config)
                        (Request.headers Sample.request)).*1).
  { apply (bool_decide_unpack _). vm_compute. exact I. }
  split; [auto 10|].
  split; [|split; [|split]; vm_compute; reflexivity].
  apply (C10_capture_redacts_caller_body_keeps_headers (P := Sample.platform)
           Sample.request Sample.uuid1 17 FileReader.constructor FileWriter.constructor
           (Sample.world Sample.writable Sample.config) 0 H0 H1 H2 H3 H4).
  vm_compute. reflexivity.
Defined.

(** ** The encoding mode *)

Lemma bootstrapped_config cur w : State_config (bootstrapped cur w) = State_config w.
Proof.
  unfold bootstrapped.
  rewrite !(proj1 (proj2 (proj2 (ensure_file_frame _ _ _)))). reflexivity.
Qed.

(** What a binary capture by a new instance leaves behind. *)
Lemma FileReader_save_written `{P : Platform} req uuid now w r' w' :
  writable w ->
  FileReader.save req uuid now (FileReader.constructor, w) = (Return tt, (r', w')) ->
  log_name (FileReader._currLogFile r')
  /\ disk_file w' (FileReader._currLogFile r')
     = pretty_file (if text_flag (State_config w)
                    then FileReader._logsJson r' else FileReader._logs r')
  /\ Js.get_prop (FileReader._config r') "disableProto"
     = Some (opt_bool (IConfig.disableProto (State_config w)))
  /\ disk_file w' "config.json" = pretty_file (FileReader._config r')
  /\ FileReader._logsJson r' = VObj [("logs", VObj [])]
  /\ (fresh_id uuid w -> uuid ∈ segment_ids (FileReader._logs r')).
Proof.
  intros Hw E.
  unfold FileReader.save in E.
  rewrite (bind_of_Return _ _ _ _ _ (FileReader_pre_writable _ w Hw)) in E.
  set (w1 := bootstrapped (FileReader._currLogFile FileReader.constructor) w) in *.
  assert (Hw1 : writable w1) by (apply bootstrapped_writable, Hw).
  assert (Hc1 : State_config w1 = State_config w) by apply bootstrapped_config.
  destruct (proj1 Hw1) as [d1 Hd1].
  destruct (FileReader_loads FileReader.constructor w1 d1 Hd1) as [c Hl].
  rewrite Hl in E. clear Hl.
  set (r5 := loaded_instance d1 FileReader.constructor w1) in *.
  apply bind_Return in E as ([] & [r6 w6] & H6 & E).
  destruct (FileReader_prepareLog_cases req uuid now r5 (with_console c w1))
    as (o & r6' & w6' & E6 & _ & D6 & _ & S6 & C6).
  rewrite H6 in E6. injection E6 as <- <- <-.
  assert (Hw6 : writable w6).
  { destruct Hw1 as [Hdir Hdeny]. unfold writable. rewrite D6. split; assumption. }
  pose proof (FileReader_prepareLog_Return _ _ _ _ _ _ _ H6)
    as (_ & _ & ixs & ixs' & _ & _ & _ & _ & Hidx & Hj6 & _ & _).
  destruct (FileReader_prepareLog_appended _ _ _ _ _ _ _ H6)
    as (old & lb & Hold & Hlogs).
  assert (Hcur6 : log_name (FileReader._currLogFile r6))
    by (rewrite C6; apply selected_log_name).
  assert (Hj5 : FileReader._logsJson r6 = VObj [("logs", VObj [])]).
  { rewrite Hj6. subst r5. cbn. rewrite selected_logsJson. reflexivity. }
  assert (Hj : is_object (FileReader._logsJson r6)) by (rewrite Hj5; exact I).
  destruct (FileReader_capture_tail_full r6 w6 r' w' E Hw6 Hcur6
              (set_prop_object _ _ _ _ Hlogs) Hj (set_prop_object _ _ _ _ Hidx))
    as (Hrot & Hj' & _ & Hfile & _ & _ & _ & _ & _ & _ & Hk & Hget & Hcfg).
  assert (Hs6 : State_config w6 = State_config w)
    by (rewrite S6; simpl; exact Hc1).
  unfold persisted_map in Hfile. rewrite Hs6 in Hfile, Hget.
  split; [exact Hk|]. split; [exact Hfile|]. split; [exact Hget|].
  split; [exact Hcfg|]. split; [rewrite Hj'; exact Hj5|].
  intros Hfresh.
  destruct Hrot as [[_ Hsame]|(_ & ls & es & Hls & Hes & Hset)].
  - rewrite Hsame. unfold segment_ids.
    rewrite (set_prop_get_opt _ _ _ _ Hlogs). cbn [Js.own_props].
    apply (list_elem_of_fmap_2 fst _ (uuid, encodeLog lb)), elem_of_assign.
  - assert (Hfresh1 : fresh_id uuid w1).
    { apply every_parsed_bootstrapped; try exact Hw; try exact Hfresh;
        simpl; apply not_elem_of_nil. }
    pose proof (fresh_id_loaded uuid w1
                  (FileReader._currLogFile (selected d1 FileReader.constructor)) Hfresh1)
      as Hn.
    change (loaded_segment w1 _) with (FileReader._logs r5) in Hn.
    unfold segment_ids in Hn. rewrite (get_prop_opt_of _ _ _ Hold) in Hn.
    pose proof (proj1 (set_prop_get _ _ _ _ Hlogs)) as Hg6.
    rewrite Hg6 in Hls. injection Hls as <-.
    rewrite (appended_then_compacted uuid (encodeLog lb) old _ _ _ es Hn Hg6
               eq_refl Hes Hset).
    left.
Qed.

(** What a text capture by a new instance leaves behind. *)
Lemma FileReader_saveJson_written `{P : Platform} req uuid now w r' w' :
  writable w ->
  FileReader.saveJson req uuid now (FileReader.constructor, w) = (Return tt, (r', w')) ->
  log_name (FileReader._currLogFile r')
  /\ disk_file w' (FileReader._currLogFile r')
     = pretty_file (if text_flag (State_config w)
                    then FileReader._logsJson r' else FileReader._logs r')
  /\ Js.get_prop (FileReader._config r') "disableProto"
     = Some (opt_bool (IConfig.disableProto (State_config w)))
  /\ disk_file w' "config.json" = pretty_file (FileReader._config r')
  /\ FileReader._logs r' = VObj [("logs", VObj [])]
  /\ uuid ∈ segment_ids (FileReader._logsJson r').
Proof.
  intros Hw E.
  unfold FileReader.saveJson in E.
  rewrite (bind_of_Return _ _ _ _ _ (FileReader_pre_writable _ w Hw)) in E.
  set (w1 := bootstrapped (FileReader._currLogFile FileReader.constructor) w) in *.
  assert (Hw1 : writable w1) by (apply bootstrapped_writable, Hw).
  assert (Hc1 : State_config w1 = State_config w) by apply bootstrapped_config.
  destruct (proj1 Hw1) as [d1 Hd1].
  destruct (FileReader_loads_text FileReader.constructor w1 d1 Hd1) as [c Hl].
  rewrite Hl in E. clear Hl.
  set (r5 := loaded_instance_text d1 FileReader.constructor w1) in *.
  apply bind_Return in E as ([] & [r6 w6] & H6 & E).
  destruct (FileReader_prepareJsonLog_cases req uuid now r5 (with_console c w1))
    as (o & r6' & w6' & E6 & _ & D6 & _ & S6 & C6).
  rewrite H6 in E6. injection E6 as <- <- <-.
  assert (Hw6 : writable w6).
  { destruct Hw1 as [Hdir Hdeny]. unfold writable. rewrite D6. split; assumption. }
  pose proof (FileReader_prepareJsonLog_Return _ _ _ _ _ _ _ H6)
    as (_ & _ & ixs & ixs' & _ & _ & _ & _ & Hidx & Hl6 & _ & _).
  destruct (FileReader_prepareJsonLog_appended _ _ _ _ _ _ _ H6)
    as (old & fields & Hold & Hlogs).
  assert (Hcur6 : log_name (FileReader._currLogFile r6))
    by (rewrite C6; apply selected_log_name).
  assert (Hb5 : FileReader._logs r6 = VObj [("logs", VObj [])]).
  { rewrite Hl6. subst r5. cbn. rewrite selected_logs. reflexivity. }
  assert (Hb : is_object (FileReader._logs r6)) by (rewrite Hb5; exact I).
  destruct (FileReader_capture_tail_full r6 w6 r' w' E Hw6 Hcur6
              Hb (set_prop_object _ _ _ _ Hlogs) (set_prop_object _ _ _ _ Hidx))
    as (Hrot & Hj' & _ & Hfile & _ & _ & _ & _ & _ & _ & Hk & Hget & Hcfg).
  assert (Hs6 : State_config w6 = State_config w)
    by (rewrite S6; simpl; exact Hc1).
  unfold persisted_map in Hfile. rewrite Hs6 in Hfile, Hget.
  split; [exact Hk|]. split; [exact Hfile|]. split; [exact Hget|].
  split; [exact Hcfg|]. split.
  - destruct Hrot as [[_ ->]|(_ & ls & es & Hls & Hes & Hset)]; [exact Hb5|].
    rewrite Hb5 in Hls, Hset. cbn in Hls. injection Hls as <-.
    cbn in Hes. injection Hes as <-.
    cbn in Hset. injection Hset as <-. reflexivity.
  - rewrite Hj'. unfold segment_ids.
    rewrite (set_prop_get_opt _ _ _ _ Hlogs). cbn [Js.own_props].
    apply (list_elem_of_fmap_2 fst _ (uuid, VObj fields)), elem_of_assign.
Qed.

(** C6 (amended).  The map that a capture writes to the segment file is
    chosen by the caller's flag [State.config.disableProto] and by nothing
    read from disk.  On a writable directory, whatever [config.json] held, a
    capture by a new instance that returns has written the text map when
    the flag is truthy and the binary map otherwise, has stored the
    caller's flag ([undefined] when the caller set none) over the one of
    the snapshot it read, and has written that snapshot to [config.json].
    The map that receives the entry is chosen by the operation and by no
    flag: [saveJson] has the entry in the text map and leaves the binary
    map empty; [save] leaves the text map empty and has the entry, when its
    id is new to the store, in the binary map.  An operation at odds with
    the flag therefore writes an empty map to the segment file. *)
Theorem C6_written_map_follows_callers_flag `{P : Platform}
    req uuid now (w : World) (r' : FileReader.t) (w' : World) :
  writable w ->
  let flag := opt_bool (IConfig.disableProto (State_config w)) in
  let written :=
    log_name (FileReader._currLogFile r')
    /\ disk_file w' (FileReader._currLogFile r')
       = pretty_file (if Js.truthy flag
                      then FileReader._logsJson r' else FileReader._logs r')
    /\ Js.get_prop (FileReader._config r') "disableProto" = Some flag
    /\ disk_file w' "config.json" = pretty_file (FileReader._config r') in
  (FileReader.save req uuid now (FileReader.constructor, w) = (Return tt, (r', w')) ->
   written
   /\ FileReader._logsJson r' = VObj [("logs", VObj [])]
   /\ (fresh_id uuid w -> uuid ∈ segment_ids (FileReader._logs r')))
  /\ (FileReader.saveJson req uuid now (FileReader.constructor, w)
      = (Return tt, (r', w')) ->
      written
      /\ FileReader._logs r' = VObj [("logs", VObj [])]
      /\ uuid ∈ segment_ids (FileReader._logsJson r')).
Proof.
  intros Hw flag written. subst written flag. split; intros E.
  - destruct (FileReader_save_written req uuid now w r' w' Hw E)
      as (H1 & H2 & H3 & H4 & H5 & H6).
    auto 10.
  - destruct (FileReader_saveJson_written req uuid now w r' w' Hw E)
      as (H1 & H2 & H3 & H4 & H5 & H6).
    auto 10.
Qed.

Lemma C6_witness :
  let w := Sample.world Sample.writable Sample.config_text in
  let bin := FileReader.save (P := Sample.platform) Sample.request Sample.uuid1 17
               (FileReader.constructor, w) in
  let txt := FileReader.saveJson (P := Sample.platform) Sample.request Sample.uuid1 17
               (FileReader.constructor, w) in
  let rb := fst (snd bin) in
  let wb := snd (snd bin) in
  let rt := fst (snd txt) in
  let wt := snd (snd txt) in
  (writable w
   /\ bin = (Return tt, (rb, wb))
   /\ txt = (Return tt, (rt, wt))
   /\ fresh_id Sample.uuid1 w)
  /\ (FileReader._currLogFile rb = "logs_0.json"
      /\ disk_file wb "logs_0.json" = pretty_file (VObj [("logs", VObj [])])
      /\ segment_ids (FileReader._logs rb) = [Sample.uuid1]
      /\ Js.get_prop (FileReader._config rb) "disableProto" = Some (VBool true)
      /\ disk_file wb "config.json" = pretty_file (FileReader._config rb))
  /\ (FileReader._currLogFile rt = "logs_0.json"
      /\ disk_file wt "logs_0.json" = pretty_file (FileReader._logsJson rt)
      /\ segment_ids (FileReader._logsJson rt) = [Sample.uuid1]
      /\ FileReader._logs rt = VObj [("logs", VObj [])]
      /\ Js.get_prop (FileReader._config rt) "disableProto" = Some (VBool true)
      /\ disk_file wt "config.json" = pretty_file (FileReader._config rt)).
Proof.
  cbv zeta.
  set (w := Sample.world Sample.writable Sample.config_text).
  set (bin := FileReader.save (P := Sample.platform) Sample.request Sample.uuid1 17
                (FileReader.constructor, w)).
  set (txt := FileReader.saveJson (P := Sample.platform) Sample.request Sample.uuid1 17
                (FileReader.constructor, w)).
  assert (Hw : writable w) by apply Sample_writable.
  assert (Hb : bin = (Return tt, (fst (snd bin), snd (snd bin))))
    by (vm_compute; reflexivity).
  assert (Ht : txt = (Return tt, (fst (snd txt), snd (snd txt))))
    by (vm_compute; reflexivity).
  assert (Hf : fresh_id Sample.uuid1 w) by apply Sample_every_parsed.
  split; [auto|].
  destruct (C6_written_map_follows_callers_flag (P := Sample.platform)
              Sample.request Sample.uuid1 17 w (fst (snd bin)) (snd (snd bin)) Hw)
    as [Hsave _].
  destruct (C6_written_map_follows_callers_flag (P := Sample.platform)
              Sample.request Sample.uuid1 17 w (fst (snd txt)) (snd (snd txt)) Hw)
    as [_ Hjson].
  destruct (Hsave Hb) as ((_ & Hfile & Hget & Hcfg) & Hempty & Hin).
  destruct (Hjson Ht) as ((_ & Hfile' & Hget' & Hcfg') & Hempty' & Hin').
  assert (Hnb : FileReader._currLogFile (fst (snd bin)) = "logs_0.json")
    by (vm_compute; reflexivity).
  assert (Hnt : FileReader._currLogFile (fst (snd txt)) = "logs_0.json")
    by (vm_compute; reflexivity).
  rewrite Hnb in Hfile. rewrite Hnt in Hfile'.
  change (Js.truthy (opt_bool (IConfig.disableProto (State_config w)))) with true
    in Hfile, Hfile'.
  rewrite Hempty in Hfile.
  split.
  - split; [exact Hnb|]. split; [exact Hfile|].
    split; [vm_compute; reflexivity|]. split; [exact Hget | exact Hcfg].
  - split; [exact Hnt|]. split; [exact Hfile'|].
    split; [vm_compute; reflexivity|]. split; [exact Hempty'|].
    split; [exact Hget' | exact Hcfg'].
Defined.

(** C6 is false as stated.  The snapshot read back records text mode and
    the caller's configuration asks for binary mode: the capture persists
    the binary map and rewrites the snapshot to binary mode.  With the
    default configuration, which sets no flag, the capture persists the
    binary map and rewrites the same snapshot without a flag. *)
Lemma C6_counterexample :
  let run c :=
    FileReader.save (P := Sample.platform) Sample.request Sample.uuid1 17
      (FileReader.constructor, Sample.world Sample.text_snapshot_store c) in
  let r' c := fst (snd (run c)) in
  let w' c := snd (snd (run c)) in
  (forall c,
     (disk_file (Sample.world Sample.text_snapshot_store c) "config.json" ≫= f_json)
     = Some (VObj [("disableProto", VBool true)]))
  /\ IConfig.disableProto Sample.config = Some false
  /\ fst (run Sample.config) = Return tt
  /\ disk_file (w' Sample.config) "logs_0.json"
     = pretty_file (FileReader._logs (r' Sample.config))
  /\ disk_file (w' Sample.config) "logs_0.json"
     <> pretty_file (FileReader._logsJson (r' Sample.config))
  /\ segment_ids (FileReader._logs (r' Sample.config)) = [Sample.uuid1]
  /\ segment_ids (FileReader._logsJson (r' Sample.config)) = []
  /\ (disk_file (w' Sample.config) "config.json" ≫= f_json)
     = Some (VObj [("disableProto", VBool false)])
  /\ IConfig.disableProto Sample.config_default = None
  /\ fst (run Sample.config_default) = Return tt
  /\ disk_file (w' Sample.config_default) "logs_0.json"
     = pretty_file (FileReader._logs (r' Sample.config_default))
  /\ segment_ids (FileReader._logs (r' Sample.config_default)) = [Sample.uuid1]
  /\ (disk_file (w' Sample.config_default) "config.json" ≫= f_json) = Some (VObj []).
Proof.
  cbv zeta. split; [intros c; reflexivity|].
  repeat split; try (vm_compute; reflexivity).
  vm_compute. discriminate.
Qed.

(** ** The two classes on a loaded instance *)

(** The tails are the ends of the two capture methods. *)
Lemma FileReader_save_tail_eq `{P : Platform} req uuid now :
  FileReader.save req uuid now
  = (FileReader.pre ;;
     FileReader.fetchCurrentLogFile None ;;
     FileReader.prepareLogfile ;;
     FileReader.prepareIndexFile ;;
     FileReader.prepareConfigFile ;;
     FileReader_save_tail req uuid now).
Proof. reflexivity. Qed.

Lemma FileWriter_init_tail_eq `{P : Platform} ctl req uuid now :
  FileWriter.init ctl req uuid now
  = (FileWriter.pre ctl ;;
     name <- liftW (ctl_fetchCurrentLogFile ctl) ;;
     FileWriter.set_currLogFile name ;;
     self <- FileWriter.this ;;
     logs <- liftW (ctl_prepareLogfile ctl (FileWriter._currLogFile self)) ;;
     FileWriter.set_logs logs ;;
     FileWriter.prepareIndexFile ;;
     FileWriter_init_tail req uuid now).
Proof. reflexivity. Qed.

Lemma FileWriter_saveFiles_instance t w :
  fst (FileWriter.saveFiles (t, w)) = Return tt
  /\ fst (snd (FileWriter.saveFiles (t, w))) = t.
Proof.
  unfold FileWriter.saveFiles, FileWriter.this, try_catch, bind, liftW, gets.
  cbn [fst snd].
  destruct (writeFileSync_cases (FileWriter._currLogFile t)
              (pretty_file (FileWriter._logs t)) w)
    as [(f1 & d1 & _ & _ & _ & ->)|(e1 & -> & _)]; cbn [fst snd].
  - match goal with |- context [fs.writeFileSync "index.json" ?b ?w1] =>
      destruct (writeFileSync_cases "index.json" b w1)
        as [(f2 & d2 & _ & _ & _ & ->)|(e2 & -> & _)]; cbn [fst snd]
    end; split; reflexivity.
  - split; reflexivity.
Qed.

(** The rotation step of the write-only class is that of the other. *)
Lemma FileWriter_rotation_view name r w :
  (FileWriter.incrementLogFile name ;; FileWriter.cleanLogs) (writer_view r, w)
  = view ((FileReader.incrementLogFile name ;; FileReader.cleanLogs) (r, w)).
Proof.
  unfold bind. rewrite FileWriter_incrementLogFile_view, FileReader_incrementLogFile_eq.
  destruct (JsString.match_digits name) as [[[p d] t]|]; [|reflexivity].
  unfold view at 1. cbn [fst snd].
  apply FileWriter_cleanLogs_view.
Qed.

Lemma FileReader_checkFileSize_decision name r w f :
  disk_file w name = Some f ->
  FileReader.checkFileSize name (r, w)
  = (if FileReader.threshold <? combined_size r f
     then (FileReader.incrementLogFile name ;; FileReader.cleanLogs) (r, w)
     else (Return tt, (r, w))).
Proof.
  intros Hf. rewrite FileReader_checkFileSize_eq, Hf. fold (combined_size r f).
  destruct (_ <? _); [|reflexivity].
  unfold bind. rewrite FileReader_incrementLogFile_eq.
  destruct (JsString.match_digits name) as [[[p d] t]|]; reflexivity.
Qed.

Lemma FileWriter_checkFileSize_decision name r w f :
  disk_file w name = Some f ->
  FileWriter.checkFileSize name (writer_view r, w)
  = (if FileWriter.threshold <? combined_size r f
     then (FileWriter.incrementLogFile name ;; FileWriter.cleanLogs) (writer_view r, w)
     else (Return tt, (writer_view r, w))).
Proof.
  intros Hf. rewrite FileWriter_checkFileSize_eq, Hf.
  destruct (_ <? _); [|reflexivity].
  rewrite FileWriter_rotation_view.
  unfold bind. rewrite FileReader_incrementLogFile_eq.
  destruct (JsString.match_digits name) as [[[p d] t]|]; reflexivity.
Qed.

Lemma same_decision (size : N) :
  (FileReader.threshold <? size) = (FileWriter.threshold <? size)
  <-> size <= 5000 \/ 50000000000 < size.
Proof.
  unfold FileReader.threshold, FileWriter.threshold.
  destruct (N.ltb_spec 5000 size), (N.ltb_spec 50000000000 size);
    split; intros H1; try reflexivity; try discriminate; lia.
Qed.

Lemma FileWriter_checkFileSize_view name r w :
  (forall f, disk_file w name = Some f ->
     combined_size r f <= 5000 \/ 50000000000 < combined_size r f) ->
  FileWriter.checkFileSize name (writer_view r, w)
  = view (FileReader.checkFileSize name (r, w)).
Proof.
  intros Hsize.
  destruct (disk_file w name) as [f|] eqn:Hf.
  - rewrite (FileWriter_checkFileSize_decision name r w f Hf),
      (FileReader_checkFileSize_decision name r w f Hf).
    rewrite <- (proj2 (same_decision _) (Hsize f eq_refl)).
    destruct (_ <? _); [apply FileWriter_rotation_view | reflexivity].
  - rewrite FileWriter_checkFileSize_eq, FileReader_checkFileSize_eq, Hf. reflexivity.
Qed.

Lemma prepareConfig_object r w :
  is_object (FileReader._config r) ->
  exists c, FileReader.prepareConfig (r, w) = (Return tt, (with_config c r, w)).
Proof.
  intros Ho. rewrite FileReader_prepareConfig_eq.
  destruct (FileReader._config r); try contradiction; simpl; eauto.
Qed.

(** Outside the gap between the thresholds the two tails end alike. *)
Lemma tails_agree `{P : Platform} req uuid now r w :
  text_flag (State_config w) = false ->
  is_object (FileReader._config r) ->
  (forall r6 w6 f,
     FileReader.prepareLog req uuid now (r, w) = (Return tt, (r6, w6)) ->
     disk_file w6 (FileReader._currLogFile r6) = Some f ->
     combined_size r6 f <= 5000 \/ 50000000000 < combined_size r6 f) ->
  let reader := FileReader_save_tail req uuid now (r, w) in
  let writer := FileWriter_init_tail req uuid now (writer_view r, w) in
  fst writer = fst reader
  /\ fst (snd writer) = writer_view (fst (snd reader))
  /\ forall n, n <> "config.json" ->
       disk_file (snd (snd reader)) n = disk_file (snd (snd writer)) n.
Proof.
  intros Hflag Hobj Hsize reader writer.
  destruct (FileReader_prepareLog_cases req uuid now r w)
    as (o & r6 & w6 & E6 & Ho & _ & _ & S6 & _).
  assert (V6 : FileWriter.prepareLog req uuid now (writer_view r, w)
               = (o, (writer_view r6, w6)))
    by (rewrite prepareLog_view, E6; reflexivity).
  destruct Ho as [->| ->].
  2: { subst reader writer. unfold FileReader_save_tail, FileWriter_init_tail.
       rewrite (bind_of_Throw _ _ _ _ _ E6), (bind_of_Throw _ _ _ _ _ V6).
       repeat split. }
  pose proof (FileReader_prepareLog_Return _ _ _ _ _ _ _ E6)
    as (_ & _ & _ & _ & _ & _ & _ & _ & _ & _ & Hc6 & _).
  destruct (prepareConfig_object r6 w6) as [c Hc]; [rewrite Hc6; exact Hobj|].
  set (r7 := with_config c r6) in *.
  assert (V8 : FileWriter.checkFileSize (FileReader._currLogFile r6) (writer_view r6, w6)
               = view (FileReader.checkFileSize (FileReader._currLogFile r6) (r7, w6))).
  { apply (FileWriter_checkFileSize_view _ r7 w6).
    intros f Hf. exact (Hsize r6 w6 f E6 Hf). }
  assert (Hr : reader
               = bind (FileReader.checkFileSize (FileReader._currLogFile r6))
                   (fun _ => FileReader.saveFiles) (r7, w6)).
  { subst reader. unfold FileReader_save_tail.
    rewrite (bind_of_Return _ _ _ _ _ E6), (bind_of_Return _ _ _ _ _ Hc). reflexivity. }
  assert (Hw : writer
               = bind (FileWriter.checkFileSize (FileReader._currLogFile r6))
                   (fun _ => FileWriter.saveFiles) (writer_view r6, w6)).
  { subst writer. unfold FileWriter_init_tail.
    rewrite (bind_of_Return _ _ _ _ _ V6). reflexivity. }
  rewrite Hr, Hw. unfold bind. rewrite V8.
  destruct (FileReader.checkFileSize _ (r7, w6)) as [[[]|e] [r8 w8]] eqn:E8;
    unfold view; cbn [fst snd]; [|repeat split].
  assert (Hflag8 : text_flag (State_config w8) = false).
  { pose proof (preserved_by config_of _ _ _ _ (checkFileSize_config _) E8) as C8.
    unfold config_of in C8. simpl in C8. rewrite C8, S6. exact Hflag. }
  destruct (saveFiles_view r8 w8 Hflag8) as (H1 & H2 & H3 & H4).
  split; [congruence|]. split; assumption.
Qed.

(** In the gap the write-only class saves as is and the other rotates. *)
Lemma tails_in_the_gap `{P : Platform} req uuid now r w r6 w6 f :
  FileReader.prepareLog req uuid now (r, w) = (Return tt, (r6, w6)) ->
  disk_file w6 (FileReader._currLogFile r6) = Some f ->
  5000 < combined_size r6 f <= 50000000000 ->
  let reader := FileReader_save_tail req uuid now (r, w) in
  let writer := FileWriter_init_tail req uuid now (writer_view r, w) in
  writer = FileWriter.saveFiles (writer_view r6, w6)
  /\ fst (snd writer) = writer_view r6
  /\ reader
     = (FileReader.prepareConfig ;;
        FileReader.incrementLogFile (FileReader._currLogFile r6) ;;
        FileReader.cleanLogs ;;
        FileReader.saveFiles) (r6, w6)
  /\ forall r' w', reader = (Return tt, (r', w')) ->
       exists p d t,
         JsString.match_digits (FileReader._currLogFile r6) = Some (p, d, t)
         /\ FileReader._currLogFile r'
            = p ++ JsString.toString (JsNumber.add (JsString.parseInt d) 1) ++ t.
Proof.
  intros E6 Hf [Hlo Hhi] reader writer.
  assert (Hw : writer = FileWriter.saveFiles (writer_view r6, w6)).
  { subst writer. unfold FileWriter_init_tail.
    unfold bind at 1. rewrite prepareLog_view, E6. unfold view. cbn [fst snd].
    unfold bind at 1, FileWriter.this, gets. cbn [fst snd].
    change (FileWriter._currLogFile (writer_view r6)) with (FileReader._currLogFile r6).
    unfold bind.
    rewrite (FileWriter_checkFileSize_decision _ r6 w6 f Hf).
    rewrite (proj2 (N.ltb_ge _ _)) by exact Hhi. reflexivity. }
  assert (Hr : reader
               = (FileReader.prepareConfig ;;
                  FileReader.incrementLogFile (FileReader._currLogFile r6) ;;
                  FileReader.cleanLogs ;;
                  FileReader.saveFiles) (r6, w6)).
  { subst reader. unfold FileReader_save_tail.
    rewrite (bind_of_Return _ _ _ _ _ E6).
    pose proof (FileReader_prepareConfig_eq r6 w6) as H7.
    destruct (Js.set_prop (FileReader._config r6) _ _) as [c|].
    - rewrite !(bind_of_Return _ _ _ _ _ H7).
      unfold bind at 1, FileReader.this, gets. cbn [fst snd].
      change (FileReader._currLogFile (with_config c r6))
        with (FileReader._currLogFile r6).
      unfold bind at 1.
      rewrite (FileReader_checkFileSize_decision _ (with_config c r6) w6 f Hf).
      change (combined_size (with_config c r6) f) with (combined_size r6 f).
      rewrite (proj2 (N.ltb_lt _ _)) by exact Hlo.
      unfold bind.
      destruct (FileReader.incrementLogFile _ _) as [[[]|e] [r7 w7]]; [|reflexivity].
      destruct (FileReader.cleanLogs _) as [[[]|e] [r8 w8]]; reflexivity.
    - rewrite !(bind_of_Throw _ _ _ _ _ H7). reflexivity. }
  split; [exact Hw|]. split; [rewrite Hw; apply FileWriter_saveFiles_instance|].
  split; [exact Hr|].
  intros r' w' E. rewrite Hr in E.
  apply bind_Return in E as ([] & [r7 w7] & H7 & E).
  apply bind_Return in E as ([] & [r8 w8] & H8 & E).
  apply bind_Return in E as ([] & [r9 w9] & H9 & E).
  rewrite FileReader_prepareConfig_eq in H7.
  destruct (Js.set_prop (FileReader._config r6) _ _) as [c|]; [|discriminate H7].
  injection H7 as <- <-.
  rewrite FileReader_incrementLogFile_eq in H8.
  destruct (JsString.match_digits (FileReader._currLogFile r6)) as [[[p d] t]|];
    [|discriminate H8].
  injection H8 as <- <-.
  rewrite FileReader_cleanLogs_eq in H9.
  destruct (Js.get_prop _ "logs") as [ls|]; [|discriminate H9].
  destruct (Js.entries ls) as [es|]; [|discriminate H9].
  destruct (Js.set_prop _ "logs" _) as [logs'|]; [|discriminate H9].
  injection H9 as <- <-.
  pose proof (preserved_by instance_of _ _ _ _ saveFiles_instance E) as I9.
  unfold instance_of in I9. simpl in I9. subst r'.
  exists p, d, t. split; reflexivity.
Qed.

(** C9 (amended).  On the same loaded instance the write-only class and the
    binary path of the read/write class append the same redacted, encoded
    entry and index record and have the same rotation step, which they take
    above different thresholds: the read/write class when the combined size
    exceeds 5000 bytes, the write-only class when it exceeds 50000000000.
    They take the same decision exactly when the size is at most 5000 or
    above 50000000000.  When that is so for the current segment, the
    caller's flag [disableProto] is falsy and the snapshot held by the
    read/write instance is an object, the two captures end with the same
    outcome and the same values of the fields they share, and leave every
    file other than [config.json] with the same contents (the write-only
    class has no snapshot).  At every size in between, the write-only class
    saves the whole map under the unchanged name, and the read/write class
    increments the number in the current name and compacts the map before
    it saves. *)
Theorem C9_variants_agree_exactly_outside_the_threshold_gap `{P : Platform}
    req uuid now (r : FileReader.t) (w : World) :
  let reader := FileReader_save_tail req uuid now (r, w) in
  let writer := FileWriter_init_tail req uuid now (writer_view r, w) in
  (* the append and the rotation step *)
  FileWriter.prepareLog req uuid now (writer_view r, w)
  = view (FileReader.prepareLog req uuid now (r, w))
  /\ (forall name,
        (FileWriter.incrementLogFile name ;; FileWriter.cleanLogs) (writer_view r, w)
        = view ((FileReader.incrementLogFile name ;; FileReader.cleanLogs) (r, w)))
  (* the decision, at every size *)
  /\ (FileReader.threshold = 5000 /\ FileWriter.threshold = 50000000000)
  /\ (forall name f,
        disk_file w name = Some f ->
        FileReader.checkFileSize name (r, w)
        = (if FileReader.threshold <? combined_size r f
           then (FileReader.incrementLogFile name ;; FileReader.cleanLogs) (r, w)
           else (Return tt, (r, w)))
        /\ FileWriter.checkFileSize name (writer_view r, w)
           = (if FileWriter.threshold <? combined_size r f
              then (FileWriter.incrementLogFile name ;; FileWriter.cleanLogs)
                     (writer_view r, w)
              else (Return tt, (writer_view r, w)))
        /\ ((FileReader.threshold <? combined_size r f)
            = (FileWriter.threshold <? combined_size r f)
            <-> combined_size r f <= 5000 \/ 50000000000 < combined_size r f))
  (* the two captures, outside the gap *)
  /\ (text_flag (State_config w) = false ->
      is_object (FileReader._config r) ->
      (forall r6 w6 f,
         FileReader.prepareLog req uuid now (r, w) = (Return tt, (r6, w6)) ->
         disk_file w6 (FileReader._currLogFile r6) = Some f ->
         combined_size r6 f <= 5000 \/ 50000000000 < combined_size r6 f) ->
      fst writer = fst reader
      /\ fst (snd writer) = writer_view (fst (snd reader))
      /\ forall n, n <> "config.json" ->
           disk_file (snd (snd reader)) n = disk_file (snd (snd writer)) n)
  (* the two captures, in the gap *)
  /\ (forall r6 w6 f,
        FileReader.prepareLog req uuid now (r, w) = (Return tt, (r6, w6)) ->
        disk_file w6 (FileReader._currLogFile r6) = Some f ->
        5000 < combined_size r6 f <= 50000000000 ->
        writer = FileWriter.saveFiles (writer_view r6, w6)
        /\ fst (snd writer) = writer_view r6
        /\ reader
           = (FileReader.prepareConfig ;;
              FileReader.incrementLogFile (FileReader._currLogFile r6) ;;
              FileReader.cleanLogs ;;
              FileReader.saveFiles) (r6, w6)
        /\ forall r' w', reader = (Return tt, (r', w')) ->
             exists p d t,
               JsString.match_digits (FileReader._currLogFile r6) = Some (p, d, t)
               /\ FileReader._currLogFile r'
                  = p ++ JsString.toString (JsNumber.add (JsString.parseInt d) 1) ++ t).
Proof.
  intros reader writer.
  split; [apply prepareLog_view|].
  split; [intros name; apply FileWriter_rotation_view|].
  split; [split; reflexivity|].
  split.
  { intros name f Hf.
    split; [apply FileReader_checkFileSize_decision, Hf|].
    split; [apply FileWriter_checkFileSize_decision, Hf | apply same_decision]. }
  split.
  - intros Hflag Hobj Hsize. exact (tails_agree req uuid now r w Hflag Hobj Hsize).
  - intros r6 w6 f E6 Hf Hgap. exact (tails_in_the_gap req uuid now r w r6 w6 f E6 Hf Hgap).
Qed.

Lemma C9_witness :
  let small := Sample.world (Sample.store_with Sample.empty_segment) Sample.config in
  let huge := Sample.world huge_store Sample.config in
  let full := Sample.world Sample.full_store Sample.config in
  let reader w :=
    FileReader_save_tail (P := Sample.platform) Sample.request Sample.uuid1 17
      (FileReader.constructor, w) in
  let writer w :=
    FileWriter_init_tail (P := Sample.platform) Sample.request Sample.uuid1 17
      (writer_view FileReader.constructor, w) in
  let appended w :=
    FileReader.prepareLog (P := Sample.platform) Sample.request Sample.uuid1 17
      (FileReader.constructor, w) in
  let size w :=
    f_size (default (File 0 None) (disk_file w "logs_0.json"))
    + FileReader._currLogSize (fst (snd (appended w))) in
  (text_flag Sample.config = false
   /\ is_object (FileReader._config FileReader.constructor)
   /\ size small <= 5000
   /\ 50000000000 < size huge
   /\ 5000 < size full <= 50000000000)
  /\ (fst (writer small) = Return tt
      /\ fst (snd (writer small)) = writer_view (fst (snd (reader small)))
      /\ FileWriter._currLogFile (fst (snd (writer small))) = "logs_0.json"
      /\ disk_file (snd (snd (reader small))) "logs_0.json"
         = disk_file (snd (snd (writer small))) "logs_0.json"
      /\ disk_file (snd (snd (reader small))) "index.json"
         = disk_file (snd (snd (writer small))) "index.json")
  /\ (fst (writer huge) = Return tt
      /\ fst (snd (writer huge)) = writer_view (fst (snd (reader huge)))
      /\ FileWriter._currLogFile (fst (snd (writer huge))) = "logs_1.json"
      /\ disk_file (snd (snd (reader huge))) "logs_1.json"
         = disk_file (snd (snd (writer huge))) "logs_1.json"
      /\ disk_file (snd (snd (reader huge))) "index.json"
         = disk_file (snd (snd (writer huge))) "index.json")
  /\ (FileWriter._currLogFile (fst (snd (writer full))) = "logs_0.json"
      /\ FileReader._currLogFile (fst (snd (reader full))) = "logs_1.json").
Proof.
  cbv zeta.
  set (small := Sample.world (Sample.store_with Sample.empty_segment) Sample.config).
  set (huge := Sample.world huge_store Sample.config).
  set (full := Sample.world Sample.full_store Sample.config).
  assert (Hflag : text_flag Sample.config = false) by reflexivity.
  assert (Hobj : is_object (FileReader._config FileReader.constructor)) by exact I.
  assert (Hs : f_size (default (File 0 None) (disk_file small "logs_0.json"))
               + FileReader._currLogSize
                   (fst (snd (FileReader.prepareLog (P := Sample.platform)
                                Sample.request Sample.uuid1 17
                                (FileReader.constructor, small)))) <= 5000)
    by (vm_compute; discriminate).
  assert (Hh : 50000000000
               < f_size (default (File 0 None) (disk_file huge "logs_0.json"))
                 + FileReader._currLogSize
                     (fst (snd (FileReader.prepareLog (P := Sample.platform)
                                  Sample.request Sample.uuid1 17
                                  (FileReader.constructor, huge)))))
    by (vm_compute; reflexivity).
  assert (Hg : 5000
               < f_size (default (File 0 None) (disk_file full "logs_0.json"))
                 + FileReader._currLogSize
                     (fst (snd (FileReader.prepareLog (P := Sample.platform)
                                  Sample.request Sample.uuid1 17
                                  (FileReader.constructor, full))))
               <= 50000000000)
    by (split; [vm_compute; reflexivity | vm_compute; discriminate]).
  split; [auto 10|].
  pose proof (C9_variants_agree_exactly_outside_the_threshold_gap (P := Sample.platform)
                Sample.request Sample.uuid1 17 FileReader.constructor small)
    as (_ & _ & _ & _ & Hsmall & _).
  pose proof (C9_variants_agree_exactly_outside_the_threshold_gap (P := Sample.platform)
                Sample.request Sample.uuid1 17 FileReader.constructor huge)
    as (_ & _ & _ & _ & Hhuge & _).
  pose proof (C9_variants_agree_exactly_outside_the_threshold_gap (P := Sample.platform)
                Sample.request Sample.uuid1 17 FileReader.constructor full)
    as (_ & _ & _ & _ & _ & Hfull).
  cbv zeta in Hsmall, Hhuge, Hfull.
  split; [|split].
  - destruct Hsmall as (Ho & Hi & Hd); [exact Hflag | exact Hobj | |].
    { intros r6 w6 f E Hf. left.
      assert (E' := f_equal (fun x => fst (snd x)) E). cbn [fst snd] in E'. subst r6.
      assert (E'' := f_equal (fun x => snd (snd x)) E). cbn [fst snd] in E''. subst w6.
      vm_compute in Hf. injection Hf as <-. exact Hs. }
    split; [vm_compute; reflexivity|]. split; [exact Hi|].
    split; [vm_compute; reflexivity|].
    split; apply Hd; discriminate.
  - destruct Hhuge as (Ho & Hi & Hd); [exact Hflag | exact Hobj | |].
    { intros r6 w6 f E Hf. right.
      assert (E' := f_equal (fun x => fst (snd x)) E). cbn [fst snd] in E'. subst r6.
      assert (E'' := f_equal (fun x => snd (snd x)) E). cbn [fst snd] in E''. subst w6.
      vm_compute in Hf. injection Hf as <-. exact Hh. }
    split; [vm_compute; reflexivity|]. split; [exact Hi|].
    split; [vm_compute; reflexivity|].
    split; apply Hd; discriminate.
  - set (res := FileReader.prepareLog (P := Sample.platform) Sample.request Sample.uuid1 17
                  (FileReader.constructor, full)) in *.
    assert (E : res = (Return tt, (fst (snd res), snd (snd res))))
      by (vm_compute; reflexivity).
    assert (Hf : disk_file (snd (snd res)) (FileReader._currLogFile (fst (snd res)))
                 = Some Sample.full_segment) by (vm_compute; reflexivity).
    destruct (Hfull (fst (snd res)) (snd (snd res)) Sample.full_segment E Hf Hg)
      as (_ & Hname & _ & Hren).
    split; [rewrite Hname; vm_compute; reflexivity|].
    vm_compute. reflexivity.
Defined.

(** C9 is false as stated.  Over a segment of 6000 bytes the read/write
    class rotates to [logs_1.json] and the write-only class stays on
    [logs_0.json], so that they leave different files; on a store without a
    snapshot only the read/write class leaves a [config.json]; and when the
    caller's flag asks for text mode the read/write class writes its empty
    text map where the write-only class writes the map with the entry. *)
Lemma C9_counterexample :
  let full := Sample.world Sample.full_store Sample.config in
  let reader w :=
    FileReader_save_tail (P := Sample.platform) Sample.request Sample.uuid1 17
      (FileReader.constructor, w) in
  let writer w :=
    FileWriter_init_tail (P := Sample.platform) Sample.request Sample.uuid1 17
      (writer_view FileReader.constructor, w) in
  let w0 := Sample.world Sample.writable Sample.config in
  let wt := Sample.world (Sample.store_with Sample.empty_segment) Sample.config_text in
  (FileReader.threshold = 5000 /\ FileWriter.threshold = 50000000000)
  /\ fst (reader full) = Return tt /\ fst (writer full) = Return tt
  /\ FileReader._currLogFile (fst (snd (reader full))) = "logs_1.json"
  /\ FileWriter._currLogFile (fst (snd (writer full))) = "logs_0.json"
  /\ is_Some (disk_file (snd (snd (reader full))) "logs_1.json")
  /\ disk_file (snd (snd (writer full))) "logs_1.json" = None
  /\ disk_file (snd (snd (reader full))) "logs_0.json"
     <> disk_file (snd (snd (writer full))) "logs_0.json"
  /\ is_Some (disk_file
                (snd (snd (FileReader.saveFiles (FileReader.constructor, w0))))
                "config.json")
  /\ disk_file (snd (snd (FileWriter.saveFiles (writer_view FileReader.constructor, w0))))
       "config.json" = None
  /\ (disk_file (snd (snd (reader wt))) "logs_0.json" ≫= file_segment_ids) = Some []
  /\ (disk_file (snd (snd (writer wt))) "logs_0.json" ≫= file_segment_ids)
     = Some [Sample.uuid1].
Proof.
  cbv zeta. repeat split; try (vm_compute; reflexivity).
  - vm_compute. eexists. reflexivity.
  - vm_compute. discriminate.
  - vm_compute. eexists. reflexivity.
Qed.

(** ** Names past the decimal range *)

Lemma string_app_inv_tail (s1 s2 t : string) : s1 ++ t = s2 ++ t -> s1 = s2.
Proof.
  revert s2. induction s1 as [|c s1 IH]; intros [|c2 s2] H.
  - reflexivity.
  - apply (f_equal String.length) in H. rewrite !string_app_length in H.
    cbn [String.length] in H. lia.
  - apply (f_equal String.length) in H. rewrite !string_app_length in H.
    cbn [String.length] in H. lia.
  - cbn [String.append] in H. injection H as -> H. f_equal. apply IH, H.
Qed.

(** No number prints with a digit between its first digit and the point. *)
Lemma toString_not_10_5e21 k : JsString.toString k <> "10.5e+21".
Proof.
  assert (Hd : forall n, JsNumber.decimal n <> "10.5e+21").
  { intros n E. pose proof (all_digits_decimal n) as Ha. rewrite E in Ha.
    vm_compute in Ha. discriminate Ha. }
  unfold JsString.toString, JsNumber.toString.
  destruct (_ <=? _); [discriminate|].
  destruct (_ <? _); [apply Hd|].
  destruct (_ <? _); [apply Hd|].
  unfold JsNumber.exponent_form.
  destruct (JsNumber.strip_zeros _) as [|c [|c' r]]; [apply Hd | |]; intros [=].
Qed.

(** From [1e21] on a number prints in exponent notation, and rotation
    increments the digits before the point: on a store that accepts writes
    and to which the id is new, a binary capture that returns ends on a
    file that is the segment of no number.  This is why the captures above
    are on a segment [logs_<k>.json] only when the numbers of the directory
    are safe integers. *)
Lemma capture_past_the_decimal_range :
  let w := Sample.world exponent_store Sample.config in
  let res := FileReader.save (P := Sample.platform) Sample.request Sample.uuid1 17
               (FileReader.constructor, w) in
  (writable w
   /\ text_flag (State_config w) = false
   /\ fresh_id Sample.uuid1 w
   /\ no_array_file w)
  /\ fst res = Return tt
  /\ FileReader._currLogFile (fst (snd res)) = "logs_10.5e+21.json"
  /\ forall k, FileReader._currLogFile (fst (snd res)) <> segment_name k.
Proof.
  cbv zeta.
  assert (Hname : FileReader._currLogFile
                    (fst (snd (FileReader.save (P := Sample.platform) Sample.request
                                 Sample.uuid1 17
                                 (FileReader.constructor,
                                  Sample.world exponent_store Sample.config))))
                  = "logs_10.5e+21.json") by (vm_compute; reflexivity).
  assert (Hfiles : forall Q : value -> Prop,
            Q (VObj [("logs", VObj [])]) ->
            Q (VObj [("logs", VObj [(Sample.old_id, Sample.old_entry)])]) ->
            Q (VObj [("indexes",
                      VObj [(Sample.old_id, VStr "/srv/Toaster/index.json")])]) ->
            Q (VObj [("disableProto", VBool false)]) ->
            every_parsed_file Q (Sample.world exponent_store Sample.config)).
  { intros Q Q1 Q2 Q3 Q4 n f v Hn Hv. unfold disk_file in Hn. simpl in Hn.
    repeat (apply lookup_insert_Some in Hn as [[_ <-]|[_ Hn]];
            [simpl in Hv; injection Hv as <-; assumption|]).
    rewrite lookup_empty in Hn. discriminate Hn. }
  split; [split; [split; [simpl; eauto | reflexivity]|split; [reflexivity|split]]|].
  - apply Hfiles; unfold segment_ids; simpl;
      rewrite ?elem_of_nil, ?list_elem_of_singleton; try tauto; discriminate.
  - apply Hfiles; exact I.
  - split; [vm_compute; reflexivity|]. split; [exact Hname|].
    intros k. rewrite Hname. unfold segment_name. intros E.
    injection E as E.
    apply (string_app_inv_tail "10.5e+21" (JsString.toString k) ".json") in E.
    exact (toString_not_10_5e21 k (eq_sym E)).
Qed.
